(** * hojson: a shallow embedding of the streaming JSON parser of hojson.h

    The development follows the single header [hojson.h].  The C code is
    modelled for the platform its pointer casts assume: little-endian,
    LP64 (8-byte pointers and [size_t], 4-byte [uint32_t]), with the
    node header laid out as [parent] at offset 0, [end] at offset 8,
    [flags] at offset 16, [data] at offset 18 and [sizeof] 24.

    Memory is one flat byte-addressed store; the caller's buffer, the
    input slices and the nodes the parser keeps inside the buffer all
    live in it, so the pointer arithmetic of the source is kept as it is.
    Whether plain [char] is signed is left open (a section variable): it
    only matters to the UTF-16 decoder.  [atoi] and [atof] belong to the C
    library; [atoi] is modelled as the C libraries implement it and the
    [double] of [atof] is kept as the text it was converted from. *)

From Stdlib Require Import ZArith List Bool Lia.
From Stdlib Require String Ascii.
Import String.StringSyntax.
Import ListNotations.
Local Open Scope Z_scope.

(** ** Machine integers *)

Definition u8 (x : Z) : Z := x mod 256.
Definition u16 (x : Z) : Z := x mod 65536.
Definition u32 (x : Z) : Z := x mod 4294967296.
Definition u64 (x : Z) : Z := x mod 18446744073709551616.
Definition UINT32_MAX : Z := 4294967295.

(** Byte [i] of a little-endian integer, and the integer made of four
    bytes read through a [uint32_t*]. *)
Definition byte_of (x i : Z) : Z := (x / 2 ^ (8 * i)) mod 256.
Definition le32 (str : Z -> Z) : Z :=
  u8 (str 0) + 256 * u8 (str 1) + 65536 * u8 (str 2) + 16777216 * u8 (str 3).

(** ** Flat memory *)

Definition mem : Type := Z -> Z.

Definition load8 (m : mem) (a : Z) : Z := u8 (m a).
Definition store8 (m : mem) (a v : Z) : mem :=
  fun x => if x =? a then u8 v else m x.

Definition load16 (m : mem) (a : Z) : Z := load8 m a + 256 * load8 m (a + 1).
Definition store16 (m : mem) (a v : Z) : mem :=
  store8 (store8 m a (byte_of v 0)) (a + 1) (byte_of v 1).

Definition load64 (m : mem) (a : Z) : Z :=
  load8 m a + 256 * (load8 m (a + 1) + 256 * (load8 m (a + 2) + 256 * (load8 m (a + 3)
  + 256 * (load8 m (a + 4) + 256 * (load8 m (a + 5) + 256 * (load8 m (a + 6)
  + 256 * load8 m (a + 7))))))).
Definition store64 (m : mem) (a v : Z) : mem :=
  fun x => if (a <=? x) && (x <? a + 8) then byte_of v (x - a) else m x.

Definition memset (m : mem) (dst c n : Z) : mem :=
  fun x => if (dst <=? x) && (x <? dst + n) then u8 c else m x.
Definition memcpy (m : mem) (dst src n : Z) : mem :=
  fun x => if (dst <=? x) && (x <? dst + n) then m (src + (x - dst)) else m x.

(** [memcpy(dst, &word, n)] for a little-endian integer [word]. *)
Definition memcpy_word (m : mem) (dst word n : Z) : mem :=
  fun x => if (dst <=? x) && (x <? dst + n) then byte_of word (x - dst) else m x.

(** The bytes of memory from [a] up to the first zero byte (a C string);
    [fuel] bounds the search. *)
Fixpoint c_string (fuel : nat) (m : mem) (a : Z) : list Z :=
  match fuel with
  | O => []
  | S k => if load8 m a =? 0 then [] else load8 m a :: c_string k m (a + 1)
  end.

(** ** Codes, types, states, flags (the enums of the header) *)

Inductive hojson_code_t : Type :=
| HOJSON_ERROR_INVALID_INPUT | HOJSON_ERROR_INTERNAL | HOJSON_ERROR_INSUFFICIENT_MEMORY
| HOJSON_ERROR_UNEXPECTED_EOF | HOJSON_ERROR_TOKEN_MISMATCH | HOJSON_ERROR_SYNTAX
| HOJSON_NO_OP | HOJSON_END_OF_DOCUMENT | HOJSON_NAME | HOJSON_VALUE
| HOJSON_OBJECT_BEGIN | HOJSON_OBJECT_END | HOJSON_ARRAY_BEGIN | HOJSON_ARRAY_END.

Definition code_num (c : hojson_code_t) : Z :=
  match c with
  | HOJSON_ERROR_INVALID_INPUT => -6 | HOJSON_ERROR_INTERNAL => -5
  | HOJSON_ERROR_INSUFFICIENT_MEMORY => -4 | HOJSON_ERROR_UNEXPECTED_EOF => -3
  | HOJSON_ERROR_TOKEN_MISMATCH => -2 | HOJSON_ERROR_SYNTAX => -1
  | HOJSON_NO_OP => 0 | HOJSON_END_OF_DOCUMENT => 1 | HOJSON_NAME => 2
  | HOJSON_VALUE => 3 | HOJSON_OBJECT_BEGIN => 4 | HOJSON_OBJECT_END => 5
  | HOJSON_ARRAY_BEGIN => 6 | HOJSON_ARRAY_END => 7
  end.

Inductive hojson_type_t : Type :=
| HOJSON_TYPE_NONE | HOJSON_TYPE_INTEGER | HOJSON_TYPE_FLOAT
| HOJSON_TYPE_STRING | HOJSON_TYPE_BOOLEAN | HOJSON_TYPE_NULL.

Inductive hojson_state : Type :=
| HOJSON_STATE_ERROR_INTERNAL | HOJSON_STATE_ERROR_INSUFFICIENT_MEMORY
| HOJSON_STATE_ERROR_UNEXPECTED_EOF | HOJSON_STATE_ERROR_TOKEN_MISMATCH
| HOJSON_STATE_ERROR_SYNTAX
| HOJSON_STATE_NONE | HOJSON_STATE_UTF8_BOM1 | HOJSON_STATE_UTF8_BOM2
| HOJSON_STATE_UTF16BE_BOM | HOJSON_STATE_UTF16LE_BOM
| HOJSON_STATE_NAME_EXPECTED | HOJSON_STATE_NAME | HOJSON_STATE_POST_NAME
| HOJSON_STATE_VALUE_EXPECTED | HOJSON_STATE_STRING_VALUE | HOJSON_STATE_ESCAPE
| HOJSON_STATE_UNICODE_1 | HOJSON_STATE_UNICODE_2 | HOJSON_STATE_UNICODE_3
| HOJSON_STATE_UNICODE_4 | HOJSON_STATE_NUMBER_VALUE
| HOJSON_STATE_TRUE_VALUE_T | HOJSON_STATE_TRUE_VALUE_R | HOJSON_STATE_TRUE_VALUE_U
| HOJSON_STATE_FALSE_VALUE_F | HOJSON_STATE_FALSE_VALUE_A | HOJSON_STATE_FALSE_VALUE_L
| HOJSON_STATE_FALSE_VALUE_S
| HOJSON_STATE_NULL_VALUE_N | HOJSON_STATE_NULL_VALUE_U | HOJSON_STATE_NULL_VALUE_L
| HOJSON_STATE_POST_VALUE | HOJSON_STATE_DONE.

Definition state_num (s : hojson_state) : Z :=
  match s with
  | HOJSON_STATE_ERROR_INTERNAL => -5 | HOJSON_STATE_ERROR_INSUFFICIENT_MEMORY => -4
  | HOJSON_STATE_ERROR_UNEXPECTED_EOF => -3 | HOJSON_STATE_ERROR_TOKEN_MISMATCH => -2
  | HOJSON_STATE_ERROR_SYNTAX => -1
  | HOJSON_STATE_NONE => 0 | HOJSON_STATE_UTF8_BOM1 => 1 | HOJSON_STATE_UTF8_BOM2 => 2
  | HOJSON_STATE_UTF16BE_BOM => 3 | HOJSON_STATE_UTF16LE_BOM => 4
  | HOJSON_STATE_NAME_EXPECTED => 5 | HOJSON_STATE_NAME => 6 | HOJSON_STATE_POST_NAME => 7
  | HOJSON_STATE_VALUE_EXPECTED => 8 | HOJSON_STATE_STRING_VALUE => 9
  | HOJSON_STATE_ESCAPE => 10
  | HOJSON_STATE_UNICODE_1 => 11 | HOJSON_STATE_UNICODE_2 => 12
  | HOJSON_STATE_UNICODE_3 => 13 | HOJSON_STATE_UNICODE_4 => 14
  | HOJSON_STATE_NUMBER_VALUE => 15
  | HOJSON_STATE_TRUE_VALUE_T => 16 | HOJSON_STATE_TRUE_VALUE_R => 17
  | HOJSON_STATE_TRUE_VALUE_U => 18
  | HOJSON_STATE_FALSE_VALUE_F => 19 | HOJSON_STATE_FALSE_VALUE_A => 20
  | HOJSON_STATE_FALSE_VALUE_L => 21 | HOJSON_STATE_FALSE_VALUE_S => 22
  | HOJSON_STATE_NULL_VALUE_N => 23 | HOJSON_STATE_NULL_VALUE_U => 24
  | HOJSON_STATE_NULL_VALUE_L => 25
  | HOJSON_STATE_POST_VALUE => 26 | HOJSON_STATE_DONE => 27
  end.

Definition HOJSON_FLAG_IS_ARRAY : Z := 1.
Definition HOJSON_FLAG_HAS_NAME : Z := 2.
Definition HOJSON_FLAG_COMMA : Z := 4.
Definition HOJSON_FLAG_DECIMAL : Z := 8.
Definition HOJSON_FLAG_EXPONENT : Z := 16.
Definition HOJSON_FLAG_PLUS_OR_MINUS : Z := 32.
Definition HOJSON_FLAG_MUST_POP_STACK : Z := 64.
Definition HOJSON_FLAG_POST_VALUE_CLEAN_UP : Z := 128.
Definition HOJSON_FLAG_INCREMENT_DEPTH : Z := 256.
Definition HOJSON_FLAG_DECREMENT_DEPTH : Z := 512.

Inductive hojson_encoding : Type :=
| HOJSON_ENCODING_UNKNOWN | HOJSON_ENCODING_UTF_8
| HOJSON_ENCODING_UTF_16_LE | HOJSON_ENCODING_UTF_16_BE.

Definition encoding_num (e : hojson_encoding) : Z :=
  match e with
  | HOJSON_ENCODING_UNKNOWN => 0 | HOJSON_ENCODING_UTF_8 => 1
  | HOJSON_ENCODING_UTF_16_LE => 2 | HOJSON_ENCODING_UTF_16_BE => 3
  end.

(** ** Characters *)

Record hojson_character_t : Type := mk_character {
  raw : Z;      (* the encoded character, bytes in memory order *)
  value : Z;    (* the decoded Unicode value *)
  bytes : Z     (* number of bytes of the encoded character *)
}.

(** The character macros of the header. *)
Definition HOJSON_IS_NEW_LINE (c : Z) : bool := (c =? 10) || (c =? 13).
Definition HOJSON_IS_WHITESPACE (c : Z) : bool :=
  (c =? 32) || (c =? 9) || HOJSON_IS_NEW_LINE c.
Definition HOJSON_IS_NUMERIC (c : Z) : bool := (48 <=? c) && (c <=? 57).
Definition HOJSON_IS_HEX_CHAR (c : Z) : bool :=
  HOJSON_IS_NUMERIC c || ((97 <=? c) && (c <=? 102)) || ((65 <=? c) && (c <=? 70)).
Definition HOJSON_MAXIMUM (a b : Z) : Z := if a >=? b then a else b.

Definition hojson_hex_character_to_decimal (character : Z) : Z :=
  if character =? 49 then 1 else if character =? 50 then 2
  else if character =? 51 then 3 else if character =? 52 then 4
  else if character =? 53 then 5 else if character =? 54 then 6
  else if character =? 55 then 7 else if character =? 56 then 8
  else if character =? 57 then 9
  else if (character =? 97) || (character =? 65) then 10
  else if (character =? 98) || (character =? 66) then 11
  else if (character =? 99) || (character =? 67) then 12
  else if (character =? 100) || (character =? 68) then 13
  else if (character =? 101) || (character =? 69) then 14
  else if (character =? 102) || (character =? 70) then 15
  else 0.

(** [hojson_encode_character]: the bytes are written one by one into
    [c.raw], so [raw] is assembled in memory order. *)
Definition raw_of_bytes (b0 b1 b2 b3 : Z) : Z :=
  u8 b0 + 256 * u8 b1 + 65536 * u8 b2 + 16777216 * u8 b3.

Definition encode_utf8 (value : Z) : hojson_character_t :=
  if value <=? 0x7F then mk_character value value 1
  else if (0x80 <=? value) && (value <=? 0x7FF) then
    mk_character
      (raw_of_bytes (Z.lor 0xC0 (u8 (Z.shiftr (Z.land value 0x7C0) 6)))
                    (Z.lor 0x80 (u8 (Z.land value 0xFF))) 0 0)
      value 2
  else if ((0x800 <=? value) && (value <=? 0xD7FF)) || ((0xE000 <=? value) && (value <=? 0xFFFF)) then
    mk_character
      (raw_of_bytes (Z.lor 0xE0 (u8 (Z.shiftr (Z.land value 0xF000) 12)))
                    (Z.lor 0x80 (u8 (Z.shiftr (Z.land value 0xFC0) 6)))
                    (Z.lor 0x80 (u8 (Z.land value 0x3F))) 0)
      value 3
  else if (0x10000 <=? value) && (value <=? 0x10FFFF) then
    mk_character
      (raw_of_bytes (Z.lor 0xF0 (u8 (Z.shiftr (Z.land value 0x1C0000) 18)))
                    (Z.lor 0x80 (u8 (Z.shiftr (Z.land value 0x3F000) 12)))
                    (Z.lor 0x80 (u8 (Z.shiftr (Z.land value 0xFC0) 6)))
                    (Z.lor 0x80 (u8 (Z.land value 0x3F))))
      value 4
  else mk_character 0 value 0.

(** The four bytes the UTF-16 branches write for a value above 0xFFFF,
    most significant first, after [value -= 0x00010000]. *)
Definition utf16_quad (v : Z) : Z * Z * Z * Z :=
  (Z.lor 0xD8 (u8 (Z.shiftr (Z.land v 0xC0000) 20)),
   u8 (Z.shiftr (Z.land v 0x3FC00) 18),
   Z.lor 0xDC (u8 (Z.shiftr (Z.land v 0x300) 8)),
   u8 (Z.land v 0xFF)).

Definition hojson_encode_character (value : Z) (encoding : hojson_encoding)
  : hojson_character_t :=
  match encoding with
  | HOJSON_ENCODING_UNKNOWN | HOJSON_ENCODING_UTF_8 => encode_utf8 value
  | HOJSON_ENCODING_UTF_16_BE =>
      if (value <=? 0xD7FF) || ((0xE000 <=? value) && (value <=? 0xFFFF)) then
        mk_character (raw_of_bytes (u8 (Z.shiftr (Z.land value 0xFF00) 8))
                                   (u8 (Z.land value 0xFF)) 0 0) value 2
      else if (0x10000 <=? value) && (value <=? 0x10FFFF) then
        let '(a, b, c, d) := utf16_quad (u32 (value - 0x10000)) in
        mk_character (raw_of_bytes a b c d) value 4
      else mk_character 0 value 0
  | HOJSON_ENCODING_UTF_16_LE =>
      if (value <=? 0xD7FF) || ((0xE000 <=? value) && (value <=? 0xFFFF)) then
        mk_character (raw_of_bytes (u8 (Z.land value 0xFF))
                                   (u8 (Z.shiftr (Z.land value 0xFF00) 8)) 0 0) value 2
      else if (0x10000 <=? value) && (value <=? 0x10FFFF) then
        let '(a, b, c, d) := utf16_quad (u32 (value - 0x10000)) in
        mk_character (raw_of_bytes d c b a) value 4
      else mk_character 0 value 0
  end.

(** ** The C library: [atoi] and [atof]

    [atoi] returns an [int].  The C standard defines it for the texts whose
    value fits an [int]; for the others it is modelled as the C libraries
    in use implement it, [(int) strtol(s, NULL, 10)]: white space is
    skipped, a sign and the decimal digits are read, [strtol] keeps the
    value within [long] and the cast keeps its low 32 bits, as a signed
    number.  Floating point is not modelled: a [double] produced by [atof]
    is represented by the text that was converted. *)

Inductive double : Type :=
| double_zero
| double_atof (text : list Z).

Definition atof (s : list Z) : double := double_atof s.

Definition isspace (c : Z) : bool := ((9 <=? c) && (c <=? 13)) || (c =? 32).

Fixpoint atoi_digits (s : list Z) (acc : Z) : Z :=
  match s with
  | c :: r => if HOJSON_IS_NUMERIC c then atoi_digits r (10 * acc + (c - 48)) else acc
  | [] => acc
  end.

Definition atoi_signed (s : list Z) : Z :=
  match s with
  | 45 :: r => - atoi_digits r 0
  | 43 :: r => atoi_digits r 0
  | _ => atoi_digits s 0
  end.

Fixpoint atoi_value (s : list Z) : Z :=
  match s with
  | c :: r => if isspace c then atoi_value r else atoi_signed s
  | [] => 0
  end.

Definition LONG_MAX : Z := 9223372036854775807.
Definition LONG_MIN : Z := -9223372036854775808.

Definition strtol (s : list Z) : Z := Z.max LONG_MIN (Z.min LONG_MAX (atoi_value s)).

(** The conversion of a [long] to [int]. *)
Definition int_of_long (x : Z) : Z := (x + 2147483648) mod 4294967296 - 2147483648.

Definition atoi (s : list Z) : Z := int_of_long (strtol s).

(** ** The parser context *)

Record hojson_context_t : Type := mk_context {
  name : Z;  (* the name of a name-value pair, or 0 (NULL) *)
  string_value : Z;  (* pointer to the string value, or 0 (NULL) *)
  integer_value : Z;  (* long *)
  float_value : double;  (* double *)
  bool_value : Z;  (* uint8_t *)
  value_type : hojson_type_t;
  line : Z;  (* uint32_t *)
  column : Z;  (* uint32_t *)
  depth : Z;  (* uint32_t *)
  is_initialized : Z;  (* uint8_t *)
  json : Z;  (* pointer to the JSON content *)
  json_length : Z;  (* size_t *)
  encoding : hojson_encoding;  (* uint8_t *)
  iterator : Z;  (* pointer into the JSON content *)
  bytes_iterated : Z;  (* size_t *)
  buffer : Z;  (* pointer to the caller's buffer *)
  buffer_length : Z;  (* size_t *)
  state : hojson_state;  (* int8_t *)
  escape_return_state : hojson_state;  (* int8_t *)
  error_return_state : hojson_state;  (* int8_t *)
  stack : Z;  (* pointer to the current node, or 0 (NULL) *)
  stream : Z;  (* uint32_t; its bytes in memory order *)
  stream_length : Z;  (* size_t *)
  newline_character : Z  (* uint32_t *)
}.

(** Field assignments [context->f = v]. *)
Definition set_name (v : Z) (c : hojson_context_t) : hojson_context_t :=
  mk_context v (c.(string_value)) (c.(integer_value)) (c.(float_value)) (c.(bool_value))
    (c.(value_type)) (c.(line)) (c.(column)) (c.(depth)) (c.(is_initialized)) (c.(json))
    (c.(json_length)) (c.(encoding)) (c.(iterator)) (c.(bytes_iterated)) (c.(buffer))
    (c.(buffer_length)) (c.(state)) (c.(escape_return_state)) (c.(error_return_state))
    (c.(stack)) (c.(stream)) (c.(stream_length)) (c.(newline_character)).
Definition set_string_value (v : Z) (c : hojson_context_t) : hojson_context_t :=
  mk_context (c.(name)) v (c.(integer_value)) (c.(float_value)) (c.(bool_value))
    (c.(value_type)) (c.(line)) (c.(column)) (c.(depth)) (c.(is_initialized)) (c.(json))
    (c.(json_length)) (c.(encoding)) (c.(iterator)) (c.(bytes_iterated)) (c.(buffer))
    (c.(buffer_length)) (c.(state)) (c.(escape_return_state)) (c.(error_return_state))
    (c.(stack)) (c.(stream)) (c.(stream_length)) (c.(newline_character)).
Definition set_integer_value (v : Z) (c : hojson_context_t) : hojson_context_t :=
  mk_context (c.(name)) (c.(string_value)) v (c.(float_value)) (c.(bool_value))
    (c.(value_type)) (c.(line)) (c.(column)) (c.(depth)) (c.(is_initialized)) (c.(json))
    (c.(json_length)) (c.(encoding)) (c.(iterator)) (c.(bytes_iterated)) (c.(buffer))
    (c.(buffer_length)) (c.(state)) (c.(escape_return_state)) (c.(error_return_state))
    (c.(stack)) (c.(stream)) (c.(stream_length)) (c.(newline_character)).
Definition set_float_value (v : double) (c : hojson_context_t) : hojson_context_t :=
  mk_context (c.(name)) (c.(string_value)) (c.(integer_value)) v (c.(bool_value))
    (c.(value_type)) (c.(line)) (c.(column)) (c.(depth)) (c.(is_initialized)) (c.(json))
    (c.(json_length)) (c.(encoding)) (c.(iterator)) (c.(bytes_iterated)) (c.(buffer))
    (c.(buffer_length)) (c.(state)) (c.(escape_return_state)) (c.(error_return_state))
    (c.(stack)) (c.(stream)) (c.(stream_length)) (c.(newline_character)).
Definition set_bool_value (v : Z) (c : hojson_context_t) : hojson_context_t :=
  mk_context (c.(name)) (c.(string_value)) (c.(integer_value)) (c.(float_value)) v
    (c.(value_type)) (c.(line)) (c.(column)) (c.(depth)) (c.(is_initialized)) (c.(json))
    (c.(json_length)) (c.(encoding)) (c.(iterator)) (c.(bytes_iterated)) (c.(buffer))
    (c.(buffer_length)) (c.(state)) (c.(escape_return_state)) (c.(error_return_state))
    (c.(stack)) (c.(stream)) (c.(stream_length)) (c.(newline_character)).
Definition set_value_type (v : hojson_type_t) (c : hojson_context_t) : hojson_context_t :=
  mk_context (c.(name)) (c.(string_value)) (c.(integer_value)) (c.(float_value))
    (c.(bool_value)) v (c.(line)) (c.(column)) (c.(depth)) (c.(is_initialized)) (c.(json))
    (c.(json_length)) (c.(encoding)) (c.(iterator)) (c.(bytes_iterated)) (c.(buffer))
    (c.(buffer_length)) (c.(state)) (c.(escape_return_state)) (c.(error_return_state))
    (c.(stack)) (c.(stream)) (c.(stream_length)) (c.(newline_character)).
Definition set_line (v : Z) (c : hojson_context_t) : hojson_context_t :=
  mk_context (c.(name)) (c.(string_value)) (c.(integer_value)) (c.(float_value))
    (c.(bool_value)) (c.(value_type)) v (c.(column)) (c.(depth)) (c.(is_initialized))
    (c.(json)) (c.(json_length)) (c.(encoding)) (c.(iterator)) (c.(bytes_iterated))
    (c.(buffer)) (c.(buffer_length)) (c.(state)) (c.(escape_return_state))
    (c.(error_return_state)) (c.(stack)) (c.(stream)) (c.(stream_length))
    (c.(newline_character)).
Definition set_column (v : Z) (c : hojson_context_t) : hojson_context_t :=
  mk_context (c.(name)) (c.(string_value)) (c.(integer_value)) (c.(float_value))
    (c.(bool_value)) (c.(value_type)) (c.(line)) v (c.(depth)) (c.(is_initialized))
    (c.(json)) (c.(json_length)) (c.(encoding)) (c.(iterator)) (c.(bytes_iterated))
    (c.(buffer)) (c.(buffer_length)) (c.(state)) (c.(escape_return_state))
    (c.(error_return_state)) (c.(stack)) (c.(stream)) (c.(stream_length))
    (c.(newline_character)).
Definition set_depth (v : Z) (c : hojson_context_t) : hojson_context_t :=
  mk_context (c.(name)) (c.(string_value)) (c.(integer_value)) (c.(float_value))
    (c.(bool_value)) (c.(value_type)) (c.(line)) (c.(column)) v (c.(is_initialized))
    (c.(json)) (c.(json_length)) (c.(encoding)) (c.(iterator)) (c.(bytes_iterated))
    (c.(buffer)) (c.(buffer_length)) (c.(state)) (c.(escape_return_state))
    (c.(error_return_state)) (c.(stack)) (c.(stream)) (c.(stream_length))
    (c.(newline_character)).
Definition set_json (v : Z) (c : hojson_context_t) : hojson_context_t :=
  mk_context (c.(name)) (c.(string_value)) (c.(integer_value)) (c.(float_value))
    (c.(bool_value)) (c.(value_type)) (c.(line)) (c.(column)) (c.(depth))
    (c.(is_initialized)) v (c.(json_length)) (c.(encoding)) (c.(iterator))
    (c.(bytes_iterated)) (c.(buffer)) (c.(buffer_length)) (c.(state))
    (c.(escape_return_state)) (c.(error_return_state)) (c.(stack)) (c.(stream))
    (c.(stream_length)) (c.(newline_character)).
Definition set_json_length (v : Z) (c : hojson_context_t) : hojson_context_t :=
  mk_context (c.(name)) (c.(string_value)) (c.(integer_value)) (c.(float_value))
    (c.(bool_value)) (c.(value_type)) (c.(line)) (c.(column)) (c.(depth))
    (c.(is_initialized)) (c.(json)) v (c.(encoding)) (c.(iterator)) (c.(bytes_iterated))
    (c.(buffer)) (c.(buffer_length)) (c.(state)) (c.(escape_return_state))
    (c.(error_return_state)) (c.(stack)) (c.(stream)) (c.(stream_length))
    (c.(newline_character)).
Definition set_encoding (v : hojson_encoding) (c : hojson_context_t) : hojson_context_t :=
  mk_context (c.(name)) (c.(string_value)) (c.(integer_value)) (c.(float_value))
    (c.(bool_value)) (c.(value_type)) (c.(line)) (c.(column)) (c.(depth))
    (c.(is_initialized)) (c.(json)) (c.(json_length)) v (c.(iterator)) (c.(bytes_iterated))
    (c.(buffer)) (c.(buffer_length)) (c.(state)) (c.(escape_return_state))
    (c.(error_return_state)) (c.(stack)) (c.(stream)) (c.(stream_length))
    (c.(newline_character)).
Definition set_iterator (v : Z) (c : hojson_context_t) : hojson_context_t :=
  mk_context (c.(name)) (c.(string_value)) (c.(integer_value)) (c.(float_value))
    (c.(bool_value)) (c.(value_type)) (c.(line)) (c.(column)) (c.(depth))
    (c.(is_initialized)) (c.(json)) (c.(json_length)) (c.(encoding)) v (c.(bytes_iterated))
    (c.(buffer)) (c.(buffer_length)) (c.(state)) (c.(escape_return_state))
    (c.(error_return_state)) (c.(stack)) (c.(stream)) (c.(stream_length))
    (c.(newline_character)).
Definition set_bytes_iterated (v : Z) (c : hojson_context_t) : hojson_context_t :=
  mk_context (c.(name)) (c.(string_value)) (c.(integer_value)) (c.(float_value))
    (c.(bool_value)) (c.(value_type)) (c.(line)) (c.(column)) (c.(depth))
    (c.(is_initialized)) (c.(json)) (c.(json_length)) (c.(encoding)) (c.(iterator)) v
    (c.(buffer)) (c.(buffer_length)) (c.(state)) (c.(escape_return_state))
    (c.(error_return_state)) (c.(stack)) (c.(stream)) (c.(stream_length))
    (c.(newline_character)).
Definition set_buffer (v : Z) (c : hojson_context_t) : hojson_context_t :=
  mk_context (c.(name)) (c.(string_value)) (c.(integer_value)) (c.(float_value))
    (c.(bool_value)) (c.(value_type)) (c.(line)) (c.(column)) (c.(depth))
    (c.(is_initialized)) (c.(json)) (c.(json_length)) (c.(encoding)) (c.(iterator))
    (c.(bytes_iterated)) v (c.(buffer_length)) (c.(state)) (c.(escape_return_state))
    (c.(error_return_state)) (c.(stack)) (c.(stream)) (c.(stream_length))
    (c.(newline_character)).
Definition set_buffer_length (v : Z) (c : hojson_context_t) : hojson_context_t :=
  mk_context (c.(name)) (c.(string_value)) (c.(integer_value)) (c.(float_value))
    (c.(bool_value)) (c.(value_type)) (c.(line)) (c.(column)) (c.(depth))
    (c.(is_initialized)) (c.(json)) (c.(json_length)) (c.(encoding)) (c.(iterator))
    (c.(bytes_iterated)) (c.(buffer)) v (c.(state)) (c.(escape_return_state))
    (c.(error_return_state)) (c.(stack)) (c.(stream)) (c.(stream_length))
    (c.(newline_character)).
Definition set_state (v : hojson_state) (c : hojson_context_t) : hojson_context_t :=
  mk_context (c.(name)) (c.(string_value)) (c.(integer_value)) (c.(float_value))
    (c.(bool_value)) (c.(value_type)) (c.(line)) (c.(column)) (c.(depth))
    (c.(is_initialized)) (c.(json)) (c.(json_length)) (c.(encoding)) (c.(iterator))
    (c.(bytes_iterated)) (c.(buffer)) (c.(buffer_length)) v (c.(escape_return_state))
    (c.(error_return_state)) (c.(stack)) (c.(stream)) (c.(stream_length))
    (c.(newline_character)).
Definition set_escape_return_state (v : hojson_state) (c : hojson_context_t) : hojson_context_t :=
  mk_context (c.(name)) (c.(string_value)) (c.(integer_value)) (c.(float_value))
    (c.(bool_value)) (c.(value_type)) (c.(line)) (c.(column)) (c.(depth))
    (c.(is_initialized)) (c.(json)) (c.(json_length)) (c.(encoding)) (c.(iterator))
    (c.(bytes_iterated)) (c.(buffer)) (c.(buffer_length)) (c.(state)) v
    (c.(error_return_state)) (c.(stack)) (c.(stream)) (c.(stream_length))
    (c.(newline_character)).
Definition set_error_return_state (v : hojson_state) (c : hojson_context_t) : hojson_context_t :=
  mk_context (c.(name)) (c.(string_value)) (c.(integer_value)) (c.(float_value))
    (c.(bool_value)) (c.(value_type)) (c.(line)) (c.(column)) (c.(depth))
    (c.(is_initialized)) (c.(json)) (c.(json_length)) (c.(encoding)) (c.(iterator))
    (c.(bytes_iterated)) (c.(buffer)) (c.(buffer_length)) (c.(state))
    (c.(escape_return_state)) v (c.(stack)) (c.(stream)) (c.(stream_length))
    (c.(newline_character)).
Definition set_stack (v : Z) (c : hojson_context_t) : hojson_context_t :=
  mk_context (c.(name)) (c.(string_value)) (c.(integer_value)) (c.(float_value))
    (c.(bool_value)) (c.(value_type)) (c.(line)) (c.(column)) (c.(depth))
    (c.(is_initialized)) (c.(json)) (c.(json_length)) (c.(encoding)) (c.(iterator))
    (c.(bytes_iterated)) (c.(buffer)) (c.(buffer_length)) (c.(state))
    (c.(escape_return_state)) (c.(error_return_state)) v (c.(stream)) (c.(stream_length))
    (c.(newline_character)).
Definition set_stream (v : Z) (c : hojson_context_t) : hojson_context_t :=
  mk_context (c.(name)) (c.(string_value)) (c.(integer_value)) (c.(float_value))
    (c.(bool_value)) (c.(value_type)) (c.(line)) (c.(column)) (c.(depth))
    (c.(is_initialized)) (c.(json)) (c.(json_length)) (c.(encoding)) (c.(iterator))
    (c.(bytes_iterated)) (c.(buffer)) (c.(buffer_length)) (c.(state))
    (c.(escape_return_state)) (c.(error_return_state)) (c.(stack)) v (c.(stream_length))
    (c.(newline_character)).
Definition set_stream_length (v : Z) (c : hojson_context_t) : hojson_context_t :=
  mk_context (c.(name)) (c.(string_value)) (c.(integer_value)) (c.(float_value))
    (c.(bool_value)) (c.(value_type)) (c.(line)) (c.(column)) (c.(depth))
    (c.(is_initialized)) (c.(json)) (c.(json_length)) (c.(encoding)) (c.(iterator))
    (c.(bytes_iterated)) (c.(buffer)) (c.(buffer_length)) (c.(state))
    (c.(escape_return_state)) (c.(error_return_state)) (c.(stack)) (c.(stream)) v
    (c.(newline_character)).
Definition set_newline_character (v : Z) (c : hojson_context_t) : hojson_context_t :=
  mk_context (c.(name)) (c.(string_value)) (c.(integer_value)) (c.(float_value))
    (c.(bool_value)) (c.(value_type)) (c.(line)) (c.(column)) (c.(depth))
    (c.(is_initialized)) (c.(json)) (c.(json_length)) (c.(encoding)) (c.(iterator))
    (c.(bytes_iterated)) (c.(buffer)) (c.(buffer_length)) (c.(state))
    (c.(escape_return_state)) (c.(error_return_state)) (c.(stack)) (c.(stream))
    (c.(stream_length)) v.

Notation "c |> f" := (f c) (at level 45, left associativity, only parsing).

(** ** Nodes of the stack, kept inside the buffer *)

Definition sizeof_node : Z := 24.
Definition node_parent (m : mem) (n : Z) : Z := load64 m n.
Definition node_end (m : mem) (n : Z) : Z := load64 m (n + 8).
Definition node_flags (m : mem) (n : Z) : Z := load16 m (n + 16).
Definition node_data (n : Z) : Z := n + 18.
Definition set_node_parent (m : mem) (n v : Z) : mem := store64 m n v.
Definition set_node_end (m : mem) (n v : Z) : mem := store64 m (n + 8) v.
Definition set_node_flags (m : mem) (n v : Z) : mem := store16 m (n + 16) v.

(** [node->flags & f] as a truth value, [node->flags |= f], [node->flags &= ~f]. *)
Definition has_flag (m : mem) (n f : Z) : bool := negb (Z.land (node_flags m n) f =? 0).
Definition or_flag (m : mem) (n f : Z) : mem :=
  set_node_flags m n (Z.lor (node_flags m n) f).
Definition clear_flag (m : mem) (n f : Z) : mem :=
  set_node_flags m n (Z.land (node_flags m n) (Z.lnot f)).

(** What one pass through the body of the parsing loop ends with: a
    [return], or the next iteration. *)
Inductive step : Type :=
| Return (code : hojson_code_t) (c : hojson_context_t) (m : mem)
| Continue (c : hojson_context_t) (m : mem).

Definition hojson_stay (c : hojson_context_t) : hojson_context_t :=
  c |> set_iterator (u64 (iterator c - bytes_iterated c))
    |> set_column (u32 (column c - 1)).

Definition hojson_push_stack (c : hojson_context_t) (m : mem) : hojson_context_t * mem :=
  if ((stack c =? 0) && (sizeof_node >=? buffer_length c))
     || (negb (stack c =? 0)
         && (node_end m (stack c) + 1 + sizeof_node >=? buffer c + buffer_length c))
  then (c |> set_error_return_state (state c)
          |> set_state HOJSON_STATE_ERROR_INSUFFICIENT_MEMORY, m)
  else
    let node := if stack c =? 0 then buffer c else node_end m (stack c) + 1 in
    let m1 := if node =? 0 then m
              else set_node_end (set_node_parent m node (stack c)) node (node_data node - 1) in
    (c |> set_stack node, m1).

Definition hojson_pop_stack (c : hojson_context_t) (m : mem) : hojson_context_t * mem :=
  if stack c =? 0 then (c, m)
  else
    let popped_node := stack c in
    (c |> set_stack (node_parent m popped_node),
     memset m popped_node 0
       (HOJSON_MAXIMUM sizeof_node (u64 (node_end m popped_node - popped_node + 1)))).

Definition hojson_append_character (c : hojson_context_t) (m : mem) (ch : hojson_character_t)
  : hojson_code_t * hojson_context_t * mem :=
  if node_end m (stack c) + bytes ch >=? buffer c + buffer_length c then
    (HOJSON_ERROR_INSUFFICIENT_MEMORY,
     let c1 := hojson_stay c in
     c1 |> set_error_return_state (state c1)
        |> set_state HOJSON_STATE_ERROR_INSUFFICIENT_MEMORY, m)
  else
    let m1 := memcpy_word m (node_end m (stack c) + 1) (raw ch) (bytes ch) in
    (HOJSON_NO_OP, c, set_node_end m1 (stack c) (node_end m1 (stack c) + bytes ch)).

Definition hojson_append_terminator (c : hojson_context_t) (m : mem)
  : hojson_code_t * hojson_context_t * mem :=
  let bytes := if encoding_num (encoding c) >=? encoding_num HOJSON_ENCODING_UTF_16_BE
               then 2 else 1 in
  if node_end m (stack c) + bytes >=? buffer c + buffer_length c then
    (HOJSON_ERROR_INSUFFICIENT_MEMORY,
     let c1 := hojson_stay c in
     c1 |> set_error_return_state (state c1)
        |> set_state HOJSON_STATE_ERROR_INSUFFICIENT_MEMORY, m)
  else
    let m1 := memset m (node_end m (stack c) + 1) 0 bytes in
    (HOJSON_NO_OP, c, set_node_end m1 (stack c) (node_end m1 (stack c) + bytes)).

Definition hojson_begin_token (c : hojson_context_t) (m : mem) (token : Z) : step :=
  let c1 := (if negb (stack c =? 0) && has_flag m (stack c) HOJSON_FLAG_HAS_NAME
             then c |> set_name (node_data (stack c))
             else c |> set_name 0)
            |> set_string_value 0 |> set_integer_value 0
            |> set_float_value double_zero |> set_bool_value 0 in
  let '(c2, m2) := hojson_push_stack c1 m in
  if state_num (state c2) >=? state_num HOJSON_STATE_NONE then
    let m3 := or_flag m2 (stack c2) HOJSON_FLAG_POST_VALUE_CLEAN_UP in
    let m4 := or_flag m3 (stack c2) HOJSON_FLAG_INCREMENT_DEPTH in
    if token =? 123 then
      Return HOJSON_OBJECT_BEGIN (c2 |> set_state HOJSON_STATE_NAME_EXPECTED) m4
    else if token =? 91 then
      Return HOJSON_ARRAY_BEGIN (c2 |> set_state HOJSON_STATE_VALUE_EXPECTED)
             (or_flag m4 (stack c2) HOJSON_FLAG_IS_ARRAY)
    else Return HOJSON_ERROR_INTERNAL (c2 |> set_state HOJSON_STATE_ERROR_INTERNAL) m4
  else Return HOJSON_ERROR_INSUFFICIENT_MEMORY (hojson_stay c2) m2.

Definition hojson_end_token (c : hojson_context_t) (m : mem) (token : Z) : step :=
  let top := stack c in
  if (has_flag m top HOJSON_FLAG_IS_ARRAY && negb (token =? 93))
     || (negb (has_flag m top HOJSON_FLAG_IS_ARRAY) && negb (token =? 125)) then
    Return HOJSON_ERROR_TOKEN_MISMATCH (c |> set_state HOJSON_STATE_ERROR_TOKEN_MISMATCH) m
  else if has_flag m top HOJSON_FLAG_COMMA then
    Return HOJSON_ERROR_SYNTAX (c |> set_state HOJSON_STATE_ERROR_SYNTAX) m
  else
    let c1 := c |> set_state HOJSON_STATE_POST_VALUE |> set_name 0 in
    let m1 := or_flag m top HOJSON_FLAG_MUST_POP_STACK in
    let m2 := or_flag m1 top HOJSON_FLAG_DECREMENT_DEPTH in
    let parent := node_parent m2 top in
    let c2 := if negb (parent =? 0) && has_flag m2 parent HOJSON_FLAG_HAS_NAME
              then c1 |> set_name (node_data parent) else c1 in
    let m3 := if negb (parent =? 0)
              then or_flag m2 parent HOJSON_FLAG_POST_VALUE_CLEAN_UP else m2 in
    if has_flag m3 top HOJSON_FLAG_IS_ARRAY
    then Return HOJSON_ARRAY_END c2 m3
    else Return HOJSON_OBJECT_END c2 m3.

(** ** Character literals of the source, as their ASCII codes *)

Notation "'chr_lbrace'" := 123 (only parsing).     (* '{' *)
Notation "'chr_rbrace'" := 125 (only parsing).     (* '}' *)
Notation "'chr_lbracket'" := 91 (only parsing).    (* '[' *)
Notation "'chr_rbracket'" := 93 (only parsing).    (* ']' *)
Notation "'chr_quote'" := 34 (only parsing).       (* the double quote *)
Notation "'chr_backslash'" := 92 (only parsing).   (* the backslash *)
Notation "'chr_slash'" := 47 (only parsing).       (* '/' *)
Notation "'chr_colon'" := 58 (only parsing).       (* ':' *)
Notation "'chr_comma'" := 44 (only parsing).       (* ',' *)
Notation "'chr_minus'" := 45 (only parsing).       (* '-' *)
Notation "'chr_plus'" := 43 (only parsing).        (* '+' *)
Notation "'chr_dot'" := 46 (only parsing).         (* '.' *)
Notation "'chr_a'" := 97 (only parsing).
Notation "'chr_b'" := 98 (only parsing).
Notation "'chr_e'" := 101 (only parsing).
Notation "'chr_E'" := 69 (only parsing).
Notation "'chr_f'" := 102 (only parsing).
Notation "'chr_l'" := 108 (only parsing).
Notation "'chr_n'" := 110 (only parsing).
Notation "'chr_r'" := 114 (only parsing).
Notation "'chr_s'" := 115 (only parsing).
Notation "'chr_t'" := 116 (only parsing).
Notation "'chr_u'" := 117 (only parsing).

Section Parser.

(** Whether plain [char] is a signed type on the platform. *)
Variable char_signed : bool.

(** [str[i]] promoted to [int], for the byte [b] stored there. *)
Definition char_val (b : Z) : Z :=
  if char_signed && (128 <=? u8 b) then u8 b - 256 else u8 b.

(** [(uint32_t)x << k]. *)
Definition shl32 (x k : Z) : Z := u32 (Z.shiftl (u32 x) k).

(** [hojson_decode_character(str, str_length, encoding)]; [str i] is the
    byte at [str[i]]. *)
Definition hojson_decode_character (str : Z -> Z) (str_length : Z)
  (encoding : hojson_encoding) : hojson_character_t :=
  let s i := char_val (str i) in
  let c_bytes :=
    match encoding with
    | HOJSON_ENCODING_UNKNOWN => 1
    | HOJSON_ENCODING_UTF_8 =>
        if Z.land (Z.shiftr (s 0) 7) 0x01 =? 0x00 then 1
        else if Z.land (Z.shiftr (s 0) 5) 0x07 =? 0x06 then 2
        else if Z.land (Z.shiftr (s 0) 4) 0x0F =? 0x0E then 3
        else if Z.land (Z.shiftr (s 0) 3) 0x1F =? 0x1E then 4
        else 0
    | HOJSON_ENCODING_UTF_16_BE =>
        if (Z.land (Z.shiftr (s 0) 2) 0x3F =? 0x36)
           && (Z.land (Z.shiftr (s 2) 2) 0x3F =? 0x37) then 4 else 2
    | HOJSON_ENCODING_UTF_16_LE =>
        if (Z.land (Z.shiftr (s 1) 2) 0x3F =? 0x36)
           && (Z.land (Z.shiftr (s 3) 2) 0x3F =? 0x37) then 4 else 2
    end in
  if c_bytes >? str_length then mk_character 0 UINT32_MAX 0
  else
    let c_value :=
      match encoding with
      | HOJSON_ENCODING_UNKNOWN => Z.land (u32 (s 0)) 0x000000FF
      | HOJSON_ENCODING_UTF_8 =>
          if c_bytes =? 1 then u32 (Z.land (s 0) 0x7F)
          else if c_bytes =? 2 then
            Z.lor (shl32 (Z.land (s 0) 0x1F) 6) (u32 (Z.land (s 1) 0x3F))
          else if c_bytes =? 3 then
            Z.lor (Z.lor (shl32 (Z.land (s 0) 0x0F) 12) (shl32 (Z.land (s 1) 0x3F) 6))
                  (u32 (Z.land (s 2) 0x3F))
          else if c_bytes =? 4 then
            Z.lor (Z.lor (Z.lor (shl32 (Z.land (s 0) 0x07) 18) (shl32 (Z.land (s 1) 0x3F) 12))
                         (shl32 (Z.land (s 2) 0x3F) 6))
                  (u32 (Z.land (s 3) 0x3F))
          else 0
      | HOJSON_ENCODING_UTF_16_BE =>
          if c_bytes =? 2 then Z.lor (shl32 (s 0) 8) (u32 (s 1))
          else
            u32 (Z.lor (Z.lor (Z.lor (shl32 (Z.land (s 0) 0x03) 18) (shl32 (s 1) 16))
                              (shl32 (Z.land (s 2) 0x03) 8))
                       (u32 (s 3))
                 + 0x00010000)
      | HOJSON_ENCODING_UTF_16_LE =>
          if c_bytes =? 2 then Z.lor (shl32 (s 1) 8) (u32 (s 0))
          else
            u32 (Z.lor (Z.lor (Z.lor (shl32 (Z.land (s 1) 0x03) 18) (shl32 (s 0) 16))
                              (shl32 (Z.land (s 3) 0x03) 8))
                       (u32 (s 2))
                 + 0x00010000)
      end in
    let c_raw :=
      if c_bytes =? 1 then Z.land (le32 str) 0x000000FF
      else if c_bytes =? 2 then Z.land (le32 str) 0x0000FFFF
      else if c_bytes =? 3 then Z.land (le32 str) 0x00FFFFFF
      else if c_bytes =? 4 then le32 str
      else 0 in
    mk_character c_raw c_value c_bytes.

(** [memcpy((char* )&stream + stream_length, src, n)]: the four bytes of
    the stream register after the copy.  Bytes the copy would write past
    the register are not modelled. *)
Definition stream_byte (stream stream_length : Z) (m : mem) (src n i : Z) : Z :=
  if (stream_length <=? i) && (i <? stream_length + n)
  then load8 m (src + (i - stream_length)) else byte_of stream i.
Definition stream_copy (stream stream_length : Z) (m : mem) (src n : Z) : Z :=
  raw_of_bytes (stream_byte stream stream_length m src n 0)
               (stream_byte stream stream_length m src n 1)
               (stream_byte stream stream_length m src n 2)
               (stream_byte stream stream_length m src n 3).

(** The stream register as loaded for the next character: what is left
    of the slice at [src] is [remaining] bytes. *)
Definition load_stream (c : hojson_context_t) (m : mem) (src remaining : Z) : Z * Z :=
  let bytes_to_copy :=
    u64 ((if remaining <=? 4 then remaining else 4) - stream_length c) in
  (bytes_to_copy,
   if bytes_to_copy <? 4 then stream_copy (stream c) (stream_length c) m src bytes_to_copy
   else le32 (fun i => m (src + i))).

(** The deferred work done at the start of [hojson_parse] when the stack
    is not empty: depth changes, the pop of a closed node, the clean-up
    after a value. *)
Definition value_flags : Z :=
  Z.lor (Z.lor (Z.lor (Z.lor (Z.lor HOJSON_FLAG_HAS_NAME HOJSON_FLAG_COMMA)
    HOJSON_FLAG_DECIMAL) HOJSON_FLAG_EXPONENT) HOJSON_FLAG_PLUS_OR_MINUS)
    HOJSON_FLAG_POST_VALUE_CLEAN_UP.

Definition post_value_clean_up (c : hojson_context_t) (m : mem) : hojson_context_t * mem :=
  let top := stack c in
  if has_flag m top HOJSON_FLAG_POST_VALUE_CLEAN_UP then
    let m1 :=
      if node_end m top - node_data top >? 0 then
        set_node_end (memset m (node_data top) 0 (node_end m top - node_data top + 1))
                     top (node_data top - 1)
      else m in
    (c |> set_name 0 |> set_value_type HOJSON_TYPE_NONE |> set_string_value 0
       |> set_integer_value 0 |> set_float_value double_zero |> set_bool_value 0,
     clear_flag m1 top value_flags)
  else (c, m).

Definition parse_deferred (c : hojson_context_t) (m : mem) : step :=
  if stack c =? 0 then Continue c m
  else
    let '(c1, m1) :=
      if has_flag m (stack c) HOJSON_FLAG_INCREMENT_DEPTH
      then (c |> set_depth (u32 (depth c + 1)),
            clear_flag m (stack c) HOJSON_FLAG_INCREMENT_DEPTH)
      else (c, m) in
    let '(c2, m2) :=
      if has_flag m1 (stack c1) HOJSON_FLAG_DECREMENT_DEPTH
      then (c1 |> set_depth (u32 (depth c1 - 1)),
            clear_flag m1 (stack c1) HOJSON_FLAG_DECREMENT_DEPTH)
      else (c1, m1) in
    if has_flag m2 (stack c2) HOJSON_FLAG_MUST_POP_STACK then
      let parent := node_parent m2 (stack c2) in
      let '(c3, m3) := hojson_pop_stack c2 m2 in
      if parent =? 0 then
        Return HOJSON_END_OF_DOCUMENT (c3 |> set_state HOJSON_STATE_DONE) m3
      else let '(c4, m4) := post_value_clean_up c3 m3 in Continue c4 m4
    else let '(c4, m4) := post_value_clean_up c2 m2 in Continue c4 m4.

(** The switch on the state that precedes the loop: pinned results, and
    the attempt to recover from an unexpected end of file.  The parameters
    [json] and [json_length] of [hojson_parse] are called [input] and
    [input_length] here, the context has fields of the same names. *)
Definition parse_resume (c : hojson_context_t) (m : mem) (input input_length : Z) : step :=
  match state c with
  | HOJSON_STATE_ERROR_UNEXPECTED_EOF =>
      let '(_, stream) := load_stream c m input input_length in
      let ch := hojson_decode_character (byte_of stream) input_length (encoding c) in
      if (value ch =? 0) || (value ch =? UINT32_MAX)
      then Return HOJSON_ERROR_UNEXPECTED_EOF c m
      else Continue (c |> set_state (error_return_state c)
                       |> set_error_return_state HOJSON_STATE_NONE) m
  | HOJSON_STATE_DONE => Return HOJSON_END_OF_DOCUMENT c m
  | HOJSON_STATE_ERROR_INTERNAL => Return HOJSON_ERROR_INTERNAL c m
  | HOJSON_STATE_ERROR_INSUFFICIENT_MEMORY => Return HOJSON_ERROR_INSUFFICIENT_MEMORY c m
  | HOJSON_STATE_ERROR_TOKEN_MISMATCH => Return HOJSON_ERROR_TOKEN_MISMATCH c m
  | HOJSON_STATE_ERROR_SYNTAX => Return HOJSON_ERROR_SYNTAX c m
  | _ => Continue c m
  end.

(** [if (context->json != json)]. *)
Definition parse_input (c : hojson_context_t) (input input_length : Z) : hojson_context_t :=
  if negb (json c =? input)
  then c |> set_json input |> set_json_length input_length |> set_iterator input
  else c.

(** [code = hojson_append_character(...); if (code < HOJSON_NO_OP) return code;]
    followed by [k] when the character was appended. *)
Definition append_then (c : hojson_context_t) (m : mem) (ch : hojson_character_t)
  (k : hojson_context_t -> mem -> step) : step :=
  let '(code, c1, m1) := hojson_append_character c m ch in
  if code_num code <? code_num HOJSON_NO_OP then Return code c1 m1 else k c1 m1.

Definition syntax_error (c : hojson_context_t) (m : mem) : step :=
  Continue (c |> set_state HOJSON_STATE_ERROR_SYNTAX) m.

(** A keyword letter: [if (c.value == letter) state = next; else state = SYNTAX]. *)
Definition expect_letter (c : hojson_context_t) (m : mem) (v letter : Z)
  (next : hojson_state) : step :=
  if v =? letter then Continue (c |> set_state next) m else syntax_error c m.

(** The end of a keyword or string value: the type is set and the value
    is returned. *)
Definition return_value (c : hojson_context_t) (m : mem) : step :=
  Return HOJSON_VALUE (c |> set_state HOJSON_STATE_POST_VALUE)
         (or_flag m (stack c) HOJSON_FLAG_POST_VALUE_CLEAN_UP).

(** Leaving an escape: back to the state the escape was found in. *)
Definition escape_done (c : hojson_context_t) (m : mem) : step :=
  Continue (c |> set_state (escape_return_state c)
              |> set_escape_return_state HOJSON_STATE_NONE) m.

(** The [switch (context->state)] inside the loop, for the decoded
    character [ch]. *)
Definition parse_character (c : hojson_context_t) (m : mem) (ch : hojson_character_t)
  : step :=
  let v := value ch in
  let top := stack c in
  match state c with
  | HOJSON_STATE_NONE =>
      if (v =? chr_lbrace) || (v =? chr_lbracket) then hojson_begin_token c m v
      else if v =? 0xEF then
        Continue (c |> set_state HOJSON_STATE_UTF8_BOM1 |> set_column (u32 (column c - 1))) m
      else if v =? 0xFE then
        Continue (c |> set_state HOJSON_STATE_UTF16BE_BOM |> set_column (u32 (column c - 1))) m
      else if v =? 0xFF then
        Continue (c |> set_state HOJSON_STATE_UTF16LE_BOM |> set_column (u32 (column c - 1))) m
      else if negb (HOJSON_IS_WHITESPACE v) then syntax_error c m
      else Continue c m
  | HOJSON_STATE_UTF8_BOM1 =>
      let c1 := c |> set_column (u32 (column c - 1)) in
      if v =? 0xBB then Continue (c1 |> set_state HOJSON_STATE_UTF8_BOM2) m
      else syntax_error c1 m
  | HOJSON_STATE_UTF8_BOM2 =>
      let c1 := c |> set_column (u32 (column c - 1)) in
      if v =? 0xBF then
        Continue (c1 |> set_state HOJSON_STATE_NONE |> set_encoding HOJSON_ENCODING_UTF_8) m
      else syntax_error c1 m
  | HOJSON_STATE_UTF16BE_BOM =>
      let c1 := c |> set_column (u32 (column c - 1)) in
      if v =? 0xFF then
        Continue (c1 |> set_state HOJSON_STATE_NONE |> set_encoding HOJSON_ENCODING_UTF_16_BE) m
      else syntax_error c1 m
  | HOJSON_STATE_UTF16LE_BOM =>
      let c1 := c |> set_column (u32 (column c - 1)) in
      if v =? 0xFE then
        Continue (c1 |> set_state HOJSON_STATE_NONE |> set_encoding HOJSON_ENCODING_UTF_16_LE) m
      else syntax_error c1 m
  | HOJSON_STATE_NAME_EXPECTED =>
      if v =? chr_quote then
        Continue (c |> set_state HOJSON_STATE_NAME) (or_flag m top HOJSON_FLAG_HAS_NAME)
      else if (v =? chr_rbrace) || (v =? chr_rbracket) then hojson_end_token c m v
      else if negb (HOJSON_IS_WHITESPACE v) then syntax_error c m
      else Continue c m
  | HOJSON_STATE_NAME =>
      if v =? chr_quote then
        let '(code, c1, m1) := hojson_append_terminator c m in
        if code_num code <? code_num HOJSON_NO_OP then Return code c1 m1
        else Return HOJSON_NAME
               (c1 |> set_name (node_data (stack c1)) |> set_state HOJSON_STATE_POST_NAME) m1
      else if v =? chr_backslash then
        Continue (c |> set_escape_return_state (state c) |> set_state HOJSON_STATE_ESCAPE) m
      else append_then c m ch Continue
  | HOJSON_STATE_POST_NAME =>
      if v =? chr_colon then Continue (c |> set_state HOJSON_STATE_VALUE_EXPECTED) m
      else if negb (HOJSON_IS_WHITESPACE v) then syntax_error c m
      else Continue c m
  | HOJSON_STATE_VALUE_EXPECTED =>
      if v =? chr_quote then
        Continue (c |> set_string_value (node_end m top + 1)
                    |> set_state HOJSON_STATE_STRING_VALUE) m
      else if HOJSON_IS_NUMERIC v || (v =? chr_minus) then
        append_then (c |> set_string_value (node_end m top + 1)) m ch
          (fun c1 m1 => Continue (c1 |> set_state HOJSON_STATE_NUMBER_VALUE) m1)
      else if v =? chr_t then Continue (c |> set_state HOJSON_STATE_TRUE_VALUE_T) m
      else if v =? chr_f then Continue (c |> set_state HOJSON_STATE_FALSE_VALUE_F) m
      else if v =? chr_n then Continue (c |> set_state HOJSON_STATE_NULL_VALUE_N) m
      else if (v =? chr_lbrace) || (v =? chr_lbracket) then hojson_begin_token c m v
      else if (v =? chr_rbrace) || (v =? chr_rbracket) then hojson_end_token c m v
      else if negb (HOJSON_IS_WHITESPACE v) then syntax_error c m
      else Continue c m
  | HOJSON_STATE_STRING_VALUE =>
      if v =? chr_quote then return_value (c |> set_value_type HOJSON_TYPE_STRING) m
      else if v =? chr_backslash then
        Continue (c |> set_escape_return_state (state c) |> set_state HOJSON_STATE_ESCAPE) m
      else append_then c m ch Continue
  | HOJSON_STATE_ESCAPE =>
      let escaped (characterToAppend : Z) :=
        append_then c m (hojson_encode_character characterToAppend (encoding c))
                    escape_done in
      if v =? chr_quote then escaped chr_quote
      else if v =? chr_backslash then escaped chr_backslash
      else if v =? chr_slash then escaped chr_slash
      else if v =? chr_b then escaped 8
      else if v =? chr_f then escaped 12
      else if v =? chr_n then escaped 10
      else if v =? chr_r then escaped 13
      else if v =? chr_t then escaped 9
      else if v =? chr_u then Continue (c |> set_state HOJSON_STATE_UNICODE_1) m
      else syntax_error c m
  | HOJSON_STATE_UNICODE_1 =>
      if HOJSON_IS_HEX_CHAR v then
        Continue (c |> set_integer_value (u32 (hojson_hex_character_to_decimal v * 4096))
                    |> set_state HOJSON_STATE_UNICODE_2) m
      else syntax_error c m
  | HOJSON_STATE_UNICODE_2 =>
      if HOJSON_IS_HEX_CHAR v then
        Continue (c |> set_integer_value
                         (integer_value c + u32 (hojson_hex_character_to_decimal v * 256))
                    |> set_state HOJSON_STATE_UNICODE_3) m
      else syntax_error c m
  | HOJSON_STATE_UNICODE_3 =>
      if HOJSON_IS_HEX_CHAR v then
        Continue (c |> set_integer_value
                         (integer_value c + u32 (hojson_hex_character_to_decimal v * 16))
                    |> set_state HOJSON_STATE_UNICODE_4) m
      else syntax_error c m
  | HOJSON_STATE_UNICODE_4 =>
      if HOJSON_IS_HEX_CHAR v then
        let c1 := c |> set_integer_value
                         (integer_value c + u32 (hojson_hex_character_to_decimal v * 1)) in
        append_then c1 m (hojson_encode_character (u32 (integer_value c1)) (encoding c1))
          (fun c2 m2 => escape_done (c2 |> set_integer_value 0) m2)
      else syntax_error c m
  | HOJSON_STATE_NUMBER_VALUE =>
      if HOJSON_IS_NUMERIC v then append_then c m ch Continue
      else if v =? chr_dot then
        if has_flag m top HOJSON_FLAG_DECIMAL then syntax_error c m
        else append_then c m ch
               (fun c1 m1 => Continue c1 (or_flag m1 (stack c1) HOJSON_FLAG_DECIMAL))
      else if (v =? chr_e) || (v =? chr_E) then
        if has_flag m top HOJSON_FLAG_EXPONENT then syntax_error c m
        else append_then c m ch
               (fun c1 m1 => Continue c1 (or_flag m1 (stack c1) HOJSON_FLAG_EXPONENT))
      else if (v =? chr_minus) || (v =? chr_plus) then
        if negb (has_flag m top HOJSON_FLAG_EXPONENT) then syntax_error c m
        else if has_flag m top HOJSON_FLAG_PLUS_OR_MINUS then syntax_error c m
        else append_then c m ch
               (fun c1 m1 => Continue c1 (or_flag m1 (stack c1) HOJSON_FLAG_PLUS_OR_MINUS))
      else if HOJSON_IS_WHITESPACE v || (v =? chr_comma) || (v =? chr_rbracket)
              || (v =? chr_rbrace) then
        let text := c_string (Z.to_nat (buffer_length c)) m (string_value c) in
        let c1 :=
          if has_flag m top HOJSON_FLAG_DECIMAL || has_flag m top HOJSON_FLAG_EXPONENT then
            let c' := c |> set_value_type HOJSON_TYPE_FLOAT in
            if negb (string_value c =? 0) then c' |> set_float_value (atof text) else c'
          else
            let c' := c |> set_value_type HOJSON_TYPE_INTEGER in
            if negb (string_value c =? 0) then c' |> set_integer_value (atoi text) else c' in
        let c2 := c1 |> set_string_value 0 |> set_state HOJSON_STATE_POST_VALUE in
        let m1 := or_flag m top HOJSON_FLAG_POST_VALUE_CLEAN_UP in
        let c3 := if negb (HOJSON_IS_WHITESPACE v) then hojson_stay c2 else c2 in
        Return HOJSON_VALUE c3 m1
      else syntax_error c m
  | HOJSON_STATE_TRUE_VALUE_T => expect_letter c m v chr_r HOJSON_STATE_TRUE_VALUE_R
  | HOJSON_STATE_TRUE_VALUE_R => expect_letter c m v chr_u HOJSON_STATE_TRUE_VALUE_U
  | HOJSON_STATE_TRUE_VALUE_U =>
      if v =? chr_e then
        return_value (c |> set_value_type HOJSON_TYPE_BOOLEAN |> set_bool_value 1) m
      else syntax_error c m
  | HOJSON_STATE_FALSE_VALUE_F => expect_letter c m v chr_a HOJSON_STATE_FALSE_VALUE_A
  | HOJSON_STATE_FALSE_VALUE_A => expect_letter c m v chr_l HOJSON_STATE_FALSE_VALUE_L
  | HOJSON_STATE_FALSE_VALUE_L => expect_letter c m v chr_s HOJSON_STATE_FALSE_VALUE_S
  | HOJSON_STATE_FALSE_VALUE_S =>
      if v =? chr_e then
        return_value (c |> set_value_type HOJSON_TYPE_BOOLEAN |> set_bool_value 0) m
      else syntax_error c m
  | HOJSON_STATE_NULL_VALUE_N => expect_letter c m v chr_u HOJSON_STATE_NULL_VALUE_U
  | HOJSON_STATE_NULL_VALUE_U => expect_letter c m v chr_l HOJSON_STATE_NULL_VALUE_L
  | HOJSON_STATE_NULL_VALUE_L =>
      if v =? chr_l then return_value (c |> set_value_type HOJSON_TYPE_NULL) m
      else syntax_error c m
  | HOJSON_STATE_POST_VALUE =>
      if (v =? chr_rbrace) || (v =? chr_rbracket) then hojson_end_token c m v
      else if v =? chr_comma then
        if has_flag m top HOJSON_FLAG_COMMA then syntax_error c m
        else
          let m1 := or_flag m top HOJSON_FLAG_COMMA in
          if has_flag m1 top HOJSON_FLAG_IS_ARRAY
          then Continue (c |> set_state HOJSON_STATE_VALUE_EXPECTED) m1
          else Continue (c |> set_state HOJSON_STATE_NAME_EXPECTED) m1
      else if negb (HOJSON_IS_WHITESPACE v) then syntax_error c m
      else Continue c m
  | _ => Continue c m
  end.

(** The bookkeeping for a decoded character: line and column, then the
    iterator moves over the bytes of the character that came from the
    current slice. *)
Definition consume (c : hojson_context_t) (ch : hojson_character_t) : hojson_context_t :=
  let c2 :=
    if HOJSON_IS_NEW_LINE (value ch) then
      let c' := if newline_character c =? 0
                then c |> set_newline_character (value ch) else c in
      (if value ch =? newline_character c'
       then c' |> set_line (u32 (line c' + 1)) else c')
      |> set_column 0
    else c |> set_column (u32 (column c + 1)) in
  let c3 := c2 |> set_bytes_iterated (u64 (bytes ch - stream_length c2)) in
  c3 |> set_iterator (u64 (iterator c3 + bytes_iterated c3))
     |> set_stream_length 0.

(** One pass through the body of [while (state >= NONE && state <= DONE)]. *)
Definition parse_iteration (c : hojson_context_t) (m : mem) : step :=
  if (state_num (state c) >=? state_num HOJSON_STATE_NAME_EXPECTED) && (stack c =? 0) then
    Return HOJSON_ERROR_INTERNAL (c |> set_state HOJSON_STATE_ERROR_INTERNAL) m
  else
    let bytes_remaining := u64 (json_length c - (iterator c - json c)) in
    let '(bytes_to_copy, stream1) := load_stream c m (iterator c) bytes_remaining in
    let c1 := c |> set_stream stream1 in
    let ch := hojson_decode_character (byte_of stream1) bytes_remaining (encoding c1) in
    if (value ch =? 0) || (value ch =? UINT32_MAX) then
      Return HOJSON_ERROR_UNEXPECTED_EOF
             (c1 |> set_stream_length bytes_to_copy
                 |> set_error_return_state (state c1)
                 |> set_state HOJSON_STATE_ERROR_UNEXPECTED_EOF) m
    else parse_character (consume c1 ch) m ch.

(** The loop.  [None] when it has not returned within [fuel] iterations. *)
Fixpoint parse_loop (fuel : nat) (c : hojson_context_t) (m : mem)
  : option (hojson_code_t * hojson_context_t * mem) :=
  match fuel with
  | O => None
  | S k =>
      if (state_num (state c) >=? state_num HOJSON_STATE_NONE)
         && (state_num (state c) <=? state_num HOJSON_STATE_DONE) then
        match parse_iteration c m with
        | Return code c1 m1 => Some (code, c1, m1)
        | Continue c1 m1 => parse_loop k c1 m1
        end
      else Some (HOJSON_ERROR_SYNTAX, c, m)
  end.

(** The loop of the source has no bound.  A pass that goes on moves the
    iterator by [bytes - stream_length] and empties the stream register
    (see [consume]): the first pass of a call, entered with bytes in the
    register, may leave the iterator where it is or move it backwards,
    every later pass moves it forward by the one to four bytes of its
    character, and a pass with nothing left of the slice returns.
    [left_after c b] is [bytes_remaining] after a first pass over a
    character of [b] bytes; the decoder only gives such a character when
    [b] bytes are left. *)
Definition left_after (c : hojson_context_t) (b : Z) : Z :=
  if b <=? u64 (json_length c - (iterator c - json c))
  then u64 (json_length c - (u64 (iterator c + u64 (b - stream_length c)) - json c))
  else 0.

(** So the loop runs at most this many times. *)
Definition parse_fuel (c : hojson_context_t) : nat :=
  let left := u64 (json_length c - (iterator c - json c)) in
  S (S (S (Z.to_nat
    (Z.max left (Z.max (left_after c 1) (Z.max (left_after c 2)
       (Z.max (left_after c 3) (left_after c 4)))))))).

(** [hojson_parse] once its arguments passed the first test. *)
Definition parse_context (c : hojson_context_t) (m : mem) (input input_length : Z)
  : option (hojson_code_t * hojson_context_t * mem) :=
  match parse_deferred c m with
  | Return code c1 m1 => Some (code, c1, m1)
  | Continue c1 m1 =>
      match parse_resume c1 m1 input input_length with
      | Return code c2 m2 => Some (code, c2, m2)
      | Continue c2 m2 =>
          let c3 := parse_input c2 input input_length in
          parse_loop (parse_fuel c3) c3 m2
      end
  end.

(** ** The three public functions.  A context pointer is [None] when it
    is NULL. *)

Definition hojson_parse (context : option hojson_context_t) (m : mem)
  (input input_length : Z)
  : option (hojson_code_t * option hojson_context_t * mem) :=
  match context with
  | None => Some (HOJSON_ERROR_INVALID_INPUT, None, m)
  | Some c =>
      if (is_initialized c =? 0) || (input =? 0) || (input_length <=? 0)
      then Some (HOJSON_ERROR_INVALID_INPUT, Some c, m)
      else
        match parse_context c m input input_length with
        | Some (code, c1, m1) => Some (code, Some c1, m1)
        | None => None
        end
  end.

Definition hojson_init (context : option hojson_context_t) (m : mem)
  (new_buffer new_buffer_length : Z) : option hojson_context_t * mem :=
  match context with
  | None => (None, m)
  | Some c =>
      if (new_buffer =? 0) || (new_buffer_length <=? 0) then (Some c, m)
      else
        (Some (mk_context 0 0 0 double_zero 0 HOJSON_TYPE_NONE 1 0 0 1 0 0
                 HOJSON_ENCODING_UNKNOWN 0 0 new_buffer new_buffer_length
                 HOJSON_STATE_NONE HOJSON_STATE_NONE HOJSON_STATE_NONE 0 0 0 0),
         memset m new_buffer 0 new_buffer_length)
  end.

(** The loop of [hojson_realloc] over the nodes, from the top of the
    stack to the root; [None] when [fuel] nodes did not reach the root. *)
Fixpoint realloc_nodes (fuel : nat) (m : mem) (node old_buffer new_buffer : Z)
  : option mem :=
  if node =? 0 then Some m
  else
    match fuel with
    | O => None
    | S k =>
        let parent := node_parent m node in
        let m1 := set_node_end m node (new_buffer + (node_end m node - old_buffer)) in
        let m2 := if negb (node_parent m1 node =? 0)
                  then set_node_parent m1 node
                         (new_buffer + (node_parent m1 node - old_buffer))
                  else m1 in
        realloc_nodes k m2 parent old_buffer new_buffer
    end.

Definition hojson_realloc (context : option hojson_context_t) (m : mem)
  (new_buffer new_buffer_length : Z) : option (option hojson_context_t * mem) :=
  match context with
  | None => Some (None, m)
  | Some c =>
      if (is_initialized c =? 0) || (new_buffer =? 0)
         || (new_buffer_length <=? buffer_length c)
      then Some (Some c, m)
      else
        match realloc_nodes (Z.to_nat (buffer_length c)) m (stack c) (buffer c) new_buffer with
        | None => None
        | Some m1 =>
            let rebase p := new_buffer + (p - buffer c) in
            let c1 := if negb (name c =? 0) then c |> set_name (rebase (name c)) else c in
            let c2 := if negb (string_value c1 =? 0)
                      then c1 |> set_string_value (rebase (string_value c1)) else c1 in
            let c3 := if negb (stack c2 =? 0)
                      then c2 |> set_stack (rebase (stack c2)) else c2 in
            let m2 := memset m1 new_buffer 0 new_buffer_length in
            let m3 := memcpy m2 new_buffer (buffer c3) (buffer_length c3) in
            let c4 := c3 |> set_buffer new_buffer |> set_buffer_length new_buffer_length in
            let c5 := if state_num (state c4)
                         =? state_num HOJSON_STATE_ERROR_INSUFFICIENT_MEMORY
                      then c4 |> set_state (error_return_state c4)
                              |> set_error_return_state HOJSON_STATE_NONE
                      else c4 in
            Some (Some c5, m3)
        end
  end.

End Parser.

(** ** Observing a run: what the caller reads after each call *)

Record event : Type := mk_event {
  ev_code : hojson_code_t;
  ev_name : option (list Z);       (* the C string at [name], when not NULL *)
  ev_type : hojson_type_t;
  ev_string : option (list Z);     (* the C string at [string_value], when not NULL *)
  ev_integer : Z;
  ev_float : double;
  ev_bool : Z;
  ev_depth : Z
}.

Definition string_at (c : hojson_context_t) (m : mem) (p : Z) : option (list Z) :=
  if p =? 0 then None else Some (c_string (Z.to_nat (buffer_length c)) m p).

Definition observe (code : hojson_code_t) (c : hojson_context_t) (m : mem) : event :=
  mk_event code (string_at c m (name c)) (value_type c) (string_at c m (string_value c))
           (integer_value c) (float_value c) (bool_value c) (depth c).

Definition is_error (code : hojson_code_t) : bool := code_num code <? code_num HOJSON_NO_OP.

(** The driver of the test program: call [hojson_parse] on the current
    slice until it reports the end of the slice, then go on with the
    next slice; stop at the end of the document and at any other error.
    The result lists what was observed after each of at most [fuel]
    calls. *)
Fixpoint drive (char_signed : bool) (fuel : nat) (slices : list (Z * Z))
  (c : hojson_context_t) (m : mem) : list event :=
  match fuel, slices with
  | S k, (input, input_length) :: rest =>
      match hojson_parse char_signed (Some c) m input input_length with
      | Some (code, Some c1, m1) =>
          let e := observe code c1 m1 in
          match code with
          | HOJSON_ERROR_UNEXPECTED_EOF => e :: drive char_signed k rest c1 m1
          | HOJSON_END_OF_DOCUMENT => [e]
          | _ => if is_error code then [e] else e :: drive char_signed k slices c1 m1
          end
      | _ => []
      end
  | _, _ => []
  end.

(** The events that are not errors. *)
Definition events (l : list event) : list event :=
  filter (fun e => negb (is_error (ev_code e))) l.

(** [bs] written to memory from address [a] on. *)
Fixpoint place (m : mem) (a : Z) (bs : list Z) : mem :=
  match bs with
  | [] => m
  | b :: r => place (store8 m a b) (a + 1) r
  end.

(** Consecutive slices of the given lengths, from address [a] on. *)
Fixpoint slices_at (a : Z) (lengths : list Z) : list (Z * Z) :=
  match lengths with
  | [] => []
  | n :: r => (a, n) :: slices_at (a + n) r
  end.

Definition blank_context : hojson_context_t :=
  mk_context 0 0 0 double_zero 0 HOJSON_TYPE_NONE 0 0 0 0 0 0
    HOJSON_ENCODING_UNKNOWN 0 0 0 0
    HOJSON_STATE_NONE HOJSON_STATE_NONE HOJSON_STATE_NONE 0 0 0 0.

(** A document kept at address 4096 and handed over in slices of the
    given lengths, parsed with a buffer at address 65536, of 256 bytes when
    no length is given. *)
Definition input_address : Z := 4096.
Definition buffer_address : Z := 65536.

Definition initial_sized (doc : list Z) (length : Z) : hojson_context_t * mem :=
  match hojson_init (Some blank_context) (place (fun _ => 0) input_address doc)
                    buffer_address length with
  | (Some c, m) => (c, m)
  | (None, m) => (blank_context, m)
  end.

Definition initial (doc : list Z) : hojson_context_t * mem := initial_sized doc 256.

Definition run (char_signed : bool) (doc : list Z) (lengths : list Z) : list event :=
  let '(c, m) := initial doc in
  drive char_signed 100 (slices_at input_address lengths) c m.

Definition whole (doc : list Z) : list Z := [Z.of_nat (List.length doc)].

(** ** Documents used below *)

Definition text (s : String.string) : list Z :=
  map (fun a => Z.of_N (Ascii.N_of_ascii a)) (String.list_ascii_of_string s).
Definition quoted (s : String.string) : list Z := [chr_quote] ++ text s ++ [chr_quote].
Arguments text s%_string_scope.
Arguments quoted s%_string_scope.
Definition utf8_bom : list Z := [0xEF; 0xBB; 0xBF].

(** The object whose one pair has the name a and, as its value, the string
    of the two escapes for U+0041 and U+00E9. *)
Definition doc_escapes : list Z :=
  text "{ " ++ quoted "a" ++ text ": " ++ quoted "\u0041\u00E9" ++ text " }".

(** The object with a name, a colon and no value. *)
Definition doc_no_value : list Z := text "{" ++ quoted "a" ++ text ":}".

(** A UTF-8 document with a byte-order mark: the array holding the
    string of the one character U+20AC, three bytes long. *)
Definition doc_euro : list Z :=
  utf8_bom ++ text "[" ++ [chr_quote; 0xE2; 0x82; 0xAC; chr_quote] ++ text "]".

(** An array whose number is followed by a space. *)
Definition doc_number_space : list Z := text "[1 ]".

(** An array whose string holds a NUL byte. *)
Definition doc_nul : list Z := text "[" ++ [chr_quote; chr_a; 0; chr_b; chr_quote] ++ text "]".

(** What is compared between runs: code, name, type of the value and the values. *)
Definition summary (e : event)
  : hojson_code_t * option (list Z) * hojson_type_t * option (list Z) * Z * Z :=
  (ev_code e, ev_name e, ev_type e, ev_string e, ev_integer e, ev_bool e).

(** The characters that end a number. *)
Definition number_terminator (v : Z) : bool :=
  HOJSON_IS_WHITESPACE v || (v =? chr_comma) || (v =? chr_rbracket) || (v =? chr_rbrace).

(** The character the next pass of the loop decodes: the stream register
    as it is loaded, and the character decoded from it. *)
Definition next_stream (c : hojson_context_t) (m : mem) : Z * Z :=
  load_stream c m (iterator c) (u64 (json_length c - (iterator c - json c))).
Definition next_character (char_signed : bool) (c : hojson_context_t) (m : mem)
  : hojson_character_t :=
  hojson_decode_character char_signed (byte_of (snd (next_stream c m)))
    (u64 (json_length c - (iterator c - json c))) (encoding c).

(** The first character of a new slice, as the recovery from an
    unexpected end of input decodes it. *)
Definition first_character (char_signed : bool) (c : hojson_context_t) (m : mem)
  (input input_length : Z) : hojson_character_t :=
  hojson_decode_character char_signed
    (byte_of (snd (load_stream c m input input_length))) input_length (encoding c).

(** The state is one the loop runs in. *)
Definition in_loop (s : hojson_state) : bool :=
  (state_num s >=? state_num HOJSON_STATE_NONE) && (state_num s <=? state_num HOJSON_STATE_DONE).

(** The context and memory after [n] calls of [hojson_parse] on the same
    slice, with the code of the last call. *)
Fixpoint after_calls (char_signed : bool) (n : nat) (input input_length : Z)
  (c : hojson_context_t) (m : mem) : option (hojson_code_t * hojson_context_t * mem) :=
  match n with
  | O => Some (HOJSON_NO_OP, c, m)
  | S k =>
      match after_calls char_signed k input input_length c m with
      | Some (_, c1, m1) =>
          match hojson_parse char_signed (Some c1) m1 input input_length with
          | Some (code, Some c2, m2) => Some (code, c2, m2)
          | _ => None
          end
      | None => None
      end
  end.


(** The context and memory with which a call enters the loop, when it
    gets there. *)
Definition loop_entry (char_signed : bool) (c : hojson_context_t) (m : mem)
  (input input_length : Z) : option (hojson_context_t * mem) :=
  match parse_deferred c m with
  | Return _ _ _ => None
  | Continue c1 m1 =>
      match parse_resume char_signed c1 m1 input input_length with
      | Return _ _ _ => None
      | Continue c2 m2 => Some (parse_input c2 input input_length, m2)
      end
  end.

(** [n] passes through the loop that all go on to the next one. *)
Fixpoint iterations (char_signed : bool) (n : nat) (c : hojson_context_t) (m : mem)
  : option (hojson_context_t * mem) :=
  match n with
  | O => Some (c, m)
  | S k =>
      match parse_iteration char_signed c m with
      | Return _ _ _ => None
      | Continue c1 m1 => iterations char_signed k c1 m1
      end
  end.

(** The second call on [doc], [n] characters into its loop. *)
Definition second_call_after (char_signed : bool) (doc : list Z) (n : nat)
  : hojson_context_t * mem :=
  let '(c0, m0) := initial doc in
  let len := Z.of_nat (List.length doc) in
  match after_calls char_signed 1 input_address len c0 m0 with
  | Some (_, c1, m1) =>
      match loop_entry char_signed c1 m1 input_address len with
      | Some (c2, m2) =>
          match iterations char_signed n c2 m2 with
          | Some s => s
          | None => (blank_context, m0)
          end
      | None => (blank_context, m0)
      end
  | None => (blank_context, m0)
  end.


(** The context and memory after [n] calls on the whole of [doc]. *)
Definition calls_on (char_signed : bool) (doc : list Z) (n : nat)
  : hojson_context_t * mem :=
  match after_calls char_signed n input_address (Z.of_nat (List.length doc))
                    (fst (initial doc)) (snd (initial doc)) with
  | Some (_, c, m) => (c, m)
  | None => (blank_context, snd (initial doc))
  end.

(** The states used as examples: about to decode the NUL of [doc_nul], and
    after the call that met this NUL. *)
Definition at_nul : hojson_context_t * mem := second_call_after true doc_nul 2.
Definition after_nul : hojson_context_t * mem := calls_on true doc_nul 2.


(** ** The stack as a chain of nodes, for [hojson_realloc] *)

(** A pointer into the old buffer, moved to the same offset of the new one. *)
Definition rebase (old_buffer new_buffer p : Z) : Z := new_buffer + (p - old_buffer).

(** [l] lists the nodes from [n] down to the root: each is followed by
    its parent, the root has no parent; the two pointers of a node (16
    bytes) lie between [lo] and [hi], those of its parent below it. *)
Fixpoint node_chain (m : mem) (lo hi n : Z) (l : list Z) : Prop :=
  match l with
  | [] => n = 0
  | x :: r =>
      x = n /\ n <> 0 /\ lo <= n /\ n + 16 <= hi /\ node_chain m lo n (node_parent m n) r
  end.

(** The [end] pointer of each node is inside the buffer, or one byte
    before it. *)
Definition ends_within (m : mem) (lo hi : Z) (l : list Z) : Prop :=
  Forall (fun x => lo <= node_end m x + 1 <= hi) l.

(** The address [a] is in the two pointers of one of the nodes. *)
Definition in_pointers (l : list Z) (a : Z) : Prop :=
  exists x, In x l /\ x <= a < x + 16.

(** Three nested arrays, parsed with 50 bytes of buffer: the third array
    does not fit, the third call reports INSUFFICIENT_MEMORY with two nodes
    on the stack. *)
Definition doc_nested : list Z := text "[[[1]]]".
Definition out_of_memory : hojson_context_t * mem :=
  match after_calls true 3 input_address 7 (fst (initial_sized doc_nested 50))
                    (snd (initial_sized doc_nested 50)) with
  | Some (_, c, m) => (c, m)
  | None => initial_sized doc_nested 50
  end.
Definition larger_buffer : Z := 131072.

(** ** The stack between calls and inside a call *)

(** Memory holds zero from [lo] (excluded) up to [hi] (excluded). *)
Definition zero_between (m : mem) (lo hi : Z) : Prop :=
  forall a, lo < a < hi -> load8 m a = 0.

(** Outside the buffer of [L] bytes at [B], [m'] holds what [m] holds. *)
Definition untouched (B L : Z) (m m' : mem) : Prop :=
  forall a, a < B \/ B + L <= a -> load8 m' a = load8 m a.

(** No work is deferred to the next call by the flags of node [n]. *)
Definition nothing_deferred (m : mem) (n : Z) : Prop :=
  has_flag m n HOJSON_FLAG_INCREMENT_DEPTH = false
  /\ has_flag m n HOJSON_FLAG_DECREMENT_DEPTH = false
  /\ has_flag m n HOJSON_FLAG_MUST_POP_STACK = false.

(** Node [n] has [k] nodes below it: the root is at the start of the
    buffer [B]; every other node starts right after the end of its
    parent, which is at least the header of the parent, and the parent
    defers nothing. *)
Fixpoint nodes_below (m : mem) (B n : Z) (k : nat) : Prop :=
  match k with
  | O => n = B /\ node_parent m n = 0
  | S k' =>
      let p := node_parent m n in
      p <> 0 /\ n = node_end m p + 1 /\ p + 17 <= node_end m p
      /\ nothing_deferred m p /\ nodes_below m B p k'
  end.

(** The state is one the loop goes on in: any state of the loop but
    DONE, which only the removal of the root sets. *)
Definition running (s : hojson_state) : bool :=
  in_loop s && negb (state_num s =? state_num HOJSON_STATE_DONE).

(** The stack holds [k] nodes inside the buffer of [L] bytes at [B].
    Without a node the buffer is all zero; with nodes, the top node and
    what was appended to it lie inside the buffer, which is zero past the
    end of the top node. *)
Definition stack_of (B L : Z) (c : hojson_context_t) (m : mem) (k : nat) : Prop :=
  buffer c = B /\ buffer_length c = L
  /\ 0 < B /\ B + L <= 2 ^ 64
  /\ is_initialized c <> 0
  /\ running (error_return_state c) = true
  /\ running (escape_return_state c) = true
  /\ match k with
     | O => stack c = 0 /\ zero_between m (B - 1) (B + L)
     | S k' =>
         B <= stack c
         /\ nodes_below m B (stack c) k'
         /\ stack c + 17 <= node_end m (stack c)
         /\ node_end m (stack c) < B + L
         /\ stack c + 24 <= B + L
         /\ zero_between m (node_end m (stack c)) (B + L)
     end.

(** Inside a call, after the deferred work: the top node defers nothing
    and asks for no clean-up, and the depth is the number of nodes. *)
Definition in_call (B L : Z) (c : hojson_context_t) (m : mem) (k : nat) : Prop :=
  stack_of B L c m k
  /\ depth c = u32 (Z.of_nat k)
  /\ (k <> O -> nothing_deferred m (stack c)
                /\ has_flag m (stack c) HOJSON_FLAG_POST_VALUE_CLEAN_UP = false).

(** Between calls, with [open] objects and arrays open as the caller
    counts them from the events.  The top node may defer the increment of
    the depth (after a BEGIN), or its decrement and its own removal (after
    an END). *)
Definition between_calls (B L : Z) (c : hojson_context_t) (m : mem) (open : Z) : Prop :=
  exists (k : nat) (inc pop : bool),
    stack_of B L c m k
    /\ (k = O -> inc = false /\ pop = false)
    /\ (k <> O ->
        has_flag m (stack c) HOJSON_FLAG_INCREMENT_DEPTH = inc
        /\ has_flag m (stack c) HOJSON_FLAG_DECREMENT_DEPTH = pop
        /\ has_flag m (stack c) HOJSON_FLAG_MUST_POP_STACK = pop)
    /\ inc && pop = false
    /\ depth c = u32 (Z.of_nat k - (if inc then 1 else 0))
    /\ open = Z.of_nat k - (if pop then 1 else 0).

(** The state a code is pinned by, for the codes [hojson_parse] repeats
    on every later call. *)
Definition pinned_state (code : hojson_code_t) : option hojson_state :=
  match code with
  | HOJSON_END_OF_DOCUMENT => Some HOJSON_STATE_DONE
  | HOJSON_ERROR_SYNTAX => Some HOJSON_STATE_ERROR_SYNTAX
  | HOJSON_ERROR_TOKEN_MISMATCH => Some HOJSON_STATE_ERROR_TOKEN_MISMATCH
  | HOJSON_ERROR_INTERNAL => Some HOJSON_STATE_ERROR_INTERNAL
  | HOJSON_ERROR_INSUFFICIENT_MEMORY => Some HOJSON_STATE_ERROR_INSUFFICIENT_MEMORY
  | _ => None
  end.

(** The deferred work of the next call has nothing to do. *)
Definition quiet (c : hojson_context_t) (m : mem) : Prop :=
  stack c = 0
  \/ (nothing_deferred m (stack c)
      /\ has_flag m (stack c) HOJSON_FLAG_POST_VALUE_CLEAN_UP = false).

(** The number of open containers after an event, from the number
    before it. *)
Definition open_after (code : hojson_code_t) (open : Z) : Z :=
  match code with
  | HOJSON_OBJECT_BEGIN | HOJSON_ARRAY_BEGIN => open + 1
  | HOJSON_OBJECT_END | HOJSON_ARRAY_END => open - 1
  | _ => open
  end.

(** The name of the context is a C string that starts and ends inside
    the buffer. *)
Definition name_inside (B L : Z) (c : hojson_context_t) (m : mem) : Prop :=
  B <= name c /\ exists z, name c <= z < B + L /\ load8 m z = 0.

(** What a call entered with [open] containers open leaves behind, by
    the code it returns. *)
Definition returned (B L : Z) (open : Z) (code : hojson_code_t)
  (c : hojson_context_t) (m : mem) : Prop :=
  match code with
  | HOJSON_OBJECT_BEGIN | HOJSON_ARRAY_BEGIN =>
      depth c = u32 open /\ between_calls B L c m (open + 1)
  | HOJSON_OBJECT_END | HOJSON_ARRAY_END =>
      depth c = u32 open /\ 1 <= open /\ between_calls B L c m (open - 1)
  | HOJSON_NAME =>
      depth c = u32 open /\ 1 <= open /\ between_calls B L c m open
      /\ name_inside B L c m
  | HOJSON_VALUE =>
      depth c = u32 open /\ 1 <= open /\ between_calls B L c m open
  | _ => between_calls B L c m open
  end
  /\ match pinned_state code with
     | Some s => state c = s /\ quiet c m
     | None => True
     end
  /\ (state c = HOJSON_STATE_DONE -> open_after code open = 0).

(** What holds between two calls: the stack is as [between_calls] says,
    and the state DONE is only met with every container closed. *)
Definition idle (B L : Z) (c : hojson_context_t) (m : mem) (open : Z) : Prop :=
  between_calls B L c m open /\ (state c = HOJSON_STATE_DONE -> open = 0).

(** What a pass of the loop that started with memory [m0] and [k] nodes
    ends with. *)
Definition step_ok (B L : Z) (m0 : mem) (k : nat) (s : step) : Prop :=
  match s with
  | Continue c m =>
      in_call B L c m k
      /\ (running (state c) = true \/ state c = HOJSON_STATE_ERROR_SYNTAX)
      /\ untouched B L m0 m
  | Return code c m =>
      returned B L (Z.of_nat k) code c m /\ untouched B L m0 m
  end.

(** The fields of the context the invariants of the stack read are the
    same in [c'] as in [c]. *)
Definition same_stack (c c' : hojson_context_t) : Prop :=
  stack c' = stack c /\ depth c' = depth c /\ buffer c' = buffer c
  /\ buffer_length c' = buffer_length c /\ is_initialized c' = is_initialized c.

(** The depths of each BEGIN and its END, paired by the nesting of the
    events; [opened] holds the depths of the BEGINs not yet closed. *)
Fixpoint begin_end_depths (opened : list Z) (l : list event) : list (Z * Z) :=
  match l with
  | [] => []
  | e :: r =>
      match ev_code e with
      | HOJSON_OBJECT_BEGIN | HOJSON_ARRAY_BEGIN => begin_end_depths (ev_depth e :: opened) r
      | HOJSON_OBJECT_END | HOJSON_ARRAY_END =>
          match opened with
          | d :: rest => (d, ev_depth e) :: begin_end_depths rest r
          | [] => begin_end_depths [] r
          end
      | _ => begin_end_depths opened r
      end
  end.

(** The events of a run that starts with [open] containers open are well
    nested: a BEGIN, an END, a NAME and a VALUE expose the number of open
    containers as the depth; an END, a NAME and a VALUE only come inside a
    container; the end of the document only comes with every container
    closed. *)
Fixpoint well_nested (open : Z) (l : list event) : Prop :=
  match l with
  | [] => True
  | e :: r =>
      match ev_code e with
      | HOJSON_OBJECT_BEGIN | HOJSON_ARRAY_BEGIN => ev_depth e = u32 open
      | HOJSON_OBJECT_END | HOJSON_ARRAY_END
      | HOJSON_NAME | HOJSON_VALUE => 1 <= open /\ ev_depth e = u32 open
      | HOJSON_END_OF_DOCUMENT => open = 0
      | _ => True
      end
      /\ well_nested (open_after (ev_code e) open) r
  end.

(** [ds] holds the depths exposed by the BEGINs of the [open] containers
    that are open, the innermost first. *)
Fixpoint depths_of (open : Z) (ds : list Z) : Prop :=
  match ds with
  | [] => True
  | d :: r => d = u32 (open - 1) /\ depths_of (open - 1) r
  end.

(** A flag that is none of the four the deferred work reads. *)
Definition value_flag (f : Z) : Prop :=
  Z.land f HOJSON_FLAG_INCREMENT_DEPTH = 0
  /\ Z.land f HOJSON_FLAG_DECREMENT_DEPTH = 0
  /\ Z.land f HOJSON_FLAG_MUST_POP_STACK = 0
  /\ Z.land f HOJSON_FLAG_POST_VALUE_CLEAN_UP = 0.


(** [bytes_remaining] of [hojson_parse]: what is left of the slice past
    the iterator. *)
Definition remaining (c : hojson_context_t) : Z :=
  u64 (json_length c - (iterator c - json c)).

(** The parser is at the same place of the same input in [c'] as in [c]. *)
Definition same_input (c c' : hojson_context_t) : Prop :=
  iterator c' = iterator c /\ json c' = json c /\ json_length c' = json_length c
  /\ stream_length c' = stream_length c.

(** The codes at which the driver of the test program stops. *)
Definition stops (code : hojson_code_t) : bool :=
  is_error code || (code_num code =? code_num HOJSON_END_OF_DOCUMENT).

(** A document that is no JSON: its first character is a letter. *)
Definition doc_bare : list Z := text "true".

(** The empty array. *)
Definition doc_empty_array : list Z := text "[]".


(** The top node [n] and the [k] nodes below it, from the top to the
    root. *)
Fixpoint ancestors (m : mem) (n : Z) (k : nat) : list Z :=
  match k with
  | O => [n]
  | S k' => n :: ancestors m (node_parent m n) k'
  end.

(** The nodes of a stack of [k] nodes. *)
Definition stack_nodes (c : hojson_context_t) (m : mem) (k : nat) : list Z :=
  match k with
  | O => []
  | S k' => ancestors m (stack c) k'
  end.

(** The calling loop of the test program with its recovery from
    INSUFFICIENT_MEMORY: the length of the buffer is doubled, the next
    address of [buffers] stands for the result of [malloc], and
    [hojson_realloc] is called before the slice is parsed again.  [length]
    is the variable [hojson_buffer_length] of the test program. *)
Fixpoint drive_realloc (char_signed : bool) (fuel : nat) (slices : list (Z * Z))
  (buffers : list Z) (length : Z) (c : hojson_context_t) (m : mem) : list event :=
  match fuel, slices with
  | S k, (input, input_length) :: rest =>
      match hojson_parse char_signed (Some c) m input input_length with
      | Some (code, Some c1, m1) =>
          let e := observe code c1 m1 in
          match code with
          | HOJSON_ERROR_UNEXPECTED_EOF =>
              e :: drive_realloc char_signed k rest buffers length c1 m1
          | HOJSON_ERROR_INSUFFICIENT_MEMORY =>
              match buffers with
              | new_buffer :: more =>
                  match hojson_realloc (Some c1) m1 new_buffer (u64 (length * 2)) with
                  | Some (Some c2, m2) =>
                      e :: drive_realloc char_signed k slices more (u64 (length * 2)) c2 m2
                  | _ => [e]
                  end
              | [] => [e]
              end
          | HOJSON_END_OF_DOCUMENT => [e]
          | _ => if is_error code then [e]
                 else e :: drive_realloc char_signed k slices buffers length c1 m1
          end
      | _ => []
      end
  | _, _ => []
  end.

(** Each address of [buffers] is that of a block of twice the length of
    the buffer before it, inside the address space and apart from the
    buffer before it, which starts at [B] and has [L] bytes. *)
Fixpoint fresh_buffers (B L : Z) (buffers : list Z) : Prop :=
  match buffers with
  | [] => True
  | B' :: more =>
      0 < B' /\ B' + L * 2 <= 2 ^ 64
      /\ (B' + L * 2 <= B \/ B + L <= B')
      /\ fresh_buffers B' (L * 2) more
  end.


(** The lead byte of a UTF-8 character, as the tests of the decoder read
    it. *)
Definition utf8_length (b0 : Z) : Z :=
  if b0 <? 128 then 1
  else if (192 <=? b0) && (b0 <? 224) then 2
  else if (224 <=? b0) && (b0 <? 240) then 3
  else if (240 <=? b0) && (b0 <? 248) then 4
  else 0.

(** The value of a UTF-8 character of [n] bytes [b0], [b1], [b2], [b3],
    as arithmetic on the bytes. *)
Definition utf8_value (n b0 b1 b2 b3 : Z) : Z :=
  if n =? 1 then b0 mod 128
  else if n =? 2 then (b0 mod 32) * 64 + b1 mod 64
  else if n =? 3 then (b0 mod 16) * 4096 + (b1 mod 64) * 64 + b2 mod 64
  else if n =? 4 then (b0 mod 8) * 262144 + (b1 mod 64) * 4096 + (b2 mod 64) * 64 + b3 mod 64
  else 0.

(** An array whose first number is followed by a comma. *)
Definition doc_number_comma : list Z := text "[1,2]".

(** About to decode the comma that ends the first number of
    [doc_number_comma]. *)
Definition at_number_comma : hojson_context_t * mem :=
  second_call_after true doc_number_comma 1.

(** An array whose string ends with the escape for U+0041: seven letters,
    then the escape.  With a buffer of 25 bytes the root node and the seven
    letters fill the buffer, the character of the escape does not fit. *)
Definition doc_escape_last : list Z :=
  text "[" ++ [chr_quote] ++ text "abcdefg" ++ [chr_backslash] ++ text "u0041"
  ++ [chr_quote] ++ text "]".

(** The same string ending with the character U+20AC written in UTF-8,
    in a document with a byte-order mark. *)
Definition doc_euro_last : list Z :=
  utf8_bom ++ text "[" ++ [chr_quote] ++ text "abcdefg" ++ [0xE2; 0x82; 0xAC; chr_quote]
  ++ text "]".

(** The run of the driver that recovers from INSUFFICIENT_MEMORY, on a
    document handed over in slices of the given lengths, with a buffer of
    [length] bytes to begin with and one larger block to move to. *)
Definition run_realloc (char_signed : bool) (doc : list Z) (lengths : list Z) (length : Z)
  : list event :=
  let '(c, m) := initial_sized doc length in
  drive_realloc char_signed 100 (slices_at input_address lengths) [larger_buffer] length c m.

(** The array of 1 and 2 as two C strings, [1, and 2], to be handed over
    with the terminator of each counted in the length of its slice. *)
Definition doc_terminated : list Z := text "[1," ++ [0] ++ text "2]" ++ [0].

(** A UTF-16LE document, the array of 1 and 2, to be cut inside the comma. *)
Definition doc_utf16le_numbers : list Z :=
  [0xFF; 0xFE; 0x5B; 0; 0x31; 0; 0x2C; 0; 0x32; 0; 0x5D; 0].

(** ** Runs of the driver that are followed to their end *)

(** The number of events of [l] with the code [code]. *)
Definition count_code (code : hojson_code_t) (l : list event) : nat :=
  length (filter (fun e => code_num (ev_code e) =? code_num code) l).

(** The trace [l] of the driver, allowed [fuel] calls on [slices], is that
    of a whole run: it has an event for each of the [fuel] calls, or every
    slice was used up (the driver leaves a slice at UNEXPECTED_EOF, and
    only then), or it ends on END_OF_DOCUMENT or on an error other than
    UNEXPECTED_EOF. *)
Definition run_complete (fuel : nat) (slices : list (Z * Z)) (l : list event) : Prop :=
  length l = fuel
  \/ count_code HOJSON_ERROR_UNEXPECTED_EOF l = length slices
  \/ exists l' e,
       l = l' ++ [e] /\ stops (ev_code e) = true
       /\ ev_code e <> HOJSON_ERROR_UNEXPECTED_EOF.

(** The same for the driver that recovers from INSUFFICIENT_MEMORY with
    the blocks of [buffers]: the run also ends when INSUFFICIENT_MEMORY is
    reported and no block is left, that is, one time more than there are
    blocks. *)
Definition run_complete_realloc (fuel : nat) (slices : list (Z * Z)) (buffers : list Z)
  (l : list event) : Prop :=
  length l = fuel
  \/ count_code HOJSON_ERROR_UNEXPECTED_EOF l = length slices
  \/ count_code HOJSON_ERROR_INSUFFICIENT_MEMORY l = S (length buffers)
  \/ exists l' e,
       l = l' ++ [e] /\ stops (ev_code e) = true
       /\ ev_code e <> HOJSON_ERROR_UNEXPECTED_EOF
       /\ ev_code e <> HOJSON_ERROR_INSUFFICIENT_MEMORY.

(** * Properties *)

(** ** Field reads through field assignments

    One equation for each field and each assignment; the proofs below
    simplify contexts by rewriting with them. *)

Lemma name_set_name v c : name (set_name v c) = v. Proof. reflexivity. Qed.
Lemma string_value_set_name v c : string_value (set_name v c) = string_value c. Proof. reflexivity. Qed.
Lemma integer_value_set_name v c : integer_value (set_name v c) = integer_value c. Proof. reflexivity. Qed.
Lemma float_value_set_name v c : float_value (set_name v c) = float_value c. Proof. reflexivity. Qed.
Lemma bool_value_set_name v c : bool_value (set_name v c) = bool_value c. Proof. reflexivity. Qed.
Lemma value_type_set_name v c : value_type (set_name v c) = value_type c. Proof. reflexivity. Qed.
Lemma line_set_name v c : line (set_name v c) = line c. Proof. reflexivity. Qed.
Lemma column_set_name v c : column (set_name v c) = column c. Proof. reflexivity. Qed.
Lemma depth_set_name v c : depth (set_name v c) = depth c. Proof. reflexivity. Qed.
Lemma is_initialized_set_name v c : is_initialized (set_name v c) = is_initialized c. Proof. reflexivity. Qed.
Lemma json_set_name v c : json (set_name v c) = json c. Proof. reflexivity. Qed.
Lemma json_length_set_name v c : json_length (set_name v c) = json_length c. Proof. reflexivity. Qed.
Lemma encoding_set_name v c : encoding (set_name v c) = encoding c. Proof. reflexivity. Qed.
Lemma iterator_set_name v c : iterator (set_name v c) = iterator c. Proof. reflexivity. Qed.
Lemma bytes_iterated_set_name v c : bytes_iterated (set_name v c) = bytes_iterated c. Proof. reflexivity. Qed.
Lemma buffer_set_name v c : buffer (set_name v c) = buffer c. Proof. reflexivity. Qed.
Lemma buffer_length_set_name v c : buffer_length (set_name v c) = buffer_length c. Proof. reflexivity. Qed.
Lemma state_set_name v c : state (set_name v c) = state c. Proof. reflexivity. Qed.
Lemma escape_return_state_set_name v c : escape_return_state (set_name v c) = escape_return_state c. Proof. reflexivity. Qed.
Lemma error_return_state_set_name v c : error_return_state (set_name v c) = error_return_state c. Proof. reflexivity. Qed.
Lemma stack_set_name v c : stack (set_name v c) = stack c. Proof. reflexivity. Qed.
Lemma stream_set_name v c : stream (set_name v c) = stream c. Proof. reflexivity. Qed.
Lemma stream_length_set_name v c : stream_length (set_name v c) = stream_length c. Proof. reflexivity. Qed.
Lemma newline_character_set_name v c : newline_character (set_name v c) = newline_character c. Proof. reflexivity. Qed.
Lemma name_set_string_value v c : name (set_string_value v c) = name c. Proof. reflexivity. Qed.
Lemma string_value_set_string_value v c : string_value (set_string_value v c) = v. Proof. reflexivity. Qed.
Lemma integer_value_set_string_value v c : integer_value (set_string_value v c) = integer_value c. Proof. reflexivity. Qed.
Lemma float_value_set_string_value v c : float_value (set_string_value v c) = float_value c. Proof. reflexivity. Qed.
Lemma bool_value_set_string_value v c : bool_value (set_string_value v c) = bool_value c. Proof. reflexivity. Qed.
Lemma value_type_set_string_value v c : value_type (set_string_value v c) = value_type c. Proof. reflexivity. Qed.
Lemma line_set_string_value v c : line (set_string_value v c) = line c. Proof. reflexivity. Qed.
Lemma column_set_string_value v c : column (set_string_value v c) = column c. Proof. reflexivity. Qed.
Lemma depth_set_string_value v c : depth (set_string_value v c) = depth c. Proof. reflexivity. Qed.
Lemma is_initialized_set_string_value v c : is_initialized (set_string_value v c) = is_initialized c. Proof. reflexivity. Qed.
Lemma json_set_string_value v c : json (set_string_value v c) = json c. Proof. reflexivity. Qed.
Lemma json_length_set_string_value v c : json_length (set_string_value v c) = json_length c. Proof. reflexivity. Qed.
Lemma encoding_set_string_value v c : encoding (set_string_value v c) = encoding c. Proof. reflexivity. Qed.
Lemma iterator_set_string_value v c : iterator (set_string_value v c) = iterator c. Proof. reflexivity. Qed.
Lemma bytes_iterated_set_string_value v c : bytes_iterated (set_string_value v c) = bytes_iterated c. Proof. reflexivity. Qed.
Lemma buffer_set_string_value v c : buffer (set_string_value v c) = buffer c. Proof. reflexivity. Qed.
Lemma buffer_length_set_string_value v c : buffer_length (set_string_value v c) = buffer_length c. Proof. reflexivity. Qed.
Lemma state_set_string_value v c : state (set_string_value v c) = state c. Proof. reflexivity. Qed.
Lemma escape_return_state_set_string_value v c : escape_return_state (set_string_value v c) = escape_return_state c. Proof. reflexivity. Qed.
Lemma error_return_state_set_string_value v c : error_return_state (set_string_value v c) = error_return_state c. Proof. reflexivity. Qed.
Lemma stack_set_string_value v c : stack (set_string_value v c) = stack c. Proof. reflexivity. Qed.
Lemma stream_set_string_value v c : stream (set_string_value v c) = stream c. Proof. reflexivity. Qed.
Lemma stream_length_set_string_value v c : stream_length (set_string_value v c) = stream_length c. Proof. reflexivity. Qed.
Lemma newline_character_set_string_value v c : newline_character (set_string_value v c) = newline_character c. Proof. reflexivity. Qed.
Lemma name_set_integer_value v c : name (set_integer_value v c) = name c. Proof. reflexivity. Qed.
Lemma string_value_set_integer_value v c : string_value (set_integer_value v c) = string_value c. Proof. reflexivity. Qed.
Lemma integer_value_set_integer_value v c : integer_value (set_integer_value v c) = v. Proof. reflexivity. Qed.
Lemma float_value_set_integer_value v c : float_value (set_integer_value v c) = float_value c. Proof. reflexivity. Qed.
Lemma bool_value_set_integer_value v c : bool_value (set_integer_value v c) = bool_value c. Proof. reflexivity. Qed.
Lemma value_type_set_integer_value v c : value_type (set_integer_value v c) = value_type c. Proof. reflexivity. Qed.
Lemma line_set_integer_value v c : line (set_integer_value v c) = line c. Proof. reflexivity. Qed.
Lemma column_set_integer_value v c : column (set_integer_value v c) = column c. Proof. reflexivity. Qed.
Lemma depth_set_integer_value v c : depth (set_integer_value v c) = depth c. Proof. reflexivity. Qed.
Lemma is_initialized_set_integer_value v c : is_initialized (set_integer_value v c) = is_initialized c. Proof. reflexivity. Qed.
Lemma json_set_integer_value v c : json (set_integer_value v c) = json c. Proof. reflexivity. Qed.
Lemma json_length_set_integer_value v c : json_length (set_integer_value v c) = json_length c. Proof. reflexivity. Qed.
Lemma encoding_set_integer_value v c : encoding (set_integer_value v c) = encoding c. Proof. reflexivity. Qed.
Lemma iterator_set_integer_value v c : iterator (set_integer_value v c) = iterator c. Proof. reflexivity. Qed.
Lemma bytes_iterated_set_integer_value v c : bytes_iterated (set_integer_value v c) = bytes_iterated c. Proof. reflexivity. Qed.
Lemma buffer_set_integer_value v c : buffer (set_integer_value v c) = buffer c. Proof. reflexivity. Qed.
Lemma buffer_length_set_integer_value v c : buffer_length (set_integer_value v c) = buffer_length c. Proof. reflexivity. Qed.
Lemma state_set_integer_value v c : state (set_integer_value v c) = state c. Proof. reflexivity. Qed.
Lemma escape_return_state_set_integer_value v c : escape_return_state (set_integer_value v c) = escape_return_state c. Proof. reflexivity. Qed.
Lemma error_return_state_set_integer_value v c : error_return_state (set_integer_value v c) = error_return_state c. Proof. reflexivity. Qed.
Lemma stack_set_integer_value v c : stack (set_integer_value v c) = stack c. Proof. reflexivity. Qed.
Lemma stream_set_integer_value v c : stream (set_integer_value v c) = stream c. Proof. reflexivity. Qed.
Lemma stream_length_set_integer_value v c : stream_length (set_integer_value v c) = stream_length c. Proof. reflexivity. Qed.
Lemma newline_character_set_integer_value v c : newline_character (set_integer_value v c) = newline_character c. Proof. reflexivity. Qed.
Lemma name_set_float_value v c : name (set_float_value v c) = name c. Proof. reflexivity. Qed.
Lemma string_value_set_float_value v c : string_value (set_float_value v c) = string_value c. Proof. reflexivity. Qed.
Lemma integer_value_set_float_value v c : integer_value (set_float_value v c) = integer_value c. Proof. reflexivity. Qed.
Lemma float_value_set_float_value v c : float_value (set_float_value v c) = v. Proof. reflexivity. Qed.
Lemma bool_value_set_float_value v c : bool_value (set_float_value v c) = bool_value c. Proof. reflexivity. Qed.
Lemma value_type_set_float_value v c : value_type (set_float_value v c) = value_type c. Proof. reflexivity. Qed.
Lemma line_set_float_value v c : line (set_float_value v c) = line c. Proof. reflexivity. Qed.
Lemma column_set_float_value v c : column (set_float_value v c) = column c. Proof. reflexivity. Qed.
Lemma depth_set_float_value v c : depth (set_float_value v c) = depth c. Proof. reflexivity. Qed.
Lemma is_initialized_set_float_value v c : is_initialized (set_float_value v c) = is_initialized c. Proof. reflexivity. Qed.
Lemma json_set_float_value v c : json (set_float_value v c) = json c. Proof. reflexivity. Qed.
Lemma json_length_set_float_value v c : json_length (set_float_value v c) = json_length c. Proof. reflexivity. Qed.
Lemma encoding_set_float_value v c : encoding (set_float_value v c) = encoding c. Proof. reflexivity. Qed.
Lemma iterator_set_float_value v c : iterator (set_float_value v c) = iterator c. Proof. reflexivity. Qed.
Lemma bytes_iterated_set_float_value v c : bytes_iterated (set_float_value v c) = bytes_iterated c. Proof. reflexivity. Qed.
Lemma buffer_set_float_value v c : buffer (set_float_value v c) = buffer c. Proof. reflexivity. Qed.
Lemma buffer_length_set_float_value v c : buffer_length (set_float_value v c) = buffer_length c. Proof. reflexivity. Qed.
Lemma state_set_float_value v c : state (set_float_value v c) = state c. Proof. reflexivity. Qed.
Lemma escape_return_state_set_float_value v c : escape_return_state (set_float_value v c) = escape_return_state c. Proof. reflexivity. Qed.
Lemma error_return_state_set_float_value v c : error_return_state (set_float_value v c) = error_return_state c. Proof. reflexivity. Qed.
Lemma stack_set_float_value v c : stack (set_float_value v c) = stack c. Proof. reflexivity. Qed.
Lemma stream_set_float_value v c : stream (set_float_value v c) = stream c. Proof. reflexivity. Qed.
Lemma stream_length_set_float_value v c : stream_length (set_float_value v c) = stream_length c. Proof. reflexivity. Qed.
Lemma newline_character_set_float_value v c : newline_character (set_float_value v c) = newline_character c. Proof. reflexivity. Qed.
Lemma name_set_bool_value v c : name (set_bool_value v c) = name c. Proof. reflexivity. Qed.
Lemma string_value_set_bool_value v c : string_value (set_bool_value v c) = string_value c. Proof. reflexivity. Qed.
Lemma integer_value_set_bool_value v c : integer_value (set_bool_value v c) = integer_value c. Proof. reflexivity. Qed.
Lemma float_value_set_bool_value v c : float_value (set_bool_value v c) = float_value c. Proof. reflexivity. Qed.
Lemma bool_value_set_bool_value v c : bool_value (set_bool_value v c) = v. Proof. reflexivity. Qed.
Lemma value_type_set_bool_value v c : value_type (set_bool_value v c) = value_type c. Proof. reflexivity. Qed.
Lemma line_set_bool_value v c : line (set_bool_value v c) = line c. Proof. reflexivity. Qed.
Lemma column_set_bool_value v c : column (set_bool_value v c) = column c. Proof. reflexivity. Qed.
Lemma depth_set_bool_value v c : depth (set_bool_value v c) = depth c. Proof. reflexivity. Qed.
Lemma is_initialized_set_bool_value v c : is_initialized (set_bool_value v c) = is_initialized c. Proof. reflexivity. Qed.
Lemma json_set_bool_value v c : json (set_bool_value v c) = json c. Proof. reflexivity. Qed.
Lemma json_length_set_bool_value v c : json_length (set_bool_value v c) = json_length c. Proof. reflexivity. Qed.
Lemma encoding_set_bool_value v c : encoding (set_bool_value v c) = encoding c. Proof. reflexivity. Qed.
Lemma iterator_set_bool_value v c : iterator (set_bool_value v c) = iterator c. Proof. reflexivity. Qed.
Lemma bytes_iterated_set_bool_value v c : bytes_iterated (set_bool_value v c) = bytes_iterated c. Proof. reflexivity. Qed.
Lemma buffer_set_bool_value v c : buffer (set_bool_value v c) = buffer c. Proof. reflexivity. Qed.
Lemma buffer_length_set_bool_value v c : buffer_length (set_bool_value v c) = buffer_length c. Proof. reflexivity. Qed.
Lemma state_set_bool_value v c : state (set_bool_value v c) = state c. Proof. reflexivity. Qed.
Lemma escape_return_state_set_bool_value v c : escape_return_state (set_bool_value v c) = escape_return_state c. Proof. reflexivity. Qed.
Lemma error_return_state_set_bool_value v c : error_return_state (set_bool_value v c) = error_return_state c. Proof. reflexivity. Qed.
Lemma stack_set_bool_value v c : stack (set_bool_value v c) = stack c. Proof. reflexivity. Qed.
Lemma stream_set_bool_value v c : stream (set_bool_value v c) = stream c. Proof. reflexivity. Qed.
Lemma stream_length_set_bool_value v c : stream_length (set_bool_value v c) = stream_length c. Proof. reflexivity. Qed.
Lemma newline_character_set_bool_value v c : newline_character (set_bool_value v c) = newline_character c. Proof. reflexivity. Qed.
Lemma name_set_value_type v c : name (set_value_type v c) = name c. Proof. reflexivity. Qed.
Lemma string_value_set_value_type v c : string_value (set_value_type v c) = string_value c. Proof. reflexivity. Qed.
Lemma integer_value_set_value_type v c : integer_value (set_value_type v c) = integer_value c. Proof. reflexivity. Qed.
Lemma float_value_set_value_type v c : float_value (set_value_type v c) = float_value c. Proof. reflexivity. Qed.
Lemma bool_value_set_value_type v c : bool_value (set_value_type v c) = bool_value c. Proof. reflexivity. Qed.
Lemma value_type_set_value_type v c : value_type (set_value_type v c) = v. Proof. reflexivity. Qed.
Lemma line_set_value_type v c : line (set_value_type v c) = line c. Proof. reflexivity. Qed.
Lemma column_set_value_type v c : column (set_value_type v c) = column c. Proof. reflexivity. Qed.
Lemma depth_set_value_type v c : depth (set_value_type v c) = depth c. Proof. reflexivity. Qed.
Lemma is_initialized_set_value_type v c : is_initialized (set_value_type v c) = is_initialized c. Proof. reflexivity. Qed.
Lemma json_set_value_type v c : json (set_value_type v c) = json c. Proof. reflexivity. Qed.
Lemma json_length_set_value_type v c : json_length (set_value_type v c) = json_length c. Proof. reflexivity. Qed.
Lemma encoding_set_value_type v c : encoding (set_value_type v c) = encoding c. Proof. reflexivity. Qed.
Lemma iterator_set_value_type v c : iterator (set_value_type v c) = iterator c. Proof. reflexivity. Qed.
Lemma bytes_iterated_set_value_type v c : bytes_iterated (set_value_type v c) = bytes_iterated c. Proof. reflexivity. Qed.
Lemma buffer_set_value_type v c : buffer (set_value_type v c) = buffer c. Proof. reflexivity. Qed.
Lemma buffer_length_set_value_type v c : buffer_length (set_value_type v c) = buffer_length c. Proof. reflexivity. Qed.
Lemma state_set_value_type v c : state (set_value_type v c) = state c. Proof. reflexivity. Qed.
Lemma escape_return_state_set_value_type v c : escape_return_state (set_value_type v c) = escape_return_state c. Proof. reflexivity. Qed.
Lemma error_return_state_set_value_type v c : error_return_state (set_value_type v c) = error_return_state c. Proof. reflexivity. Qed.
Lemma stack_set_value_type v c : stack (set_value_type v c) = stack c. Proof. reflexivity. Qed.
Lemma stream_set_value_type v c : stream (set_value_type v c) = stream c. Proof. reflexivity. Qed.
Lemma stream_length_set_value_type v c : stream_length (set_value_type v c) = stream_length c. Proof. reflexivity. Qed.
Lemma newline_character_set_value_type v c : newline_character (set_value_type v c) = newline_character c. Proof. reflexivity. Qed.
Lemma name_set_line v c : name (set_line v c) = name c. Proof. reflexivity. Qed.
Lemma string_value_set_line v c : string_value (set_line v c) = string_value c. Proof. reflexivity. Qed.
Lemma integer_value_set_line v c : integer_value (set_line v c) = integer_value c. Proof. reflexivity. Qed.
Lemma float_value_set_line v c : float_value (set_line v c) = float_value c. Proof. reflexivity. Qed.
Lemma bool_value_set_line v c : bool_value (set_line v c) = bool_value c. Proof. reflexivity. Qed.
Lemma value_type_set_line v c : value_type (set_line v c) = value_type c. Proof. reflexivity. Qed.
Lemma line_set_line v c : line (set_line v c) = v. Proof. reflexivity. Qed.
Lemma column_set_line v c : column (set_line v c) = column c. Proof. reflexivity. Qed.
Lemma depth_set_line v c : depth (set_line v c) = depth c. Proof. reflexivity. Qed.
Lemma is_initialized_set_line v c : is_initialized (set_line v c) = is_initialized c. Proof. reflexivity. Qed.
Lemma json_set_line v c : json (set_line v c) = json c. Proof. reflexivity. Qed.
Lemma json_length_set_line v c : json_length (set_line v c) = json_length c. Proof. reflexivity. Qed.
Lemma encoding_set_line v c : encoding (set_line v c) = encoding c. Proof. reflexivity. Qed.
Lemma iterator_set_line v c : iterator (set_line v c) = iterator c. Proof. reflexivity. Qed.
Lemma bytes_iterated_set_line v c : bytes_iterated (set_line v c) = bytes_iterated c. Proof. reflexivity. Qed.
Lemma buffer_set_line v c : buffer (set_line v c) = buffer c. Proof. reflexivity. Qed.
Lemma buffer_length_set_line v c : buffer_length (set_line v c) = buffer_length c. Proof. reflexivity. Qed.
Lemma state_set_line v c : state (set_line v c) = state c. Proof. reflexivity. Qed.
Lemma escape_return_state_set_line v c : escape_return_state (set_line v c) = escape_return_state c. Proof. reflexivity. Qed.
Lemma error_return_state_set_line v c : error_return_state (set_line v c) = error_return_state c. Proof. reflexivity. Qed.
Lemma stack_set_line v c : stack (set_line v c) = stack c. Proof. reflexivity. Qed.
Lemma stream_set_line v c : stream (set_line v c) = stream c. Proof. reflexivity. Qed.
Lemma stream_length_set_line v c : stream_length (set_line v c) = stream_length c. Proof. reflexivity. Qed.
Lemma newline_character_set_line v c : newline_character (set_line v c) = newline_character c. Proof. reflexivity. Qed.
Lemma name_set_column v c : name (set_column v c) = name c. Proof. reflexivity. Qed.
Lemma string_value_set_column v c : string_value (set_column v c) = string_value c. Proof. reflexivity. Qed.
Lemma integer_value_set_column v c : integer_value (set_column v c) = integer_value c. Proof. reflexivity. Qed.
Lemma float_value_set_column v c : float_value (set_column v c) = float_value c. Proof. reflexivity. Qed.
Lemma bool_value_set_column v c : bool_value (set_column v c) = bool_value c. Proof. reflexivity. Qed.
Lemma value_type_set_column v c : value_type (set_column v c) = value_type c. Proof. reflexivity. Qed.
Lemma line_set_column v c : line (set_column v c) = line c. Proof. reflexivity. Qed.
Lemma column_set_column v c : column (set_column v c) = v. Proof. reflexivity. Qed.
Lemma depth_set_column v c : depth (set_column v c) = depth c. Proof. reflexivity. Qed.
Lemma is_initialized_set_column v c : is_initialized (set_column v c) = is_initialized c. Proof. reflexivity. Qed.
Lemma json_set_column v c : json (set_column v c) = json c. Proof. reflexivity. Qed.
Lemma json_length_set_column v c : json_length (set_column v c) = json_length c. Proof. reflexivity. Qed.
Lemma encoding_set_column v c : encoding (set_column v c) = encoding c. Proof. reflexivity. Qed.
Lemma iterator_set_column v c : iterator (set_column v c) = iterator c. Proof. reflexivity. Qed.
Lemma bytes_iterated_set_column v c : bytes_iterated (set_column v c) = bytes_iterated c. Proof. reflexivity. Qed.
Lemma buffer_set_column v c : buffer (set_column v c) = buffer c. Proof. reflexivity. Qed.
Lemma buffer_length_set_column v c : buffer_length (set_column v c) = buffer_length c. Proof. reflexivity. Qed.
Lemma state_set_column v c : state (set_column v c) = state c. Proof. reflexivity. Qed.
Lemma escape_return_state_set_column v c : escape_return_state (set_column v c) = escape_return_state c. Proof. reflexivity. Qed.
Lemma error_return_state_set_column v c : error_return_state (set_column v c) = error_return_state c. Proof. reflexivity. Qed.
Lemma stack_set_column v c : stack (set_column v c) = stack c. Proof. reflexivity. Qed.
Lemma stream_set_column v c : stream (set_column v c) = stream c. Proof. reflexivity. Qed.
Lemma stream_length_set_column v c : stream_length (set_column v c) = stream_length c. Proof. reflexivity. Qed.
Lemma newline_character_set_column v c : newline_character (set_column v c) = newline_character c. Proof. reflexivity. Qed.
Lemma name_set_depth v c : name (set_depth v c) = name c. Proof. reflexivity. Qed.
Lemma string_value_set_depth v c : string_value (set_depth v c) = string_value c. Proof. reflexivity. Qed.
Lemma integer_value_set_depth v c : integer_value (set_depth v c) = integer_value c. Proof. reflexivity. Qed.
Lemma float_value_set_depth v c : float_value (set_depth v c) = float_value c. Proof. reflexivity. Qed.
Lemma bool_value_set_depth v c : bool_value (set_depth v c) = bool_value c. Proof. reflexivity. Qed.
Lemma value_type_set_depth v c : value_type (set_depth v c) = value_type c. Proof. reflexivity. Qed.
Lemma line_set_depth v c : line (set_depth v c) = line c. Proof. reflexivity. Qed.
Lemma column_set_depth v c : column (set_depth v c) = column c. Proof. reflexivity. Qed.
Lemma depth_set_depth v c : depth (set_depth v c) = v. Proof. reflexivity. Qed.
Lemma is_initialized_set_depth v c : is_initialized (set_depth v c) = is_initialized c. Proof. reflexivity. Qed.
Lemma json_set_depth v c : json (set_depth v c) = json c. Proof. reflexivity. Qed.
Lemma json_length_set_depth v c : json_length (set_depth v c) = json_length c. Proof. reflexivity. Qed.
Lemma encoding_set_depth v c : encoding (set_depth v c) = encoding c. Proof. reflexivity. Qed.
Lemma iterator_set_depth v c : iterator (set_depth v c) = iterator c. Proof. reflexivity. Qed.
Lemma bytes_iterated_set_depth v c : bytes_iterated (set_depth v c) = bytes_iterated c. Proof. reflexivity. Qed.
Lemma buffer_set_depth v c : buffer (set_depth v c) = buffer c. Proof. reflexivity. Qed.
Lemma buffer_length_set_depth v c : buffer_length (set_depth v c) = buffer_length c. Proof. reflexivity. Qed.
Lemma state_set_depth v c : state (set_depth v c) = state c. Proof. reflexivity. Qed.
Lemma escape_return_state_set_depth v c : escape_return_state (set_depth v c) = escape_return_state c. Proof. reflexivity. Qed.
Lemma error_return_state_set_depth v c : error_return_state (set_depth v c) = error_return_state c. Proof. reflexivity. Qed.
Lemma stack_set_depth v c : stack (set_depth v c) = stack c. Proof. reflexivity. Qed.
Lemma stream_set_depth v c : stream (set_depth v c) = stream c. Proof. reflexivity. Qed.
Lemma stream_length_set_depth v c : stream_length (set_depth v c) = stream_length c. Proof. reflexivity. Qed.
Lemma newline_character_set_depth v c : newline_character (set_depth v c) = newline_character c. Proof. reflexivity. Qed.
Lemma name_set_json v c : name (set_json v c) = name c. Proof. reflexivity. Qed.
Lemma string_value_set_json v c : string_value (set_json v c) = string_value c. Proof. reflexivity. Qed.
Lemma integer_value_set_json v c : integer_value (set_json v c) = integer_value c. Proof. reflexivity. Qed.
Lemma float_value_set_json v c : float_value (set_json v c) = float_value c. Proof. reflexivity. Qed.
Lemma bool_value_set_json v c : bool_value (set_json v c) = bool_value c. Proof. reflexivity. Qed.
Lemma value_type_set_json v c : value_type (set_json v c) = value_type c. Proof. reflexivity. Qed.
Lemma line_set_json v c : line (set_json v c) = line c. Proof. reflexivity. Qed.
Lemma column_set_json v c : column (set_json v c) = column c. Proof. reflexivity. Qed.
Lemma depth_set_json v c : depth (set_json v c) = depth c. Proof. reflexivity. Qed.
Lemma is_initialized_set_json v c : is_initialized (set_json v c) = is_initialized c. Proof. reflexivity. Qed.
Lemma json_set_json v c : json (set_json v c) = v. Proof. reflexivity. Qed.
Lemma json_length_set_json v c : json_length (set_json v c) = json_length c. Proof. reflexivity. Qed.
Lemma encoding_set_json v c : encoding (set_json v c) = encoding c. Proof. reflexivity. Qed.
Lemma iterator_set_json v c : iterator (set_json v c) = iterator c. Proof. reflexivity. Qed.
Lemma bytes_iterated_set_json v c : bytes_iterated (set_json v c) = bytes_iterated c. Proof. reflexivity. Qed.
Lemma buffer_set_json v c : buffer (set_json v c) = buffer c. Proof. reflexivity. Qed.
Lemma buffer_length_set_json v c : buffer_length (set_json v c) = buffer_length c. Proof. reflexivity. Qed.
Lemma state_set_json v c : state (set_json v c) = state c. Proof. reflexivity. Qed.
Lemma escape_return_state_set_json v c : escape_return_state (set_json v c) = escape_return_state c. Proof. reflexivity. Qed.
Lemma error_return_state_set_json v c : error_return_state (set_json v c) = error_return_state c. Proof. reflexivity. Qed.
Lemma stack_set_json v c : stack (set_json v c) = stack c. Proof. reflexivity. Qed.
Lemma stream_set_json v c : stream (set_json v c) = stream c. Proof. reflexivity. Qed.
Lemma stream_length_set_json v c : stream_length (set_json v c) = stream_length c. Proof. reflexivity. Qed.
Lemma newline_character_set_json v c : newline_character (set_json v c) = newline_character c. Proof. reflexivity. Qed.
Lemma name_set_json_length v c : name (set_json_length v c) = name c. Proof. reflexivity. Qed.
Lemma string_value_set_json_length v c : string_value (set_json_length v c) = string_value c. Proof. reflexivity. Qed.
Lemma integer_value_set_json_length v c : integer_value (set_json_length v c) = integer_value c. Proof. reflexivity. Qed.
Lemma float_value_set_json_length v c : float_value (set_json_length v c) = float_value c. Proof. reflexivity. Qed.
Lemma bool_value_set_json_length v c : bool_value (set_json_length v c) = bool_value c. Proof. reflexivity. Qed.
Lemma value_type_set_json_length v c : value_type (set_json_length v c) = value_type c. Proof. reflexivity. Qed.
Lemma line_set_json_length v c : line (set_json_length v c) = line c. Proof. reflexivity. Qed.
Lemma column_set_json_length v c : column (set_json_length v c) = column c. Proof. reflexivity. Qed.
Lemma depth_set_json_length v c : depth (set_json_length v c) = depth c. Proof. reflexivity. Qed.
Lemma is_initialized_set_json_length v c : is_initialized (set_json_length v c) = is_initialized c. Proof. reflexivity. Qed.
Lemma json_set_json_length v c : json (set_json_length v c) = json c. Proof. reflexivity. Qed.
Lemma json_length_set_json_length v c : json_length (set_json_length v c) = v. Proof. reflexivity. Qed.
Lemma encoding_set_json_length v c : encoding (set_json_length v c) = encoding c. Proof. reflexivity. Qed.
Lemma iterator_set_json_length v c : iterator (set_json_length v c) = iterator c. Proof. reflexivity. Qed.
Lemma bytes_iterated_set_json_length v c : bytes_iterated (set_json_length v c) = bytes_iterated c. Proof. reflexivity. Qed.
Lemma buffer_set_json_length v c : buffer (set_json_length v c) = buffer c. Proof. reflexivity. Qed.
Lemma buffer_length_set_json_length v c : buffer_length (set_json_length v c) = buffer_length c. Proof. reflexivity. Qed.
Lemma state_set_json_length v c : state (set_json_length v c) = state c. Proof. reflexivity. Qed.
Lemma escape_return_state_set_json_length v c : escape_return_state (set_json_length v c) = escape_return_state c. Proof. reflexivity. Qed.
Lemma error_return_state_set_json_length v c : error_return_state (set_json_length v c) = error_return_state c. Proof. reflexivity. Qed.
Lemma stack_set_json_length v c : stack (set_json_length v c) = stack c. Proof. reflexivity. Qed.
Lemma stream_set_json_length v c : stream (set_json_length v c) = stream c. Proof. reflexivity. Qed.
Lemma stream_length_set_json_length v c : stream_length (set_json_length v c) = stream_length c. Proof. reflexivity. Qed.
Lemma newline_character_set_json_length v c : newline_character (set_json_length v c) = newline_character c. Proof. reflexivity. Qed.
Lemma name_set_encoding v c : name (set_encoding v c) = name c. Proof. reflexivity. Qed.
Lemma string_value_set_encoding v c : string_value (set_encoding v c) = string_value c. Proof. reflexivity. Qed.
Lemma integer_value_set_encoding v c : integer_value (set_encoding v c) = integer_value c. Proof. reflexivity. Qed.
Lemma float_value_set_encoding v c : float_value (set_encoding v c) = float_value c. Proof. reflexivity. Qed.
Lemma bool_value_set_encoding v c : bool_value (set_encoding v c) = bool_value c. Proof. reflexivity. Qed.
Lemma value_type_set_encoding v c : value_type (set_encoding v c) = value_type c. Proof. reflexivity. Qed.
Lemma line_set_encoding v c : line (set_encoding v c) = line c. Proof. reflexivity. Qed.
Lemma column_set_encoding v c : column (set_encoding v c) = column c. Proof. reflexivity. Qed.
Lemma depth_set_encoding v c : depth (set_encoding v c) = depth c. Proof. reflexivity. Qed.
Lemma is_initialized_set_encoding v c : is_initialized (set_encoding v c) = is_initialized c. Proof. reflexivity. Qed.
Lemma json_set_encoding v c : json (set_encoding v c) = json c. Proof. reflexivity. Qed.
Lemma json_length_set_encoding v c : json_length (set_encoding v c) = json_length c. Proof. reflexivity. Qed.
Lemma encoding_set_encoding v c : encoding (set_encoding v c) = v. Proof. reflexivity. Qed.
Lemma iterator_set_encoding v c : iterator (set_encoding v c) = iterator c. Proof. reflexivity. Qed.
Lemma bytes_iterated_set_encoding v c : bytes_iterated (set_encoding v c) = bytes_iterated c. Proof. reflexivity. Qed.
Lemma buffer_set_encoding v c : buffer (set_encoding v c) = buffer c. Proof. reflexivity. Qed.
Lemma buffer_length_set_encoding v c : buffer_length (set_encoding v c) = buffer_length c. Proof. reflexivity. Qed.
Lemma state_set_encoding v c : state (set_encoding v c) = state c. Proof. reflexivity. Qed.
Lemma escape_return_state_set_encoding v c : escape_return_state (set_encoding v c) = escape_return_state c. Proof. reflexivity. Qed.
Lemma error_return_state_set_encoding v c : error_return_state (set_encoding v c) = error_return_state c. Proof. reflexivity. Qed.
Lemma stack_set_encoding v c : stack (set_encoding v c) = stack c. Proof. reflexivity. Qed.
Lemma stream_set_encoding v c : stream (set_encoding v c) = stream c. Proof. reflexivity. Qed.
Lemma stream_length_set_encoding v c : stream_length (set_encoding v c) = stream_length c. Proof. reflexivity. Qed.
Lemma newline_character_set_encoding v c : newline_character (set_encoding v c) = newline_character c. Proof. reflexivity. Qed.
Lemma name_set_iterator v c : name (set_iterator v c) = name c. Proof. reflexivity. Qed.
Lemma string_value_set_iterator v c : string_value (set_iterator v c) = string_value c. Proof. reflexivity. Qed.
Lemma integer_value_set_iterator v c : integer_value (set_iterator v c) = integer_value c. Proof. reflexivity. Qed.
Lemma float_value_set_iterator v c : float_value (set_iterator v c) = float_value c. Proof. reflexivity. Qed.
Lemma bool_value_set_iterator v c : bool_value (set_iterator v c) = bool_value c. Proof. reflexivity. Qed.
Lemma value_type_set_iterator v c : value_type (set_iterator v c) = value_type c. Proof. reflexivity. Qed.
Lemma line_set_iterator v c : line (set_iterator v c) = line c. Proof. reflexivity. Qed.
Lemma column_set_iterator v c : column (set_iterator v c) = column c. Proof. reflexivity. Qed.
Lemma depth_set_iterator v c : depth (set_iterator v c) = depth c. Proof. reflexivity. Qed.
Lemma is_initialized_set_iterator v c : is_initialized (set_iterator v c) = is_initialized c. Proof. reflexivity. Qed.
Lemma json_set_iterator v c : json (set_iterator v c) = json c. Proof. reflexivity. Qed.
Lemma json_length_set_iterator v c : json_length (set_iterator v c) = json_length c. Proof. reflexivity. Qed.
Lemma encoding_set_iterator v c : encoding (set_iterator v c) = encoding c. Proof. reflexivity. Qed.
Lemma iterator_set_iterator v c : iterator (set_iterator v c) = v. Proof. reflexivity. Qed.
Lemma bytes_iterated_set_iterator v c : bytes_iterated (set_iterator v c) = bytes_iterated c. Proof. reflexivity. Qed.
Lemma buffer_set_iterator v c : buffer (set_iterator v c) = buffer c. Proof. reflexivity. Qed.
Lemma buffer_length_set_iterator v c : buffer_length (set_iterator v c) = buffer_length c. Proof. reflexivity. Qed.
Lemma state_set_iterator v c : state (set_iterator v c) = state c. Proof. reflexivity. Qed.
Lemma escape_return_state_set_iterator v c : escape_return_state (set_iterator v c) = escape_return_state c. Proof. reflexivity. Qed.
Lemma error_return_state_set_iterator v c : error_return_state (set_iterator v c) = error_return_state c. Proof. reflexivity. Qed.
Lemma stack_set_iterator v c : stack (set_iterator v c) = stack c. Proof. reflexivity. Qed.
Lemma stream_set_iterator v c : stream (set_iterator v c) = stream c. Proof. reflexivity. Qed.
Lemma stream_length_set_iterator v c : stream_length (set_iterator v c) = stream_length c. Proof. reflexivity. Qed.
Lemma newline_character_set_iterator v c : newline_character (set_iterator v c) = newline_character c. Proof. reflexivity. Qed.
Lemma name_set_bytes_iterated v c : name (set_bytes_iterated v c) = name c. Proof. reflexivity. Qed.
Lemma string_value_set_bytes_iterated v c : string_value (set_bytes_iterated v c) = string_value c. Proof. reflexivity. Qed.
Lemma integer_value_set_bytes_iterated v c : integer_value (set_bytes_iterated v c) = integer_value c. Proof. reflexivity. Qed.
Lemma float_value_set_bytes_iterated v c : float_value (set_bytes_iterated v c) = float_value c. Proof. reflexivity. Qed.
Lemma bool_value_set_bytes_iterated v c : bool_value (set_bytes_iterated v c) = bool_value c. Proof. reflexivity. Qed.
Lemma value_type_set_bytes_iterated v c : value_type (set_bytes_iterated v c) = value_type c. Proof. reflexivity. Qed.
Lemma line_set_bytes_iterated v c : line (set_bytes_iterated v c) = line c. Proof. reflexivity. Qed.
Lemma column_set_bytes_iterated v c : column (set_bytes_iterated v c) = column c. Proof. reflexivity. Qed.
Lemma depth_set_bytes_iterated v c : depth (set_bytes_iterated v c) = depth c. Proof. reflexivity. Qed.
Lemma is_initialized_set_bytes_iterated v c : is_initialized (set_bytes_iterated v c) = is_initialized c. Proof. reflexivity. Qed.
Lemma json_set_bytes_iterated v c : json (set_bytes_iterated v c) = json c. Proof. reflexivity. Qed.
Lemma json_length_set_bytes_iterated v c : json_length (set_bytes_iterated v c) = json_length c. Proof. reflexivity. Qed.
Lemma encoding_set_bytes_iterated v c : encoding (set_bytes_iterated v c) = encoding c. Proof. reflexivity. Qed.
Lemma iterator_set_bytes_iterated v c : iterator (set_bytes_iterated v c) = iterator c. Proof. reflexivity. Qed.
Lemma bytes_iterated_set_bytes_iterated v c : bytes_iterated (set_bytes_iterated v c) = v. Proof. reflexivity. Qed.
Lemma buffer_set_bytes_iterated v c : buffer (set_bytes_iterated v c) = buffer c. Proof. reflexivity. Qed.
Lemma buffer_length_set_bytes_iterated v c : buffer_length (set_bytes_iterated v c) = buffer_length c. Proof. reflexivity. Qed.
Lemma state_set_bytes_iterated v c : state (set_bytes_iterated v c) = state c. Proof. reflexivity. Qed.
Lemma escape_return_state_set_bytes_iterated v c : escape_return_state (set_bytes_iterated v c) = escape_return_state c. Proof. reflexivity. Qed.
Lemma error_return_state_set_bytes_iterated v c : error_return_state (set_bytes_iterated v c) = error_return_state c. Proof. reflexivity. Qed.
Lemma stack_set_bytes_iterated v c : stack (set_bytes_iterated v c) = stack c. Proof. reflexivity. Qed.
Lemma stream_set_bytes_iterated v c : stream (set_bytes_iterated v c) = stream c. Proof. reflexivity. Qed.
Lemma stream_length_set_bytes_iterated v c : stream_length (set_bytes_iterated v c) = stream_length c. Proof. reflexivity. Qed.
Lemma newline_character_set_bytes_iterated v c : newline_character (set_bytes_iterated v c) = newline_character c. Proof. reflexivity. Qed.
Lemma name_set_buffer v c : name (set_buffer v c) = name c. Proof. reflexivity. Qed.
Lemma string_value_set_buffer v c : string_value (set_buffer v c) = string_value c. Proof. reflexivity. Qed.
Lemma integer_value_set_buffer v c : integer_value (set_buffer v c) = integer_value c. Proof. reflexivity. Qed.
Lemma float_value_set_buffer v c : float_value (set_buffer v c) = float_value c. Proof. reflexivity. Qed.
Lemma bool_value_set_buffer v c : bool_value (set_buffer v c) = bool_value c. Proof. reflexivity. Qed.
Lemma value_type_set_buffer v c : value_type (set_buffer v c) = value_type c. Proof. reflexivity. Qed.
Lemma line_set_buffer v c : line (set_buffer v c) = line c. Proof. reflexivity. Qed.
Lemma column_set_buffer v c : column (set_buffer v c) = column c. Proof. reflexivity. Qed.
Lemma depth_set_buffer v c : depth (set_buffer v c) = depth c. Proof. reflexivity. Qed.
Lemma is_initialized_set_buffer v c : is_initialized (set_buffer v c) = is_initialized c. Proof. reflexivity. Qed.
Lemma json_set_buffer v c : json (set_buffer v c) = json c. Proof. reflexivity. Qed.
Lemma json_length_set_buffer v c : json_length (set_buffer v c) = json_length c. Proof. reflexivity. Qed.
Lemma encoding_set_buffer v c : encoding (set_buffer v c) = encoding c. Proof. reflexivity. Qed.
Lemma iterator_set_buffer v c : iterator (set_buffer v c) = iterator c. Proof. reflexivity. Qed.
Lemma bytes_iterated_set_buffer v c : bytes_iterated (set_buffer v c) = bytes_iterated c. Proof. reflexivity. Qed.
Lemma buffer_set_buffer v c : buffer (set_buffer v c) = v. Proof. reflexivity. Qed.
Lemma buffer_length_set_buffer v c : buffer_length (set_buffer v c) = buffer_length c. Proof. reflexivity. Qed.
Lemma state_set_buffer v c : state (set_buffer v c) = state c. Proof. reflexivity. Qed.
Lemma escape_return_state_set_buffer v c : escape_return_state (set_buffer v c) = escape_return_state c. Proof. reflexivity. Qed.
Lemma error_return_state_set_buffer v c : error_return_state (set_buffer v c) = error_return_state c. Proof. reflexivity. Qed.
Lemma stack_set_buffer v c : stack (set_buffer v c) = stack c. Proof. reflexivity. Qed.
Lemma stream_set_buffer v c : stream (set_buffer v c) = stream c. Proof. reflexivity. Qed.
Lemma stream_length_set_buffer v c : stream_length (set_buffer v c) = stream_length c. Proof. reflexivity. Qed.
Lemma newline_character_set_buffer v c : newline_character (set_buffer v c) = newline_character c. Proof. reflexivity. Qed.
Lemma name_set_buffer_length v c : name (set_buffer_length v c) = name c. Proof. reflexivity. Qed.
Lemma string_value_set_buffer_length v c : string_value (set_buffer_length v c) = string_value c. Proof. reflexivity. Qed.
Lemma integer_value_set_buffer_length v c : integer_value (set_buffer_length v c) = integer_value c. Proof. reflexivity. Qed.
Lemma float_value_set_buffer_length v c : float_value (set_buffer_length v c) = float_value c. Proof. reflexivity. Qed.
Lemma bool_value_set_buffer_length v c : bool_value (set_buffer_length v c) = bool_value c. Proof. reflexivity. Qed.
Lemma value_type_set_buffer_length v c : value_type (set_buffer_length v c) = value_type c. Proof. reflexivity. Qed.
Lemma line_set_buffer_length v c : line (set_buffer_length v c) = line c. Proof. reflexivity. Qed.
Lemma column_set_buffer_length v c : column (set_buffer_length v c) = column c. Proof. reflexivity. Qed.
Lemma depth_set_buffer_length v c : depth (set_buffer_length v c) = depth c. Proof. reflexivity. Qed.
Lemma is_initialized_set_buffer_length v c : is_initialized (set_buffer_length v c) = is_initialized c. Proof. reflexivity. Qed.
Lemma json_set_buffer_length v c : json (set_buffer_length v c) = json c. Proof. reflexivity. Qed.
Lemma json_length_set_buffer_length v c : json_length (set_buffer_length v c) = json_length c. Proof. reflexivity. Qed.
Lemma encoding_set_buffer_length v c : encoding (set_buffer_length v c) = encoding c. Proof. reflexivity. Qed.
Lemma iterator_set_buffer_length v c : iterator (set_buffer_length v c) = iterator c. Proof. reflexivity. Qed.
Lemma bytes_iterated_set_buffer_length v c : bytes_iterated (set_buffer_length v c) = bytes_iterated c. Proof. reflexivity. Qed.
Lemma buffer_set_buffer_length v c : buffer (set_buffer_length v c) = buffer c. Proof. reflexivity. Qed.
Lemma buffer_length_set_buffer_length v c : buffer_length (set_buffer_length v c) = v. Proof. reflexivity. Qed.
Lemma state_set_buffer_length v c : state (set_buffer_length v c) = state c. Proof. reflexivity. Qed.
Lemma escape_return_state_set_buffer_length v c : escape_return_state (set_buffer_length v c) = escape_return_state c. Proof. reflexivity. Qed.
Lemma error_return_state_set_buffer_length v c : error_return_state (set_buffer_length v c) = error_return_state c. Proof. reflexivity. Qed.
Lemma stack_set_buffer_length v c : stack (set_buffer_length v c) = stack c. Proof. reflexivity. Qed.
Lemma stream_set_buffer_length v c : stream (set_buffer_length v c) = stream c. Proof. reflexivity. Qed.
Lemma stream_length_set_buffer_length v c : stream_length (set_buffer_length v c) = stream_length c. Proof. reflexivity. Qed.
Lemma newline_character_set_buffer_length v c : newline_character (set_buffer_length v c) = newline_character c. Proof. reflexivity. Qed.
Lemma name_set_state v c : name (set_state v c) = name c. Proof. reflexivity. Qed.
Lemma string_value_set_state v c : string_value (set_state v c) = string_value c. Proof. reflexivity. Qed.
Lemma integer_value_set_state v c : integer_value (set_state v c) = integer_value c. Proof. reflexivity. Qed.
Lemma float_value_set_state v c : float_value (set_state v c) = float_value c. Proof. reflexivity. Qed.
Lemma bool_value_set_state v c : bool_value (set_state v c) = bool_value c. Proof. reflexivity. Qed.
Lemma value_type_set_state v c : value_type (set_state v c) = value_type c. Proof. reflexivity. Qed.
Lemma line_set_state v c : line (set_state v c) = line c. Proof. reflexivity. Qed.
Lemma column_set_state v c : column (set_state v c) = column c. Proof. reflexivity. Qed.
Lemma depth_set_state v c : depth (set_state v c) = depth c. Proof. reflexivity. Qed.
Lemma is_initialized_set_state v c : is_initialized (set_state v c) = is_initialized c. Proof. reflexivity. Qed.
Lemma json_set_state v c : json (set_state v c) = json c. Proof. reflexivity. Qed.
Lemma json_length_set_state v c : json_length (set_state v c) = json_length c. Proof. reflexivity. Qed.
Lemma encoding_set_state v c : encoding (set_state v c) = encoding c. Proof. reflexivity. Qed.
Lemma iterator_set_state v c : iterator (set_state v c) = iterator c. Proof. reflexivity. Qed.
Lemma bytes_iterated_set_state v c : bytes_iterated (set_state v c) = bytes_iterated c. Proof. reflexivity. Qed.
Lemma buffer_set_state v c : buffer (set_state v c) = buffer c. Proof. reflexivity. Qed.
Lemma buffer_length_set_state v c : buffer_length (set_state v c) = buffer_length c. Proof. reflexivity. Qed.
Lemma state_set_state v c : state (set_state v c) = v. Proof. reflexivity. Qed.
Lemma escape_return_state_set_state v c : escape_return_state (set_state v c) = escape_return_state c. Proof. reflexivity. Qed.
Lemma error_return_state_set_state v c : error_return_state (set_state v c) = error_return_state c. Proof. reflexivity. Qed.
Lemma stack_set_state v c : stack (set_state v c) = stack c. Proof. reflexivity. Qed.
Lemma stream_set_state v c : stream (set_state v c) = stream c. Proof. reflexivity. Qed.
Lemma stream_length_set_state v c : stream_length (set_state v c) = stream_length c. Proof. reflexivity. Qed.
Lemma newline_character_set_state v c : newline_character (set_state v c) = newline_character c. Proof. reflexivity. Qed.
Lemma name_set_escape_return_state v c : name (set_escape_return_state v c) = name c. Proof. reflexivity. Qed.
Lemma string_value_set_escape_return_state v c : string_value (set_escape_return_state v c) = string_value c. Proof. reflexivity. Qed.
Lemma integer_value_set_escape_return_state v c : integer_value (set_escape_return_state v c) = integer_value c. Proof. reflexivity. Qed.
Lemma float_value_set_escape_return_state v c : float_value (set_escape_return_state v c) = float_value c. Proof. reflexivity. Qed.
Lemma bool_value_set_escape_return_state v c : bool_value (set_escape_return_state v c) = bool_value c. Proof. reflexivity. Qed.
Lemma value_type_set_escape_return_state v c : value_type (set_escape_return_state v c) = value_type c. Proof. reflexivity. Qed.
Lemma line_set_escape_return_state v c : line (set_escape_return_state v c) = line c. Proof. reflexivity. Qed.
Lemma column_set_escape_return_state v c : column (set_escape_return_state v c) = column c. Proof. reflexivity. Qed.
Lemma depth_set_escape_return_state v c : depth (set_escape_return_state v c) = depth c. Proof. reflexivity. Qed.
Lemma is_initialized_set_escape_return_state v c : is_initialized (set_escape_return_state v c) = is_initialized c. Proof. reflexivity. Qed.
Lemma json_set_escape_return_state v c : json (set_escape_return_state v c) = json c. Proof. reflexivity. Qed.
Lemma json_length_set_escape_return_state v c : json_length (set_escape_return_state v c) = json_length c. Proof. reflexivity. Qed.
Lemma encoding_set_escape_return_state v c : encoding (set_escape_return_state v c) = encoding c. Proof. reflexivity. Qed.
Lemma iterator_set_escape_return_state v c : iterator (set_escape_return_state v c) = iterator c. Proof. reflexivity. Qed.
Lemma bytes_iterated_set_escape_return_state v c : bytes_iterated (set_escape_return_state v c) = bytes_iterated c. Proof. reflexivity. Qed.
Lemma buffer_set_escape_return_state v c : buffer (set_escape_return_state v c) = buffer c. Proof. reflexivity. Qed.
Lemma buffer_length_set_escape_return_state v c : buffer_length (set_escape_return_state v c) = buffer_length c. Proof. reflexivity. Qed.
Lemma state_set_escape_return_state v c : state (set_escape_return_state v c) = state c. Proof. reflexivity. Qed.
Lemma escape_return_state_set_escape_return_state v c : escape_return_state (set_escape_return_state v c) = v. Proof. reflexivity. Qed.
Lemma error_return_state_set_escape_return_state v c : error_return_state (set_escape_return_state v c) = error_return_state c. Proof. reflexivity. Qed.
Lemma stack_set_escape_return_state v c : stack (set_escape_return_state v c) = stack c. Proof. reflexivity. Qed.
Lemma stream_set_escape_return_state v c : stream (set_escape_return_state v c) = stream c. Proof. reflexivity. Qed.
Lemma stream_length_set_escape_return_state v c : stream_length (set_escape_return_state v c) = stream_length c. Proof. reflexivity. Qed.
Lemma newline_character_set_escape_return_state v c : newline_character (set_escape_return_state v c) = newline_character c. Proof. reflexivity. Qed.
Lemma name_set_error_return_state v c : name (set_error_return_state v c) = name c. Proof. reflexivity. Qed.
Lemma string_value_set_error_return_state v c : string_value (set_error_return_state v c) = string_value c. Proof. reflexivity. Qed.
Lemma integer_value_set_error_return_state v c : integer_value (set_error_return_state v c) = integer_value c. Proof. reflexivity. Qed.
Lemma float_value_set_error_return_state v c : float_value (set_error_return_state v c) = float_value c. Proof. reflexivity. Qed.
Lemma bool_value_set_error_return_state v c : bool_value (set_error_return_state v c) = bool_value c. Proof. reflexivity. Qed.
Lemma value_type_set_error_return_state v c : value_type (set_error_return_state v c) = value_type c. Proof. reflexivity. Qed.
Lemma line_set_error_return_state v c : line (set_error_return_state v c) = line c. Proof. reflexivity. Qed.
Lemma column_set_error_return_state v c : column (set_error_return_state v c) = column c. Proof. reflexivity. Qed.
Lemma depth_set_error_return_state v c : depth (set_error_return_state v c) = depth c. Proof. reflexivity. Qed.
Lemma is_initialized_set_error_return_state v c : is_initialized (set_error_return_state v c) = is_initialized c. Proof. reflexivity. Qed.
Lemma json_set_error_return_state v c : json (set_error_return_state v c) = json c. Proof. reflexivity. Qed.
Lemma json_length_set_error_return_state v c : json_length (set_error_return_state v c) = json_length c. Proof. reflexivity. Qed.
Lemma encoding_set_error_return_state v c : encoding (set_error_return_state v c) = encoding c. Proof. reflexivity. Qed.
Lemma iterator_set_error_return_state v c : iterator (set_error_return_state v c) = iterator c. Proof. reflexivity. Qed.
Lemma bytes_iterated_set_error_return_state v c : bytes_iterated (set_error_return_state v c) = bytes_iterated c. Proof. reflexivity. Qed.
Lemma buffer_set_error_return_state v c : buffer (set_error_return_state v c) = buffer c. Proof. reflexivity. Qed.
Lemma buffer_length_set_error_return_state v c : buffer_length (set_error_return_state v c) = buffer_length c. Proof. reflexivity. Qed.
Lemma state_set_error_return_state v c : state (set_error_return_state v c) = state c. Proof. reflexivity. Qed.
Lemma escape_return_state_set_error_return_state v c : escape_return_state (set_error_return_state v c) = escape_return_state c. Proof. reflexivity. Qed.
Lemma error_return_state_set_error_return_state v c : error_return_state (set_error_return_state v c) = v. Proof. reflexivity. Qed.
Lemma stack_set_error_return_state v c : stack (set_error_return_state v c) = stack c. Proof. reflexivity. Qed.
Lemma stream_set_error_return_state v c : stream (set_error_return_state v c) = stream c. Proof. reflexivity. Qed.
Lemma stream_length_set_error_return_state v c : stream_length (set_error_return_state v c) = stream_length c. Proof. reflexivity. Qed.
Lemma newline_character_set_error_return_state v c : newline_character (set_error_return_state v c) = newline_character c. Proof. reflexivity. Qed.
Lemma name_set_stack v c : name (set_stack v c) = name c. Proof. reflexivity. Qed.
Lemma string_value_set_stack v c : string_value (set_stack v c) = string_value c. Proof. reflexivity. Qed.
Lemma integer_value_set_stack v c : integer_value (set_stack v c) = integer_value c. Proof. reflexivity. Qed.
Lemma float_value_set_stack v c : float_value (set_stack v c) = float_value c. Proof. reflexivity. Qed.
Lemma bool_value_set_stack v c : bool_value (set_stack v c) = bool_value c. Proof. reflexivity. Qed.
Lemma value_type_set_stack v c : value_type (set_stack v c) = value_type c. Proof. reflexivity. Qed.
Lemma line_set_stack v c : line (set_stack v c) = line c. Proof. reflexivity. Qed.
Lemma column_set_stack v c : column (set_stack v c) = column c. Proof. reflexivity. Qed.
Lemma depth_set_stack v c : depth (set_stack v c) = depth c. Proof. reflexivity. Qed.
Lemma is_initialized_set_stack v c : is_initialized (set_stack v c) = is_initialized c. Proof. reflexivity. Qed.
Lemma json_set_stack v c : json (set_stack v c) = json c. Proof. reflexivity. Qed.
Lemma json_length_set_stack v c : json_length (set_stack v c) = json_length c. Proof. reflexivity. Qed.
Lemma encoding_set_stack v c : encoding (set_stack v c) = encoding c. Proof. reflexivity. Qed.
Lemma iterator_set_stack v c : iterator (set_stack v c) = iterator c. Proof. reflexivity. Qed.
Lemma bytes_iterated_set_stack v c : bytes_iterated (set_stack v c) = bytes_iterated c. Proof. reflexivity. Qed.
Lemma buffer_set_stack v c : buffer (set_stack v c) = buffer c. Proof. reflexivity. Qed.
Lemma buffer_length_set_stack v c : buffer_length (set_stack v c) = buffer_length c. Proof. reflexivity. Qed.
Lemma state_set_stack v c : state (set_stack v c) = state c. Proof. reflexivity. Qed.
Lemma escape_return_state_set_stack v c : escape_return_state (set_stack v c) = escape_return_state c. Proof. reflexivity. Qed.
Lemma error_return_state_set_stack v c : error_return_state (set_stack v c) = error_return_state c. Proof. reflexivity. Qed.
Lemma stack_set_stack v c : stack (set_stack v c) = v. Proof. reflexivity. Qed.
Lemma stream_set_stack v c : stream (set_stack v c) = stream c. Proof. reflexivity. Qed.
Lemma stream_length_set_stack v c : stream_length (set_stack v c) = stream_length c. Proof. reflexivity. Qed.
Lemma newline_character_set_stack v c : newline_character (set_stack v c) = newline_character c. Proof. reflexivity. Qed.
Lemma name_set_stream v c : name (set_stream v c) = name c. Proof. reflexivity. Qed.
Lemma string_value_set_stream v c : string_value (set_stream v c) = string_value c. Proof. reflexivity. Qed.
Lemma integer_value_set_stream v c : integer_value (set_stream v c) = integer_value c. Proof. reflexivity. Qed.
Lemma float_value_set_stream v c : float_value (set_stream v c) = float_value c. Proof. reflexivity. Qed.
Lemma bool_value_set_stream v c : bool_value (set_stream v c) = bool_value c. Proof. reflexivity. Qed.
Lemma value_type_set_stream v c : value_type (set_stream v c) = value_type c. Proof. reflexivity. Qed.
Lemma line_set_stream v c : line (set_stream v c) = line c. Proof. reflexivity. Qed.
Lemma column_set_stream v c : column (set_stream v c) = column c. Proof. reflexivity. Qed.
Lemma depth_set_stream v c : depth (set_stream v c) = depth c. Proof. reflexivity. Qed.
Lemma is_initialized_set_stream v c : is_initialized (set_stream v c) = is_initialized c. Proof. reflexivity. Qed.
Lemma json_set_stream v c : json (set_stream v c) = json c. Proof. reflexivity. Qed.
Lemma json_length_set_stream v c : json_length (set_stream v c) = json_length c. Proof. reflexivity. Qed.
Lemma encoding_set_stream v c : encoding (set_stream v c) = encoding c. Proof. reflexivity. Qed.
Lemma iterator_set_stream v c : iterator (set_stream v c) = iterator c. Proof. reflexivity. Qed.
Lemma bytes_iterated_set_stream v c : bytes_iterated (set_stream v c) = bytes_iterated c. Proof. reflexivity. Qed.
Lemma buffer_set_stream v c : buffer (set_stream v c) = buffer c. Proof. reflexivity. Qed.
Lemma buffer_length_set_stream v c : buffer_length (set_stream v c) = buffer_length c. Proof. reflexivity. Qed.
Lemma state_set_stream v c : state (set_stream v c) = state c. Proof. reflexivity. Qed.
Lemma escape_return_state_set_stream v c : escape_return_state (set_stream v c) = escape_return_state c. Proof. reflexivity. Qed.
Lemma error_return_state_set_stream v c : error_return_state (set_stream v c) = error_return_state c. Proof. reflexivity. Qed.
Lemma stack_set_stream v c : stack (set_stream v c) = stack c. Proof. reflexivity. Qed.
Lemma stream_set_stream v c : stream (set_stream v c) = v. Proof. reflexivity. Qed.
Lemma stream_length_set_stream v c : stream_length (set_stream v c) = stream_length c. Proof. reflexivity. Qed.
Lemma newline_character_set_stream v c : newline_character (set_stream v c) = newline_character c. Proof. reflexivity. Qed.
Lemma name_set_stream_length v c : name (set_stream_length v c) = name c. Proof. reflexivity. Qed.
Lemma string_value_set_stream_length v c : string_value (set_stream_length v c) = string_value c. Proof. reflexivity. Qed.
Lemma integer_value_set_stream_length v c : integer_value (set_stream_length v c) = integer_value c. Proof. reflexivity. Qed.
Lemma float_value_set_stream_length v c : float_value (set_stream_length v c) = float_value c. Proof. reflexivity. Qed.
Lemma bool_value_set_stream_length v c : bool_value (set_stream_length v c) = bool_value c. Proof. reflexivity. Qed.
Lemma value_type_set_stream_length v c : value_type (set_stream_length v c) = value_type c. Proof. reflexivity. Qed.
Lemma line_set_stream_length v c : line (set_stream_length v c) = line c. Proof. reflexivity. Qed.
Lemma column_set_stream_length v c : column (set_stream_length v c) = column c. Proof. reflexivity. Qed.
Lemma depth_set_stream_length v c : depth (set_stream_length v c) = depth c. Proof. reflexivity. Qed.
Lemma is_initialized_set_stream_length v c : is_initialized (set_stream_length v c) = is_initialized c. Proof. reflexivity. Qed.
Lemma json_set_stream_length v c : json (set_stream_length v c) = json c. Proof. reflexivity. Qed.
Lemma json_length_set_stream_length v c : json_length (set_stream_length v c) = json_length c. Proof. reflexivity. Qed.
Lemma encoding_set_stream_length v c : encoding (set_stream_length v c) = encoding c. Proof. reflexivity. Qed.
Lemma iterator_set_stream_length v c : iterator (set_stream_length v c) = iterator c. Proof. reflexivity. Qed.
Lemma bytes_iterated_set_stream_length v c : bytes_iterated (set_stream_length v c) = bytes_iterated c. Proof. reflexivity. Qed.
Lemma buffer_set_stream_length v c : buffer (set_stream_length v c) = buffer c. Proof. reflexivity. Qed.
Lemma buffer_length_set_stream_length v c : buffer_length (set_stream_length v c) = buffer_length c. Proof. reflexivity. Qed.
Lemma state_set_stream_length v c : state (set_stream_length v c) = state c. Proof. reflexivity. Qed.
Lemma escape_return_state_set_stream_length v c : escape_return_state (set_stream_length v c) = escape_return_state c. Proof. reflexivity. Qed.
Lemma error_return_state_set_stream_length v c : error_return_state (set_stream_length v c) = error_return_state c. Proof. reflexivity. Qed.
Lemma stack_set_stream_length v c : stack (set_stream_length v c) = stack c. Proof. reflexivity. Qed.
Lemma stream_set_stream_length v c : stream (set_stream_length v c) = stream c. Proof. reflexivity. Qed.
Lemma stream_length_set_stream_length v c : stream_length (set_stream_length v c) = v. Proof. reflexivity. Qed.
Lemma newline_character_set_stream_length v c : newline_character (set_stream_length v c) = newline_character c. Proof. reflexivity. Qed.
Lemma name_set_newline_character v c : name (set_newline_character v c) = name c. Proof. reflexivity. Qed.
Lemma string_value_set_newline_character v c : string_value (set_newline_character v c) = string_value c. Proof. reflexivity. Qed.
Lemma integer_value_set_newline_character v c : integer_value (set_newline_character v c) = integer_value c. Proof. reflexivity. Qed.
Lemma float_value_set_newline_character v c : float_value (set_newline_character v c) = float_value c. Proof. reflexivity. Qed.
Lemma bool_value_set_newline_character v c : bool_value (set_newline_character v c) = bool_value c. Proof. reflexivity. Qed.
Lemma value_type_set_newline_character v c : value_type (set_newline_character v c) = value_type c. Proof. reflexivity. Qed.
Lemma line_set_newline_character v c : line (set_newline_character v c) = line c. Proof. reflexivity. Qed.
Lemma column_set_newline_character v c : column (set_newline_character v c) = column c. Proof. reflexivity. Qed.
Lemma depth_set_newline_character v c : depth (set_newline_character v c) = depth c. Proof. reflexivity. Qed.
Lemma is_initialized_set_newline_character v c : is_initialized (set_newline_character v c) = is_initialized c. Proof. reflexivity. Qed.
Lemma json_set_newline_character v c : json (set_newline_character v c) = json c. Proof. reflexivity. Qed.
Lemma json_length_set_newline_character v c : json_length (set_newline_character v c) = json_length c. Proof. reflexivity. Qed.
Lemma encoding_set_newline_character v c : encoding (set_newline_character v c) = encoding c. Proof. reflexivity. Qed.
Lemma iterator_set_newline_character v c : iterator (set_newline_character v c) = iterator c. Proof. reflexivity. Qed.
Lemma bytes_iterated_set_newline_character v c : bytes_iterated (set_newline_character v c) = bytes_iterated c. Proof. reflexivity. Qed.
Lemma buffer_set_newline_character v c : buffer (set_newline_character v c) = buffer c. Proof. reflexivity. Qed.
Lemma buffer_length_set_newline_character v c : buffer_length (set_newline_character v c) = buffer_length c. Proof. reflexivity. Qed.
Lemma state_set_newline_character v c : state (set_newline_character v c) = state c. Proof. reflexivity. Qed.
Lemma escape_return_state_set_newline_character v c : escape_return_state (set_newline_character v c) = escape_return_state c. Proof. reflexivity. Qed.
Lemma error_return_state_set_newline_character v c : error_return_state (set_newline_character v c) = error_return_state c. Proof. reflexivity. Qed.
Lemma stack_set_newline_character v c : stack (set_newline_character v c) = stack c. Proof. reflexivity. Qed.
Lemma stream_set_newline_character v c : stream (set_newline_character v c) = stream c. Proof. reflexivity. Qed.
Lemma stream_length_set_newline_character v c : stream_length (set_newline_character v c) = stream_length c. Proof. reflexivity. Qed.
Lemma newline_character_set_newline_character v c : newline_character (set_newline_character v c) = v. Proof. reflexivity. Qed.

Create Rewrite HintDb ctx.
#[global] Hint Rewrite
  name_set_name string_value_set_name integer_value_set_name float_value_set_name
  bool_value_set_name value_type_set_name line_set_name column_set_name depth_set_name
  is_initialized_set_name json_set_name json_length_set_name encoding_set_name
  iterator_set_name bytes_iterated_set_name buffer_set_name buffer_length_set_name
  state_set_name escape_return_state_set_name error_return_state_set_name stack_set_name
  stream_set_name stream_length_set_name newline_character_set_name name_set_string_value
  string_value_set_string_value integer_value_set_string_value float_value_set_string_value
  bool_value_set_string_value value_type_set_string_value line_set_string_value
  column_set_string_value depth_set_string_value is_initialized_set_string_value
  json_set_string_value json_length_set_string_value encoding_set_string_value
  iterator_set_string_value bytes_iterated_set_string_value buffer_set_string_value
  buffer_length_set_string_value state_set_string_value
  escape_return_state_set_string_value error_return_state_set_string_value
  stack_set_string_value stream_set_string_value stream_length_set_string_value
  newline_character_set_string_value name_set_integer_value string_value_set_integer_value
  integer_value_set_integer_value float_value_set_integer_value
  bool_value_set_integer_value value_type_set_integer_value line_set_integer_value
  column_set_integer_value depth_set_integer_value is_initialized_set_integer_value
  json_set_integer_value json_length_set_integer_value encoding_set_integer_value
  iterator_set_integer_value bytes_iterated_set_integer_value buffer_set_integer_value
  buffer_length_set_integer_value state_set_integer_value
  escape_return_state_set_integer_value error_return_state_set_integer_value
  stack_set_integer_value stream_set_integer_value stream_length_set_integer_value
  newline_character_set_integer_value name_set_float_value string_value_set_float_value
  integer_value_set_float_value float_value_set_float_value bool_value_set_float_value
  value_type_set_float_value line_set_float_value column_set_float_value
  depth_set_float_value is_initialized_set_float_value json_set_float_value
  json_length_set_float_value encoding_set_float_value iterator_set_float_value
  bytes_iterated_set_float_value buffer_set_float_value buffer_length_set_float_value
  state_set_float_value escape_return_state_set_float_value
  error_return_state_set_float_value stack_set_float_value stream_set_float_value
  stream_length_set_float_value newline_character_set_float_value name_set_bool_value
  string_value_set_bool_value integer_value_set_bool_value float_value_set_bool_value
  bool_value_set_bool_value value_type_set_bool_value line_set_bool_value
  column_set_bool_value depth_set_bool_value is_initialized_set_bool_value
  json_set_bool_value json_length_set_bool_value encoding_set_bool_value
  iterator_set_bool_value bytes_iterated_set_bool_value buffer_set_bool_value
  buffer_length_set_bool_value state_set_bool_value escape_return_state_set_bool_value
  error_return_state_set_bool_value stack_set_bool_value stream_set_bool_value
  stream_length_set_bool_value newline_character_set_bool_value name_set_value_type
  string_value_set_value_type integer_value_set_value_type float_value_set_value_type
  bool_value_set_value_type value_type_set_value_type line_set_value_type
  column_set_value_type depth_set_value_type is_initialized_set_value_type
  json_set_value_type json_length_set_value_type encoding_set_value_type
  iterator_set_value_type bytes_iterated_set_value_type buffer_set_value_type
  buffer_length_set_value_type state_set_value_type escape_return_state_set_value_type
  error_return_state_set_value_type stack_set_value_type stream_set_value_type
  stream_length_set_value_type newline_character_set_value_type name_set_line
  string_value_set_line integer_value_set_line float_value_set_line bool_value_set_line
  value_type_set_line line_set_line column_set_line depth_set_line is_initialized_set_line
  json_set_line json_length_set_line encoding_set_line iterator_set_line
  bytes_iterated_set_line buffer_set_line buffer_length_set_line state_set_line
  escape_return_state_set_line error_return_state_set_line stack_set_line stream_set_line
  stream_length_set_line newline_character_set_line name_set_column string_value_set_column
  integer_value_set_column float_value_set_column bool_value_set_column
  value_type_set_column line_set_column column_set_column depth_set_column
  is_initialized_set_column json_set_column json_length_set_column encoding_set_column
  iterator_set_column bytes_iterated_set_column buffer_set_column buffer_length_set_column
  state_set_column escape_return_state_set_column error_return_state_set_column
  stack_set_column stream_set_column stream_length_set_column newline_character_set_column
  name_set_depth string_value_set_depth integer_value_set_depth float_value_set_depth
  bool_value_set_depth value_type_set_depth line_set_depth column_set_depth depth_set_depth
  is_initialized_set_depth json_set_depth json_length_set_depth encoding_set_depth
  iterator_set_depth bytes_iterated_set_depth buffer_set_depth buffer_length_set_depth
  state_set_depth escape_return_state_set_depth error_return_state_set_depth
  stack_set_depth stream_set_depth stream_length_set_depth newline_character_set_depth
  name_set_json string_value_set_json integer_value_set_json float_value_set_json
  bool_value_set_json value_type_set_json line_set_json column_set_json depth_set_json
  is_initialized_set_json json_set_json json_length_set_json encoding_set_json
  iterator_set_json bytes_iterated_set_json buffer_set_json buffer_length_set_json
  state_set_json escape_return_state_set_json error_return_state_set_json stack_set_json
  stream_set_json stream_length_set_json newline_character_set_json name_set_json_length
  string_value_set_json_length integer_value_set_json_length float_value_set_json_length
  bool_value_set_json_length value_type_set_json_length line_set_json_length
  column_set_json_length depth_set_json_length is_initialized_set_json_length
  json_set_json_length json_length_set_json_length encoding_set_json_length
  iterator_set_json_length bytes_iterated_set_json_length buffer_set_json_length
  buffer_length_set_json_length state_set_json_length escape_return_state_set_json_length
  error_return_state_set_json_length stack_set_json_length stream_set_json_length
  stream_length_set_json_length newline_character_set_json_length name_set_encoding
  string_value_set_encoding integer_value_set_encoding float_value_set_encoding
  bool_value_set_encoding value_type_set_encoding line_set_encoding column_set_encoding
  depth_set_encoding is_initialized_set_encoding json_set_encoding json_length_set_encoding
  encoding_set_encoding iterator_set_encoding bytes_iterated_set_encoding
  buffer_set_encoding buffer_length_set_encoding state_set_encoding
  escape_return_state_set_encoding error_return_state_set_encoding stack_set_encoding
  stream_set_encoding stream_length_set_encoding newline_character_set_encoding
  name_set_iterator string_value_set_iterator integer_value_set_iterator
  float_value_set_iterator bool_value_set_iterator value_type_set_iterator
  line_set_iterator column_set_iterator depth_set_iterator is_initialized_set_iterator
  json_set_iterator json_length_set_iterator encoding_set_iterator iterator_set_iterator
  bytes_iterated_set_iterator buffer_set_iterator buffer_length_set_iterator
  state_set_iterator escape_return_state_set_iterator error_return_state_set_iterator
  stack_set_iterator stream_set_iterator stream_length_set_iterator
  newline_character_set_iterator name_set_bytes_iterated string_value_set_bytes_iterated
  integer_value_set_bytes_iterated float_value_set_bytes_iterated
  bool_value_set_bytes_iterated value_type_set_bytes_iterated line_set_bytes_iterated
  column_set_bytes_iterated depth_set_bytes_iterated is_initialized_set_bytes_iterated
  json_set_bytes_iterated json_length_set_bytes_iterated encoding_set_bytes_iterated
  iterator_set_bytes_iterated bytes_iterated_set_bytes_iterated buffer_set_bytes_iterated
  buffer_length_set_bytes_iterated state_set_bytes_iterated
  escape_return_state_set_bytes_iterated error_return_state_set_bytes_iterated
  stack_set_bytes_iterated stream_set_bytes_iterated stream_length_set_bytes_iterated
  newline_character_set_bytes_iterated name_set_buffer string_value_set_buffer
  integer_value_set_buffer float_value_set_buffer bool_value_set_buffer
  value_type_set_buffer line_set_buffer column_set_buffer depth_set_buffer
  is_initialized_set_buffer json_set_buffer json_length_set_buffer encoding_set_buffer
  iterator_set_buffer bytes_iterated_set_buffer buffer_set_buffer buffer_length_set_buffer
  state_set_buffer escape_return_state_set_buffer error_return_state_set_buffer
  stack_set_buffer stream_set_buffer stream_length_set_buffer newline_character_set_buffer
  name_set_buffer_length string_value_set_buffer_length integer_value_set_buffer_length
  float_value_set_buffer_length bool_value_set_buffer_length value_type_set_buffer_length
  line_set_buffer_length column_set_buffer_length depth_set_buffer_length
  is_initialized_set_buffer_length json_set_buffer_length json_length_set_buffer_length
  encoding_set_buffer_length iterator_set_buffer_length bytes_iterated_set_buffer_length
  buffer_set_buffer_length buffer_length_set_buffer_length state_set_buffer_length
  escape_return_state_set_buffer_length error_return_state_set_buffer_length
  stack_set_buffer_length stream_set_buffer_length stream_length_set_buffer_length
  newline_character_set_buffer_length name_set_state string_value_set_state
  integer_value_set_state float_value_set_state bool_value_set_state value_type_set_state
  line_set_state column_set_state depth_set_state is_initialized_set_state json_set_state
  json_length_set_state encoding_set_state iterator_set_state bytes_iterated_set_state
  buffer_set_state buffer_length_set_state state_set_state escape_return_state_set_state
  error_return_state_set_state stack_set_state stream_set_state stream_length_set_state
  newline_character_set_state name_set_escape_return_state
  string_value_set_escape_return_state integer_value_set_escape_return_state
  float_value_set_escape_return_state bool_value_set_escape_return_state
  value_type_set_escape_return_state line_set_escape_return_state
  column_set_escape_return_state depth_set_escape_return_state
  is_initialized_set_escape_return_state json_set_escape_return_state
  json_length_set_escape_return_state encoding_set_escape_return_state
  iterator_set_escape_return_state bytes_iterated_set_escape_return_state
  buffer_set_escape_return_state buffer_length_set_escape_return_state
  state_set_escape_return_state escape_return_state_set_escape_return_state
  error_return_state_set_escape_return_state stack_set_escape_return_state
  stream_set_escape_return_state stream_length_set_escape_return_state
  newline_character_set_escape_return_state name_set_error_return_state
  string_value_set_error_return_state integer_value_set_error_return_state
  float_value_set_error_return_state bool_value_set_error_return_state
  value_type_set_error_return_state line_set_error_return_state
  column_set_error_return_state depth_set_error_return_state
  is_initialized_set_error_return_state json_set_error_return_state
  json_length_set_error_return_state encoding_set_error_return_state
  iterator_set_error_return_state bytes_iterated_set_error_return_state
  buffer_set_error_return_state buffer_length_set_error_return_state
  state_set_error_return_state escape_return_state_set_error_return_state
  error_return_state_set_error_return_state stack_set_error_return_state
  stream_set_error_return_state stream_length_set_error_return_state
  newline_character_set_error_return_state name_set_stack string_value_set_stack
  integer_value_set_stack float_value_set_stack bool_value_set_stack value_type_set_stack
  line_set_stack column_set_stack depth_set_stack is_initialized_set_stack json_set_stack
  json_length_set_stack encoding_set_stack iterator_set_stack bytes_iterated_set_stack
  buffer_set_stack buffer_length_set_stack state_set_stack escape_return_state_set_stack
  error_return_state_set_stack stack_set_stack stream_set_stack stream_length_set_stack
  newline_character_set_stack name_set_stream string_value_set_stream
  integer_value_set_stream float_value_set_stream bool_value_set_stream
  value_type_set_stream line_set_stream column_set_stream depth_set_stream
  is_initialized_set_stream json_set_stream json_length_set_stream encoding_set_stream
  iterator_set_stream bytes_iterated_set_stream buffer_set_stream buffer_length_set_stream
  state_set_stream escape_return_state_set_stream error_return_state_set_stream
  stack_set_stream stream_set_stream stream_length_set_stream newline_character_set_stream
  name_set_stream_length string_value_set_stream_length integer_value_set_stream_length
  float_value_set_stream_length bool_value_set_stream_length value_type_set_stream_length
  line_set_stream_length column_set_stream_length depth_set_stream_length
  is_initialized_set_stream_length json_set_stream_length json_length_set_stream_length
  encoding_set_stream_length iterator_set_stream_length bytes_iterated_set_stream_length
  buffer_set_stream_length buffer_length_set_stream_length state_set_stream_length
  escape_return_state_set_stream_length error_return_state_set_stream_length
  stack_set_stream_length stream_set_stream_length stream_length_set_stream_length
  newline_character_set_stream_length name_set_newline_character
  string_value_set_newline_character integer_value_set_newline_character
  float_value_set_newline_character bool_value_set_newline_character
  value_type_set_newline_character line_set_newline_character column_set_newline_character
  depth_set_newline_character is_initialized_set_newline_character
  json_set_newline_character json_length_set_newline_character
  encoding_set_newline_character iterator_set_newline_character
  bytes_iterated_set_newline_character buffer_set_newline_character
  buffer_length_set_newline_character state_set_newline_character
  escape_return_state_set_newline_character error_return_state_set_newline_character
  stack_set_newline_character stream_set_newline_character
  stream_length_set_newline_character newline_character_set_newline_character
  : ctx.

(** The equations for the fields the invariants of the stack read. *)
Create Rewrite HintDb inv.
#[global] Hint Rewrite
  stack_set_name stack_set_string_value stack_set_integer_value stack_set_float_value
  stack_set_bool_value stack_set_value_type stack_set_line stack_set_column stack_set_depth
  stack_set_json stack_set_json_length stack_set_encoding stack_set_iterator
  stack_set_bytes_iterated stack_set_buffer stack_set_buffer_length stack_set_state
  stack_set_escape_return_state stack_set_error_return_state stack_set_stack
  stack_set_stream stack_set_stream_length stack_set_newline_character depth_set_name
  depth_set_string_value depth_set_integer_value depth_set_float_value depth_set_bool_value
  depth_set_value_type depth_set_line depth_set_column depth_set_depth depth_set_json
  depth_set_json_length depth_set_encoding depth_set_iterator depth_set_bytes_iterated
  depth_set_buffer depth_set_buffer_length depth_set_state depth_set_escape_return_state
  depth_set_error_return_state depth_set_stack depth_set_stream depth_set_stream_length
  depth_set_newline_character buffer_set_name buffer_set_string_value
  buffer_set_integer_value buffer_set_float_value buffer_set_bool_value
  buffer_set_value_type buffer_set_line buffer_set_column buffer_set_depth buffer_set_json
  buffer_set_json_length buffer_set_encoding buffer_set_iterator buffer_set_bytes_iterated
  buffer_set_buffer buffer_set_buffer_length buffer_set_state
  buffer_set_escape_return_state buffer_set_error_return_state buffer_set_stack
  buffer_set_stream buffer_set_stream_length buffer_set_newline_character
  buffer_length_set_name buffer_length_set_string_value buffer_length_set_integer_value
  buffer_length_set_float_value buffer_length_set_bool_value buffer_length_set_value_type
  buffer_length_set_line buffer_length_set_column buffer_length_set_depth
  buffer_length_set_json buffer_length_set_json_length buffer_length_set_encoding
  buffer_length_set_iterator buffer_length_set_bytes_iterated buffer_length_set_buffer
  buffer_length_set_buffer_length buffer_length_set_state
  buffer_length_set_escape_return_state buffer_length_set_error_return_state
  buffer_length_set_stack buffer_length_set_stream buffer_length_set_stream_length
  buffer_length_set_newline_character error_return_state_set_name
  error_return_state_set_string_value error_return_state_set_integer_value
  error_return_state_set_float_value error_return_state_set_bool_value
  error_return_state_set_value_type error_return_state_set_line
  error_return_state_set_column error_return_state_set_depth error_return_state_set_json
  error_return_state_set_json_length error_return_state_set_encoding
  error_return_state_set_iterator error_return_state_set_bytes_iterated
  error_return_state_set_buffer error_return_state_set_buffer_length
  error_return_state_set_state error_return_state_set_escape_return_state
  error_return_state_set_error_return_state error_return_state_set_stack
  error_return_state_set_stream error_return_state_set_stream_length
  error_return_state_set_newline_character escape_return_state_set_name
  escape_return_state_set_string_value escape_return_state_set_integer_value
  escape_return_state_set_float_value escape_return_state_set_bool_value
  escape_return_state_set_value_type escape_return_state_set_line
  escape_return_state_set_column escape_return_state_set_depth escape_return_state_set_json
  escape_return_state_set_json_length escape_return_state_set_encoding
  escape_return_state_set_iterator escape_return_state_set_bytes_iterated
  escape_return_state_set_buffer escape_return_state_set_buffer_length
  escape_return_state_set_state escape_return_state_set_escape_return_state
  escape_return_state_set_error_return_state escape_return_state_set_stack
  escape_return_state_set_stream escape_return_state_set_stream_length
  escape_return_state_set_newline_character is_initialized_set_name
  is_initialized_set_string_value is_initialized_set_integer_value
  is_initialized_set_float_value is_initialized_set_bool_value
  is_initialized_set_value_type is_initialized_set_line is_initialized_set_column
  is_initialized_set_depth is_initialized_set_json is_initialized_set_json_length
  is_initialized_set_encoding is_initialized_set_iterator is_initialized_set_bytes_iterated
  is_initialized_set_buffer is_initialized_set_buffer_length is_initialized_set_state
  is_initialized_set_escape_return_state is_initialized_set_error_return_state
  is_initialized_set_stack is_initialized_set_stream is_initialized_set_stream_length
  is_initialized_set_newline_character state_set_name state_set_string_value
  state_set_integer_value state_set_float_value state_set_bool_value state_set_value_type
  state_set_line state_set_column state_set_depth state_set_json state_set_json_length
  state_set_encoding state_set_iterator state_set_bytes_iterated state_set_buffer
  state_set_buffer_length state_set_state state_set_escape_return_state
  state_set_error_return_state state_set_stack state_set_stream state_set_stream_length
  state_set_newline_character
  : inv.

Ltac inv_simpl := autorewrite with inv.
Tactic Notation "inv_simpl" "in" hyp(H) := autorewrite with inv in H.

Ltac ctx_simpl := autorewrite with ctx.
Tactic Notation "ctx_simpl" "in" hyp(H) := autorewrite with ctx in H.

Ltac split_ifs :=
  repeat match goal with
         | |- context [if ?b then _ else _] => destruct b
         end.

(** ** The encoder and the decoder *)

(** C2 (as the code behaves): U+10400 is a Unicode scalar value outside the
    surrogates, yet in UTF-16BE the encoder writes the bytes D8 00 DC 00 for it,
    which the decoder reads back as U+10000, whether [char] is signed or not. *)
Theorem encode_decode_utf16_U10400 :
  forall char_signed,
    let c := hojson_encode_character 0x10400 HOJSON_ENCODING_UTF_16_BE in
    bytes c = 4
    /\ map (byte_of (raw c)) [0; 1; 2; 3] = [0xD8; 0x00; 0xDC; 0x00]
    /\ value (hojson_decode_character char_signed (byte_of (raw c)) (bytes c)
                HOJSON_ENCODING_UTF_16_BE) = 0x10000.
Proof. intros []; vm_compute; repeat split; reflexivity. Qed.

(** ** Whole runs *)

(** C3 (as the code behaves): the document holding the escapes for U+0041 and U+00E9
    yields the name "a" and then a string value named "a", but the bytes of the
    string are 41 C3 E9, not 41 C3 A9. *)
Theorem escapes_string_bytes :
  forall char_signed,
    map summary (run char_signed doc_escapes (whole doc_escapes)) =
      [ (HOJSON_OBJECT_BEGIN, None, HOJSON_TYPE_NONE, None, 0, 0);
        (HOJSON_NAME, Some [chr_a], HOJSON_TYPE_NONE, None, 0, 0);
        (HOJSON_VALUE, Some [chr_a], HOJSON_TYPE_STRING, Some [0x41; 0xC3; 0xE9], 0, 0);
        (HOJSON_OBJECT_END, None, HOJSON_TYPE_NONE, None, 0, 0);
        (HOJSON_END_OF_DOCUMENT, None, HOJSON_TYPE_NONE, None, 0, 0) ].
Proof. intros []; vm_compute; reflexivity. Qed.

(** C5 (as the code behaves): a closing brace that follows the colon of an
    object, with no value, ends the object with OBJECT_END and the document
    is accepted. *)
Theorem value_expected_brace_ends_object :
  forall char_signed,
    map ev_code (run char_signed doc_no_value (whole doc_no_value)) =
      [ HOJSON_OBJECT_BEGIN; HOJSON_NAME; HOJSON_OBJECT_END; HOJSON_END_OF_DOCUMENT ].
Proof. intros []; vm_compute; reflexivity. Qed.

(** C1 (as the code behaves): the document of [doc_euro] fed as one slice
    yields its four events; fed as the slices of 6, 2 and 2 bytes, which cut
    the three-byte character after its first byte, it yields the first
    event only: all later calls report the end of the input. *)
Theorem split_character_lost :
  forall char_signed,
    map summary (events (run char_signed doc_euro (whole doc_euro))) =
      [ (HOJSON_ARRAY_BEGIN, None, HOJSON_TYPE_NONE, None, 0, 0);
        (HOJSON_VALUE, None, HOJSON_TYPE_STRING, Some [0xE2; 0x82; 0xAC], 0, 0);
        (HOJSON_ARRAY_END, None, HOJSON_TYPE_NONE, None, 0, 0);
        (HOJSON_END_OF_DOCUMENT, None, HOJSON_TYPE_NONE, None, 0, 0) ]
    /\ map ev_code (run char_signed doc_euro [6; 2; 2]) =
      [ HOJSON_ARRAY_BEGIN; HOJSON_ERROR_UNEXPECTED_EOF;
        HOJSON_ERROR_UNEXPECTED_EOF; HOJSON_ERROR_UNEXPECTED_EOF ].
Proof. intros []; vm_compute; split; reflexivity. Qed.

(** ** The first test of [hojson_parse] *)

(** C9: with a NULL context, an uninitialized context, a NULL input or a
    length of zero, [hojson_parse] returns INVALID_INPUT and neither the
    context nor the memory changes. *)
Theorem parse_invalid_input :
  forall char_signed context m input input_length,
    context = None
    \/ (exists c, context = Some c /\ is_initialized c = 0)
    \/ input = 0
    \/ input_length = 0 ->
    hojson_parse char_signed context m input input_length
      = Some (HOJSON_ERROR_INVALID_INPUT, context, m).
Proof.
  intros sg context m input len H.
  destruct context as [c|]; [|reflexivity].
  unfold hojson_parse.
  destruct H as [H | [[c' [Hc Hi]] | [H | H]]].
  - discriminate.
  - injection Hc as <-. rewrite Hi. reflexivity.
  - subst input. simpl. rewrite orb_true_r. reflexivity.
  - subst len. simpl. rewrite !orb_true_r. reflexivity.
Qed.

Lemma parse_invalid_input_witness :
  hojson_parse true (Some (fst (initial doc_escapes))) (snd (initial doc_escapes))
               input_address 0
    = Some (HOJSON_ERROR_INVALID_INPUT, Some (fst (initial doc_escapes)),
            snd (initial doc_escapes)).
Proof.
  apply (parse_invalid_input true (Some (fst (initial doc_escapes)))
           (snd (initial doc_escapes)) input_address 0).
  right; right; right; reflexivity.
Defined.

(** ** One pass of the loop *)

Lemma parse_iteration_unfold char_signed c m :
  parse_iteration char_signed c m =
    if (state_num (state c) >=? state_num HOJSON_STATE_NAME_EXPECTED) && (stack c =? 0) then
      Return HOJSON_ERROR_INTERNAL (set_state HOJSON_STATE_ERROR_INTERNAL c) m
    else
      let ch := next_character char_signed c m in
      if (value ch =? 0) || (value ch =? UINT32_MAX) then
        Return HOJSON_ERROR_UNEXPECTED_EOF
          (set_state HOJSON_STATE_ERROR_UNEXPECTED_EOF
             (set_error_return_state (state c)
                (set_stream_length (fst (next_stream c m))
                   (set_stream (snd (next_stream c m)) c)))) m
      else parse_character (consume (set_stream (snd (next_stream c m)) c) ch) m ch.
Proof.
  unfold parse_iteration, next_character, next_stream.
  destruct (load_stream c m (iterator c) _) as [btc st]. reflexivity.
Qed.

Lemma consume_state c ch : state (consume c ch) = state c.
Proof. unfold consume; split_ifs; ctx_simpl; reflexivity. Qed.
Lemma consume_stack c ch : stack (consume c ch) = stack c.
Proof. unfold consume; split_ifs; ctx_simpl; reflexivity. Qed.
Lemma consume_depth c ch : depth (consume c ch) = depth c.
Proof. unfold consume; split_ifs; ctx_simpl; reflexivity. Qed.
Lemma consume_buffer c ch : buffer (consume c ch) = buffer c.
Proof. unfold consume; split_ifs; ctx_simpl; reflexivity. Qed.
Lemma consume_buffer_length c ch : buffer_length (consume c ch) = buffer_length c.
Proof. unfold consume; split_ifs; ctx_simpl; reflexivity. Qed.
Lemma consume_error_return_state c ch :
  error_return_state (consume c ch) = error_return_state c.
Proof. unfold consume; split_ifs; ctx_simpl; reflexivity. Qed.
Lemma consume_escape_return_state c ch :
  escape_return_state (consume c ch) = escape_return_state c.
Proof. unfold consume; split_ifs; ctx_simpl; reflexivity. Qed.
Lemma consume_is_initialized c ch : is_initialized (consume c ch) = is_initialized c.
Proof. unfold consume; split_ifs; ctx_simpl; reflexivity. Qed.
Lemma consume_string_value c ch : string_value (consume c ch) = string_value c.
Proof. unfold consume; split_ifs; ctx_simpl; reflexivity. Qed.
Lemma consume_iterator c ch :
  iterator (consume c ch) = u64 (iterator c + u64 (bytes ch - stream_length c)).
Proof. unfold consume; split_ifs; ctx_simpl; reflexivity. Qed.
Lemma consume_bytes_iterated c ch :
  bytes_iterated (consume c ch) = u64 (bytes ch - stream_length c).
Proof. unfold consume; split_ifs; ctx_simpl; reflexivity. Qed.

#[global] Hint Rewrite consume_state consume_stack consume_depth consume_buffer
  consume_buffer_length consume_error_return_state consume_escape_return_state
  consume_is_initialized : inv.

Lemma number_terminator_cases v :
  number_terminator v = true ->
  v = 32 \/ v = 9 \/ v = 10 \/ v = 13 \/ v = 44 \/ v = 93 \/ v = 125.
Proof.
  unfold number_terminator, HOJSON_IS_WHITESPACE, HOJSON_IS_NEW_LINE.
  rewrite !orb_true_iff, !Z.eqb_eq. tauto.
Qed.

Lemma u64_stay it b : 0 <= it < 2 ^ 64 -> u64 (u64 (it + b) - b) = it.
Proof.
  intros H. unfold u64. change 18446744073709551616 with (2 ^ 64).
  rewrite Zminus_mod_idemp_l. replace (it + b - b) with it by lia.
  apply Z.mod_small; lia.
Qed.

(** The end of a number, as the switch on the state handles it. *)
Lemma parse_character_number_end c m ch :
  state c = HOJSON_STATE_NUMBER_VALUE ->
  number_terminator (value ch) = true ->
  parse_character c m ch =
    let top := stack c in
    let text := c_string (Z.to_nat (buffer_length c)) m (string_value c) in
    let c1 :=
      if has_flag m top HOJSON_FLAG_DECIMAL || has_flag m top HOJSON_FLAG_EXPONENT then
        if negb (string_value c =? 0)
        then set_float_value (atof text) (set_value_type HOJSON_TYPE_FLOAT c)
        else set_value_type HOJSON_TYPE_FLOAT c
      else
        if negb (string_value c =? 0)
        then set_integer_value (atoi text) (set_value_type HOJSON_TYPE_INTEGER c)
        else set_value_type HOJSON_TYPE_INTEGER c in
    let c2 := set_state HOJSON_STATE_POST_VALUE (set_string_value 0 c1) in
    Return HOJSON_VALUE
      (if negb (HOJSON_IS_WHITESPACE (value ch)) then hojson_stay c2 else c2)
      (or_flag m top HOJSON_FLAG_POST_VALUE_CLEAN_UP).
Proof.
  intros Hst Hterm. unfold parse_character. rewrite Hst.
  assert (Hv := number_terminator_cases _ Hterm).
  assert (Hnum : HOJSON_IS_NUMERIC (value ch) = false).
  { unfold HOJSON_IS_NUMERIC.
    destruct Hv as [H|[H|[H|[H|[H|[H|H]]]]]]; rewrite H; reflexivity. }
  rewrite Hnum.
  assert (Hrest : (value ch =? 46) = false /\ (value ch =? 101) || (value ch =? 69) = false
                  /\ (value ch =? 45) || (value ch =? 43) = false).
  { destruct Hv as [H|[H|[H|[H|[H|[H|H]]]]]]; rewrite H; repeat split; reflexivity. }
  destruct Hrest as (-> & -> & ->).
  change (HOJSON_IS_WHITESPACE (value ch) || (value ch =? 44) || (value ch =? 93)
          || (value ch =? 125)) with (number_terminator (value ch)).
  rewrite Hterm. reflexivity.
Qed.


(** A decoded character of value 0 is the end of the input.  In the
    loop the call returns UNEXPECTED_EOF with the state it was in recorded
    in [error_return_state], nothing is appended (the memory is unchanged) and
    the iterator stays, whatever number of bytes is left in the slice.  In
    the recovery from UNEXPECTED_EOF a first character of value 0 gives
    UNEXPECTED_EOF again and changes nothing. *)
Theorem nul_character_is_end_of_input :
  forall char_signed c m,
    (in_loop (state c) = true ->
     (state_num (state c) >=? state_num HOJSON_STATE_NAME_EXPECTED) && (stack c =? 0) = false ->
     value (next_character char_signed c m) = 0 ->
     forall fuel,
       parse_loop char_signed (S fuel) c m
         = Some (HOJSON_ERROR_UNEXPECTED_EOF,
                 c |> set_stream (snd (next_stream c m))
                   |> set_stream_length (fst (next_stream c m))
                   |> set_error_return_state (state c)
                   |> set_state HOJSON_STATE_ERROR_UNEXPECTED_EOF,
                 m))
    /\ (state c = HOJSON_STATE_ERROR_UNEXPECTED_EOF ->
        forall input input_length,
          value (first_character char_signed c m input input_length) = 0 ->
          parse_resume char_signed c m input input_length
            = Return HOJSON_ERROR_UNEXPECTED_EOF c m).
Proof.
  intros sg c m. split.
  - intros Hloop Hint Hv fuel.
    cbn [parse_loop]. unfold in_loop in Hloop. rewrite Hloop.
    rewrite parse_iteration_unfold, Hint. cbv zeta. rewrite Hv. reflexivity.
  - intros Hst input len Hv.
    unfold parse_resume. rewrite Hst.
    unfold first_character in Hv.
    destruct (load_stream c m input len) as [btc st]. cbn [snd] in Hv.
    rewrite Hv. reflexivity.
Qed.

Lemma nul_character_is_end_of_input_witness :
  (let c := fst at_nul in
   let m := snd at_nul in
   parse_loop true 1 c m
     = Some (HOJSON_ERROR_UNEXPECTED_EOF,
             c |> set_stream (snd (next_stream c m))
               |> set_stream_length (fst (next_stream c m))
               |> set_error_return_state (state c)
               |> set_state HOJSON_STATE_ERROR_UNEXPECTED_EOF,
             m))
  /\ (let c := fst after_nul in
      let m := snd after_nul in
      parse_resume true c m (input_address + 3) 4 = Return HOJSON_ERROR_UNEXPECTED_EOF c m).
Proof.
  split.
  - apply (proj1 (nul_character_is_end_of_input true (fst at_nul) (snd at_nul))).
    + vm_compute. reflexivity.
    + vm_compute. reflexivity.
    + vm_compute. reflexivity.
  - apply (proj2 (nul_character_is_end_of_input true (fst after_nul) (snd after_nul))).
    + vm_compute. reflexivity.
    + vm_compute. reflexivity.
Defined.

(** ** Memory *)

Lemma load8_range m a : 0 <= load8 m a < 256.
Proof. unfold load8, u8. apply Z.mod_pos_bound. lia. Qed.

Lemma byte_of_range v i : 0 <= byte_of v i < 256.
Proof. unfold byte_of. apply Z.mod_pos_bound. lia. Qed.

Lemma u8_small x : 0 <= x < 256 -> u8 x = x.
Proof. intros. unfold u8. apply Z.mod_small. lia. Qed.

Lemma load8_store8 m a v x :
  load8 (store8 m a v) x = if x =? a then u8 v else load8 m x.
Proof.
  unfold load8, store8. destruct (x =? a); [|reflexivity].
  apply u8_small. unfold u8. apply Z.mod_pos_bound. lia.
Qed.

Lemma load8_store64 m a v x :
  load8 (store64 m a v) x =
    if (a <=? x) && (x <? a + 8) then byte_of v (x - a) else load8 m x.
Proof.
  unfold load8, store64. destruct ((a <=? x) && (x <? a + 8)); [|reflexivity].
  apply u8_small, byte_of_range.
Qed.

Lemma load8_store16 m a v x :
  load8 (store16 m a v) x =
    if x =? a then byte_of v 0 else if x =? a + 1 then byte_of v 1 else load8 m x.
Proof.
  unfold store16. rewrite !load8_store8.
  destruct (x =? a) eqn:E1, (x =? a + 1) eqn:E2; try lia;
    rewrite ?u8_small by apply byte_of_range; reflexivity.
Qed.

Lemma load8_memset m dst c n x :
  load8 (memset m dst c n) x =
    if (dst <=? x) && (x <? dst + n) then u8 c else load8 m x.
Proof.
  unfold load8, memset. destruct ((dst <=? x) && (x <? dst + n)); [|reflexivity].
  apply u8_small. unfold u8. apply Z.mod_pos_bound. lia.
Qed.

Lemma load8_memcpy m dst src n x :
  load8 (memcpy m dst src n) x =
    if (dst <=? x) && (x <? dst + n) then load8 m (src + (x - dst)) else load8 m x.
Proof. unfold load8, memcpy. destruct ((dst <=? x) && (x <? dst + n)); reflexivity. Qed.

Lemma load8_memcpy_word m dst w n x :
  load8 (memcpy_word m dst w n) x =
    if (dst <=? x) && (x <? dst + n) then byte_of w (x - dst) else load8 m x.
Proof.
  unfold load8, memcpy_word. destruct ((dst <=? x) && (x <? dst + n)); [|reflexivity].
  apply u8_small, byte_of_range.
Qed.

Lemma load16_ext m m' a :
  (forall i, 0 <= i < 2 -> load8 m' (a + i) = load8 m (a + i)) ->
  load16 m' a = load16 m a.
Proof.
  intros H. unfold load16.
  rewrite <- (Z.add_0_r a) at 1 3. rewrite !H by lia. reflexivity.
Qed.

Lemma load64_shift m m' a b :
  (forall i, 0 <= i < 8 -> load8 m' (a + i) = load8 m (b + i)) ->
  load64 m' a = load64 m b.
Proof.
  intros H. unfold load64.
  pose proof (H 0 ltac:(lia)) as H0. rewrite !Z.add_0_r in H0.
  rewrite H0, (H 1), (H 2), (H 3), (H 4), (H 5), (H 6), (H 7) by lia. reflexivity.
Qed.

Lemma load64_ext m m' a :
  (forall i, 0 <= i < 8 -> load8 m' (a + i) = load8 m (a + i)) ->
  load64 m' a = load64 m a.
Proof.
  intros H. unfold load64.
  rewrite <- (Z.add_0_r a) at 1 9. rewrite !H by lia. reflexivity.
Qed.

Lemma load16_store16 m a v : load16 (store16 m a v) a = u16 v.
Proof.
  unfold load16. rewrite !load8_store16.
  rewrite Z.eqb_refl. replace (a + 1 =? a) with false by (symmetry; apply Z.eqb_neq; lia).
  rewrite Z.eqb_refl.
  unfold byte_of, u16. change (2 ^ (8 * 0)) with 1. change (2 ^ (8 * 1)) with 256.
  Z.div_mod_to_equations. lia.
Qed.

Lemma horner_step x : x = x mod 256 + 256 * (x / 256).
Proof. Z.div_mod_to_equations. lia. Qed.

Lemma load64_store64 m a v : 0 <= v < 2 ^ 64 -> load64 (store64 m a v) a = v.
Proof.
  intros Hv. unfold load64. rewrite !load8_store64.
  replace ((a <=? a) && (a <? a + 8)) with true by (symmetry; apply andb_true_iff; lia).
  repeat match goal with
         | |- context [(a <=? a + ?k) && (a + ?k <? a + 8)] =>
             replace ((a <=? a + k) && (a + k <? a + 8)) with true
               by (symmetry; apply andb_true_iff; lia);
             replace (a + k - a) with k by lia
         end.
  replace (a - a) with 0 by lia.
  unfold byte_of.
  change (2 ^ (8 * 0)) with 1. rewrite Z.div_1_r.
  change (2 ^ (8 * 1)) with 256.
  change (2 ^ (8 * 2)) with (256 * 256).
  change (2 ^ (8 * 3)) with (256 * 256 * 256).
  change (2 ^ (8 * 4)) with (256 * 256 * 256 * 256).
  change (2 ^ (8 * 5)) with (256 * 256 * 256 * 256 * 256).
  change (2 ^ (8 * 6)) with (256 * 256 * 256 * 256 * 256 * 256).
  change (2 ^ (8 * 7)) with (256 * 256 * 256 * 256 * 256 * 256 * 256).
  rewrite <- !Z.div_div by lia.
  set (x1 := v / 256). set (x2 := x1 / 256). set (x3 := x2 / 256). set (x4 := x3 / 256).
  set (x5 := x4 / 256). set (x6 := x5 / 256). set (x7 := x6 / 256).
  assert (H7 : x7 mod 256 = x7).
  { apply Z.mod_small. subst x7 x6 x5 x4 x3 x2 x1.
    rewrite !Z.div_div by lia. simpl. split.
    - apply Z.div_pos; lia.
    - apply Z.div_lt_upper_bound; lia. }
  rewrite H7.
  pose proof (horner_step v) as E0. fold x1 in E0.
  pose proof (horner_step x1) as E1. fold x2 in E1.
  pose proof (horner_step x2) as E2. fold x3 in E2.
  pose proof (horner_step x3) as E3. fold x4 in E3.
  pose proof (horner_step x4) as E4. fold x5 in E4.
  pose proof (horner_step x5) as E5. fold x6 in E5.
  pose proof (horner_step x6) as E6. fold x7 in E6.
  lia.
Qed.



(** ** [hojson_realloc] *)

Ltac bool_true := symmetry; apply andb_true_iff; rewrite ?Z.leb_le, ?Z.ltb_lt; lia.
Ltac bool_false :=
  symmetry; apply andb_false_iff; rewrite ?Z.leb_gt, ?Z.ltb_ge; lia.

Lemma node_chain_bounds m lo hi n l :
  node_chain m lo hi n l -> forall y, In y l -> lo <= y /\ y + 16 <= hi.
Proof.
  revert hi n. induction l as [|x r IH]; intros hi n H y Hy; [contradiction|].
  destruct H as (-> & Hn & Hlo & Hhi & Hr). destruct Hy as [<- | Hy]; [lia|].
  specialize (IH _ _ Hr y Hy). lia.
Qed.

Lemma node_chain_ext m m' lo hi n l :
  (forall a, lo <= a < hi -> load8 m' a = load8 m a) ->
  node_chain m lo hi n l -> node_chain m' lo hi n l.
Proof.
  revert hi n. induction l as [|x r IH]; intros hi n Hext H; [exact H|].
  destruct H as (-> & Hn & Hlo & Hhi & Hr). cbn [node_chain].
  assert (Hp : node_parent m' n = node_parent m n).
  { unfold node_parent. apply load64_ext. intros i Hi. apply Hext. lia. }
  rewrite Hp. repeat split; try assumption.
  apply IH; [|exact Hr]. intros a Ha. apply Hext. lia.
Qed.

Lemma node_chain_length m lo hi n l :
  node_chain m lo hi n l -> 16 * Z.of_nat (length l) <= Z.max 0 (hi - lo).
Proof.
  revert hi n. induction l as [|x r IH]; intros hi n H; [simpl; lia|].
  destruct H as (-> & Hn & Hlo & Hhi & Hr). specialize (IH _ _ Hr).
  cbn [length]. lia.
Qed.

Lemma node_end_ext m m' n :
  (forall a, n + 8 <= a < n + 16 -> load8 m' a = load8 m a) -> node_end m' n = node_end m n.
Proof. intros H. unfold node_end. apply load64_ext. intros i Hi. apply H. lia. Qed.

Lemma node_parent_ext m m' n :
  (forall a, n <= a < n + 8 -> load8 m' a = load8 m a) -> node_parent m' n = node_parent m n.
Proof. intros H. unfold node_parent. apply load64_ext. intros i Hi. apply H. lia. Qed.

Lemma node_end_set_node_end m n v :
  0 <= v < 2 ^ 64 -> node_end (set_node_end m n v) n = v.
Proof. intros H. unfold node_end, set_node_end. apply load64_store64, H. Qed.

Lemma node_parent_set_node_parent m n v :
  0 <= v < 2 ^ 64 -> node_parent (set_node_parent m n v) n = v.
Proof. intros H. unfold node_parent, set_node_parent. apply load64_store64, H. Qed.

Lemma realloc_nodes_spec old new HI :
  forall l m n lo hi fuel,
    node_chain m lo hi n l ->
    ends_within m old HI l ->
    old <= lo ->
    (forall p, old - 1 <= p <= HI -> 0 <= rebase old new p < 2 ^ 64) ->
    hi <= HI ->
    (length l <= fuel)%nat ->
    exists m',
      realloc_nodes fuel m n old new = Some m'
      /\ (forall a, ~ in_pointers l a -> load8 m' a = load8 m a)
      /\ (forall x, In x l ->
            node_end m' x = rebase old new (node_end m x)
            /\ node_parent m' x =
                 if node_parent m x =? 0 then 0 else rebase old new (node_parent m x)).
Proof.
  induction l as [|x r IH]; intros m n lo hi fuel Hch Hends Hlo Hrb Hhi Hfuel.
  - cbn in Hch. subst n. exists m. destruct fuel; cbn; repeat split; auto; contradiction.
  - destruct Hch as (-> & Hn & Hlon & Hhin & Hr).
    destruct fuel as [|k]; [cbn in Hfuel; lia|].
    cbn [realloc_nodes]. apply Z.eqb_neq in Hn. rewrite Hn.
    set (p := node_parent m n).
    set (m1 := set_node_end m n (new + (node_end m n - old))).
    assert (Hp1 : node_parent m1 n = p).
    { apply node_parent_ext. intros a Ha. unfold m1, set_node_end.
      rewrite load8_store64. replace ((n + 8 <=? a) && (a <? n + 8 + 8)) with false by bool_false.
      reflexivity. }
    rewrite Hp1.
    set (m2 := if negb (p =? 0) then set_node_parent m1 n (new + (p - old)) else m1).
    assert (Hext2 : forall a, ~ (n <= a < n + 16) -> load8 m2 a = load8 m a).
    { intros a Ha. unfold m2. destruct (negb (p =? 0)).
      - unfold set_node_parent, m1, set_node_end. rewrite !load8_store64.
        replace ((n <=? a) && (a <? n + 8)) with false by bool_false.
        replace ((n + 8 <=? a) && (a <? n + 8 + 8)) with false by bool_false. reflexivity.
      - unfold m1, set_node_end. rewrite load8_store64.
        replace ((n + 8 <=? a) && (a <? n + 8 + 8)) with false by bool_false. reflexivity. }
    inversion Hends as [|? ? Hend Hendr]; subst.
    assert (Hpr : p = 0 \/ (old <= p /\ p + 16 <= n)).
    { destruct r as [|y r']; cbn in Hr; [left; exact Hr|right].
      destruct Hr as (-> & _ & ? & ? & _). fold p. lia. }
    assert (Hend2 : node_end m2 n = rebase old new (node_end m n)).
    { unfold m2. destruct (negb (p =? 0)).
      - rewrite (node_end_ext m1).
        + unfold m1. apply node_end_set_node_end. apply Hrb. cbn beta in Hend. lia.
        + intros a Ha. unfold set_node_parent. rewrite load8_store64.
          replace ((n <=? a) && (a <? n + 8)) with false by bool_false. reflexivity.
      - unfold m1. apply node_end_set_node_end. apply Hrb. cbn beta in Hend. lia. }
    assert (Hpar2 : node_parent m2 n = if p =? 0 then 0 else rebase old new p).
    { unfold m2. destruct (p =? 0) eqn:Ep; cbn [negb].
      - rewrite Hp1. apply Z.eqb_eq in Ep. exact Ep.
      - apply node_parent_set_node_parent. apply Hrb.
        apply Z.eqb_neq in Ep. lia. }
    destruct (IH m2 p lo n k) as (m' & Hrun & Hsame & Hfields).
    + apply (node_chain_ext m); [|exact Hr]. intros a Ha. apply Hext2. lia.
    + unfold ends_within in *. rewrite Forall_forall in *. intros y Hy.
      rewrite (node_end_ext m); [apply Hendr; exact Hy|].
      intros a Ha. apply Hext2. pose proof (node_chain_bounds _ _ _ _ _ Hr y Hy). lia.
    + exact Hlo.
    + exact Hrb.
    + lia.
    + cbn in Hfuel. lia.
    + exists m'. split; [exact Hrun|]. split.
      * intros a Ha. rewrite Hsame.
        -- apply Hext2. intros Hin. apply Ha. exists n. split; [left; reflexivity|lia].
        -- intros (y & Hy & Hay). apply Ha. exists y. split; [right; exact Hy|exact Hay].
      * intros y [<- | Hy].
        -- assert (Hnot : forall a, n <= a < n + 16 -> ~ in_pointers r a).
           { intros a Ha (y & Hy & Hay).
             pose proof (node_chain_bounds _ _ _ _ _ Hr y Hy). lia. }
           split.
           ++ rewrite (node_end_ext m2); [exact Hend2|].
              intros a Ha. apply Hsame. apply Hnot. lia.
           ++ rewrite (node_parent_ext m2); [exact Hpar2|].
              intros a Ha. apply Hsame. apply Hnot. lia.
        -- destruct (Hfields y Hy) as [He Hp]. split.
           ++ rewrite He. f_equal. apply node_end_ext. intros a Ha. apply Hext2.
              pose proof (node_chain_bounds _ _ _ _ _ Hr y Hy). lia.
           ++ rewrite Hp.
              assert (Hpy : node_parent m2 y = node_parent m y).
              { apply node_parent_ext. intros a Ha. apply Hext2.
                pose proof (node_chain_bounds _ _ _ _ _ Hr y Hy). lia. }
              rewrite Hpy. reflexivity.
Qed.

Lemma node_chain_weaken m lo hi hi' n l :
  hi <= hi' -> node_chain m lo hi n l -> node_chain m lo hi' n l.
Proof.
  destruct l as [|x r]; intros Hle H; [exact H|].
  destruct H as (-> & Hn & Hlo & Hhi & Hr). cbn [node_chain]. repeat split; auto; lia.
Qed.

Lemma node_chain_rebase old new m m' :
  0 < new ->
  forall l lo hi n,
    old <= lo ->
    node_chain m lo hi n l ->
    (forall x, In x l ->
       node_parent m' (rebase old new x) =
         if node_parent m x =? 0 then 0 else rebase old new (node_parent m x)) ->
    node_chain m' (rebase old new lo) (rebase old new hi)
               (if n =? 0 then 0 else rebase old new n) (map (rebase old new) l).
Proof.
  intros Hnew. induction l as [|x r IH]; intros lo hi n Hlo H Hpar.
  - cbn in *. subst n. reflexivity.
  - destruct H as (-> & Hn & Hlon & Hhin & Hr). cbn [map node_chain].
    apply Z.eqb_neq in Hn. rewrite Hn. apply Z.eqb_neq in Hn.
    split; [reflexivity|].
    split; [unfold rebase; lia|]. split; [unfold rebase; lia|].
    split; [unfold rebase; lia|].
    rewrite (Hpar n (or_introl eq_refl)).
    apply IH; [exact Hlo|exact Hr|]. intros y Hy. apply Hpar. right. exact Hy.
Qed.

(** What [hojson_realloc] moves: for an initialized context whose stack is
    a chain of nodes in the buffer and a new, larger buffer elsewhere in
    memory, [hojson_realloc] leaves in the new buffer the bytes of the old
    one (but for the pointers of the nodes) followed by zeroes; the
    [parent] and [end] of every node, the stack pointer, [name] and
    [string_value] point to the same offsets of the new buffer, so the
    stack is the same chain there; and a state of INSUFFICIENT_MEMORY is
    replaced by [error_return_state]. *)
Theorem realloc_rebases :
  forall c m new_buffer new_buffer_length l,
    is_initialized c <> 0 ->
    buffer_length c < new_buffer_length ->
    0 < buffer c ->
    0 < buffer_length c ->
    0 < new_buffer ->
    new_buffer + new_buffer_length <= 2 ^ 64 ->
    new_buffer + new_buffer_length <= buffer c
    \/ buffer c + buffer_length c <= new_buffer ->
    node_chain m (buffer c) (buffer c + buffer_length c) (stack c) l ->
    ends_within m (buffer c) (buffer c + buffer_length c) l ->
    let rb := rebase (buffer c) new_buffer in
    exists c' m',
      hojson_realloc (Some c) m new_buffer new_buffer_length = Some (Some c', m')
      /\ buffer c' = new_buffer
      /\ buffer_length c' = new_buffer_length
      /\ (forall i, 0 <= i < buffer_length c ->
            ~ in_pointers l (buffer c + i) ->
            load8 m' (new_buffer + i) = load8 m (buffer c + i))
      /\ (forall i, buffer_length c <= i < new_buffer_length ->
            load8 m' (new_buffer + i) = 0)
      /\ (forall x, In x l ->
            node_end m' (rb x) = rb (node_end m x)
            /\ node_parent m' (rb x) =
                 if node_parent m x =? 0 then 0 else rb (node_parent m x))
      /\ node_chain m' new_buffer (new_buffer + new_buffer_length) (stack c')
                    (map rb l)
      /\ stack c' = (if stack c =? 0 then 0 else rb (stack c))
      /\ name c' = (if name c =? 0 then 0 else rb (name c))
      /\ string_value c' = (if string_value c =? 0 then 0 else rb (string_value c))
      /\ (state c = HOJSON_STATE_ERROR_INSUFFICIENT_MEMORY ->
          state c' = error_return_state c
          /\ error_return_state c' = HOJSON_STATE_NONE)
      /\ (state c <> HOJSON_STATE_ERROR_INSUFFICIENT_MEMORY ->
          state c' = state c /\ error_return_state c' = error_return_state c).
Proof.
  intros c m new new_len l Hinit Hlen Hold HL Hnew Hmax Hdisj Hch Hends rb.
  set (B := buffer c) in *. set (L := buffer_length c) in *.
  destruct (realloc_nodes_spec B new (B + L) l m (stack c) B (B + L) (Z.to_nat L))
    as (m1 & Hrun & Hsame & Hfields); try assumption; try lia.
  { intros p Hp. unfold rebase. lia. }
  { pose proof (node_chain_length _ _ _ _ _ Hch). lia. }
  unfold hojson_realloc.
  apply Z.eqb_neq in Hinit. rewrite Hinit.
  replace (new =? 0) with false by (symmetry; apply Z.eqb_neq; lia).
  replace (new_len <=? buffer_length c) with false by (symmetry; apply Z.leb_gt; exact Hlen).
  cbn [orb]. fold B L. rewrite Hrun.
  set (c1 := if negb (name c =? 0) then _ else c).
  set (c2 := if negb (string_value c1 =? 0) then _ else c1).
  set (c3 := if negb (stack c2 =? 0) then _ else c2).
  assert (Hb3 : buffer c3 = B /\ buffer_length c3 = L /\ state c3 = state c
                /\ error_return_state c3 = error_return_state c
                /\ stack c3 = (if stack c =? 0 then 0 else rb (stack c))
                /\ name c3 = (if name c =? 0 then 0 else rb (name c))
                /\ string_value c3 = (if string_value c =? 0 then 0 else rb (string_value c))).
  { unfold c3, c2, c1.
    destruct (name c =? 0) eqn:E1; cbn [negb]; ctx_simpl;
      destruct (string_value c =? 0) eqn:E2; cbn [negb]; ctx_simpl;
      destruct (stack c =? 0) eqn:E3; cbn [negb]; ctx_simpl;
      repeat split; try reflexivity; apply Z.eqb_eq; assumption. }
  destruct Hb3 as (Hb & Hbl & Hs3 & He3 & Hst3 & Hn3 & Hsv3).
  rewrite Hb, Hbl.
  set (m2 := memset m1 new 0 new_len).
  set (m3 := memcpy m2 new B L).
  set (c4 := set_buffer_length new_len (set_buffer new c3)).
  assert (Hcopy : forall i, 0 <= i < L -> load8 m3 (new + i) = load8 m1 (B + i)).
  { intros i Hi. unfold m3, m2. rewrite load8_memcpy.
    replace ((new <=? new + i) && (new + i <? new + L)) with true by bool_true.
    rewrite load8_memset.
    replace ((new <=? B + (new + i - new)) && (B + (new + i - new) <? new + new_len))
      with false by bool_false.
    f_equal. lia. }
  assert (Hzero : forall i, L <= i < new_len -> load8 m3 (new + i) = 0).
  { intros i Hi. unfold m3, m2. rewrite load8_memcpy.
    replace ((new <=? new + i) && (new + i <? new + L)) with false by bool_false.
    rewrite load8_memset.
    replace ((new <=? new + i) && (new + i <? new + new_len)) with true by bool_true.
    reflexivity. }
  assert (Hfields3 : forall x, In x l ->
            node_end m3 (rb x) = rb (node_end m x)
            /\ node_parent m3 (rb x) =
                 if node_parent m x =? 0 then 0 else rb (node_parent m x)).
  { intros x Hx. destruct (Hfields x Hx) as [He Hp].
    pose proof (node_chain_bounds _ _ _ _ _ Hch x Hx) as Hbx.
    unfold rb. rewrite <- He, <- Hp. split.
    - unfold node_end. apply load64_shift. intros i Hi.
      replace (rebase B new x + 8 + i) with (new + (x - B + 8 + i)) by (unfold rebase; lia).
      rewrite Hcopy by lia. f_equal. lia.
    - unfold node_parent. apply load64_shift. intros i Hi.
      replace (rebase B new x + i) with (new + (x - B + i)) by (unfold rebase; lia).
      rewrite Hcopy by lia. f_equal. lia. }
  eexists. exists m3. split; [reflexivity|].
  set (c5 := if _ =? _ then _ else c4).
  assert (Hc5 : buffer c5 = new /\ buffer_length c5 = new_len /\ stack c5 = stack c3
                /\ name c5 = name c3 /\ string_value c5 = string_value c3).
  { unfold c5. destruct (state_num (state c4) =? _); repeat split; reflexivity. }
  destruct Hc5 as (Hb5 & Hbl5 & Hst5 & Hn5 & Hsv5).
  split; [exact Hb5|]. split; [exact Hbl5|].
  split.
  { intros i Hi Hnp. rewrite Hcopy by exact Hi. apply Hsame. exact Hnp. }
  split; [exact Hzero|]. split; [exact Hfields3|].
  split.
  { rewrite Hst5, Hst3.
    apply (node_chain_weaken _ _ (rb (B + L))); [unfold rb, rebase; lia|].
    replace new with (rb B) at 1 by (unfold rb, rebase; lia).
    apply (node_chain_rebase B new m); try assumption; try lia.
    intros x Hx. apply Hfields3. exact Hx. }
  split; [rewrite Hst5; exact Hst3|].
  split; [rewrite Hn5; exact Hn3|].
  split; [rewrite Hsv5; exact Hsv3|].
  split.
  - intros Hs. unfold c5, c4. ctx_simpl. rewrite Hs3, Hs. cbn. rewrite He3. split; reflexivity.
  - intros Hs. unfold c5, c4. ctx_simpl. rewrite Hs3.
    destruct (state c) eqn:Es; try congruence; cbn; rewrite ?Hs3, ?He3, ?Es; split; reflexivity.
Qed.

Lemma realloc_rebases_witness :
  exists c' m',
    hojson_realloc (Some (fst out_of_memory)) (snd out_of_memory) larger_buffer 100
      = Some (Some c', m')
    /\ buffer c' = larger_buffer
    /\ stack c' = larger_buffer + 18
    /\ node_parent m' (larger_buffer + 18) = larger_buffer
    /\ node_parent m' larger_buffer = 0
    /\ state c' = HOJSON_STATE_VALUE_EXPECTED.
Proof.
  destruct (realloc_rebases (fst out_of_memory) (snd out_of_memory) larger_buffer 100
              [buffer_address + 18; buffer_address])
    as (c' & m' & Hrun & Hb & _ & _ & _ & Hf & _ & Hs & _ & _ & Hst & _).
  - vm_compute. discriminate.
  - vm_compute. reflexivity.
  - vm_compute. reflexivity.
  - vm_compute. reflexivity.
  - vm_compute. reflexivity.
  - vm_compute. discriminate.
  - right. vm_compute. discriminate.
  - vm_compute. repeat split; try reflexivity; try discriminate.
  - unfold ends_within. repeat constructor; vm_compute; discriminate.
  - exists c', m'. split; [exact Hrun|]. split; [exact Hb|].
    split; [rewrite Hs; vm_compute; reflexivity|].
    assert (E1 : rebase (buffer (fst out_of_memory)) larger_buffer (buffer_address + 18)
                 = larger_buffer + 18) by (vm_compute; reflexivity).
    assert (E2 : rebase (buffer (fst out_of_memory)) larger_buffer buffer_address
                 = larger_buffer) by (vm_compute; reflexivity).
    assert (P1 : node_parent (snd out_of_memory) (buffer_address + 18) = buffer_address)
      by (vm_compute; reflexivity).
    assert (P2 : node_parent (snd out_of_memory) buffer_address = 0)
      by (vm_compute; reflexivity).
    split.
    { destruct (Hf (buffer_address + 18)) as [_ Hp]; [left; reflexivity|].
      rewrite E1, P1, E2 in Hp. exact Hp. }
    split.
    { destruct (Hf buffer_address) as [_ Hp]; [right; left; reflexivity|].
      rewrite E2, P2 in Hp. exact Hp. }
    destruct Hst as [Hst _]; [vm_compute; reflexivity|].
    rewrite Hst. vm_compute. reflexivity.
Defined.

(** * The stack, the events and the input *)

(** ** Flags *)

Lemma u16_land v : u16 v = Z.land v 65535.
Proof. unfold u16. change 65536 with (2 ^ 16). rewrite <- Z.land_ones by lia. reflexivity. Qed.

Lemma node_flags_set_node_flags m n v : node_flags (set_node_flags m n v) n = u16 v.
Proof. unfold node_flags, set_node_flags. apply load16_store16. Qed.

Lemma has_flag_or_flag_other m n f g :
  Z.land f g = 0 -> Z.land 65535 g = g ->
  has_flag (or_flag m n f) n g = has_flag m n g.
Proof.
  intros Hfg Hg. unfold has_flag, or_flag.
  rewrite node_flags_set_node_flags, u16_land.
  rewrite <- Z.land_assoc, Hg, Z.land_lor_distr_l, Hfg, Z.lor_0_r. reflexivity.
Qed.

Lemma has_flag_or_flag_same m n f g :
  Z.land f (Z.land 65535 g) <> 0 ->
  has_flag (or_flag m n f) n g = true.
Proof.
  intros Hfg. unfold has_flag, or_flag.
  rewrite node_flags_set_node_flags, u16_land.
  rewrite <- Z.land_assoc, Z.land_lor_distr_l.
  apply negb_true_iff, Z.eqb_neq. intros H. apply Z.lor_eq_0_iff in H. tauto.
Qed.

Lemma has_flag_clear_flag_other m n f g :
  Z.land (Z.lnot f) (Z.land 65535 g) = g ->
  has_flag (clear_flag m n f) n g = has_flag m n g.
Proof.
  intros Hfg. unfold has_flag, clear_flag.
  rewrite node_flags_set_node_flags, u16_land.
  rewrite <- !Z.land_assoc, Hfg. reflexivity.
Qed.

Lemma has_flag_clear_flag_same m n f g :
  Z.land (Z.lnot f) (Z.land 65535 g) = 0 ->
  has_flag (clear_flag m n f) n g = false.
Proof.
  intros Hfg. unfold has_flag, clear_flag.
  rewrite node_flags_set_node_flags, u16_land.
  rewrite <- !Z.land_assoc, Hfg, Z.land_0_r. reflexivity.
Qed.

Lemma has_flag_zero m n g :
  load8 m (n + 16) = 0 -> load8 m (n + 17) = 0 -> has_flag m n g = false.
Proof.
  intros H0 H1. unfold has_flag, node_flags, load16.
  replace (n + 16 + 1) with (n + 17) by lia. rewrite H0, H1. reflexivity.
Qed.

(** ** Writes that leave a part of memory alone *)

Lemma has_flag_ext m m' n f :
  (forall a, n + 16 <= a < n + 18 -> load8 m' a = load8 m a) ->
  has_flag m' n f = has_flag m n f.
Proof.
  intros H. unfold has_flag, node_flags. rewrite (load16_ext m m'); [reflexivity|].
  intros i Hi. apply H. lia.
Qed.

Lemma nothing_deferred_ext m m' n :
  (forall a, n + 16 <= a < n + 18 -> load8 m' a = load8 m a) ->
  nothing_deferred m n -> nothing_deferred m' n.
Proof.
  intros H (H1 & H2 & H3). unfold nothing_deferred.
  rewrite !(has_flag_ext m m') by exact H. auto.
Qed.

Lemma nodes_below_ext m m' B k :
  forall n,
    (forall a, a < n + 8 -> load8 m' a = load8 m a) ->
    nodes_below m B n k -> nodes_below m' B n k.
Proof.
  induction k as [|k IH]; intros n Hext H.
  - destruct H as [Hn Hp]. split; [exact Hn|].
    rewrite (node_parent_ext m m'); [exact Hp|]. intros a Ha. apply Hext. lia.
  - cbn [nodes_below] in *. cbv zeta in *.
    assert (Hp : node_parent m' n = node_parent m n).
    { apply node_parent_ext. intros a Ha. apply Hext. lia. }
    rewrite Hp. destruct H as (Hp0 & Hn & He & Hd & Hr).
    assert (Hend : node_end m' (node_parent m n) = node_end m (node_parent m n)).
    { apply node_end_ext. intros a Ha. apply Hext. lia. }
    rewrite Hend. refine (conj Hp0 (conj Hn (conj He (conj _ _)))).
    + apply (nothing_deferred_ext m); [|exact Hd]. intros a Ha. apply Hext. lia.
    + apply IH; [|exact Hr]. intros a Ha. apply Hext. lia.
Qed.

(** Setting a flag of the parent that defers nothing. *)
Lemma nodes_below_or_flag_parent m B n k f :
  Z.land f HOJSON_FLAG_INCREMENT_DEPTH = 0 ->
  Z.land f HOJSON_FLAG_DECREMENT_DEPTH = 0 ->
  Z.land f HOJSON_FLAG_MUST_POP_STACK = 0 ->
  nodes_below m B n (S k) ->
  nodes_below (or_flag m (node_parent m n) f) B n (S k).
Proof.
  intros F1 F2 F3 H. cbn [nodes_below] in *. cbv zeta in *.
  destruct H as (Hp0 & Hn & He & Hd & Hr).
  set (p := node_parent m n) in *.
  assert (Hext : forall a, ~ (p + 16 <= a < p + 18) ->
                           load8 (or_flag m p f) a = load8 m a).
  { intros a Ha. unfold or_flag, set_node_flags. rewrite load8_store16.
    destruct (a =? p + 16) eqn:E1; [lia|]. destruct (a =? p + 16 + 1) eqn:E2; [lia|].
    reflexivity. }
  assert (Hp : node_parent (or_flag m p f) n = p).
  { apply node_parent_ext. intros a Ha. apply Hext. lia. }
  rewrite Hp.
  assert (Hend : node_end (or_flag m p f) p = node_end m p).
  { apply node_end_ext. intros a Ha. apply Hext. lia. }
  rewrite Hend. refine (conj Hp0 (conj Hn (conj He (conj _ _)))).
  - destruct Hd as (D1 & D2 & D3). unfold nothing_deferred.
    rewrite !has_flag_or_flag_other by (assumption || reflexivity). auto.
  - apply (nodes_below_ext m); [|exact Hr]. intros a Ha. apply Hext. lia.
Qed.

(** ** The invariant of the stack under one write *)

Lemma untouched_refl B L m : untouched B L m m.
Proof. intros a _. reflexivity. Qed.

Lemma untouched_trans B L m1 m2 m3 :
  untouched B L m1 m2 -> untouched B L m2 m3 -> untouched B L m1 m3.
Proof. intros H12 H23 a Ha. rewrite H23, H12 by exact Ha. reflexivity. Qed.

Lemma nodes_below_ge m B k : forall n, nodes_below m B n k -> B <= n.
Proof.
  induction k as [|k IH]; intros n H.
  - destruct H as [-> _]. lia.
  - cbn [nodes_below] in H. cbv zeta in H. destruct H as (_ & Hn & He & _ & Hr).
    specialize (IH _ Hr). lia.
Qed.

Lemma load8_set_node_flags m n v a :
  a <> n + 16 -> a <> n + 17 -> load8 (set_node_flags m n v) a = load8 m a.
Proof.
  intros H1 H2. unfold set_node_flags. rewrite load8_store16.
  destruct (a =? n + 16) eqn:E1; [lia|]. destruct (a =? n + 16 + 1) eqn:E2; [lia|].
  reflexivity.
Qed.

Lemma load8_set_node_end m n v a :
  ~ (n + 8 <= a < n + 16) -> load8 (set_node_end m n v) a = load8 m a.
Proof.
  intros H. unfold set_node_end. rewrite load8_store64.
  replace ((n + 8 <=? a) && (a <? n + 8 + 8)) with false by bool_false. reflexivity.
Qed.

Lemma load8_set_node_parent m n v a :
  ~ (n <= a < n + 8) -> load8 (set_node_parent m n v) a = load8 m a.
Proof.
  intros H. unfold set_node_parent. rewrite load8_store64.
  replace ((n <=? a) && (a <? n + 8)) with false by bool_false. reflexivity.
Qed.

Lemma stack_of_ctx B L c c' m k :
  stack_of B L c m k -> same_stack c c' ->
  running (error_return_state c') = true ->
  running (escape_return_state c') = true ->
  stack_of B L c' m k.
Proof.
  intros (Hb & Hl & HB & HL & Hi & _ & _ & Hk) (Es & Ed & Eb & El & Ei) Her Hes.
  unfold stack_of. rewrite Eb, El, Ei, Es. auto 10.
Qed.

Lemma in_call_ctx B L c c' m k :
  in_call B L c m k -> same_stack c c' ->
  running (error_return_state c') = true ->
  running (escape_return_state c') = true ->
  in_call B L c' m k.
Proof.
  intros (Hs & Hd & Hf) Hsame Her Hes. pose proof Hsame as (Es & Ed & _).
  unfold in_call. rewrite Es, Ed. split; [|auto].
  apply (stack_of_ctx B L c); assumption.
Qed.

(** A write that leaves alone what is below the pointers of the top
    node, with the new end of the top node. *)
Lemma stack_of_top_update B L c m m' k :
  stack_of B L c m (S k) ->
  (forall a, a < stack c + 8 -> load8 m' a = load8 m a) ->
  stack c + 17 <= node_end m' (stack c) ->
  node_end m' (stack c) < B + L ->
  zero_between m' (node_end m' (stack c)) (B + L) ->
  stack_of B L c m' (S k).
Proof.
  intros (Hb & Hl & HB & HL & Hi & Her & Hes & Hge & Hn & He & Hlt & H24 & Hz)
         Hext He' Hlt' Hz'.
  unfold stack_of. repeat (split; [assumption|]).
  split; [|auto]. apply (nodes_below_ext m); assumption.
Qed.

Lemma stack_of_set_node_flags B L c m k v :
  stack_of B L c m (S k) ->
  stack_of B L c (set_node_flags m (stack c) v) (S k)
  /\ untouched B L m (set_node_flags m (stack c) v).
Proof.
  intros H. pose proof H as (Hb & Hl & HB & HL & Hi & Her & Hes & Hge & Hn & He & Hlt & H24 & Hz).
  assert (Hend : node_end (set_node_flags m (stack c) v) (stack c) = node_end m (stack c)).
  { apply node_end_ext. intros a Ha. apply load8_set_node_flags; lia. }
  split.
  - apply (stack_of_top_update B L c m); try assumption; rewrite ?Hend; try assumption.
    + intros a Ha. apply load8_set_node_flags; lia.
    + intros a Ha. rewrite load8_set_node_flags by lia. apply Hz. exact Ha.
  - intros a Ha. apply load8_set_node_flags; lia.
Qed.

Lemma nothing_deferred_or_flag m n f :
  Z.land f HOJSON_FLAG_INCREMENT_DEPTH = 0 ->
  Z.land f HOJSON_FLAG_DECREMENT_DEPTH = 0 ->
  Z.land f HOJSON_FLAG_MUST_POP_STACK = 0 ->
  nothing_deferred m n -> nothing_deferred (or_flag m n f) n.
Proof.
  intros F1 F2 F3 (D1 & D2 & D3). unfold nothing_deferred.
  rewrite !has_flag_or_flag_other by (assumption || reflexivity). auto.
Qed.

Lemma in_call_or_flag B L c m k f :
  value_flag f ->
  in_call B L c m (S k) ->
  in_call B L c (or_flag m (stack c) f) (S k)
  /\ untouched B L m (or_flag m (stack c) f).
Proof.
  intros (F1 & F2 & F3 & F4) (Hs & Hd & Hf).
  destruct (Hf ltac:(discriminate)) as (Hnd & Hcl).
  destruct (stack_of_set_node_flags B L c m k (Z.lor (node_flags m (stack c)) f) Hs)
    as [Hs' Hu].
  split; [|exact Hu]. split; [exact Hs'|]. split; [exact Hd|]. intros _. split.
  - apply nothing_deferred_or_flag; assumption.
  - rewrite has_flag_or_flag_other by (assumption || reflexivity). exact Hcl.
Qed.

(** From the inside of a call to the state between calls. *)
Lemma settled_between_calls B L c m k :
  stack_of B L c m k -> depth c = u32 (Z.of_nat k) ->
  (k <> O -> nothing_deferred m (stack c)) ->
  between_calls B L c m (Z.of_nat k).
Proof.
  intros Hs Hd Hf. exists k, false, false.
  split; [exact Hs|]. split; [auto|]. split.
  { intros Hk. destruct (Hf Hk) as (D1 & D2 & D3). auto. }
  split; [reflexivity|]. split; [rewrite Z.sub_0_r; exact Hd|lia].
Qed.

Lemma in_call_between_calls B L c m k :
  in_call B L c m k -> between_calls B L c m (Z.of_nat k).
Proof.
  intros (Hs & Hd & Hf). apply settled_between_calls; try assumption.
  intros Hk. apply Hf. exact Hk.
Qed.

Lemma in_call_quiet B L c m k : in_call B L c m k -> quiet c m.
Proof.
  intros (Hs & Hd & Hf). destruct k as [|k].
  - left. destruct Hs as (_ & _ & _ & _ & _ & _ & _ & H0 & _). exact H0.
  - right. apply Hf. discriminate.
Qed.

(** ** Appending to the top node *)

Lemma in_call_top_append B L c m m1 k n :
  in_call B L c m (S k) ->
  0 <= n ->
  node_end m (stack c) + n < B + L ->
  (forall a, ~ (node_end m (stack c) < a <= node_end m (stack c) + n) ->
             load8 m1 a = load8 m a) ->
  let m' := set_node_end m1 (stack c) (node_end m1 (stack c) + n) in
  in_call B L c m' (S k) /\ untouched B L m m'
  /\ node_end m' (stack c) = node_end m (stack c) + n.
Proof.
  intros (Hs & Hd & Hf) Hn Hfit Hm1 m'.
  pose proof Hs as (Hb & Hl & HB & HL & Hi & Her & Hes & Hge & Hnb & He & Hlt & H24 & Hz).
  set (top := stack c) in *. set (e := node_end m top) in *.
  assert (He1 : node_end m1 top = e).
  { apply node_end_ext. intros a Ha. apply Hm1. lia. }
  assert (He' : node_end m' top = e + n).
  { unfold m'. rewrite He1. apply node_end_set_node_end. lia. }
  assert (Hm' : forall a, ~ (e < a <= e + n) -> ~ (top + 8 <= a < top + 16) ->
                          load8 m' a = load8 m a).
  { intros a Ha1 Ha2. unfold m'. rewrite load8_set_node_end by exact Ha2.
    apply Hm1. exact Ha1. }
  assert (Hs' : stack_of B L c m' (S k)).
  { apply (stack_of_top_update B L c m); try assumption; fold top; rewrite ?He'; try lia.
    - intros a Ha. apply Hm'; lia.
    - intros a Ha. rewrite Hm' by lia. apply Hz. lia. }
  split; [|split; [|exact He']].
  - split; [exact Hs'|]. split; [exact Hd|]. intros _.
    destruct (Hf ltac:(discriminate)) as ((D1 & D2 & D3) & D4).
    assert (Hfl : forall f, has_flag m' top f = has_flag m top f).
    { intros f. apply has_flag_ext. intros a Ha. apply Hm'; lia. }
    unfold nothing_deferred. fold top. rewrite !Hfl. auto.
  - intros a Ha. apply Hm'; lia.
Qed.

Lemma same_stack_refl c : same_stack c c.
Proof. repeat split. Qed.

Ltac solve_same_stack :=
  unfold same_stack, hojson_stay; inv_simpl; repeat split; reflexivity.

(** A character that does not fit: nothing is written, the state is
    INSUFFICIENT_MEMORY and the state to come back to is recorded. *)
Lemma in_call_out_of_memory B L c m k :
  in_call B L c m k -> running (state c) = true ->
  let c1 := hojson_stay c in
  in_call B L (set_state HOJSON_STATE_ERROR_INSUFFICIENT_MEMORY
                 (set_error_return_state (state c1) c1)) m k.
Proof.
  intros H Hst c1. pose proof H as ((_ & _ & _ & _ & _ & _ & Hes & _) & _).
  apply (in_call_ctx B L c); [exact H| unfold c1; solve_same_stack | |].
  - unfold c1, hojson_stay. inv_simpl. exact Hst.
  - unfold c1, hojson_stay. inv_simpl. exact Hes.
Qed.

Lemma append_character_spec B L c m k ch :
  in_call B L c m (S k) -> running (state c) = true -> 0 <= bytes ch ->
  exists code c' m',
    hojson_append_character c m ch = (code, c', m')
    /\ ((code = HOJSON_NO_OP /\ c' = c /\ in_call B L c m' (S k) /\ untouched B L m m')
        \/ (code = HOJSON_ERROR_INSUFFICIENT_MEMORY /\ m' = m
            /\ in_call B L c' m (S k)
            /\ state c' = HOJSON_STATE_ERROR_INSUFFICIENT_MEMORY)).
Proof.
  intros H Hst Hn. unfold hojson_append_character.
  pose proof H as ((Hb & Hl & _) & _). rewrite Hb, Hl.
  destruct (node_end m (stack c) + bytes ch >=? B + L) eqn:E.
  - do 3 eexists. split; [reflexivity|]. right. split; [reflexivity|]. split; [reflexivity|].
    split; [apply in_call_out_of_memory; assumption|]. inv_simpl. reflexivity.
  - do 3 eexists. split; [reflexivity|]. left. split; [reflexivity|]. split; [reflexivity|].
    rewrite Z.geb_leb in E. apply Z.leb_gt in E.
    destruct (in_call_top_append B L c m
                (memcpy_word m (node_end m (stack c) + 1) (raw ch) (bytes ch)) k (bytes ch))
      as (H1 & H2 & _); try assumption.
    { intros a Ha. rewrite load8_memcpy_word.
      replace ((node_end m (stack c) + 1 <=? a) && (a <? node_end m (stack c) + 1 + bytes ch))
        with false by bool_false. reflexivity. }
    split; assumption.
Qed.

Lemma append_terminator_spec B L c m k :
  in_call B L c m (S k) -> running (state c) = true ->
  exists code c' m',
    hojson_append_terminator c m = (code, c', m')
    /\ ((code = HOJSON_NO_OP /\ c' = c /\ in_call B L c m' (S k) /\ untouched B L m m'
         /\ node_end m (stack c) < node_end m' (stack c)
         /\ load8 m' (node_end m' (stack c)) = 0)
        \/ (code = HOJSON_ERROR_INSUFFICIENT_MEMORY /\ m' = m
            /\ in_call B L c' m (S k)
            /\ state c' = HOJSON_STATE_ERROR_INSUFFICIENT_MEMORY)).
Proof.
  intros H Hst. unfold hojson_append_terminator.
  pose proof H as ((Hb & Hl & _ & _ & _ & _ & _ & _ & _ & He & _) & _). rewrite Hb, Hl.
  set (n := if encoding_num (encoding c) >=? encoding_num HOJSON_ENCODING_UTF_16_BE
            then 2 else 1).
  assert (Hn : 1 <= n) by (unfold n; destruct (_ >=? _); lia).
  destruct (node_end m (stack c) + n >=? B + L) eqn:E.
  - do 3 eexists. split; [reflexivity|]. right. split; [reflexivity|]. split; [reflexivity|].
    split; [apply in_call_out_of_memory; assumption|]. inv_simpl. reflexivity.
  - do 3 eexists. split; [reflexivity|]. left. split; [reflexivity|]. split; [reflexivity|].
    rewrite Z.geb_leb in E. apply Z.leb_gt in E.
    set (m1 := memset m (node_end m (stack c) + 1) 0 n).
    assert (Hm1 : node_end m1 (stack c) = node_end m (stack c)).
    { apply node_end_ext. intros a Ha. unfold m1. rewrite load8_memset.
      replace ((node_end m (stack c) + 1 <=? a) && (a <? node_end m (stack c) + 1 + n))
        with false by bool_false. reflexivity. }
    destruct (in_call_top_append B L c m m1 k n) as (H1 & H2 & H3); try assumption; try lia.
    { intros a Ha. unfold m1. rewrite load8_memset.
      replace ((node_end m (stack c) + 1 <=? a) && (a <? node_end m (stack c) + 1 + n))
        with false by bool_false. reflexivity. }
    split; [exact H1|]. split; [exact H2|]. rewrite H3. split; [lia|].
    rewrite load8_set_node_end by lia. unfold m1. rewrite load8_memset.
    replace ((node_end m (stack c) + 1 <=? node_end m (stack c) + n)
             && (node_end m (stack c) + n <? node_end m (stack c) + 1 + n))
      with true by bool_true.
    reflexivity.
Qed.

(** ** Pushing a node *)

Lemma in_loop_state_num s :
  in_loop s = true -> (state_num s >=? state_num HOJSON_STATE_NONE) = true.
Proof. unfold in_loop. intros H. apply andb_true_iff in H. tauto. Qed.

Lemma running_in_loop s : running s = true -> in_loop s = true.
Proof. unfold running. intros H. apply andb_true_iff in H. tauto. Qed.

Lemma running_not_done s : running s = true -> s <> HOJSON_STATE_DONE.
Proof. intros H ->. discriminate H. Qed.

Lemma stack_of_S_nonzero B L c m k : stack_of B L c m (S k) -> (stack c =? 0) = false.
Proof. intros (_ & _ & HB & _ & _ & _ & _ & Hge & _). apply Z.eqb_neq. lia. Qed.

Lemma stack_of_O_zero B L c m : stack_of B L c m O -> (stack c =? 0) = true.
Proof. intros (_ & _ & _ & _ & _ & _ & _ & H0 & _). apply Z.eqb_eq. exact H0. Qed.

Lemma stack_of_nonzero B L c m k : stack_of B L c m k -> stack c <> 0 -> k <> O.
Proof.
  intros H Hn ->. apply stack_of_O_zero in H. apply Z.eqb_eq in H. contradiction.
Qed.

Lemma push_node B L c m k node :
  stack_of B L c m k ->
  match k with
  | O => node = B
  | S _ => node = node_end m (stack c) + 1 /\ nothing_deferred m (stack c)
  end ->
  node + 24 < B + L ->
  let m' := set_node_end (set_node_parent m node (stack c)) node (node_data node - 1) in
  stack_of B L (set_stack node c) m' (S k)
  /\ load8 m' (node + 16) = 0 /\ load8 m' (node + 17) = 0
  /\ untouched B L m m'.
Proof.
  intros (Hb & Hl & HB & HL & Hi & Her & Hes & Hk) Hnode Hfit m'.
  assert (Hbelow : B <= node /\ zero_between m (node - 1) (B + L)
                   /\ 0 <= stack c < 2 ^ 64).
  { destruct k.
    - destruct Hk as (H0 & Hz). subst node. rewrite H0. repeat split; try lia. exact Hz.
    - destruct Hk as (Hge & Hnb & He & Hlt & H24 & Hz). destruct Hnode as (-> & _).
      repeat split; try lia. intros a Ha. apply Hz. lia. }
  destruct Hbelow as (Hge' & Hz' & Hrange).
  assert (Hm' : forall a, ~ (node <= a < node + 16) -> load8 m' a = load8 m a).
  { intros a Ha. unfold m'. rewrite load8_set_node_end by lia.
    rewrite load8_set_node_parent by lia. reflexivity. }
  assert (Hp : node_parent m' node = stack c).
  { unfold m'. rewrite (node_parent_ext (set_node_parent m node (stack c))).
    - apply node_parent_set_node_parent. exact Hrange.
    - intros a Ha. apply load8_set_node_end. lia. }
  assert (He' : node_end m' node = node + 17).
  { unfold m'. rewrite node_end_set_node_end; unfold node_data; lia. }
  split; [|split; [|split]].
  - unfold stack_of. inv_simpl.
    refine (conj Hb (conj Hl (conj HB (conj HL (conj Hi (conj Her (conj Hes _))))))).
    rewrite He'.
    refine (conj Hge' (conj _ (conj _ (conj _ (conj _ _))))); try lia.
    + destruct k.
      * destruct Hk as (H0 & _). cbn [nodes_below]. rewrite Hp. split; [exact Hnode | exact H0].
      * destruct Hk as (Hge & Hnb & He & Hlt & H24 & Hz). destruct Hnode as (Hn & Hd).
        cbn [nodes_below]. rewrite Hp.
        assert (Hend : node_end m' (stack c) = node_end m (stack c)).
        { apply node_end_ext. intros a Ha. apply Hm'. lia. }
        rewrite Hend.
        refine (conj _ (conj Hn (conj He (conj _ _)))).
        -- lia.
        -- apply (nothing_deferred_ext m); [|exact Hd]. intros a Ha. apply Hm'. lia.
        -- apply (nodes_below_ext m); [|exact Hnb]. intros a Ha. apply Hm'. lia.
    + intros a Ha. rewrite Hm' by lia. apply Hz'. lia.
  - rewrite Hm' by lia. apply Hz'. lia.
  - rewrite Hm' by lia. apply Hz'. lia.
  - intros a Ha. apply Hm'. lia.
Qed.

Lemma push_stack_spec B L c m k :
  in_call B L c m k -> running (state c) = true ->
  exists c' m',
    hojson_push_stack c m = (c', m')
    /\ ((state c' = HOJSON_STATE_ERROR_INSUFFICIENT_MEMORY /\ m' = m
         /\ in_call B L c' m k)
        \/ (exists node,
               c' = set_stack node c
               /\ stack_of B L c' m' (S k)
               /\ load8 m' (node + 16) = 0 /\ load8 m' (node + 17) = 0
               /\ untouched B L m m')).
Proof.
  intros H Hst. pose proof H as (Hs & Hd & Hf). unfold hojson_push_stack.
  pose proof Hs as (Hb & Hl & HB & HL & Hi & Her & Hes & Hk).
  rewrite Hb, Hl.
  match goal with
  | |- context [if ?b then _ else _] => destruct b eqn:E
  end.
  - do 2 eexists. split; [reflexivity|]. left.
    split; [inv_simpl; reflexivity|]. split; [reflexivity|].
    apply (in_call_ctx B L c); [exact H| unfold same_stack; inv_simpl; repeat split | |].
    + inv_simpl. exact Hst.
    + inv_simpl. exact Hes.
  - do 2 eexists. split; [reflexivity|]. right.
    set (node := if stack c =? 0 then B else node_end m (stack c) + 1).
    exists node.
    assert (Hnode : match k with
                    | O => node = B
                    | S _ => node = node_end m (stack c) + 1 /\ nothing_deferred m (stack c)
                    end /\ node + 24 < B + L /\ 0 < node).
    { unfold node. destruct k.
      - rewrite (stack_of_O_zero _ _ _ _ Hs) in *. cbn [andb negb orb] in E.
        rewrite orb_false_r in E. unfold sizeof_node in E.
        rewrite Z.geb_leb in E. apply Z.leb_gt in E. split; [reflexivity|].
        clear - E HB. lia.
      - rewrite (stack_of_S_nonzero _ _ _ _ _ Hs) in *. cbn [andb negb orb] in E.
        unfold sizeof_node in E. rewrite Z.geb_leb in E. apply Z.leb_gt in E.
        destruct Hk as (Hge & _ & He & _). split; [|clear - E HB Hge He; lia].
        split; [reflexivity|].
        apply Hf. discriminate. }
    destruct Hnode as (Hn1 & Hn2 & Hn3).
    replace (node =? 0) with false by (symmetry; apply Z.eqb_neq; lia).
    split; [reflexivity|]. apply push_node; assumption.
Qed.

(** ** What a call that returns leaves behind *)

Lemma returned_out_of_memory B L c m k :
  in_call B L c m k -> state c = HOJSON_STATE_ERROR_INSUFFICIENT_MEMORY ->
  returned B L (Z.of_nat k) HOJSON_ERROR_INSUFFICIENT_MEMORY c m.
Proof.
  intros H Hs. split; [apply (in_call_between_calls _ _ _ _ _ H)|].
  split; [split; [exact Hs | apply (in_call_quiet _ _ _ _ _ H)]|].
  intros F. rewrite Hs in F. discriminate F.
Qed.

Lemma has_flag_after_push m node g :
  load8 m (node + 16) = 0 -> load8 m (node + 17) = 0 -> has_flag m node g = false.
Proof. apply has_flag_zero. Qed.

(** The node just pushed by a BEGIN defers the increment of the depth. *)
Lemma begun_between_calls B L c m k :
  stack_of B L c m (S k) ->
  depth c = u32 (Z.of_nat k) ->
  has_flag m (stack c) HOJSON_FLAG_INCREMENT_DEPTH = true ->
  has_flag m (stack c) HOJSON_FLAG_DECREMENT_DEPTH = false ->
  has_flag m (stack c) HOJSON_FLAG_MUST_POP_STACK = false ->
  between_calls B L c m (Z.of_nat k + 1).
Proof.
  intros Hs Hd Hi Hdec Hpop. exists (S k), true, false.
  refine (conj Hs (conj _ (conj _ (conj eq_refl (conj _ _))))).
  - discriminate.
  - intros _. auto.
  - rewrite Hd. f_equal. lia.
  - lia.
Qed.

Lemma stack_of_or_flag B L c m k f :
  stack_of B L c m (S k) ->
  stack_of B L c (or_flag m (stack c) f) (S k)
  /\ untouched B L m (or_flag m (stack c) f).
Proof. intros H. apply stack_of_set_node_flags. exact H. Qed.

Lemma begin_token_spec B L c m k v :
  in_call B L c m k -> running (state c) = true -> v = 123 \/ v = 91 ->
  step_ok B L m k (hojson_begin_token c m v).
Proof.
  intros H Hst Hv. unfold hojson_begin_token.
  match goal with
  | |- context [hojson_push_stack ?x m] => set (c1 := x)
  end.
  pose proof H as ((_ & _ & _ & _ & _ & Her & Hes & _) & Hd & _).
  assert (H1 : in_call B L c1 m k /\ state c1 = state c /\ depth c1 = depth c).
  { unfold c1. destruct (negb (stack c =? 0) && has_flag m (stack c) HOJSON_FLAG_HAS_NAME).
    - split; [|inv_simpl; split; reflexivity].
      apply (in_call_ctx B L c); [exact H| unfold same_stack; inv_simpl; repeat split | |];
        inv_simpl; assumption.
    - split; [|inv_simpl; split; reflexivity].
      apply (in_call_ctx B L c); [exact H| unfold same_stack; inv_simpl; repeat split | |];
        inv_simpl; assumption. }
  clearbody c1. destruct H1 as (H1 & Hs1 & Hd1).
  rewrite <- Hs1 in Hst. rewrite <- Hd1 in Hd.
  destruct (push_stack_spec B L c1 m k H1 Hst) as (c2 & m2 & E & [(F1 & -> & F3) | (node & -> & G)]);
    rewrite E.
  - rewrite F1.
    change (state_num HOJSON_STATE_ERROR_INSUFFICIENT_MEMORY >=? state_num HOJSON_STATE_NONE)
      with false. cbv iota.
    assert (F4 : in_call B L (hojson_stay c2) m k).
    { apply (in_call_ctx B L c2); [exact F3 | solve_same_stack | |];
        unfold hojson_stay; inv_simpl; apply F3. }
    split; [|apply untouched_refl].
    apply returned_out_of_memory; [exact F4|]. unfold hojson_stay. inv_simpl. exact F1.
  - destruct G as (Gs & G16 & G17 & Gu).
    inv_simpl. rewrite (in_loop_state_num _ (running_in_loop _ Hst)). cbv iota.
    set (c2 := set_stack node c1) in *.
    assert (Hn : stack c2 = node) by (unfold c2; inv_simpl; reflexivity).
    assert (Hd2 : depth c2 = u32 (Z.of_nat k)) by (unfold c2; inv_simpl; exact Hd).
    assert (Hst2 : state c2 = state c1) by (unfold c2; inv_simpl; reflexivity).
    assert (Her2 : running (error_return_state c2) = true) by apply Gs.
    assert (Hes2 : running (escape_return_state c2) = true) by apply Gs.
    clearbody c2. subst node.
    set (m3 := or_flag m2 (stack c2) HOJSON_FLAG_POST_VALUE_CLEAN_UP).
    set (m4 := or_flag m3 (stack c2) HOJSON_FLAG_INCREMENT_DEPTH).
    destruct (stack_of_or_flag B L c2 m2 k HOJSON_FLAG_POST_VALUE_CLEAN_UP Gs) as (S3 & U3).
    fold m3 in S3, U3.
    destruct (stack_of_or_flag B L c2 m3 k HOJSON_FLAG_INCREMENT_DEPTH S3) as (S4 & U4).
    fold m4 in S4, U4.
    assert (I4 : has_flag m4 (stack c2) HOJSON_FLAG_INCREMENT_DEPTH = true).
    { apply has_flag_or_flag_same. discriminate. }
    assert (D4 : has_flag m4 (stack c2) HOJSON_FLAG_DECREMENT_DEPTH = false).
    { unfold m4, m3. rewrite !has_flag_or_flag_other by reflexivity.
      apply has_flag_zero; assumption. }
    assert (P4 : has_flag m4 (stack c2) HOJSON_FLAG_MUST_POP_STACK = false).
    { unfold m4, m3. rewrite !has_flag_or_flag_other by reflexivity.
      apply has_flag_zero; assumption. }
    assert (U : untouched B L m m4).
    { apply (untouched_trans _ _ _ m2); [exact Gu|].
      apply (untouched_trans _ _ _ m3); assumption. }
    destruct Hv as [-> | ->].
    + change (123 =? 123) with true. cbv iota.
      split; [|exact U]. split; [|split; [exact I | inv_simpl; discriminate]].
      split; [inv_simpl; exact Hd2|].
      apply begun_between_calls;
        [apply (stack_of_ctx B L c2);
           [exact S4 | unfold same_stack; inv_simpl; repeat split | |]
        | | | |]; inv_simpl; assumption.
    + change (91 =? 123) with false. change (91 =? 91) with true. cbv iota.
      destruct (stack_of_or_flag B L c2 m4 k HOJSON_FLAG_IS_ARRAY S4) as (S5 & U5).
      split; [|apply (untouched_trans _ _ _ m4); assumption].
      split; [|split; [exact I | inv_simpl; discriminate]].
      split; [inv_simpl; exact Hd2|].
      apply begun_between_calls;
        [apply (stack_of_ctx B L c2);
           [exact S5 | unfold same_stack; inv_simpl; repeat split | |]
        | | | |]; inv_simpl; try assumption;
        rewrite has_flag_or_flag_other by reflexivity; assumption.
Qed.

(** ** Ending a container *)

Lemma stack_of_or_flag_parent B L c m k f :
  Z.land f HOJSON_FLAG_INCREMENT_DEPTH = 0 ->
  Z.land f HOJSON_FLAG_DECREMENT_DEPTH = 0 ->
  Z.land f HOJSON_FLAG_MUST_POP_STACK = 0 ->
  stack_of B L c m (S (S k)) ->
  let m' := or_flag m (node_parent m (stack c)) f in
  stack_of B L c m' (S (S k)) /\ untouched B L m m'
  /\ (forall g, has_flag m' (stack c) g = has_flag m (stack c) g).
Proof.
  intros F1 F2 F3 Hs m'.
  pose proof Hs as (Hb & Hl & HB & HL & Hi & Her & Hes & Hge & Hnb & He & Hlt & H24 & Hz).
  pose proof Hnb as (Hp0 & Htop & Hpe & Hpd & Hpb).
  apply nodes_below_ge in Hpb.
  set (p := node_parent m (stack c)) in *.
  assert (Hm' : forall a, a <> p + 16 -> a <> p + 17 -> load8 m' a = load8 m a).
  { intros a A1 A2. unfold m', or_flag. apply load8_set_node_flags; assumption. }
  assert (Hend : node_end m' (stack c) = node_end m (stack c)).
  { apply node_end_ext. intros a Ha. apply Hm'; lia. }
  split; [|split].
  - refine (conj Hb (conj Hl (conj HB (conj HL (conj Hi (conj Her (conj Hes _))))))).
    rewrite Hend.
    refine (conj Hge (conj _ (conj He (conj Hlt (conj H24 _))))).
    + apply nodes_below_or_flag_parent; assumption.
    + intros a Ha. rewrite Hm' by lia. apply Hz. exact Ha.
  - intros a Ha. apply Hm'; lia.
  - intros g. apply has_flag_ext. intros a Ha. apply Hm'; lia.
Qed.

(** The node closed by an END defers the decrement of the depth and its
    own removal. *)
Lemma ended_between_calls B L c m k :
  stack_of B L c m (S k) ->
  depth c = u32 (Z.of_nat (S k)) ->
  has_flag m (stack c) HOJSON_FLAG_INCREMENT_DEPTH = false ->
  has_flag m (stack c) HOJSON_FLAG_DECREMENT_DEPTH = true ->
  has_flag m (stack c) HOJSON_FLAG_MUST_POP_STACK = true ->
  between_calls B L c m (Z.of_nat (S k) - 1).
Proof.
  intros Hs Hd Hi Hdec Hpop. exists (S k), false, true.
  refine (conj Hs (conj _ (conj _ (conj eq_refl (conj _ eq_refl))))).
  - discriminate.
  - intros _. auto.
  - rewrite Hd, Z.sub_0_r. reflexivity.
Qed.

Lemma returned_pinned B L c m k code s :
  in_call B L c m k ->
  pinned_state code = Some s -> state c = s ->
  (s = HOJSON_STATE_DONE -> k = O) ->
  returned B L (Z.of_nat k) code c m.
Proof.
  intros H Hp Hs Hdone. unfold returned. rewrite Hp.
  split; [|split; [split; [exact Hs | apply (in_call_quiet _ _ _ _ _ H)]|]].
  - destruct code; try discriminate Hp; apply (in_call_between_calls _ _ _ _ _ H).
  - intros F. rewrite Hs in F. rewrite (Hdone F).
    destruct code; try discriminate Hp; reflexivity.
Qed.

Lemma end_token_spec B L c m k v :
  in_call B L c m (S k) -> step_ok B L m (S k) (hojson_end_token c m v).
Proof.
  intros H. pose proof H as (Hs & Hd & Hf).
  destruct (Hf ltac:(discriminate)) as ((Hi & Hdec & Hpop) & Hcl).
  pose proof Hs as (_ & _ & _ & _ & _ & Her & Hes & _ & Hnb & _).
  unfold hojson_end_token. cbv zeta.
  destruct ((has_flag m (stack c) HOJSON_FLAG_IS_ARRAY && negb (v =? 93))
            || (negb (has_flag m (stack c) HOJSON_FLAG_IS_ARRAY) && negb (v =? 125))).
  { split; [|apply untouched_refl].
    apply (returned_pinned _ _ _ _ _ _ HOJSON_STATE_ERROR_TOKEN_MISMATCH);
      [|reflexivity|inv_simpl; reflexivity|discriminate].
    apply (in_call_ctx B L c); [exact H | unfold same_stack; inv_simpl; repeat split | |];
      inv_simpl; assumption. }
  destruct (has_flag m (stack c) HOJSON_FLAG_COMMA).
  { split; [|apply untouched_refl].
    apply (returned_pinned _ _ _ _ _ _ HOJSON_STATE_ERROR_SYNTAX);
      [|reflexivity|inv_simpl; reflexivity|discriminate].
    apply (in_call_ctx B L c); [exact H | unfold same_stack; inv_simpl; repeat split | |];
      inv_simpl; assumption. }
  set (m1 := or_flag m (stack c) HOJSON_FLAG_MUST_POP_STACK).
  set (m2 := or_flag m1 (stack c) HOJSON_FLAG_DECREMENT_DEPTH).
  destruct (stack_of_or_flag B L c m k HOJSON_FLAG_MUST_POP_STACK Hs) as (S1 & U1).
  fold m1 in S1, U1.
  destruct (stack_of_or_flag B L c m1 k HOJSON_FLAG_DECREMENT_DEPTH S1) as (S2 & U2).
  fold m2 in S2, U2.
  assert (I2 : has_flag m2 (stack c) HOJSON_FLAG_INCREMENT_DEPTH = false).
  { unfold m2, m1. rewrite !has_flag_or_flag_other by reflexivity. exact Hi. }
  assert (D2 : has_flag m2 (stack c) HOJSON_FLAG_DECREMENT_DEPTH = true).
  { apply has_flag_or_flag_same. discriminate. }
  assert (P2 : has_flag m2 (stack c) HOJSON_FLAG_MUST_POP_STACK = true).
  { unfold m2. rewrite has_flag_or_flag_other by reflexivity.
    apply has_flag_or_flag_same. discriminate. }
  assert (U12 : untouched B L m m2) by (apply (untouched_trans _ _ _ m1); assumption).
  clearbody m2. clear S1 U1 U2 m1.
  set (parent := node_parent m2 (stack c)).
  set (c1 := set_name 0 (set_state HOJSON_STATE_POST_VALUE c)).
  set (c2 := if negb (parent =? 0) && has_flag m2 parent HOJSON_FLAG_HAS_NAME
             then set_name (node_data parent) c1 else c1).
  set (m3 := if negb (parent =? 0)
             then or_flag m2 parent HOJSON_FLAG_POST_VALUE_CLEAN_UP else m2).
  assert (Hc2 : same_stack c c2 /\ error_return_state c2 = error_return_state c
                /\ escape_return_state c2 = escape_return_state c
                /\ state c2 = HOJSON_STATE_POST_VALUE).
  { unfold c2, c1.
    destruct (negb (parent =? 0) && has_flag m2 parent HOJSON_FLAG_HAS_NAME);
      unfold same_stack; inv_simpl; repeat split. }
  destruct Hc2 as (Hss & Her2 & Hes2 & Hst2).
  assert (Hm3 : stack_of B L c m3 (S k) /\ untouched B L m2 m3
                /\ forall g, has_flag m3 (stack c) g = has_flag m2 (stack c) g).
  { unfold m3. destruct (parent =? 0) eqn:Ep; cbn [negb].
    - split; [exact S2|]. split; [apply untouched_refl | reflexivity].
    - destruct k as [|k'].
      + pose proof S2 as (_ & _ & _ & _ & _ & _ & _ & _ & (_ & Hp0) & _).
        apply Z.eqb_neq in Ep. contradiction.
      + apply stack_of_or_flag_parent; try reflexivity. exact S2. }
  destruct Hm3 as (S3 & U3 & F3).
  assert (R : forall code,
             code = HOJSON_ARRAY_END \/ code = HOJSON_OBJECT_END ->
             step_ok B L m (S k) (Return code c2 m3)).
  { intros code Hcode. split; [|apply (untouched_trans _ _ _ m2); assumption].
    assert (Hd2 : depth c2 = u32 (Z.of_nat (S k))).
    { pose proof Hss as (_ & Hdd & _). rewrite Hdd. exact Hd. }
    assert (Hb : between_calls B L c2 m3 (Z.of_nat (S k) - 1)).
    { pose proof Hss as (Hst & _).
      apply ended_between_calls;
        [apply (stack_of_ctx B L c);
           [exact S3 | exact Hss | rewrite Her2; exact Her | rewrite Hes2; exact Hes]
        | exact Hd2 | | | ]; rewrite Hst, F3; assumption. }
    destruct Hcode as [-> | ->];
      (split; [|split; [exact I | rewrite Hst2; discriminate]]);
      (split; [exact Hd2 | split; [lia | exact Hb]]). }
  destruct (has_flag m3 (stack c) HOJSON_FLAG_IS_ARRAY); apply R; auto.
Qed.

(** ** The deferred work *)

Lemma u32_add_l a b : u32 (u32 a + b) = u32 (a + b).
Proof. unfold u32. apply Z.add_mod_idemp_l. lia. Qed.

Lemma u32_sub_l a b : u32 (u32 a - b) = u32 (a - b).
Proof. unfold u32. apply Zminus_mod_idemp_l. Qed.

Lemma post_value_clean_up_spec B L c m k :
  stack_of B L c m (S k) -> nothing_deferred m (stack c) ->
  depth c = u32 (Z.of_nat (S k)) ->
  exists c' m',
    post_value_clean_up c m = (c', m')
    /\ in_call B L c' m' (S k) /\ untouched B L m m' /\ state c' = state c.
Proof.
  intros Hs Hnd Hd. unfold post_value_clean_up. cbv zeta.
  destruct (has_flag m (stack c) HOJSON_FLAG_POST_VALUE_CLEAN_UP) eqn:Ecl.
  2:{ do 2 eexists. split; [reflexivity|]. split; [|split; [apply untouched_refl|reflexivity]].
      split; [exact Hs|]. split; [exact Hd|]. intros _. split; assumption. }
  do 2 eexists. split; [reflexivity|].
  pose proof Hs as (Hb & Hl & HB & HL & Hi & Her & Hes & Hge & Hnb & He & Hlt & H24 & Hz).
  set (top := stack c) in *.
  set (m1 := if node_end m top - node_data top >? 0
             then set_node_end (memset m (node_data top) 0 (node_end m top - node_data top + 1))
                               top (node_data top - 1)
             else m).
  assert (Hm1 : (forall a, a < top + 8 \/ top + 16 <= a < top + 18 \/ B + L <= a ->
                           load8 m1 a = load8 m a)
                /\ top + 17 <= node_end m1 top < B + L
                /\ zero_between m1 (node_end m1 top) (B + L)).
  { unfold m1, node_data. destruct (node_end m top - (top + 18) >? 0) eqn:E.
    - apply Z.gtb_lt in E.
      assert (He1 : node_end (set_node_end (memset m (top + 18) 0
                                  (node_end m top - (top + 18) + 1)) top (top + 18 - 1)) top
                    = top + 17).
      { rewrite node_end_set_node_end; lia. }
      rewrite He1. split; [|split; [lia|]].
      + intros a Ha. rewrite load8_set_node_end by lia. rewrite load8_memset.
        replace ((top + 18 <=? a) && (a <? top + 18 + (node_end m top - (top + 18) + 1)))
          with false by bool_false. reflexivity.
      + intros a Ha. rewrite load8_set_node_end by lia. rewrite load8_memset.
        destruct ((top + 18 <=? a) && (a <? top + 18 + (node_end m top - (top + 18) + 1)))
          eqn:Ea; [reflexivity|].
        apply Hz. apply andb_false_iff in Ea. rewrite Z.leb_gt, Z.ltb_ge in Ea. lia.
    - split; [reflexivity|]. split; [lia | exact Hz]. }
  destruct Hm1 as (A1 & A2 & A3). clearbody m1.
  assert (S1 : stack_of B L c m1 (S k)).
  { apply (stack_of_top_update B L c m); fold top; try assumption; try lia.
    intros a Ha. apply A1. lia. }
  destruct (stack_of_set_node_flags B L c m1 k
              (Z.land (node_flags m1 (stack c)) (Z.lnot value_flags)) S1) as (S2 & U2).
  fold top in S2, U2. fold (clear_flag m1 top value_flags) in S2, U2.
  assert (Hfl : forall g, has_flag m1 top g = has_flag m top g).
  { intros g. apply has_flag_ext. intros a Ha. apply A1. lia. }
  destruct Hnd as (N1 & N2 & N3).
  split; [|split].
  - apply (in_call_ctx B L c); [| unfold same_stack; inv_simpl; repeat split | |];
      [|inv_simpl; exact Her|inv_simpl; exact Hes].
    split; [exact S2|]. split; [exact Hd|]. intros _. fold top.
    unfold nothing_deferred.
    rewrite !has_flag_clear_flag_other by reflexivity. rewrite !Hfl.
    split; [auto|]. apply has_flag_clear_flag_same. reflexivity.
  - apply (untouched_trans _ _ _ m1); [|exact U2]. intros a Ha. apply A1. lia.
  - inv_simpl. reflexivity.
Qed.

Lemma pop_stack_spec B L c m k :
  stack_of B L c m (S k) ->
  let p := node_parent m (stack c) in
  exists m',
    hojson_pop_stack c m = (set_stack p c, m')
    /\ stack_of B L (set_stack p c) m' k
    /\ untouched B L m m'
    /\ (p =? 0) = match k with O => true | S _ => false end
    /\ (k <> O -> nothing_deferred m' p).
Proof.
  intros Hs p. unfold hojson_pop_stack. rewrite (stack_of_S_nonzero _ _ _ _ _ Hs).
  eexists. split; [reflexivity|].
  pose proof Hs as (Hb & Hl & HB & HL & Hi & Her & Hes & Hge & Hnb & He & Hlt & H24 & Hz).
  set (top := stack c) in *.
  set (n := HOJSON_MAXIMUM sizeof_node (u64 (node_end m top - top + 1))).
  assert (Hn : 24 <= n /\ node_end m top - top + 1 <= n /\ top + n <= B + L).
  { unfold n, HOJSON_MAXIMUM, sizeof_node, u64.
    rewrite Z.mod_small by (change 18446744073709551616 with (2 ^ 64); lia).
    destruct (24 >=? node_end m top - top + 1) eqn:E; rewrite Z.geb_leb in E;
      [apply Z.leb_le in E | apply Z.leb_gt in E]; lia. }
  clearbody n. destruct Hn as (Hn1 & Hn2 & Hn3).
  assert (Hm' : forall a, ~ (top <= a < top + n) -> load8 (memset m top 0 n) a = load8 m a).
  { intros a Ha. rewrite load8_memset.
    replace ((top <=? a) && (a <? top + n)) with false by bool_false. reflexivity. }
  assert (Hz' : forall a, top <= a < B + L -> load8 (memset m top 0 n) a = 0).
  { intros a Ha. rewrite load8_memset.
    destruct ((top <=? a) && (a <? top + n)) eqn:Ea; [reflexivity|].
    apply Hz. apply andb_false_iff in Ea. rewrite Z.leb_gt, Z.ltb_ge in Ea. lia. }
  split; [|split; [|split]].
  - unfold stack_of. inv_simpl.
    refine (conj Hb (conj Hl (conj HB (conj HL (conj Hi (conj Her (conj Hes _))))))).
    destruct k as [|k'].
    + destruct Hnb as (Htop & Hp). split; [exact Hp|].
      intros a Ha. apply Hz'. lia.
    + destruct Hnb as (Hp0 & Htop & Hpe & Hpd & Hpb). fold p in Hp0, Htop, Hpe, Hpd, Hpb.
      pose proof (nodes_below_ge _ _ _ _ Hpb) as Hpge.
      assert (Hend : node_end (memset m top 0 n) p = node_end m p).
      { apply node_end_ext. intros a Ha. apply Hm'. lia. }
      rewrite Hend.
      refine (conj Hpge (conj _ (conj Hpe (conj _ (conj _ _))))); try lia.
      * apply (nodes_below_ext m); [|exact Hpb]. intros a Ha. apply Hm'. lia.
      * intros a Ha. apply Hz'. lia.
  - intros a Ha. apply Hm'. lia.
  - destruct k as [|k'].
    + destruct Hnb as (_ & Hp). apply Z.eqb_eq. exact Hp.
    + destruct Hnb as (Hp0 & _). apply Z.eqb_neq. exact Hp0.
  - intros Hk. destruct k as [|k']; [contradiction|].
    destruct Hnb as (Hp0 & Htop & Hpe & Hpd & Hpb). fold p in Htop, Hpe, Hpd.
    apply (nothing_deferred_ext m); [|exact Hpd]. intros a Ha. apply Hm'. lia.
Qed.

Lemma stack_of_clear_flag B L c m k f :
  stack_of B L c m (S k) ->
  stack_of B L c (clear_flag m (stack c) f) (S k)
  /\ untouched B L m (clear_flag m (stack c) f).
Proof. intros H. apply stack_of_set_node_flags. exact H. Qed.

Lemma stack_of_set_depth B L c m k d :
  stack_of B L c m k -> stack_of B L (set_depth d c) m k.
Proof. unfold stack_of. inv_simpl. intros H. exact H. Qed.

(** The deferred work of a call: either the root was closed and the call
    ends the document, or the parsing goes on with as many nodes as the
    caller counts open containers. *)
Lemma parse_deferred_spec B L c m open :
  between_calls B L c m open ->
  match parse_deferred c m with
  | Return code c' m' =>
      code = HOJSON_END_OF_DOCUMENT
      /\ returned B L open code c' m' /\ untouched B L m m'
  | Continue c' m' =>
      exists k, open = Z.of_nat k /\ in_call B L c' m' k
                /\ untouched B L m m' /\ state c' = state c
  end.
Proof.
  intros (k & inc & pop & Hs & Hk0 & Hfl & Hip & Hd & Hopen).
  unfold parse_deferred. destruct k as [|k].
  { rewrite (stack_of_O_zero _ _ _ _ Hs).
    destruct (Hk0 eq_refl) as (-> & ->). exists O.
    split; [subst open; reflexivity|]. split; [|split; [apply untouched_refl | reflexivity]].
    split; [exact Hs|]. split; [exact Hd|]. intros F. contradiction. }
  rewrite (stack_of_S_nonzero _ _ _ _ _ Hs).
  destruct (Hfl ltac:(discriminate)) as (Fi & Fd & Fp). clear Hk0 Hfl.
  pose proof Hs as (_ & _ & _ & _ & _ & Her & Hes & _).
  rewrite Fi.
  destruct inc.
  - (* the depth goes up after a BEGIN *)
    destruct pop; [discriminate Hip|]. cbv iota beta.
    set (c1 := set_depth (u32 (depth c + 1)) c).
    set (m1 := clear_flag m (stack c) HOJSON_FLAG_INCREMENT_DEPTH).
    assert (Hst : stack c1 = stack c) by (unfold c1; inv_simpl; reflexivity).
    rewrite Hst.
    assert (Fd1 : has_flag m1 (stack c) HOJSON_FLAG_DECREMENT_DEPTH = false).
    { unfold m1. rewrite has_flag_clear_flag_other by reflexivity. exact Fd. }
    assert (Fp1 : has_flag m1 (stack c) HOJSON_FLAG_MUST_POP_STACK = false).
    { unfold m1. rewrite has_flag_clear_flag_other by reflexivity. exact Fp. }
    assert (Fi1 : has_flag m1 (stack c) HOJSON_FLAG_INCREMENT_DEPTH = false).
    { unfold m1. apply has_flag_clear_flag_same. reflexivity. }
    rewrite Fd1. cbv iota beta. rewrite Hst, Fp1.
    destruct (stack_of_clear_flag B L c m k HOJSON_FLAG_INCREMENT_DEPTH Hs) as (S1 & U1).
    fold m1 in S1, U1.
    assert (S1' : stack_of B L c1 m1 (S k)) by (apply stack_of_set_depth; exact S1).
    assert (D1 : depth c1 = u32 (Z.of_nat (S k))).
    { unfold c1. inv_simpl. rewrite Hd, u32_add_l. f_equal. lia. }
    assert (Hst1 : state c1 = state c) by (unfold c1; inv_simpl; reflexivity).
    clearbody c1 m1.
    destruct (post_value_clean_up_spec B L c1 m1 k S1') as (c4 & m4 & E & H4 & U4 & St4);
      [rewrite Hst; repeat split; assumption | exact D1 |].
    rewrite E. exists (S k). split; [subst open; lia|]. split; [exact H4|].
    split; [apply (untouched_trans _ _ _ m1); assumption | congruence].
  - cbv iota beta. rewrite Fd. destruct pop.
    + (* the node closed by an END is removed *)
      cbv iota beta.
      set (c2 := set_depth (u32 (depth c - 1)) c).
      set (m2 := clear_flag m (stack c) HOJSON_FLAG_DECREMENT_DEPTH).
      assert (Hst : stack c2 = stack c) by (unfold c2; inv_simpl; reflexivity).
      assert (Fp2 : has_flag m2 (stack c2) HOJSON_FLAG_MUST_POP_STACK = true).
      { rewrite Hst. unfold m2. rewrite has_flag_clear_flag_other by reflexivity. exact Fp. }
      rewrite Fp2.
      destruct (stack_of_clear_flag B L c m k HOJSON_FLAG_DECREMENT_DEPTH Hs) as (S2 & U2).
      fold m2 in S2, U2.
      assert (S2' : stack_of B L c2 m2 (S k)) by (apply stack_of_set_depth; exact S2).
      assert (D2 : depth c2 = u32 (Z.of_nat k)).
      { unfold c2. inv_simpl. rewrite Hd, u32_sub_l. f_equal. lia. }
      assert (Hst2 : state c2 = state c) by (unfold c2; inv_simpl; reflexivity).
      clearbody c2 m2.
      destruct (pop_stack_spec B L c2 m2 k S2') as (m3 & E & S3 & U3 & Ep & N3).
      rewrite E, Ep. clear E.
      set (p := node_parent m2 (stack c2)) in *.
      pose proof S3 as (_ & _ & _ & _ & _ & Her3 & Hes3 & _).
      destruct k as [|k'].
      * split; [reflexivity|].
        split; [|apply (untouched_trans _ _ _ m2); assumption].
        assert (S3' : stack_of B L (set_state HOJSON_STATE_DONE (set_stack p c2)) m3 O).
        { revert S3. unfold stack_of. inv_simpl. intros S3. exact S3. }
        split.
        -- exists O, false, false.
           refine (conj S3' (conj _ (conj _ (conj eq_refl (conj _ _))))).
           ++ auto.
           ++ intros F. contradiction.
           ++ inv_simpl. exact D2.
           ++ subst open. reflexivity.
        -- split; [|intros _; subst open; reflexivity].
           split; [inv_simpl; reflexivity|]. left.
           apply stack_of_O_zero in S3'. apply Z.eqb_eq in S3'. exact S3'.
      * set (c3 := set_stack p c2) in *.
        assert (Hst3 : stack c3 = p) by (unfold c3; inv_simpl; reflexivity).
        assert (D3 : depth c3 = u32 (Z.of_nat (S k'))) by (unfold c3; inv_simpl; exact D2).
        assert (St3 : state c3 = state c) by (unfold c3; inv_simpl; exact Hst2).
        clearbody c3.
        destruct (post_value_clean_up_spec B L c3 m3 k' S3) as (c4 & m4 & E & H4 & U4 & St4);
          [rewrite Hst3; apply N3; discriminate | exact D3 |].
        rewrite E. exists (S k'). split; [subst open; lia|]. split; [exact H4|].
        split; [|congruence].
        apply (untouched_trans _ _ _ m2); [exact U2|].
        apply (untouched_trans _ _ _ m3); assumption.
    + (* nothing but the clean-up after a value *)
      cbv iota beta. rewrite Fp.
      destruct (post_value_clean_up_spec B L c m k Hs) as (c4 & m4 & E & H4 & U4 & St4);
        [repeat split; assumption | rewrite Hd; f_equal; lia |].
      rewrite E. exists (S k). split; [subst open; lia|]. split; [exact H4|].
      split; assumption.
Qed.

(** ** The switch on the state before the loop *)

Lemma parse_resume_spec sg B L c m k input n :
  in_call B L c m k -> (state c = HOJSON_STATE_DONE -> k = O) ->
  match parse_resume sg c m input n with
  | Return code c' m' => returned B L (Z.of_nat k) code c' m' /\ c' = c /\ m' = m
  | Continue c' m' => in_call B L c' m' k /\ running (state c') = true /\ m' = m
  end.
Proof.
  intros H Hdone. pose proof H as ((_ & _ & _ & _ & _ & Her & Hes & _) & _).
  unfold parse_resume.
  destruct (state c) eqn:Es;
    try (split; [exact H | split; [rewrite Es; reflexivity | reflexivity]]);
    try (split; [|split; reflexivity]; eapply returned_pinned;
         [exact H | reflexivity | exact Es | first [discriminate | intros _; auto]]).
  destruct (load_stream c m input n) as [? stream].
  match goal with
  | |- context [if ?b then _ else _] => destruct b
  end.
  - split; [|split; reflexivity].
    split; [apply (in_call_between_calls _ _ _ _ _ H)|].
    split; [exact I | rewrite Es; discriminate].
  - split; [|split; [inv_simpl; exact Her | reflexivity]].
    apply (in_call_ctx B L c); [exact H | unfold same_stack; inv_simpl; repeat split | |];
      inv_simpl; [reflexivity | exact Hes].
Qed.

(** ** One character *)

Lemma encode_character_bytes v e : 0 <= bytes (hojson_encode_character v e) <= 4.
Proof.
  unfold hojson_encode_character, encode_utf8, utf16_quad.
  destruct e; split_ifs; cbn [bytes]; lia.
Qed.

Lemma decode_character_bytes sg str n e :
  0 <= bytes (hojson_decode_character sg str n e) <= 4.
Proof.
  unfold hojson_decode_character. cbv zeta.
  destruct e; split_ifs; cbn [bytes]; lia.
Qed.

Lemma continue_ok B L c c' m0 m k :
  in_call B L c m k -> untouched B L m0 m ->
  same_stack c c' ->
  running (error_return_state c') = true ->
  running (escape_return_state c') = true ->
  running (state c') = true \/ state c' = HOJSON_STATE_ERROR_SYNTAX ->
  step_ok B L m0 k (Continue c' m).
Proof.
  intros H U Hss Her Hes Hst. split; [|split; assumption].
  apply (in_call_ctx B L c); assumption.
Qed.

Ltac leaf_continue H :=
  eapply continue_ok;
  [ exact H
  | first [assumption | apply untouched_refl]
  | unfold same_stack, hojson_stay; inv_simpl; repeat split; reflexivity
  | inv_simpl; first [assumption | reflexivity]
  | inv_simpl; first [assumption | reflexivity]
  | inv_simpl; first [left; reflexivity | right; reflexivity | left; assumption] ].

Lemma syntax_error_spec B L c m k :
  in_call B L c m k -> step_ok B L m k (syntax_error c m).
Proof.
  intros H. pose proof H as ((_ & _ & _ & _ & _ & Her & Hes & _) & _).
  unfold syntax_error. leaf_continue H.
Qed.

Lemma expect_letter_spec B L c m k v letter next :
  in_call B L c m k -> running next = true ->
  step_ok B L m k (expect_letter c m v letter next).
Proof.
  intros H Hn. pose proof H as ((_ & _ & _ & _ & _ & Her & Hes & _) & _).
  unfold expect_letter. destruct (v =? letter); [|apply syntax_error_spec; exact H].
  leaf_continue H.
Qed.

Lemma escape_done_spec B L c m0 m k :
  in_call B L c m k -> untouched B L m0 m ->
  step_ok B L m0 k (escape_done c m).
Proof.
  intros H U. pose proof H as ((_ & _ & _ & _ & _ & Her & Hes & _) & _).
  unfold escape_done. leaf_continue H.
Qed.

Lemma append_then_spec B L c m k ch K :
  in_call B L c m (S k) -> running (state c) = true -> 0 <= bytes ch ->
  (forall m', in_call B L c m' (S k) -> untouched B L m m' ->
              step_ok B L m (S k) (K c m')) ->
  step_ok B L m (S k) (append_then c m ch K).
Proof.
  intros H Hst Hb HK. unfold append_then.
  destruct (append_character_spec B L c m k ch H Hst Hb)
    as (code & c' & m' & E & [(-> & -> & H' & U) | (-> & -> & H' & Hs')]); rewrite E.
  - change (code_num HOJSON_NO_OP <? code_num HOJSON_NO_OP) with false. cbv iota.
    apply HK; assumption.
  - change (code_num HOJSON_ERROR_INSUFFICIENT_MEMORY <? code_num HOJSON_NO_OP) with true.
    cbv iota. split; [|apply untouched_refl].
    apply returned_out_of_memory; assumption.
Qed.

(** A value is returned with the clean-up flag set on the top node. *)
Lemma value_returned B L c c' m0 m k :
  in_call B L c m (S k) -> untouched B L m0 m ->
  same_stack c c' ->
  running (error_return_state c') = true ->
  running (escape_return_state c') = true ->
  state c' = HOJSON_STATE_POST_VALUE ->
  step_ok B L m0 (S k)
    (Return HOJSON_VALUE c' (or_flag m (stack c) HOJSON_FLAG_POST_VALUE_CLEAN_UP)).
Proof.
  intros H U Hss Her Hes Hpv.
  pose proof (in_call_ctx _ _ _ _ _ _ H Hss Her Hes) as H'.
  pose proof Hss as (Hst & _). rewrite <- Hst.
  destruct H' as (Hs & Hd & Hf).
  destruct (Hf ltac:(discriminate)) as (Hnd & _).
  destruct (stack_of_or_flag B L c' m k HOJSON_FLAG_POST_VALUE_CLEAN_UP Hs) as (S1 & U1).
  split; [|apply (untouched_trans _ _ _ m); assumption].
  split; [|split; [exact I | rewrite Hpv; discriminate]].
  split; [exact Hd|]. split; [lia|].
  apply settled_between_calls; [exact S1 | exact Hd |]. intros _.
  apply nothing_deferred_or_flag; try reflexivity. exact Hnd.
Qed.

Lemma return_value_spec B L c c' m k :
  in_call B L c m (S k) -> same_stack c c' ->
  error_return_state c' = error_return_state c ->
  escape_return_state c' = escape_return_state c ->
  step_ok B L m (S k) (return_value c' m).
Proof.
  intros H Hss Her' Hes'. pose proof H as ((_ & _ & _ & _ & _ & Her & Hes & _) & _).
  unfold return_value. pose proof Hss as (Hst & Hdd & Hbb & Hll & Hii).
  rewrite Hst.
  apply (value_returned B L c); [exact H | apply untouched_refl | | | |].
  - unfold same_stack. inv_simpl. exact Hss.
  - inv_simpl. rewrite Her'. exact Her.
  - inv_simpl. rewrite Hes'. exact Hes.
  - inv_simpl. reflexivity.
Qed.

Lemma name_returned B L c m k :
  in_call B L c m (S k) -> running (state c) = true ->
  step_ok B L m (S k)
    (let '(code, c1, m1) := hojson_append_terminator c m in
     if code_num code <? code_num HOJSON_NO_OP then Return code c1 m1
     else Return HOJSON_NAME
            (c1 |> set_name (node_data (stack c1)) |> set_state HOJSON_STATE_POST_NAME) m1).
Proof.
  intros H Hst.
  pose proof H as ((_ & _ & _ & _ & _ & _ & _ & Hge & _ & He0 & _) & _).
  destruct (append_terminator_spec B L c m k H Hst)
    as (code & c' & m' & E & [(-> & -> & H' & U & Hlt & Hz) | (-> & -> & H' & Hs')]);
    rewrite E.
  - change (code_num HOJSON_NO_OP <? code_num HOJSON_NO_OP) with false. cbv iota.
    pose proof H' as ((_ & _ & _ & _ & _ & Her & Hes & _ & _ & _ & Hin & _) & _).
    assert (H2 : in_call B L (set_state HOJSON_STATE_POST_NAME
                                (set_name (node_data (stack c)) c)) m' (S k)).
    { apply (in_call_ctx B L c); [exact H' | unfold same_stack; inv_simpl; repeat split | |];
        inv_simpl; assumption. }
    split; [|exact U]. split; [|split; [exact I | inv_simpl; discriminate]].
    split; [apply H2|]. split; [lia|].
    split; [apply (in_call_between_calls _ _ _ _ _ H2)|].
    unfold name_inside. rewrite name_set_state, name_set_name. unfold node_data.
    split; [lia|]. exists (node_end m' (stack c)). split; [lia | exact Hz].
  - change (code_num HOJSON_ERROR_INSUFFICIENT_MEMORY <? code_num HOJSON_NO_OP) with true.
    cbv iota. split; [|apply untouched_refl].
    apply returned_out_of_memory; assumption.
Qed.

Lemma value_flag_cases f :
  f = HOJSON_FLAG_HAS_NAME \/ f = HOJSON_FLAG_COMMA \/ f = HOJSON_FLAG_DECIMAL
  \/ f = HOJSON_FLAG_EXPONENT \/ f = HOJSON_FLAG_PLUS_OR_MINUS ->
  value_flag f.
Proof. intros [-> | [-> | [-> | [-> | ->]]]]; repeat split. Qed.

Lemma flag_continue B L c c' m0 m k f :
  in_call B L c m (S k) -> untouched B L m0 m ->
  f = HOJSON_FLAG_HAS_NAME \/ f = HOJSON_FLAG_COMMA \/ f = HOJSON_FLAG_DECIMAL
  \/ f = HOJSON_FLAG_EXPONENT \/ f = HOJSON_FLAG_PLUS_OR_MINUS ->
  same_stack c c' ->
  running (error_return_state c') = true ->
  running (escape_return_state c') = true ->
  running (state c') = true \/ state c' = HOJSON_STATE_ERROR_SYNTAX ->
  step_ok B L m0 (S k) (Continue c' (or_flag m (stack c) f)).
Proof.
  intros H U Hf Hss Her Hes Hst.
  destruct (in_call_or_flag B L c m k f (value_flag_cases f Hf) H) as (H' & U').
  apply (continue_ok B L c); try assumption.
  apply (untouched_trans _ _ _ m); assumption.
Qed.

Ltac leaf_flag H :=
  eapply flag_continue;
  [ exact H
  | first [assumption | apply untouched_refl]
  | tauto
  | unfold same_stack, hojson_stay; inv_simpl; repeat split; reflexivity
  | inv_simpl; first [assumption | reflexivity]
  | inv_simpl; first [assumption | reflexivity]
  | inv_simpl; first [left; reflexivity | right; reflexivity | left; assumption] ].

Ltac leaf H Hst :=
  lazymatch goal with
  | |- step_ok _ _ _ _ (if ?b then _ else _) =>
      let E := fresh "E" in destruct b eqn:E; leaf H Hst
  | |- step_ok _ _ _ _ (syntax_error _ _) => apply syntax_error_spec; exact H
  | |- step_ok _ _ _ _ (Continue _ (or_flag _ _ _)) => leaf_flag H
  | |- step_ok _ _ _ _ (Continue _ _) => leaf_continue H
  | |- step_ok _ _ _ _ (hojson_end_token _ _ _) => apply end_token_spec; exact H
  | |- step_ok _ _ _ _ (expect_letter _ _ _ _ _) =>
      apply expect_letter_spec; [exact H | reflexivity]
  | |- step_ok _ _ _ _ (hojson_begin_token _ _ _) =>
      apply begin_token_spec;
      [ exact H | exact Hst
      | match goal with
        | E : _ || _ = true |- _ =>
            apply orb_true_iff in E; rewrite !Z.eqb_eq in E; exact E
        end ]
  | |- step_ok _ _ _ _ (return_value _ _) =>
      apply (return_value_spec _ _ _ _ _ _ H);
      [ unfold same_stack; inv_simpl; repeat split; reflexivity
      | inv_simpl; reflexivity | inv_simpl; reflexivity ]
  | |- step_ok _ _ _ _ (escape_done _ _) =>
      apply escape_done_spec; [exact H | assumption]
  | _ => idtac
  end.

Ltac leaf_append H Hst Hb :=
  apply append_then_spec;
  [ exact H
  | first [exact Hst | inv_simpl; exact Hst]
  | first [exact Hb | apply (proj1 (encode_character_bytes _ _))]
  | let m' := fresh "m'" in
    let H' := fresh "H'" in
    let U' := fresh "U'" in
    intros m' H' U'; cbv beta; leaf H' Hst ].

Lemma parse_character_spec B L c m k ch :
  in_call B L c m k -> running (state c) = true ->
  (5 <= state_num (state c) -> stack c <> 0) ->
  0 <= bytes ch ->
  step_ok B L m k (parse_character c m ch).
Proof.
  intros H Hst Hnz Hb.
  pose proof H as ((_ & _ & _ & _ & _ & Her & Hes & _) & _).
  assert (Hk : 5 <= state_num (state c) -> exists k', k = S k').
  { intros H5. destruct k; [|eauto]. exfalso. apply (Hnz H5).
    destruct H as (Hs & _). apply stack_of_O_zero in Hs. apply Z.eqb_eq in Hs. exact Hs. }
  clear Hnz.
  assert (Hst2 : running (state c) = true) by exact Hst.
  unfold parse_character. cbv zeta.
  remember (state c) as s eqn:Es in Hst, Hk |- * at 1.
  destruct s; try discriminate Hst; clear Hst; cbv iota.
  all: try (destruct (Hk ltac:(cbn; lia)) as (k' & ->)).
  all: leaf H Hst2.
  - apply name_returned; assumption.
  - leaf_append H Hst2 Hb.
  - assert (H1 : in_call B L (set_string_value (node_end m (stack c) + 1) c) m (S k')).
    { apply (in_call_ctx B L c); [exact H | unfold same_stack; inv_simpl; repeat split | |];
        inv_simpl; assumption. }
    leaf_append H1 Hst2 Hb.
  - leaf_append H Hst2 Hb.
  - leaf_append H Hst2 Hb.
  - leaf_append H Hst2 Hb.
  - leaf_append H Hst2 Hb.
  - leaf_append H Hst2 Hb.
  - leaf_append H Hst2 Hb.
  - leaf_append H Hst2 Hb.
  - leaf_append H Hst2 Hb.
  - leaf_append H Hst2 Hb.
  - set (c1 := set_integer_value _ c).
    assert (H1 : in_call B L c1 m (S k')).
    { apply (in_call_ctx B L c); [exact H | unfold c1, same_stack; inv_simpl; repeat split | |];
        unfold c1; inv_simpl; assumption. }
    assert (Hst1 : running (state c1) = true) by (unfold c1; inv_simpl; exact Hst2).
    clearbody c1.
    apply append_then_spec;
      [exact H1 | exact Hst1 | apply (proj1 (encode_character_bytes _ _)) |].
    intros m' H' U'. apply escape_done_spec; [|exact U'].
    pose proof H' as ((_ & _ & _ & _ & _ & Her1 & Hes1 & _) & _).
    apply (in_call_ctx B L c1); [exact H' | unfold same_stack; inv_simpl; repeat split | |];
      inv_simpl; assumption.
  - leaf_append H Hst2 Hb.
  - leaf_append H Hst2 Hb.
  - leaf_append H Hst2 Hb.
  - leaf_append H Hst2 Hb.
  - apply (value_returned B L c); [exact H | apply untouched_refl | | | |];
      destruct (negb (HOJSON_IS_WHITESPACE (value ch)));
      destruct (has_flag m (stack c) HOJSON_FLAG_DECIMAL
                || has_flag m (stack c) HOJSON_FLAG_EXPONENT);
      destruct (negb (string_value c =? 0));
      unfold same_stack, hojson_stay; inv_simpl; repeat split; assumption.
Qed.

(** ** The loop and the whole call *)

Lemma parse_iteration_spec sg B L c m k :
  in_call B L c m k -> running (state c) = true ->
  step_ok B L m k (parse_iteration sg c m).
Proof.
  intros H Hst. pose proof H as ((_ & _ & _ & _ & _ & Her & Hes & _) & _).
  rewrite parse_iteration_unfold.
  destruct ((state_num (state c) >=? state_num HOJSON_STATE_NAME_EXPECTED) && (stack c =? 0))
    eqn:E.
  { split; [|apply untouched_refl].
    apply (returned_pinned _ _ _ _ _ _ HOJSON_STATE_ERROR_INTERNAL);
      [|reflexivity|inv_simpl; reflexivity|discriminate].
    apply (in_call_ctx B L c); [exact H | unfold same_stack; inv_simpl; repeat split | |];
      inv_simpl; assumption. }
  cbv zeta. set (ch := next_character sg c m).
  destruct ((value ch =? 0) || (value ch =? UINT32_MAX)).
  { split; [|apply untouched_refl].
    assert (H1 : in_call B L
                   (set_state HOJSON_STATE_ERROR_UNEXPECTED_EOF
                      (set_error_return_state (state c)
                         (set_stream_length (fst (next_stream c m))
                            (set_stream (snd (next_stream c m)) c)))) m k).
    { apply (in_call_ctx B L c); [exact H | unfold same_stack; inv_simpl; repeat split | |];
        inv_simpl; assumption. }
    split; [apply (in_call_between_calls _ _ _ _ _ H1)|].
    split; [exact I | inv_simpl; discriminate]. }
  apply parse_character_spec.
  - apply (in_call_ctx B L c); [exact H | unfold same_stack; inv_simpl; repeat split | |];
      inv_simpl; assumption.
  - inv_simpl. exact Hst.
  - inv_simpl. intros H5 Hz. apply andb_false_iff in E. destruct E as [E | E].
    + rewrite Z.geb_leb in E. apply Z.leb_gt in E. cbn in E. lia.
    + apply Z.eqb_neq in E. contradiction.
  - apply decode_character_bytes.
Qed.

Lemma parse_loop_spec sg B L fuel :
  forall c m k code c' m',
    in_call B L c m k ->
    running (state c) = true \/ state c = HOJSON_STATE_ERROR_SYNTAX ->
    parse_loop sg fuel c m = Some (code, c', m') ->
    returned B L (Z.of_nat k) code c' m' /\ untouched B L m m'.
Proof.
  induction fuel as [|fuel IH]; intros c m k code c' m' H Hst E; [discriminate E|].
  cbn [parse_loop] in E.
  change ((state_num (state c) >=? state_num HOJSON_STATE_NONE)
          && (state_num (state c) <=? state_num HOJSON_STATE_DONE))
    with (in_loop (state c)) in E.
  destruct (in_loop (state c)) eqn:El.
  - destruct Hst as [Hst | Hst]; [|rewrite Hst in El; discriminate El].
    pose proof (parse_iteration_spec sg B L c m k H Hst) as Hi.
    destruct (parse_iteration sg c m) as [code1 c1 m1 | c1 m1].
    + inversion E; subst. exact Hi.
    + destruct Hi as (H1 & Hst1 & U1).
      destruct (IH _ _ _ _ _ _ H1 Hst1 E) as (R & U).
      split; [exact R | apply (untouched_trans _ _ _ m1); assumption].
  - destruct Hst as [Hst | Hst].
    + apply running_in_loop in Hst. rewrite Hst in El. discriminate El.
    + inversion E; subst. split; [|apply untouched_refl].
      apply (returned_pinned _ _ _ _ _ _ HOJSON_STATE_ERROR_SYNTAX);
        [exact H | reflexivity | exact Hst | discriminate].
Qed.

Lemma parse_input_spec B L c m k input n :
  in_call B L c m k -> in_call B L (parse_input c input n) m k
                       /\ state (parse_input c input n) = state c.
Proof.
  intros H. pose proof H as ((_ & _ & _ & _ & _ & Her & Hes & _) & _).
  unfold parse_input. destruct (negb (json c =? input)); [|split; [exact H | reflexivity]].
  split; [|inv_simpl; reflexivity].
  apply (in_call_ctx B L c); [exact H | unfold same_stack; inv_simpl; repeat split | |];
    inv_simpl; assumption.
Qed.

Lemma parse_context_spec sg B L c m open input n code c' m' :
  idle B L c m open ->
  parse_context sg c m input n = Some (code, c', m') ->
  returned B L open code c' m' /\ untouched B L m m'.
Proof.
  intros (Hbc & Hdone) E. unfold parse_context in E.
  pose proof (parse_deferred_spec B L c m open Hbc) as Hd.
  destruct (parse_deferred c m) as [code1 c1 m1 | c1 m1].
  { destruct Hd as (-> & R & U). inversion E; subst. split; assumption. }
  destruct Hd as (k & -> & H1 & U1 & Hst1).
  assert (Hdone1 : state c1 = HOJSON_STATE_DONE -> k = O).
  { intros F. rewrite Hst1 in F. specialize (Hdone F). lia. }
  pose proof (parse_resume_spec sg B L c1 m1 k input n H1 Hdone1) as Hr.
  destruct (parse_resume sg c1 m1 input n) as [code2 c2 m2 | c2 m2].
  { destruct Hr as (R & -> & ->). inversion E; subst. split; assumption. }
  destruct Hr as (H2 & Hst2 & ->).
  destruct (parse_input_spec B L c2 m1 k input n H2) as (H3 & Hst3).
  rewrite <- Hst3 in Hst2.
  destruct (parse_loop_spec sg B L _ _ _ _ _ _ _ H3 (or_introl Hst2) E) as (R & U).
  split; [exact R | apply (untouched_trans _ _ _ m1); assumption].
Qed.

Lemma idle_between_calls B L c m open : idle B L c m open -> between_calls B L c m open.
Proof. intros (H & _). exact H. Qed.

Lemma hojson_parse_spec sg B L c m open input n code c' m' :
  idle B L c m open ->
  hojson_parse sg (Some c) m input n = Some (code, Some c', m') ->
  returned B L open code c' m' /\ untouched B L m m'.
Proof.
  intros Hidle E. unfold hojson_parse in E.
  destruct ((is_initialized c =? 0) || (input =? 0) || (n <=? 0)).
  - inversion E; subst. split; [|apply untouched_refl].
    split; [apply Hidle|]. split; [exact I | apply Hidle].
  - destruct (parse_context sg c m input n) as [[[code1 c1] m1]|] eqn:Ec; [|discriminate E].
    inversion E; subst. apply (parse_context_spec sg B L c m open input n); assumption.
Qed.

Lemma returned_idle B L open code c m :
  returned B L open code c m -> idle B L c m (open_after code open).
Proof.
  intros (Hm & _ & Hd). split; [|exact Hd].
  destruct code; cbn [open_after]; try exact Hm; apply Hm.
Qed.

(** Nothing is deferred: the deferred work leaves all as it is. *)
Lemma parse_deferred_quiet c m : quiet c m -> parse_deferred c m = Continue c m.
Proof.
  intros [H0 | ((Hi & Hd & Hp) & Hc)]; unfold parse_deferred.
  - rewrite H0. reflexivity.
  - destruct (stack c =? 0); [reflexivity|].
    rewrite Hi. cbv iota beta. rewrite Hd. cbv iota beta. rewrite Hp.
    unfold post_value_clean_up. cbv zeta. rewrite Hc. reflexivity.
Qed.

Lemma hojson_init_idle c m B L :
  0 < B -> 0 < L -> B + L <= 2 ^ 64 ->
  exists c0 m0,
    hojson_init (Some c) m B L = (Some c0, m0)
    /\ idle B L c0 m0 0 /\ untouched B L m m0
    /\ state c0 = HOJSON_STATE_NONE /\ stream_length c0 = 0.
Proof.
  intros HB HL Hfit. unfold hojson_init.
  replace ((B =? 0) || (L <=? 0)) with false.
  2:{ symmetry. apply orb_false_iff. rewrite Z.eqb_neq, Z.leb_gt. lia. }
  do 2 eexists. split; [reflexivity|].
  split; [|split; [|split; reflexivity]].
  - split; [|discriminate]. exists O, false, false.
    refine (conj _ (conj _ (conj _ (conj eq_refl (conj eq_refl eq_refl))))).
    + unfold stack_of. cbn [buffer buffer_length is_initialized error_return_state
                              escape_return_state stack].
      repeat split; try assumption; try discriminate.
      intros a Ha. rewrite load8_memset.
      replace ((B <=? a) && (a <? B + L)) with true by bool_true. reflexivity.
    + auto.
    + intros F. contradiction.
  - intros a Ha. rewrite load8_memset.
    replace ((B <=? a) && (a <? B + L)) with false by bool_false. reflexivity.
Qed.

(** ** Runs of the driver *)

Lemma ev_code_observe code c m : ev_code (observe code c m) = code.
Proof. reflexivity. Qed.

Lemma ev_depth_observe code c m : ev_depth (observe code c m) = depth c.
Proof. reflexivity. Qed.

Lemma returned_event B L open code c m :
  returned B L open code c m ->
  match code with
  | HOJSON_OBJECT_BEGIN | HOJSON_ARRAY_BEGIN => depth c = u32 open
  | HOJSON_OBJECT_END | HOJSON_ARRAY_END
  | HOJSON_NAME | HOJSON_VALUE => 1 <= open /\ depth c = u32 open
  | HOJSON_END_OF_DOCUMENT => open = 0
  | _ => True
  end.
Proof.
  intros (Hm & Hp & Hd). destruct code; try exact I; try (split; apply Hm); try apply Hm.
  cbn [pinned_state] in Hp. destruct Hp as (Hs & _). apply (Hd Hs).
Qed.

Lemma drive_well_nested sg B L fuel :
  forall slices c m open,
    idle B L c m open -> well_nested open (drive sg fuel slices c m).
Proof.
  induction fuel as [|fuel IH]; intros slices c m open Hidle; [exact I|].
  cbn [drive]. destruct slices as [|[input n] rest]; [exact I|].
  destruct (hojson_parse sg (Some c) m input n) as [[[code [c1|]] m1]|] eqn:E;
    try exact I.
  destruct (hojson_parse_spec sg B L c m open input n code c1 m1 Hidle E) as (R & _).
  pose proof (returned_event _ _ _ _ _ _ R) as Hev.
  pose proof (returned_idle _ _ _ _ _ _ R) as Hnext.
  assert (Hcons : forall r, well_nested (open_after code open) r ->
                            well_nested open (observe code c1 m1 :: r)).
  { intros r Hr. cbn [well_nested]. rewrite ev_code_observe, ev_depth_observe.
    split; [|exact Hr]. destruct code; try exact I; try exact Hev;
      destruct Hev; split; assumption. }
  destruct code; cbn [is_error code_num Z.ltb Z.compare]; apply Hcons;
    try exact I; apply IH; exact Hnext.
Qed.

Lemma u32_pred_succ x : u32 (u32 (x - 1) + 1) = u32 x.
Proof. rewrite u32_add_l. f_equal. lia. Qed.

Lemma well_nested_depths :
  forall l open ds,
    well_nested open l -> depths_of open ds ->
    Forall (fun p => snd p = u32 (fst p + 1)) (begin_end_depths ds l).
Proof.
  induction l as [|e r IH]; intros open ds Hw Hds; [constructor|].
  cbn [well_nested] in Hw. destruct Hw as (He & Hr). cbn [begin_end_depths].
  destruct (ev_code e); cbn [open_after] in Hr;
    try (apply (IH open); assumption).
  - (* OBJECT_BEGIN *)
    apply (IH (open + 1)); [exact Hr|]. cbn [depths_of]. split.
    + rewrite He. f_equal. lia.
    + replace (open + 1 - 1) with open by lia. exact Hds.
  - (* OBJECT_END *)
    destruct He as (H1 & He). destruct ds as [|d rest].
    + apply (IH (open - 1)); [exact Hr | exact I].
    + destruct Hds as (-> & Hrest). constructor.
      * cbn [fst snd]. rewrite He, u32_pred_succ. reflexivity.
      * apply (IH (open - 1)); assumption.
  - (* ARRAY_BEGIN *)
    apply (IH (open + 1)); [exact Hr|]. cbn [depths_of]. split.
    + rewrite He. f_equal. lia.
    + replace (open + 1 - 1) with open by lia. exact Hds.
  - (* ARRAY_END *)
    destruct He as (H1 & He). destruct ds as [|d rest].
    + apply (IH (open - 1)); [exact Hr | exact I].
    + destruct Hds as (-> & Hrest). constructor.
      * cbn [fst snd]. rewrite He, u32_pred_succ. reflexivity.
      * apply (IH (open - 1)); assumption.
Qed.

(** ** The input fields: what a call consumes *)

(** The equations for the fields that say where the parser is in its
    input. *)
Create Rewrite HintDb inp.
#[global] Hint Rewrite
  iterator_set_name iterator_set_string_value iterator_set_integer_value
  iterator_set_float_value iterator_set_bool_value iterator_set_value_type iterator_set_line
  iterator_set_column iterator_set_depth iterator_set_json iterator_set_json_length
  iterator_set_encoding iterator_set_iterator iterator_set_bytes_iterated
  iterator_set_buffer iterator_set_buffer_length iterator_set_state
  iterator_set_escape_return_state iterator_set_error_return_state iterator_set_stack
  iterator_set_stream iterator_set_stream_length iterator_set_newline_character
  json_set_name json_set_string_value json_set_integer_value json_set_float_value
  json_set_bool_value json_set_value_type json_set_line json_set_column json_set_depth
  json_set_json json_set_json_length json_set_encoding json_set_iterator
  json_set_bytes_iterated json_set_buffer json_set_buffer_length json_set_state
  json_set_escape_return_state json_set_error_return_state json_set_stack json_set_stream
  json_set_stream_length json_set_newline_character json_length_set_name
  json_length_set_string_value json_length_set_integer_value json_length_set_float_value
  json_length_set_bool_value json_length_set_value_type json_length_set_line
  json_length_set_column json_length_set_depth json_length_set_json
  json_length_set_json_length json_length_set_encoding json_length_set_iterator
  json_length_set_bytes_iterated json_length_set_buffer json_length_set_buffer_length
  json_length_set_state json_length_set_escape_return_state
  json_length_set_error_return_state json_length_set_stack json_length_set_stream
  json_length_set_stream_length json_length_set_newline_character stream_length_set_name
  stream_length_set_string_value stream_length_set_integer_value
  stream_length_set_float_value stream_length_set_bool_value stream_length_set_value_type
  stream_length_set_line stream_length_set_column stream_length_set_depth
  stream_length_set_json stream_length_set_json_length stream_length_set_encoding
  stream_length_set_iterator stream_length_set_bytes_iterated stream_length_set_buffer
  stream_length_set_buffer_length stream_length_set_state
  stream_length_set_escape_return_state stream_length_set_error_return_state
  stream_length_set_stack stream_length_set_stream stream_length_set_stream_length
  stream_length_set_newline_character
  : inp.

Lemma consume_json c ch : json (consume c ch) = json c.
Proof. unfold consume; split_ifs; ctx_simpl; reflexivity. Qed.
Lemma consume_json_length c ch : json_length (consume c ch) = json_length c.
Proof. unfold consume; split_ifs; ctx_simpl; reflexivity. Qed.
Lemma consume_stream_length c ch : stream_length (consume c ch) = 0.
Proof. unfold consume; split_ifs; ctx_simpl; reflexivity. Qed.

#[global] Hint Rewrite consume_json consume_json_length consume_stream_length
  consume_iterator : inp.

Ltac inp_simpl := autorewrite with inp.

(** A decoded character that is neither the NUL nor the mark of a
    character cut by the end of the input has one to four bytes, all of
    them inside what was left of the input. *)
Lemma decode_character_consumes sg str n e :
  let ch := hojson_decode_character sg str n e in
  (value ch =? 0) || (value ch =? UINT32_MAX) = false ->
  1 <= bytes ch <= 4 /\ bytes ch <= n.
Proof.
  unfold hojson_decode_character. cbv zeta.
  set (s := fun i => char_val sg (str i)).
  match goal with
  | |- context [if ?x >? n then _ else _] => set (cb := x)
  end.
  assert (Hcb : (cb = 1 \/ cb = 2 \/ cb = 3 \/ cb = 4)
                \/ (cb = 0 /\ e = HOJSON_ENCODING_UTF_8)).
  { unfold cb. destruct e; split_ifs; auto 10. }
  clearbody cb. destruct (cb >? n) eqn:E.
  - cbn [value]. intros F. discriminate F.
  - rewrite Z.gtb_ltb in E. apply Z.ltb_ge in E. cbn [value bytes].
    destruct Hcb as [Hcb | (-> & ->)]; [intros _; lia|].
    intros F. discriminate F.
Qed.

Ltac case_ifs :=
  repeat (match goal with
          | |- context [if ?b then _ else _] => destruct b
          end;
          cbv beta iota;
          cbn [code_num state_num Z.ltb Z.geb Z.compare Pos.compare Pos.compare_cont]).

(** The switch on the state neither moves the iterator nor changes the
    slice when the loop goes on, and never touches the stream register. *)
Lemma parse_character_input c m ch :
  match parse_character c m ch with
  | Continue c' _ => same_input c c'
  | Return _ c' _ => stream_length c' = stream_length c
  end.
Proof.
  unfold parse_character. cbv zeta.
  destruct (state c);
    unfold hojson_begin_token, hojson_end_token, hojson_push_stack, append_then,
      hojson_append_character, hojson_append_terminator, expect_letter, return_value,
      escape_done, syntax_error, hojson_stay, same_input;
    cbv zeta; case_ifs; inp_simpl; repeat split; reflexivity.
Qed.

Lemma u64_range x : 0 <= u64 x < 2 ^ 64.
Proof. unfold u64. apply Z.mod_pos_bound. reflexivity. Qed.

Lemma remaining_advance jl it j b :
  1 <= b <= u64 (jl - (it - j)) ->
  u64 (jl - (u64 (it + u64 (b - 0)) - j)) = u64 (jl - (it - j)) - b.
Proof.
  intros Hb. pose proof (u64_range (jl - (it - j))) as Hr. unfold u64 in *.
  change (2 ^ 64) with 18446744073709551616 in Hr.
  rewrite Z.sub_0_r. rewrite (Z.mod_small b) by lia.
  replace (jl - ((it + b) mod 18446744073709551616 - j))
    with (jl + j - (it + b) mod 18446744073709551616) by lia.
  rewrite Zminus_mod_idemp_r.
  replace (jl + j - (it + b)) with (jl - (it - j) - b) by lia.
  rewrite <- Zminus_mod_idemp_l. apply Z.mod_small. lia.
Qed.

(** A pass of the loop that goes on has consumed at least one byte of
    the slice; the stream register is empty afterwards. *)
Lemma parse_iteration_progress sg c m :
  stream_length c = 0 ->
  match parse_iteration sg c m with
  | Continue c' _ => stream_length c' = 0 /\ remaining c' < remaining c
  | Return code c' _ => code <> HOJSON_ERROR_UNEXPECTED_EOF -> stream_length c' = 0
  end.
Proof.
  intros Hs. rewrite parse_iteration_unfold.
  destruct ((state_num (state c) >=? state_num HOJSON_STATE_NAME_EXPECTED) && (stack c =? 0)).
  { intros _. inp_simpl. exact Hs. }
  cbv zeta.
  pose proof (decode_character_consumes sg (byte_of (snd (next_stream c m)))
                (u64 (json_length c - (iterator c - json c))) (encoding c)) as Hdec.
  cbv zeta in Hdec. fold (next_character sg c m) in Hdec.
  set (ch := next_character sg c m) in *.
  destruct ((value ch =? 0) || (value ch =? UINT32_MAX)).
  { intros F. contradiction F. reflexivity. }
  destruct (Hdec eq_refl) as (Hb & Hn).
  pose proof (parse_character_input (consume (set_stream (snd (next_stream c m)) c) ch) m ch)
    as Hin.
  destruct (parse_character (consume (set_stream (snd (next_stream c m)) c) ch) m ch)
    as [code c' m' | c' m'].
  - intros _. rewrite Hin. inp_simpl. reflexivity.
  - destruct Hin as (Hit & Hj & Hjl & Hsl). split.
    + rewrite Hsl. inp_simpl. reflexivity.
    + unfold remaining. rewrite Hit, Hj, Hjl. inp_simpl. rewrite Hs.
      rewrite remaining_advance by lia. lia.
Qed.

Lemma parse_loop_returns sg fuel :
  forall c m,
    stream_length c = 0 -> remaining c < Z.of_nat fuel ->
    exists code c' m',
      parse_loop sg fuel c m = Some (code, c', m')
      /\ (code <> HOJSON_ERROR_UNEXPECTED_EOF -> stream_length c' = 0).
Proof.
  induction fuel as [|fuel IH]; intros c m Hs Hr.
  - exfalso. pose proof (u64_range (json_length c - (iterator c - json c))).
    unfold remaining in Hr. lia.
  - cbn [parse_loop].
    destruct ((state_num (state c) >=? state_num HOJSON_STATE_NONE)
              && (state_num (state c) <=? state_num HOJSON_STATE_DONE)).
    + pose proof (parse_iteration_progress sg c m Hs) as Hp.
      destruct (parse_iteration sg c m) as [code c' m' | c' m'].
      * do 3 eexists. split; [reflexivity | exact Hp].
      * destruct Hp as (Hs1 & Hlt). apply IH; [exact Hs1 | lia].
    + do 3 eexists. split; [reflexivity|]. intros _. exact Hs.
Qed.

Lemma parse_deferred_input c m :
  match parse_deferred c m with
  | Continue c' _ => stream_length c' = stream_length c
  | Return _ c' _ => stream_length c' = stream_length c
  end.
Proof.
  unfold parse_deferred, hojson_pop_stack, post_value_clean_up. cbv zeta.
  case_ifs; inp_simpl; reflexivity.
Qed.

Lemma parse_resume_input sg c m input n :
  match parse_resume sg c m input n with
  | Continue c' _ => stream_length c' = stream_length c
  | Return _ c' _ => stream_length c' = stream_length c
  end.
Proof.
  unfold parse_resume. destruct (load_stream c m input n) as [? st].
  destruct (state c); case_ifs; inp_simpl; reflexivity.
Qed.

Lemma parse_input_stream_length c input n :
  stream_length (parse_input c input n) = stream_length c.
Proof. unfold parse_input. case_ifs; inp_simpl; reflexivity. Qed.

Lemma parse_fuel_enough c : remaining c < Z.of_nat (parse_fuel c).
Proof.
  unfold parse_fuel, remaining. cbv zeta.
  pose proof (u64_range (json_length c - (iterator c - json c))). lia.
Qed.

Lemma hojson_parse_returns_gen sg c m input n :
  stream_length c = 0 ->
  exists code c' m',
    hojson_parse sg (Some c) m input n = Some (code, Some c', m')
    /\ (code <> HOJSON_ERROR_UNEXPECTED_EOF -> stream_length c' = 0).
Proof.
  intros Hs. unfold hojson_parse.
  destruct ((is_initialized c =? 0) || (input =? 0) || (n <=? 0)).
  { do 3 eexists. split; [reflexivity|]. intros _. exact Hs. }
  unfold parse_context.
  pose proof (parse_deferred_input c m) as Hd.
  destruct (parse_deferred c m) as [code1 c1 m1 | c1 m1].
  { do 3 eexists. split; [reflexivity|]. intros _. rewrite Hd. exact Hs. }
  pose proof (parse_resume_input sg c1 m1 input n) as Hr.
  destruct (parse_resume sg c1 m1 input n) as [code2 c2 m2 | c2 m2].
  { do 3 eexists. split; [reflexivity|]. intros _. rewrite Hr, Hd. exact Hs. }
  destruct (parse_loop_returns sg (parse_fuel (parse_input c2 input n))
              (parse_input c2 input n) m2) as (code & c' & m' & E & Hc).
  - rewrite parse_input_stream_length, Hr, Hd. exact Hs.
  - apply parse_fuel_enough.
  - rewrite E. do 3 eexists. split; [reflexivity | exact Hc].
Qed.

(** ** Every call returns *)

Lemma parse_iteration_first sg c m :
  match parse_iteration sg c m with
  | Continue c' _ =>
      stream_length c' = 0
      /\ exists b, 1 <= b <= 4 /\ remaining c' = left_after c b
  | Return _ _ _ => True
  end.
Proof.
  rewrite parse_iteration_unfold.
  destruct ((state_num (state c) >=? state_num HOJSON_STATE_NAME_EXPECTED) && (stack c =? 0)).
  { exact I. }
  cbv zeta.
  pose proof (decode_character_consumes sg (byte_of (snd (next_stream c m)))
                (u64 (json_length c - (iterator c - json c))) (encoding c)) as Hdec.
  cbv zeta in Hdec. fold (next_character sg c m) in Hdec.
  set (ch := next_character sg c m) in *.
  destruct ((value ch =? 0) || (value ch =? UINT32_MAX)).
  { exact I. }
  destruct (Hdec eq_refl) as (Hb & Hn).
  pose proof (parse_character_input (consume (set_stream (snd (next_stream c m)) c) ch) m ch)
    as Hin.
  destruct (parse_character (consume (set_stream (snd (next_stream c m)) c) ch) m ch)
    as [code c' m' | c' m'].
  - exact I.
  - destruct Hin as (Hit & Hj & Hjl & Hsl). split.
    + rewrite Hsl. inp_simpl. reflexivity.
    + exists (bytes ch). split; [exact Hb|].
      unfold remaining, left_after. rewrite Hit, Hj, Hjl. inp_simpl.
      apply Z.leb_le in Hn. rewrite Hn. reflexivity.
Qed.

Lemma left_after_fuel c b :
  1 <= b <= 4 -> left_after c b + 2 < Z.of_nat (parse_fuel c).
Proof.
  intros Hb. unfold parse_fuel. cbv zeta.
  assert (Hc : b = 1 \/ b = 2 \/ b = 3 \/ b = 4) by lia.
  destruct Hc as [-> | [-> | [-> | ->]]]; lia.
Qed.

(** The loop returns for every context: [parse_fuel] passes are enough. *)
Lemma parse_loop_total sg c m :
  exists code c' m', parse_loop sg (parse_fuel c) c m = Some (code, c', m').
Proof.
  pose proof (left_after_fuel c) as Hfuel.
  destruct (parse_fuel c) as [|fuel] eqn:Ef; [discriminate Ef|].
  cbn [parse_loop].
  destruct ((state_num (state c) >=? state_num HOJSON_STATE_NONE)
            && (state_num (state c) <=? state_num HOJSON_STATE_DONE)).
  - pose proof (parse_iteration_first sg c m) as Hp.
    destruct (parse_iteration sg c m) as [code c' m' | c' m'].
    + do 3 eexists. reflexivity.
    + destruct Hp as (Hs & b & Hb & Hr).
      destruct (parse_loop_returns sg fuel c' m' Hs) as (code & c2 & m2 & E & _).
      * rewrite Hr. specialize (Hfuel b Hb). lia.
      * do 3 eexists. exact E.
  - do 3 eexists. reflexivity.
Qed.

(** [hojson_parse] returns a code and a context for every context, memory
    and slice. *)
Lemma hojson_parse_total sg c m input n :
  exists code c' m', hojson_parse sg (Some c) m input n = Some (code, Some c', m').
Proof.
  unfold hojson_parse.
  destruct ((is_initialized c =? 0) || (input =? 0) || (n <=? 0)).
  { do 3 eexists. reflexivity. }
  unfold parse_context.
  destruct (parse_deferred c m) as [code1 c1 m1 | c1 m1].
  { do 3 eexists. reflexivity. }
  destruct (parse_resume sg c1 m1 input n) as [code2 c2 m2 | c2 m2].
  { do 3 eexists. reflexivity. }
  destruct (parse_loop_total sg (parse_input c2 input n) m2) as (code & c' & m' & E).
  rewrite E. do 3 eexists. reflexivity.
Qed.

Lemma drive_no_slice sg fuel c m : drive sg fuel [] c m = [].
Proof. destruct fuel; reflexivity. Qed.

Lemma drive_one_slice sg fuel :
  forall c m input n,
    stream_length c = 0 ->
    length (drive sg fuel [(input, n)] c m) = fuel
    \/ exists l e, drive sg fuel [(input, n)] c m = l ++ [e] /\ stops (ev_code e) = true.
Proof.
  induction fuel as [|fuel IH]; intros c m input n Hs; [left; reflexivity|].
  cbn [drive].
  destruct (hojson_parse_returns_gen sg c m input n Hs) as (code & c1 & m1 & E & Hc).
  rewrite E.
  assert (Hstop : forall e, ev_code e = code -> stops code = true ->
                    exists l e', [e] = l ++ [e'] /\ stops (ev_code e') = true).
  { intros e He Hst. exists [], e. rewrite He. split; [reflexivity | exact Hst]. }
  assert (Hgo : code <> HOJSON_ERROR_UNEXPECTED_EOF ->
                length (observe code c1 m1 :: drive sg fuel [(input, n)] c1 m1) = S fuel
                \/ exists l e, observe code c1 m1 :: drive sg fuel [(input, n)] c1 m1
                               = l ++ [e] /\ stops (ev_code e) = true).
  { intros Hne. destruct (IH c1 m1 input n (Hc Hne)) as [Hl | (l & e & El & He)].
    - left. cbn [length]. rewrite Hl. reflexivity.
    - right. exists (observe code c1 m1 :: l), e. rewrite El. split; [reflexivity | exact He]. }
  destruct code; cbn [is_error code_num Z.ltb Z.compare];
    try (right; rewrite ?drive_no_slice; apply Hstop; reflexivity);
    apply Hgo; discriminate.
Qed.

(** ** The driver follows a run to its end *)

Lemma count_code_cons code e l :
  count_code code (e :: l)
  = if code_num (ev_code e) =? code_num code then S (count_code code l)
    else count_code code l.
Proof.
  unfold count_code. cbn [filter].
  destruct (code_num (ev_code e) =? code_num code); reflexivity.
Qed.

Lemma run_complete_cons fuel slices e l :
  ev_code e <> HOJSON_ERROR_UNEXPECTED_EOF ->
  run_complete fuel slices l -> run_complete (S fuel) slices (e :: l).
Proof.
  intros Hne [Hl | [Hc | (l' & e' & El & Hs & Hn)]].
  - left. cbn [length]. rewrite Hl. reflexivity.
  - right; left. rewrite count_code_cons.
    replace (code_num (ev_code e) =? code_num HOJSON_ERROR_UNEXPECTED_EOF) with false;
      [exact Hc|].
    symmetry. apply Z.eqb_neq. intros F. apply Hne.
    destruct (ev_code e); try discriminate F; reflexivity.
  - right; right. exists (e :: l'), e'. rewrite El. repeat split; assumption.
Qed.

Lemma run_complete_next fuel slice slices e l :
  ev_code e = HOJSON_ERROR_UNEXPECTED_EOF ->
  run_complete fuel slices l -> run_complete (S fuel) (slice :: slices) (e :: l).
Proof.
  intros He [Hl | [Hc | (l' & e' & El & Hs & Hn)]].
  - left. cbn [length]. rewrite Hl. reflexivity.
  - right; left. rewrite count_code_cons, He, Z.eqb_refl. cbn [length]. rewrite Hc.
    reflexivity.
  - right; right. exists (e :: l'), e'. rewrite El. repeat split; assumption.
Qed.

Lemma run_complete_stop fuel slices e :
  stops (ev_code e) = true -> ev_code e <> HOJSON_ERROR_UNEXPECTED_EOF ->
  run_complete fuel slices [e].
Proof. intros Hs Hn. right; right. exists [], e. repeat split; assumption. Qed.

Lemma drive_complete sg fuel :
  forall slices c m, run_complete fuel slices (drive sg fuel slices c m).
Proof.
  induction fuel as [|fuel IH]; intros slices c m; [left; reflexivity|].
  cbn [drive]. destruct slices as [|[input n] rest].
  { right; left. reflexivity. }
  destruct (hojson_parse_total sg c m input n) as (code & c1 & m1 & E). rewrite E.
  pose proof (ev_code_observe code c1 m1) as Hev.
  destruct code; cbn [is_error code_num Z.ltb Z.compare];
    try (apply run_complete_stop; rewrite Hev; [reflexivity | discriminate]);
    try (apply run_complete_cons; [rewrite Hev; discriminate | apply IH]).
  apply run_complete_next; [exact Hev | apply IH].
Qed.

(** ** The stack across calls *)

Lemma initial_sized_idle doc length :
  0 < length -> buffer_address + length <= 2 ^ 64 ->
  idle buffer_address length (fst (initial_sized doc length)) (snd (initial_sized doc length)) 0.
Proof.
  intros HL Hfit. unfold initial_sized.
  destruct (hojson_init_idle blank_context (place (fun _ => 0) input_address doc)
              buffer_address length) as (c0 & m0 & E & Hidle & _);
    [reflexivity | exact HL | exact Hfit |].
  rewrite E. exact Hidle.
Qed.

Lemma initial_idle doc :
  idle buffer_address 256 (fst (initial doc)) (snd (initial doc)) 0.
Proof. apply initial_sized_idle; [reflexivity | discriminate]. Qed.

Lemma after_calls_idle sg B L input len n :
  forall c m open code c' m',
    idle B L c m open ->
    after_calls sg n input len c m = Some (code, c', m') ->
    exists open', idle B L c' m' open'.
Proof.
  induction n as [|n IH]; intros c m open code c' m' Hidle E.
  - cbn [after_calls] in E. inversion E; subst. exists open. exact Hidle.
  - cbn [after_calls] in E.
    destruct (after_calls sg n input len c m) as [[[code1 c1] m1]|] eqn:E1; [|discriminate E].
    destruct (IH _ _ _ _ _ _ Hidle E1) as (open1 & Hidle1).
    destruct (hojson_parse sg (Some c1) m1 input len) as [[[code2 [c2|]] m2]|] eqn:E2;
      try discriminate E.
    inversion E; subst.
    destruct (hojson_parse_spec sg B L c1 m1 open1 input len code c' m' Hidle1 E2) as (R & _).
    exists (open_after code open1). apply (returned_idle _ _ _ _ _ _ R).
Qed.

Lemma calls_on_idle sg doc n :
  match after_calls sg n input_address (Z.of_nat (List.length doc))
                    (fst (initial doc)) (snd (initial doc)) with
  | Some _ => true
  | None => false
  end = true ->
  exists open,
    idle buffer_address 256 (fst (calls_on sg doc n)) (snd (calls_on sg doc n)) open.
Proof.
  intros Hsome. unfold calls_on.
  destruct (after_calls sg n input_address (Z.of_nat (List.length doc))
              (fst (initial doc)) (snd (initial doc))) as [[[code c] m]|] eqn:E;
    [|discriminate Hsome].
  apply (after_calls_idle sg buffer_address 256 input_address (Z.of_nat (List.length doc)) n
           (fst (initial doc)) (snd (initial doc)) 0 code c m (initial_idle doc) E).
Qed.

(** X1: a call of [hojson_parse] on a context whose stack is well formed
    inside its buffer returns, whatever the slice and whatever is in the
    stream register; it leaves the stack well formed, with the number of
    open containers changed as the returned code says, and writes no byte
    outside the buffer. *)
Theorem hojson_parse_keeps_stack sg B L c m open input n :
  idle B L c m open ->
  exists code c' m',
    hojson_parse sg (Some c) m input n = Some (code, Some c', m')
    /\ idle B L c' m' (open_after code open) /\ untouched B L m m'.
Proof.
  intros Hidle.
  destruct (hojson_parse_total sg c m input n) as (code & c' & m' & E).
  exists code, c', m'. split; [exact E|].
  destruct (hojson_parse_spec sg B L c m open input n code c' m' Hidle E) as (R & U).
  split; [apply (returned_idle _ _ _ _ _ _ R) | exact U].
Qed.

(** The call of the example is entered with four bytes in the stream
    register, on a slice of two bytes: its first pass moves the iterator
    backwards. *)
Lemma hojson_parse_keeps_stack_witness :
  stream_length (fst after_nul) = 4
  /\ exists open code c' m',
       hojson_parse true (Some (fst after_nul)) (snd after_nul) (input_address + 5) 2
       = Some (code, Some c', m')
       /\ idle buffer_address 256 c' m' (open_after code open)
       /\ untouched buffer_address 256 (snd after_nul) m'.
Proof.
  split; [vm_compute; reflexivity|].
  destruct (calls_on_idle true doc_nul 2) as (open & Hidle); [vm_compute; reflexivity|].
  exists open.
  apply (hojson_parse_keeps_stack true buffer_address 256 (fst after_nul) (snd after_nul)
           open (input_address + 5) 2).
  exact Hidle.
Defined.

(** X2: from [hojson_init] on, whatever the slices handed to the driver,
    the events are well nested: BEGIN, END, NAME and VALUE expose as depth
    the number of containers open before the event (modulo 2^32); END, NAME
    and VALUE only come inside a container; END_OF_DOCUMENT only comes when
    every container has been closed.  The trace is that of the whole run:
    every call returns, so the trace only ends with the calls allowed, with
    the slices, or on a code that stops the driver. *)
Theorem events_well_nested sg c m B L fuel slices :
  0 < B -> 0 < L -> B + L <= 2 ^ 64 ->
  exists c0 m0,
    hojson_init (Some c) m B L = (Some c0, m0)
    /\ well_nested 0 (drive sg fuel slices c0 m0)
    /\ run_complete fuel slices (drive sg fuel slices c0 m0).
Proof.
  intros HB HL Hfit.
  destruct (hojson_init_idle c m B L HB HL Hfit) as (c0 & m0 & E & Hidle & _).
  exists c0, m0. split; [exact E|].
  split; [apply (drive_well_nested sg B L); exact Hidle | apply drive_complete].
Qed.

Lemma events_well_nested_witness :
  exists c0 m0,
    hojson_init (Some blank_context) (place (fun _ => 0) input_address doc_nul)
                buffer_address 256 = (Some c0, m0)
    /\ well_nested 0 (drive true 20 [(input_address, 7); (input_address + 5, 2)] c0 m0)
    /\ run_complete 20 [(input_address, 7); (input_address + 5, 2)]
         (drive true 20 [(input_address, 7); (input_address + 5, 2)] c0 m0).
Proof.
  apply (events_well_nested true blank_context
           (place (fun _ => 0) input_address doc_nul) buffer_address 256 20
           [(input_address, 7); (input_address + 5, 2)]).
  - reflexivity.
  - reflexivity.
  - discriminate.
Defined.

(** X3: from [hojson_init] on, the depth exposed with the END of a
    container is the depth exposed with its BEGIN plus one (modulo 2^32),
    for every pair of BEGIN and END of every run of the driver; the trace
    is that of the whole run. *)
Theorem end_depth_is_begin_depth_plus_one sg c m B L fuel slices :
  0 < B -> 0 < L -> B + L <= 2 ^ 64 ->
  exists c0 m0,
    hojson_init (Some c) m B L = (Some c0, m0)
    /\ Forall (fun p => snd p = u32 (fst p + 1))
              (begin_end_depths [] (drive sg fuel slices c0 m0))
    /\ run_complete fuel slices (drive sg fuel slices c0 m0).
Proof.
  intros HB HL Hfit.
  destruct (hojson_init_idle c m B L HB HL Hfit) as (c0 & m0 & E & Hidle & _).
  exists c0, m0. split; [exact E|]. split; [|apply drive_complete].
  apply (well_nested_depths _ 0); [|exact I].
  apply (drive_well_nested sg B L). exact Hidle.
Qed.

Lemma end_depth_is_begin_depth_plus_one_witness :
  exists c0 m0,
    hojson_init (Some blank_context) (place (fun _ => 0) input_address doc_nested)
                buffer_address 256 = (Some c0, m0)
    /\ Forall (fun p => snd p = u32 (fst p + 1))
              (begin_end_depths [] (drive true 20 (slices_at input_address [2; 3; 2]) c0 m0))
    /\ run_complete 20 (slices_at input_address [2; 3; 2])
         (drive true 20 (slices_at input_address [2; 3; 2]) c0 m0).
Proof.
  apply (end_depth_is_begin_depth_plus_one true blank_context
           (place (fun _ => 0) input_address doc_nested) buffer_address 256 20
           (slices_at input_address [2; 3; 2])).
  - reflexivity.
  - reflexivity.
  - discriminate.
Defined.

(** X4: once [hojson_parse] has returned END_OF_DOCUMENT, or one of the
    errors SYNTAX, TOKEN_MISMATCH, INTERNAL and INSUFFICIENT_MEMORY, every
    later call with valid arguments returns the same code and changes
    neither the context nor memory. *)
Theorem pinned_code_repeats sg B L c m open input n code c' m' input' n' :
  idle B L c m open ->
  hojson_parse sg (Some c) m input n = Some (code, Some c', m') ->
  pinned_state code <> None ->
  input' <> 0 -> 0 < n' ->
  hojson_parse sg (Some c') m' input' n' = Some (code, Some c', m').
Proof.
  intros Hidle E Hp Hin Hn.
  destruct (hojson_parse_spec sg B L c m open input n code c' m' Hidle E) as (R & _).
  pose proof (returned_idle _ _ _ _ _ _ R) as ((k & inc & pop & Hs & _) & _).
  destruct Hs as (_ & _ & _ & _ & Hi & _).
  destruct R as (_ & Hpin & _).
  unfold hojson_parse.
  replace ((is_initialized c' =? 0) || (input' =? 0) || (n' <=? 0)) with false.
  2:{ symmetry. rewrite !orb_false_iff, !Z.eqb_neq, Z.leb_gt. auto. }
  unfold parse_context.
  destruct (pinned_state code) as [s|] eqn:Es; [|contradiction Hp; reflexivity].
  destruct Hpin as (Hst & Hq).
  rewrite (parse_deferred_quiet _ _ Hq). unfold parse_resume. rewrite Hst.
  destruct code; try discriminate Es; inversion Es; subst s; reflexivity.
Qed.

Lemma pinned_code_repeats_witness :
  exists c' m',
    hojson_parse true (Some (fst (initial doc_bare))) (snd (initial doc_bare))
                 input_address 4 = Some (HOJSON_ERROR_SYNTAX, Some c', m')
    /\ hojson_parse true (Some c') m' input_address 4
       = Some (HOJSON_ERROR_SYNTAX, Some c', m').
Proof.
  destruct (hojson_parse true (Some (fst (initial doc_bare))) (snd (initial doc_bare))
              input_address 4) as [[[code [c'|]] m']|] eqn:E.
  - assert (Hcode : code = HOJSON_ERROR_SYNTAX).
    { pose proof (f_equal (fun r => match r with
                                    | Some (code, _, _) => code
                                    | None => HOJSON_NO_OP
                                    end) E) as E'.
      vm_compute in E'. symmetry. exact E'. }
    subst code. exists c', m'. split; [reflexivity|].
    apply (pinned_code_repeats true buffer_address 256 (fst (initial doc_bare))
             (snd (initial doc_bare)) 0 input_address 4 HOJSON_ERROR_SYNTAX c' m'
             input_address 4);
      [apply initial_idle | exact E | discriminate | discriminate | reflexivity].
  - apply (f_equal (fun r => match r with Some (_, Some _, _) => true | _ => false end)) in E.
    vm_compute in E. discriminate E.
  - apply (f_equal (fun r => match r with Some (_, Some _, _) => true | _ => false end)) in E.
    vm_compute in E. discriminate E.
Defined.

(** X5: when [hojson_parse] returns END_OF_DOCUMENT, every container has
    been closed, the stack is empty, the depth is zero and every byte of
    the buffer is zero. *)
Theorem end_of_document_clears_buffer sg B L c m open input n c' m' :
  idle B L c m open ->
  hojson_parse sg (Some c) m input n = Some (HOJSON_END_OF_DOCUMENT, Some c', m') ->
  open = 0 /\ stack c' = 0 /\ depth c' = 0
  /\ forall a, B <= a < B + L -> load8 m' a = 0.
Proof.
  intros Hidle E.
  destruct (hojson_parse_spec sg B L c m open input n _ c' m' Hidle E) as (R & _).
  destruct R as (Hbc & (Hst & Hq) & Hdone).
  specialize (Hdone Hst). cbn [open_after] in Hdone. split; [exact Hdone|].
  destruct Hbc as (k & inc & pop & Hs & Hk0 & Hfl & Hip & Hd & Hopen).
  destruct k as [|k].
  - destruct (Hk0 eq_refl) as (-> & ->).
    destruct Hs as (_ & _ & _ & _ & _ & _ & _ & H0 & Hz).
    split; [exact H0|]. split; [rewrite Hd; reflexivity|].
    intros a Ha. apply Hz. lia.
  - exfalso. destruct (Hfl ltac:(discriminate)) as (_ & _ & Hp).
    destruct Hq as [H0 | ((_ & _ & Hp') & _)].
    + apply stack_of_S_nonzero in Hs. apply Z.eqb_neq in Hs. contradiction.
    + rewrite Hp' in Hp. subst pop. lia.
Qed.

Lemma end_of_document_clears_buffer_witness :
  exists c' m',
    hojson_parse true (Some (fst (calls_on true doc_empty_array 2)))
                 (snd (calls_on true doc_empty_array 2)) input_address 2
    = Some (HOJSON_END_OF_DOCUMENT, Some c', m')
    /\ stack c' = 0
    /\ forall a, buffer_address <= a < buffer_address + 256 -> load8 m' a = 0.
Proof.
  destruct (calls_on_idle true doc_empty_array 2) as (open & Hidle);
    [vm_compute; reflexivity|].
  destruct (hojson_parse true (Some (fst (calls_on true doc_empty_array 2)))
              (snd (calls_on true doc_empty_array 2)) input_address 2)
    as [[[code [c'|]] m']|] eqn:E.
  - assert (Hcode : code = HOJSON_END_OF_DOCUMENT).
    { pose proof (f_equal (fun r => match r with
                                    | Some (code, _, _) => code
                                    | None => HOJSON_NO_OP
                                    end) E) as E'.
      vm_compute in E'. symmetry. exact E'. }
    subst code. exists c', m'. split; [reflexivity|].
    destruct (end_of_document_clears_buffer true buffer_address 256
                (fst (calls_on true doc_empty_array 2))
                (snd (calls_on true doc_empty_array 2)) open input_address 2 c' m' Hidle E)
      as (_ & H0 & _ & Hz).
    split; [exact H0 | exact Hz].
  - apply (f_equal (fun r => match r with Some (_, Some _, _) => true | _ => false end)) in E.
    vm_compute in E. discriminate E.
  - apply (f_equal (fun r => match r with Some (_, Some _, _) => true | _ => false end)) in E.
    vm_compute in E. discriminate E.
Defined.

(** X6: [hojson_parse] returns whenever the stream register of the
    context is empty: every pass of its loop that goes on consumes at least
    one byte of the slice.  Unless the call reports the end of the input,
    the stream register is empty again afterwards. *)
Theorem hojson_parse_returns sg c m input n :
  stream_length c = 0 ->
  exists code c' m',
    hojson_parse sg (Some c) m input n = Some (code, Some c', m')
    /\ (code <> HOJSON_ERROR_UNEXPECTED_EOF -> stream_length c' = 0).
Proof. apply hojson_parse_returns_gen. Qed.

Lemma hojson_parse_returns_witness :
  exists code c' m',
    hojson_parse true (Some (fst (initial doc_nested))) (snd (initial doc_nested))
                 input_address 7 = Some (code, Some c', m')
    /\ (code <> HOJSON_ERROR_UNEXPECTED_EOF -> stream_length c' = 0).
Proof.
  apply (hojson_parse_returns true (fst (initial doc_nested)) (snd (initial doc_nested))
           input_address 7).
  reflexivity.
Defined.

(** X7: on a document handed over as one slice, the driver of the test
    program is only stopped by its bound on the number of calls or by a
    code that ends the parsing (an error or END_OF_DOCUMENT): no call of
    [hojson_parse] fails to return. *)
Theorem driver_stops_on_a_code sg fuel c m input n :
  stream_length c = 0 ->
  length (drive sg fuel [(input, n)] c m) = fuel
  \/ exists l e, drive sg fuel [(input, n)] c m = l ++ [e] /\ stops (ev_code e) = true.
Proof. apply drive_one_slice. Qed.

Lemma driver_stops_on_a_code_witness :
  length (drive true 20 [(input_address, 7)] (fst (initial doc_nested))
                (snd (initial doc_nested))) = 20%nat
  \/ exists l e,
       drive true 20 [(input_address, 7)] (fst (initial doc_nested))
             (snd (initial doc_nested)) = l ++ [e]
       /\ stops (ev_code e) = true.
Proof.
  apply (driver_stops_on_a_code true 20 (fst (initial doc_nested))
           (snd (initial doc_nested)) input_address 7).
  reflexivity.
Defined.

(** ** The encoder, the decoder and the character macros *)

Ltac ifs_to_facts :=
  repeat match goal with
         | |- context [if ?b then _ else _] => destruct b eqn:?
         end;
  repeat match goal with
         | H : _ && _ = true |- _ => apply andb_true_iff in H; destruct H
         | H : _ || _ = false |- _ => apply orb_false_iff in H; destruct H
         | H : (_ <=? _) = true |- _ => apply Z.leb_le in H
         | H : (_ <=? _) = false |- _ => apply Z.leb_gt in H
         end.

(** X8: in every encoding, [hojson_encode_character] produces no byte
    exactly for the values of the surrogates and the values above
    U+10FFFF; any other value gets one to four bytes. *)
Theorem encode_character_no_bytes v e :
  0 <= v ->
  (bytes (hojson_encode_character v e) = 0 <-> (0xD800 <= v <= 0xDFFF \/ 0x10FFFF < v))
  /\ 0 <= bytes (hojson_encode_character v e) <= 4.
Proof.
  intros Hv. split; [|apply encode_character_bytes].
  unfold hojson_encode_character, encode_utf8, utf16_quad.
  destruct e; ifs_to_facts; cbn [bytes];
    repeat match goal with
           | H : _ && _ = false |- _ => apply andb_false_iff in H
           | H : _ || _ = true |- _ => apply orb_true_iff in H
           end;
    rewrite ?andb_true_iff, ?Z.leb_le, ?Z.leb_gt in *; lia.
Qed.

Lemma encode_character_no_bytes_witness :
  (bytes (hojson_encode_character 0xD800 HOJSON_ENCODING_UTF_8) = 0
   <-> (0xD800 <= 0xD800 <= 0xDFFF \/ 0x10FFFF < 0xD800))
  /\ 0 <= bytes (hojson_encode_character 0xD800 HOJSON_ENCODING_UTF_8) <= 4.
Proof. apply (encode_character_no_bytes 0xD800 HOJSON_ENCODING_UTF_8). lia. Defined.

(** X9: a character that [hojson_decode_character] decodes to a value
    other than 0 and UINT32_MAX has one to four bytes, and never more bytes
    than the [str_length] it was given. *)
Theorem decoded_character_within_input sg str n e :
  (value (hojson_decode_character sg str n e) =? 0)
  || (value (hojson_decode_character sg str n e) =? UINT32_MAX) = false ->
  1 <= bytes (hojson_decode_character sg str n e) <= 4
  /\ bytes (hojson_decode_character sg str n e) <= n.
Proof. apply decode_character_consumes. Qed.

Lemma decoded_character_within_input_witness :
  1 <= bytes (hojson_decode_character true (fun _ => 0xC3) 2 HOJSON_ENCODING_UTF_8) <= 4
  /\ bytes (hojson_decode_character true (fun _ => 0xC3) 2 HOJSON_ENCODING_UTF_8) <= 2.
Proof.
  apply (decoded_character_within_input true (fun _ => 0xC3) 2 HOJSON_ENCODING_UTF_8).
  vm_compute. reflexivity.
Defined.

(** X10: for a hexadecimal digit, [hojson_hex_character_to_decimal] is
    the value of the digit. *)
Theorem hex_character_value v :
  HOJSON_IS_HEX_CHAR v = true ->
  hojson_hex_character_to_decimal v
  = if v <=? 57 then v - 48 else if v <=? 70 then v - 55 else v - 87.
Proof.
  unfold HOJSON_IS_HEX_CHAR, HOJSON_IS_NUMERIC. intros H.
  assert (Hv : (48 <= v <= 57) \/ (65 <= v <= 70) \/ (97 <= v <= 102)).
  { rewrite !orb_true_iff, !andb_true_iff, !Z.leb_le in H. lia. }
  assert (Hcases : v = 48 \/ v = 49 \/ v = 50 \/ v = 51 \/ v = 52 \/ v = 53 \/ v = 54
                   \/ v = 55 \/ v = 56 \/ v = 57 \/ v = 65 \/ v = 66 \/ v = 67 \/ v = 68
                   \/ v = 69 \/ v = 70 \/ v = 97 \/ v = 98 \/ v = 99 \/ v = 100
                   \/ v = 101 \/ v = 102) by lia.
  clear H Hv.
  repeat (destruct Hcases as [-> | Hcases]; [reflexivity|]).
  subst v. reflexivity.
Qed.

Lemma hex_character_value_witness :
  hojson_hex_character_to_decimal 70
  = if 70 <=? 57 then 70 - 48 else if 70 <=? 70 then 70 - 55 else 70 - 87.
Proof. apply (hex_character_value 70). reflexivity. Defined.

(** X11: the first new-line character met, CR or LF, is the one that
    counts the lines from then on: met again it adds one to the line, the
    other new-line character adds nothing; both reset the column.  So CR LF
    is one line. *)
Theorem first_newline_counts_lines c a b :
  newline_character c = 0 ->
  HOJSON_IS_NEW_LINE (value a) = true ->
  HOJSON_IS_NEW_LINE (value b) = true ->
  value a <> value b ->
  line (consume c a) = u32 (line c + 1)
  /\ line (consume (consume c a) b) = u32 (line c + 1)
  /\ line (consume (consume c a) a) = u32 (u32 (line c + 1) + 1)
  /\ column (consume (consume c a) b) = 0.
Proof.
  intros Hn Ha Hb Hab.
  assert (Ha0 : value a <> 0).
  { unfold HOJSON_IS_NEW_LINE in Ha. rewrite orb_true_iff, !Z.eqb_eq in Ha. lia. }
  assert (H1 : line (consume c a) = u32 (line c + 1)
               /\ newline_character (consume c a) = value a).
  { unfold consume. rewrite Ha, Hn. cbn [Z.eqb]. cbv iota. ctx_simpl.
    rewrite Z.eqb_refl. ctx_simpl. split; reflexivity. }
  destruct H1 as (L1 & N1).
  split; [exact L1|].
  assert (Hnz : (newline_character (consume c a) =? 0) = false).
  { rewrite N1. apply Z.eqb_neq. exact Ha0. }
  split; [|split].
  - unfold consume at 1. rewrite Hb, Hnz. cbv iota.
    replace (value b =? newline_character (consume c a)) with false
      by (symmetry; apply Z.eqb_neq; rewrite N1; auto).
    ctx_simpl. exact L1.
  - unfold consume at 1. rewrite Ha, Hnz. cbv iota.
    replace (value a =? newline_character (consume c a)) with true
      by (symmetry; apply Z.eqb_eq; rewrite N1; auto).
    ctx_simpl. rewrite L1. reflexivity.
  - unfold consume at 1. rewrite Hb, Hnz. cbv iota.
    replace (value b =? newline_character (consume c a)) with false
      by (symmetry; apply Z.eqb_neq; rewrite N1; auto).
    ctx_simpl. reflexivity.
Qed.

Lemma first_newline_counts_lines_witness :
  line (consume blank_context (mk_character 13 13 1)) = u32 (line blank_context + 1)
  /\ line (consume (consume blank_context (mk_character 13 13 1)) (mk_character 10 10 1))
     = u32 (line blank_context + 1)
  /\ line (consume (consume blank_context (mk_character 13 13 1)) (mk_character 13 13 1))
     = u32 (u32 (line blank_context + 1) + 1)
  /\ column (consume (consume blank_context (mk_character 13 13 1)) (mk_character 10 10 1))
     = 0.
Proof.
  apply (first_newline_counts_lines blank_context (mk_character 13 13 1)
           (mk_character 10 10 1)).
  - reflexivity.
  - reflexivity.
  - reflexivity.
  - discriminate.
Defined.

(** ** [hojson_realloc] and the stack *)

Lemma ancestors_le m B : forall k n y,
  nodes_below m B n k -> In y (ancestors m n k) -> y = n \/ y + 18 <= n.
Proof.
  induction k as [|k IH]; intros n y Hnb Hy.
  - destruct Hy as [<- | []]. left. reflexivity.
  - destruct Hy as [<- | Hy]; [left; reflexivity|]. right.
    destruct Hnb as (Hp0 & Hn & Hpe & _ & Hpb).
    destruct (IH _ _ Hpb Hy) as [-> | Hlt]; lia.
Qed.

Lemma ancestors_ge m B : forall k n y,
  nodes_below m B n k -> In y (ancestors m n k) -> B <= y.
Proof.
  induction k as [|k IH]; intros n y Hnb Hy.
  - destruct Hy as [<- | []]. apply (nodes_below_ge _ _ _ _ Hnb).
  - destruct Hy as [<- | Hy]; [apply (nodes_below_ge _ _ _ _ Hnb)|].
    destruct Hnb as (_ & _ & _ & _ & Hpb). apply (IH _ _ Hpb Hy).
Qed.

Lemma ancestors_apart m B : forall k n y z,
  nodes_below m B n k ->
  In y (ancestors m n k) -> In z (ancestors m n k) ->
  y = z \/ y + 18 <= z \/ z + 18 <= y.
Proof.
  induction k as [|k IH]; intros n y z Hnb Hy Hz.
  - destruct Hy as [<- | []]. destruct Hz as [<- | []]. left. reflexivity.
  - pose proof Hnb as (Hp0 & Hn & Hpe & _ & Hpb).
    assert (Htail : forall x, In x (ancestors m (node_parent m n) k) -> x + 18 <= n).
    { intros x Hx. destruct (ancestors_le _ _ _ _ _ Hpb Hx) as [-> | Hlt]; lia. }
    destruct Hy as [<- | Hy]; destruct Hz as [<- | Hz].
    + left. reflexivity.
    + right. right. apply Htail. exact Hz.
    + right. left. apply Htail. exact Hy.
    + apply (IH _ _ _ Hpb Hy Hz).
Qed.

Lemma nodes_below_node_chain m B : forall k n hi,
  0 < B -> nodes_below m B n k -> n + 16 <= hi ->
  node_chain m B hi n (ancestors m n k).
Proof.
  induction k as [|k IH]; intros n hi HB Hnb Hhi.
  - destruct Hnb as (-> & Hp). cbn [ancestors node_chain].
    refine (conj eq_refl (conj _ (conj _ (conj Hhi Hp)))); lia.
  - pose proof (nodes_below_ge _ _ _ _ Hnb) as Hge.
    destruct Hnb as (Hp0 & Hn & Hpe & _ & Hpb). cbn [ancestors node_chain].
    refine (conj eq_refl (conj _ (conj Hge (conj Hhi _)))); [lia|].
    apply IH; [exact HB | exact Hpb | lia].
Qed.

Lemma nodes_below_ends_within m B HI : forall k n,
  nodes_below m B n k -> n + 17 <= node_end m n -> node_end m n + 1 <= HI ->
  ends_within m B HI (ancestors m n k).
Proof.
  induction k as [|k IH]; intros n Hnb He Hhi.
  - pose proof (nodes_below_ge _ _ _ _ Hnb). repeat constructor; lia.
  - pose proof (nodes_below_ge _ _ _ _ Hnb) as Hge.
    destruct Hnb as (Hp0 & Hn & Hpe & _ & Hpb).
    constructor; [lia|]. apply IH; [exact Hpb | exact Hpe | lia].
Qed.

Lemma nodes_below_rebase m m' B B' :
  0 < B' ->
  forall k n,
    nodes_below m B n k ->
    (forall x, In x (ancestors m n k) ->
       node_end m' (rebase B B' x) = rebase B B' (node_end m x)
       /\ node_parent m' (rebase B B' x)
          = (if node_parent m x =? 0 then 0 else rebase B B' (node_parent m x))
       /\ forall g, has_flag m' (rebase B B' x) g = has_flag m x g) ->
    nodes_below m' B' (rebase B B' n) k.
Proof.
  intros HB'. induction k as [|k IH]; intros n Hnb Hf.
  - destruct Hnb as (-> & Hp). destruct (Hf B (or_introl eq_refl)) as (_ & Hpar & _).
    cbn [nodes_below]. split; [unfold rebase; lia|].
    rewrite Hpar, Hp. reflexivity.
  - pose proof Hnb as (Hp0 & Hn & Hpe & Hpd & Hpb).
    destruct (Hf n (or_introl eq_refl)) as (_ & Hpar & _).
    apply Z.eqb_neq in Hp0. rewrite Hp0 in Hpar. apply Z.eqb_neq in Hp0.
    assert (Hin : In (node_parent m n) (ancestors m n (S k))).
    { right. destruct k; left; reflexivity. }
    destruct (Hf _ Hin) as (Hpend & _ & Hpfl).
    pose proof (nodes_below_ge _ _ _ _ Hpb) as Hpge.
    cbn [nodes_below]. rewrite Hpar, Hpend.
    refine (conj _ (conj _ (conj _ (conj _ _)))).
    + unfold rebase. lia.
    + unfold rebase. lia.
    + unfold rebase. lia.
    + destruct Hpd as (D1 & D2 & D3). unfold nothing_deferred. rewrite !Hpfl. auto.
    + apply IH; [exact Hpb|]. intros x Hx. apply Hf. right. exact Hx.
Qed.

Lemma has_flag_shift m m' n n' g :
  load8 m' (n' + 16) = load8 m (n + 16) ->
  load8 m' (n' + 17) = load8 m (n + 17) ->
  has_flag m' n' g = has_flag m n g.
Proof.
  intros H0 H1. unfold has_flag, node_flags, load16.
  replace (n' + 16 + 1) with (n' + 17) by lia. replace (n + 16 + 1) with (n + 17) by lia.
  rewrite H0, H1. reflexivity.
Qed.

(** The context of [hojson_realloc] once the pointers are moved. *)
Lemma realloc_context c new new_len :
  let rb := rebase (buffer c) new in
  let c1 := if negb (name c =? 0) then set_name (new + (name c - buffer c)) c else c in
  let c2 := if negb (string_value c1 =? 0)
            then set_string_value (new + (string_value c1 - buffer c)) c1 else c1 in
  let c3 := if negb (stack c2 =? 0) then set_stack (new + (stack c2 - buffer c)) c2 else c2 in
  let c4 := set_buffer_length new_len (set_buffer new c3) in
  let c5 := if state_num (state c4) =? state_num HOJSON_STATE_ERROR_INSUFFICIENT_MEMORY
            then set_error_return_state HOJSON_STATE_NONE
                   (set_state (error_return_state c4) c4)
            else c4 in
  buffer c3 = buffer c /\ buffer_length c3 = buffer_length c
  /\ buffer c5 = new /\ buffer_length c5 = new_len
  /\ stack c5 = (if stack c =? 0 then 0 else rb (stack c))
  /\ depth c5 = depth c /\ is_initialized c5 = is_initialized c
  /\ escape_return_state c5 = escape_return_state c
  /\ (state c = HOJSON_STATE_ERROR_INSUFFICIENT_MEMORY ->
      state c5 = error_return_state c /\ error_return_state c5 = HOJSON_STATE_NONE)
  /\ (state c <> HOJSON_STATE_ERROR_INSUFFICIENT_MEMORY ->
      state c5 = state c /\ error_return_state c5 = error_return_state c).
Proof.
  intros rb c1 c2 c3 c4 c5.
  assert (H3 : buffer c3 = buffer c /\ buffer_length c3 = buffer_length c
               /\ stack c3 = (if stack c =? 0 then 0 else rb (stack c))
               /\ depth c3 = depth c /\ is_initialized c3 = is_initialized c
               /\ escape_return_state c3 = escape_return_state c
               /\ state c3 = state c /\ error_return_state c3 = error_return_state c).
  { assert (Hst2 : stack c2 = stack c).
    { unfold c2, c1. destruct (negb (name c =? 0)); destruct (negb (string_value _ =? 0));
        inv_simpl; reflexivity. }
    assert (H2 : buffer c2 = buffer c /\ buffer_length c2 = buffer_length c
                 /\ depth c2 = depth c /\ is_initialized c2 = is_initialized c
                 /\ escape_return_state c2 = escape_return_state c
                 /\ state c2 = state c /\ error_return_state c2 = error_return_state c).
    { unfold c2, c1. destruct (negb (name c =? 0)); destruct (negb (string_value _ =? 0));
        inv_simpl; repeat split; reflexivity. }
    destruct H2 as (A1 & A2 & A3 & A4 & A5 & A6 & A7).
    unfold c3. rewrite Hst2. clearbody c2. clear c1.
    destruct (stack c =? 0) eqn:E3; cbn [negb]; inv_simpl; rewrite ?Hst2;
      repeat split; try assumption; try reflexivity; apply Z.eqb_eq; assumption. }
  destruct H3 as (Hb & Hbl & Hst & Hd & Hi & Hes & Hs & He).
  clearbody c3. clear c1 c2.
  split; [exact Hb|]. split; [exact Hbl|].
  unfold c5, c4. inv_simpl. rewrite Hs.
  destruct (state_num (state c) =? state_num HOJSON_STATE_ERROR_INSUFFICIENT_MEMORY) eqn:E.
  - assert (Es : state c = HOJSON_STATE_ERROR_INSUFFICIENT_MEMORY).
    { apply Z.eqb_eq in E. destruct (state c); try discriminate E; reflexivity. }
    inv_simpl. rewrite Hst, Hd, Hi, Hes, He.
    repeat split; try reflexivity; try contradiction.
  - assert (Es : state c <> HOJSON_STATE_ERROR_INSUFFICIENT_MEMORY).
    { intros F. rewrite F in E. discriminate E. }
    inv_simpl. rewrite Hst, Hd, Hi, Hes, Hs, He.
    repeat split; try reflexivity; try contradiction.
Qed.

Lemma stack_nodes_chain B L c m k :
  stack_of B L c m k ->
  node_chain m B (B + L) (stack c) (stack_nodes c m k)
  /\ ends_within m B (B + L) (stack_nodes c m k)
  /\ (forall a, In a (stack_nodes c m k) -> B <= a /\ a + 18 <= B + L).
Proof.
  intros (Hb & Hl & HB & HL & Hi & Her & Hes & Hk). destruct k as [|k].
  - destruct Hk as (H0 & _). cbn [stack_nodes node_chain].
    split; [exact H0|]. split; [constructor | intros a []].
  - destruct Hk as (Hge & Hnb & He & Hlt & H24 & Hz). cbn [stack_nodes].
    split; [apply nodes_below_node_chain; [exact HB | exact Hnb | lia]|].
    split; [apply nodes_below_ends_within; [exact Hnb | exact He | lia]|].
    intros a Ha. split; [apply (ancestors_ge _ _ _ _ _ Hnb Ha)|].
    destruct (ancestors_le _ _ _ _ _ Hnb Ha) as [-> | Hlt']; lia.
Qed.

Lemma realloc_keeps_idle B L c m open B' L' :
  idle B L c m open ->
  0 < L -> L < L' -> 0 < B' -> B' + L' <= 2 ^ 64 ->
  B' + L' <= B \/ B + L <= B' ->
  exists c' m',
    hojson_realloc (Some c) m B' L' = Some (Some c', m')
    /\ idle B' L' c' m' open
    /\ (state c = HOJSON_STATE_ERROR_INSUFFICIENT_MEMORY -> state c' = error_return_state c)
    /\ (state c <> HOJSON_STATE_ERROR_INSUFFICIENT_MEMORY -> state c' = state c)
    /\ (forall a, ~ (B <= a < B + L) -> ~ (B' <= a < B' + L') -> load8 m' a = load8 m a).
Proof.
  intros ((k & inc & pop & Hs & Hk0 & Hfl & Hip & Hd & Hopen) & Hdone)
    HL0 HL' HB' Hfit Hdisj.
  destruct (stack_nodes_chain B L c m k Hs) as (Hch & Hends & Hin).
  pose proof Hs as (Hb & Hl & HB & HL & Hi & Her & Hes & Hk).
  set (l := stack_nodes c m k) in *.
  destruct (realloc_nodes_spec B B' (B + L) l m (stack c) B (B + L) (Z.to_nat L))
    as (m1 & Hrun & Hsame & Hfields); try assumption; try lia.
  { intros p Hp. unfold rebase. lia. }
  { pose proof (node_chain_length _ _ _ _ _ Hch). lia. }
  pose proof (realloc_context c B' L') as Hctx. cbv zeta in Hctx.
  unfold hojson_realloc. cbv zeta.
  replace (is_initialized c =? 0) with false by (symmetry; apply Z.eqb_neq; exact Hi).
  replace (B' =? 0) with false by (symmetry; apply Z.eqb_neq; lia).
  replace (L' <=? buffer_length c) with false by (symmetry; apply Z.leb_gt; lia).
  cbn [orb]. rewrite Hb, Hl in *. rewrite Hrun.
  destruct Hctx as (Hb3 & Hbl3 & Hb5 & Hbl5 & Hst5 & Hd5 & Hi5 & Hes5 & Hin5 & Hnot5).
  rewrite Hb3, Hbl3.
  match goal with
  | |- exists c' m', Some (Some ?cc, ?mm) = _ /\ _ => set (c5 := cc) in *; set (m3 := mm)
  end.
  exists c5, m3. split; [reflexivity|].
  assert (Hcopy : forall i, 0 <= i < L -> load8 m3 (B' + i) = load8 m1 (B + i)).
  { intros i Hi'. unfold m3. rewrite load8_memcpy.
    replace ((B' <=? B' + i) && (B' + i <? B' + L)) with true by bool_true.
    rewrite load8_memset.
    replace ((B' <=? B + (B' + i - B')) && (B + (B' + i - B') <? B' + L'))
      with false by bool_false.
    f_equal. lia. }
  assert (Hzero : forall i, L <= i < L' -> load8 m3 (B' + i) = 0).
  { intros i Hi'. unfold m3. rewrite load8_memcpy.
    replace ((B' <=? B' + i) && (B' + i <? B' + L)) with false by bool_false.
    rewrite load8_memset.
    replace ((B' <=? B' + i) && (B' + i <? B' + L')) with true by bool_true.
    reflexivity. }
  assert (Hout : forall a, ~ (B' <= a < B' + L') -> load8 m3 a = load8 m1 a).
  { intros a Ha. unfold m3. rewrite load8_memcpy.
    replace ((B' <=? a) && (a <? B' + L)) with false by bool_false.
    rewrite load8_memset.
    replace ((B' <=? a) && (a <? B' + L')) with false by bool_false. reflexivity. }
  assert (Hpts : forall a, in_pointers l a -> B <= a < B + L).
  { intros a (x & Hx & Hax). destruct (Hin x Hx). lia. }
  assert (Hrest : forall i, 0 <= i < L -> ~ in_pointers l (B + i) ->
                            load8 m3 (B' + i) = load8 m (B + i)).
  { intros i Hi' Hnp. rewrite Hcopy by exact Hi'. apply Hsame. exact Hnp. }
  set (rb := rebase B B') in *.
  assert (Hnodes : forall x, In x l ->
            node_end m3 (rb x) = rb (node_end m x)
            /\ node_parent m3 (rb x)
               = (if node_parent m x =? 0 then 0 else rb (node_parent m x))
            /\ forall g, has_flag m3 (rb x) g = has_flag m x g).
  { intros x Hx. destruct (Hfields x Hx) as [He Hp]. destruct (Hin x Hx) as (Hx1 & Hx2).
    fold rb in He, Hp. rewrite <- He, <- Hp. split; [|split].
    - unfold node_end. apply load64_shift. intros i Hi'.
      replace (rb x + 8 + i) with (B' + (x - B + 8 + i)) by (unfold rb, rebase; lia).
      rewrite Hcopy by lia. f_equal. lia.
    - unfold node_parent. apply load64_shift. intros i Hi'.
      replace (rb x + i) with (B' + (x - B + i)) by (unfold rb, rebase; lia).
      rewrite Hcopy by lia. f_equal. lia.
    - intros g.
      assert (Hfl16 : forall j, 16 <= j < 18 -> load8 m3 (rb x + j) = load8 m (x + j)).
      { intros j Hj.
        replace (rb x + j) with (B' + (x - B + j)) by (unfold rb, rebase; lia).
        rewrite Hrest; [f_equal; lia | lia |].
        replace (B + (x - B + j)) with (x + j) by lia.
        intros (y & Hy & Hyx).
        destruct k as [|k']; [destruct Hx|].
        destruct Hk as (_ & Hnb & _).
        destruct (ancestors_apart _ _ _ _ _ _ Hnb Hx Hy) as [-> | [Hlt | Hlt]]; lia. }
      apply has_flag_shift; apply Hfl16; lia. }
  assert (Hs' : stack_of B' L' c5 m3 k).
  { unfold stack_of. rewrite Hb5, Hbl5, Hi5, Hes5, Hst5.
    refine (conj eq_refl (conj eq_refl (conj HB' (conj Hfit (conj Hi (conj _ (conj Hes _))))))).
    { destruct (state_num (state c) =? state_num HOJSON_STATE_ERROR_INSUFFICIENT_MEMORY) eqn:E.
      - assert (Es : state c = HOJSON_STATE_ERROR_INSUFFICIENT_MEMORY).
        { apply Z.eqb_eq in E. destruct (state c); try discriminate E; reflexivity. }
        destruct (Hin5 Es) as (_ & ->). reflexivity.
      - assert (Es : state c <> HOJSON_STATE_ERROR_INSUFFICIENT_MEMORY).
        { intros F. rewrite F in E. discriminate E. }
        destruct (Hnot5 Es) as (_ & ->). exact Her. }
    destruct k as [|k'].
    - destruct Hk as (H0 & Hz). rewrite H0. split; [reflexivity|].
      intros a Ha. destruct (Z.lt_ge_cases a (B' + L)) as [Hlt | Hge].
      + replace a with (B' + (a - B')) by lia. rewrite Hrest; [apply Hz; lia | lia |].
        intros (x & [] & _).
      + replace a with (B' + (a - B')) by lia. apply Hzero. lia.
    - destruct Hk as (Hge & Hnb & He & Hlt & H24 & Hz).
      replace (stack c =? 0) with false by (symmetry; apply Z.eqb_neq; lia).
      assert (Htop : In (stack c) l) by (destruct k'; left; reflexivity).
      destruct (Hnodes _ Htop) as (Hend & _ & _). rewrite Hend.
      refine (conj _ (conj _ (conj _ (conj _ (conj _ _))))); try (unfold rb, rebase; lia).
      + apply (nodes_below_rebase m m3 B B' HB' k' (stack c) Hnb).
        intros x Hx. apply Hnodes. exact Hx.
      + intros a Ha. destruct (Z.lt_ge_cases a (B' + L)) as [Hlt' | Hge'].
        * replace a with (B' + (a - B')) by lia.
          rewrite Hrest; [apply Hz; unfold rb, rebase in Ha; lia
                         | unfold rb, rebase in Ha; lia |].
          intros (x & Hx & Hxa).
          destruct (ancestors_le _ _ _ _ _ Hnb Hx) as [-> | Hlt'']; 
            unfold rb, rebase in Ha; lia.
        * replace a with (B' + (a - B')) by lia. apply Hzero. lia. }
  split; [|split; [|split]].
  - split.
    + exists k, inc, pop.
      refine (conj Hs' (conj Hk0 (conj _ (conj Hip (conj _ Hopen))))).
      * intros Hk'. destruct k as [|k']; [contradiction|].
        destruct Hk as (Hge & Hnb & _).
        assert (Htop : In (stack c) l) by (destruct k'; left; reflexivity).
        destruct (Hnodes _ Htop) as (_ & _ & Hflags).
        rewrite Hst5.
        replace (stack c =? 0) with false by (symmetry; apply Z.eqb_neq; lia).
        rewrite !Hflags. apply Hfl. exact Hk'.
      * rewrite Hd5. exact Hd.
    + intros F.
      destruct (state_num (state c) =? state_num HOJSON_STATE_ERROR_INSUFFICIENT_MEMORY) eqn:E.
      * assert (Es : state c = HOJSON_STATE_ERROR_INSUFFICIENT_MEMORY).
        { apply Z.eqb_eq in E. destruct (state c); try discriminate E; reflexivity. }
        destruct (Hin5 Es) as (Hst & _). rewrite Hst in F.
        apply running_not_done in Her. contradiction.
      * assert (Es : state c <> HOJSON_STATE_ERROR_INSUFFICIENT_MEMORY).
        { intros F'. rewrite F' in E. discriminate E. }
        destruct (Hnot5 Es) as (Hst & _). rewrite Hst in F. apply Hdone. exact F.
  - intros Es. apply (Hin5 Es).
  - intros Es. apply (Hnot5 Es).
  - intros a Ha Ha'. rewrite Hout by exact Ha'. apply Hsame.
    intros Hp. apply Ha. apply Hpts. exact Hp.
Qed.

(** X12: for a context whose stack is well formed in its buffer of at
    least one byte and a larger buffer elsewhere in memory, [hojson_realloc] returns with the
    stack well formed in the new buffer, with as many containers open; a
    state of INSUFFICIENT_MEMORY is replaced by the state the parser was in,
    any other state is kept; outside the two buffers memory is unchanged. *)
Theorem hojson_realloc_keeps_stack B L c m open B' L' :
  idle B L c m open ->
  0 < L -> L < L' -> 0 < B' -> B' + L' <= 2 ^ 64 ->
  B' + L' <= B \/ B + L <= B' ->
  exists c' m',
    hojson_realloc (Some c) m B' L' = Some (Some c', m')
    /\ idle B' L' c' m' open
    /\ (state c = HOJSON_STATE_ERROR_INSUFFICIENT_MEMORY -> state c' = error_return_state c)
    /\ (state c <> HOJSON_STATE_ERROR_INSUFFICIENT_MEMORY -> state c' = state c)
    /\ (forall a, ~ (B <= a < B + L) -> ~ (B' <= a < B' + L') -> load8 m' a = load8 m a).
Proof. apply realloc_keeps_idle. Qed.

Lemma out_of_memory_idle :
  exists open, idle buffer_address 50 (fst out_of_memory) (snd out_of_memory) open.
Proof.
  pose proof (initial_sized_idle doc_nested 50 eq_refl ltac:(discriminate)) as H0.
  unfold out_of_memory.
  destruct (after_calls true 3 input_address 7 (fst (initial_sized doc_nested 50))
              (snd (initial_sized doc_nested 50))) as [[[code c] m]|] eqn:E.
  - apply (after_calls_idle true buffer_address 50 input_address 7 3 _ _ 0 code c m H0 E).
  - exists 0. exact H0.
Qed.

Lemma hojson_realloc_keeps_stack_witness :
  exists open c' m',
    hojson_realloc (Some (fst out_of_memory)) (snd out_of_memory) larger_buffer 100
    = Some (Some c', m')
    /\ idle larger_buffer 100 c' m' open.
Proof.
  destruct out_of_memory_idle as (open & Hidle).
  destruct (hojson_realloc_keeps_stack buffer_address 50 (fst out_of_memory)
              (snd out_of_memory) open larger_buffer 100 Hidle)
    as (c' & m' & E & Hidle' & _).
  - reflexivity.
  - reflexivity.
  - reflexivity.
  - discriminate.
  - right. discriminate.
  - exists open, c', m'. split; [exact E | exact Hidle'].
Defined.

Lemma idle_buffer_length B L c m open : idle B L c m open -> buffer_length c = L.
Proof. intros ((k & inc & pop & (_ & Hl & _) & _) & _). exact Hl. Qed.

Lemma drive_realloc_well_nested sg fuel :
  forall slices buffers B L c m open,
    idle B L c m open -> 0 < L -> fresh_buffers B L buffers ->
    well_nested open (drive_realloc sg fuel slices buffers L c m).
Proof.
  induction fuel as [|fuel IH]; intros slices buffers B L c m open Hidle HL Hfresh;
    [exact I|].
  cbn [drive_realloc]. destruct slices as [|[input n] rest]; [exact I|].
  destruct (hojson_parse sg (Some c) m input n) as [[[code [c1|]] m1]|] eqn:E;
    try exact I.
  destruct (hojson_parse_spec sg B L c m open input n code c1 m1 Hidle E) as (R & _).
  pose proof (returned_event _ _ _ _ _ _ R) as Hev.
  pose proof (returned_idle _ _ _ _ _ _ R) as Hnext.
  assert (Hcons : forall r, well_nested (open_after code open) r ->
                            well_nested open (observe code c1 m1 :: r)).
  { intros r Hr. cbn [well_nested]. rewrite ev_code_observe, ev_depth_observe.
    split; [|exact Hr]. destruct code; try exact I; try exact Hev;
      destruct Hev; split; assumption. }
  destruct code; cbn [is_error code_num Z.ltb Z.compare]; try (apply Hcons; exact I);
    try (apply Hcons; apply (IH _ _ B L); assumption).
  (* INSUFFICIENT_MEMORY *)
  destruct buffers as [|B' more]; [apply Hcons; exact I|].
  destruct Hfresh as (HB' & Hfit & Hdisj & Hmore).
  assert (Hlen : u64 (L * 2) = L * 2).
  { unfold u64. apply Z.mod_small. change 18446744073709551616 with (2 ^ 64). lia. }
  rewrite Hlen.
  destruct (realloc_keeps_idle B L c1 m1 _ B' (L * 2) Hnext)
    as (c2 & m2 & Er & Hidle2 & _); try assumption; try lia.
  rewrite Er. apply Hcons. apply (IH _ _ B' (L * 2)); try assumption. lia.
Qed.

Lemma run_complete_realloc_cons fuel slices buffers e l :
  ev_code e <> HOJSON_ERROR_UNEXPECTED_EOF ->
  ev_code e <> HOJSON_ERROR_INSUFFICIENT_MEMORY ->
  run_complete_realloc fuel slices buffers l ->
  run_complete_realloc (S fuel) slices buffers (e :: l).
Proof.
  intros Hne Hnm [Hl | [Hc | [Hc | (l' & e' & El & Hs & Hn)]]].
  - left. cbn [length]. rewrite Hl. reflexivity.
  - right; left. rewrite count_code_cons.
    replace (code_num (ev_code e) =? code_num HOJSON_ERROR_UNEXPECTED_EOF) with false;
      [exact Hc|].
    symmetry. apply Z.eqb_neq. intros F. apply Hne.
    destruct (ev_code e); try discriminate F; reflexivity.
  - right; right; left. rewrite count_code_cons.
    replace (code_num (ev_code e) =? code_num HOJSON_ERROR_INSUFFICIENT_MEMORY) with false;
      [exact Hc|].
    symmetry. apply Z.eqb_neq. intros F. apply Hnm.
    destruct (ev_code e); try discriminate F; reflexivity.
  - right; right; right. exists (e :: l'), e'. rewrite El. repeat split; apply Hn || assumption.
Qed.

Lemma run_complete_realloc_next fuel slice slices buffers e l :
  ev_code e = HOJSON_ERROR_UNEXPECTED_EOF ->
  run_complete_realloc fuel slices buffers l ->
  run_complete_realloc (S fuel) (slice :: slices) buffers (e :: l).
Proof.
  intros He [Hl | [Hc | [Hc | (l' & e' & El & Hs & Hn)]]].
  - left. cbn [length]. rewrite Hl. reflexivity.
  - right; left. rewrite count_code_cons, He, Z.eqb_refl. cbn [length]. rewrite Hc.
    reflexivity.
  - right; right; left. rewrite count_code_cons, He. exact Hc.
  - right; right; right. exists (e :: l'), e'. rewrite El. repeat split; apply Hn || assumption.
Qed.

Lemma run_complete_realloc_buffer fuel slices buffer buffers e l :
  ev_code e = HOJSON_ERROR_INSUFFICIENT_MEMORY ->
  run_complete_realloc fuel slices buffers l ->
  run_complete_realloc (S fuel) slices (buffer :: buffers) (e :: l).
Proof.
  intros He [Hl | [Hc | [Hc | (l' & e' & El & Hs & Hn)]]].
  - left. cbn [length]. rewrite Hl. reflexivity.
  - right; left. rewrite count_code_cons, He. exact Hc.
  - right; right; left. rewrite count_code_cons, He, Z.eqb_refl. cbn [length]. rewrite Hc.
    reflexivity.
  - right; right; right. exists (e :: l'), e'. rewrite El. repeat split; apply Hn || assumption.
Qed.

Lemma run_complete_realloc_stop fuel slices buffers e :
  stops (ev_code e) = true -> ev_code e <> HOJSON_ERROR_UNEXPECTED_EOF ->
  ev_code e <> HOJSON_ERROR_INSUFFICIENT_MEMORY ->
  run_complete_realloc fuel slices buffers [e].
Proof.
  intros Hs Hn Hm. right; right; right. exists [], e. repeat split; assumption.
Qed.

Lemma drive_realloc_complete sg fuel :
  forall slices buffers B L c m open,
    idle B L c m open -> 0 < L -> fresh_buffers B L buffers ->
    run_complete_realloc fuel slices buffers (drive_realloc sg fuel slices buffers L c m).
Proof.
  induction fuel as [|fuel IH]; intros slices buffers B L c m open Hidle HL Hfresh;
    [left; reflexivity|].
  cbn [drive_realloc]. destruct slices as [|[input n] rest].
  { right; left. reflexivity. }
  destruct (hojson_parse_total sg c m input n) as (code & c1 & m1 & E). rewrite E.
  destruct (hojson_parse_spec sg B L c m open input n code c1 m1 Hidle E) as (R & _).
  pose proof (returned_idle _ _ _ _ _ _ R) as Hnext.
  pose proof (ev_code_observe code c1 m1) as Hev.
  destruct code; cbn [is_error code_num Z.ltb Z.compare];
    try (apply run_complete_realloc_stop; rewrite Hev; [reflexivity | discriminate..]);
    try (apply run_complete_realloc_cons;
         [rewrite Hev; discriminate | rewrite Hev; discriminate
         | apply (IH _ _ B L _ _ _ Hnext HL Hfresh)]).
  - (* INSUFFICIENT_MEMORY *)
    destruct buffers as [|B' more].
    { right; right; left. reflexivity. }
    destruct Hfresh as (HB' & Hfit & Hdisj & Hmore).
    assert (Hlen : u64 (L * 2) = L * 2).
    { unfold u64. apply Z.mod_small. change 18446744073709551616 with (2 ^ 64). lia. }
    rewrite Hlen.
    destruct (realloc_keeps_idle B L c1 m1 _ B' (L * 2) Hnext)
      as (c2 & m2 & Er & Hidle2 & _); try assumption; try lia.
    rewrite Er. apply run_complete_realloc_buffer; [exact Hev|].
    apply (IH _ _ B' (L * 2) _ _ _ Hidle2); [lia | exact Hmore].
  - (* UNEXPECTED_EOF *)
    apply run_complete_realloc_next; [exact Hev|].
    apply (IH _ _ B L _ _ _ Hnext HL Hfresh).
Qed.

(** X13: from [hojson_init] on, the events of the calling loop of the
    test program are well nested also when it recovers from
    INSUFFICIENT_MEMORY by doubling the buffer with [hojson_realloc], as
    long as each new block lies inside the address space and apart from the
    buffer it replaces.  The trace is that of the whole run: every call of
    [hojson_parse] and of [hojson_realloc] returns, so the trace only ends
    with the calls allowed, with the slices, with the blocks, or on a code
    that stops the driver. *)
Theorem events_well_nested_with_realloc sg c m B L fuel slices buffers :
  0 < B -> 0 < L -> B + L <= 2 ^ 64 ->
  fresh_buffers B L buffers ->
  exists c0 m0,
    hojson_init (Some c) m B L = (Some c0, m0)
    /\ well_nested 0 (drive_realloc sg fuel slices buffers L c0 m0)
    /\ run_complete_realloc fuel slices buffers
         (drive_realloc sg fuel slices buffers L c0 m0).
Proof.
  intros HB HL Hfit Hfresh.
  destruct (hojson_init_idle c m B L HB HL Hfit) as (c0 & m0 & E & Hidle & _).
  exists c0, m0. split; [exact E|]. split.
  - apply (drive_realloc_well_nested sg fuel slices buffers B L); assumption.
  - apply (drive_realloc_complete sg fuel slices buffers B L c0 m0 0); assumption.
Qed.

Lemma events_well_nested_with_realloc_witness :
  exists c0 m0,
    hojson_init (Some blank_context) (place (fun _ => 0) input_address doc_nested)
                buffer_address 50 = (Some c0, m0)
    /\ well_nested 0 (drive_realloc true 20 [(input_address, 7)] [larger_buffer] 50 c0 m0)
    /\ run_complete_realloc 20 [(input_address, 7)] [larger_buffer]
         (drive_realloc true 20 [(input_address, 7)] [larger_buffer] 50 c0 m0).
Proof.
  apply (events_well_nested_with_realloc true blank_context
           (place (fun _ => 0) input_address doc_nested) buffer_address 50 20
           [(input_address, 7)] [larger_buffer]).
  - reflexivity.
  - reflexivity.
  - discriminate.
  - cbn [fresh_buffers]. split; [reflexivity|]. split; [discriminate|].
    split; [right; discriminate | exact I].
Defined.

(** X14: the name exposed with a NAME event is a C string that starts
    and ends inside the buffer: a zero byte follows its first byte before
    the end of the buffer. *)
Theorem name_ends_inside_buffer sg B L c m open input n c' m' :
  idle B L c m open ->
  hojson_parse sg (Some c) m input n = Some (HOJSON_NAME, Some c', m') ->
  B <= name c' /\ exists z, name c' <= z < B + L /\ load8 m' z = 0.
Proof.
  intros Hidle E.
  destruct (hojson_parse_spec sg B L c m open input n _ c' m' Hidle E) as (R & _).
  destruct R as ((_ & _ & _ & Hname) & _). exact Hname.
Qed.

Lemma name_ends_inside_buffer_witness :
  exists c' m',
    hojson_parse true (Some (fst (calls_on true doc_no_value 1)))
                 (snd (calls_on true doc_no_value 1)) input_address 6
    = Some (HOJSON_NAME, Some c', m')
    /\ buffer_address <= name c'
    /\ exists z, name c' <= z < buffer_address + 256 /\ load8 m' z = 0.
Proof.
  destruct (calls_on_idle true doc_no_value 1) as (open & Hidle);
    [vm_compute; reflexivity|].
  destruct (hojson_parse true (Some (fst (calls_on true doc_no_value 1)))
              (snd (calls_on true doc_no_value 1)) input_address 6)
    as [[[code [c'|]] m']|] eqn:E.
  - assert (Hcode : code = HOJSON_NAME).
    { pose proof (f_equal (fun r => match r with
                                    | Some (code, _, _) => code
                                    | None => HOJSON_NO_OP
                                    end) E) as E'.
      vm_compute in E'. symmetry. exact E'. }
    subst code. exists c', m'. split; [reflexivity|].
    apply (name_ends_inside_buffer true buffer_address 256
             (fst (calls_on true doc_no_value 1)) (snd (calls_on true doc_no_value 1))
             open input_address 6 c' m' Hidle E).
  - apply (f_equal (fun r => match r with Some (_, Some _, _) => true | _ => false end)) in E.
    vm_compute in E. discriminate E.
  - apply (f_equal (fun r => match r with Some (_, Some _, _) => true | _ => false end)) in E.
    vm_compute in E. discriminate E.
Defined.

(** ** Encoding and decoding again *)

Lemma land_01 x : Z.land x 0x01 = x mod 2.
Proof. change 0x01 with (Z.ones 1). apply Z.land_ones. lia. Qed.
Lemma land_07 x : Z.land x 0x07 = x mod 8.
Proof. change 0x07 with (Z.ones 3). apply Z.land_ones. lia. Qed.
Lemma land_0F x : Z.land x 0x0F = x mod 16.
Proof. change 0x0F with (Z.ones 4). apply Z.land_ones. lia. Qed.
Lemma land_1F x : Z.land x 0x1F = x mod 32.
Proof. change 0x1F with (Z.ones 5). apply Z.land_ones. lia. Qed.
Lemma land_3F x : Z.land x 0x3F = x mod 64.
Proof. change 0x3F with (Z.ones 6). apply Z.land_ones. lia. Qed.
Lemma land_7F x : Z.land x 0x7F = x mod 128.
Proof. change 0x7F with (Z.ones 7). apply Z.land_ones. lia. Qed.
Lemma land_FF x : Z.land x 0xFF = x mod 256.
Proof. change 0xFF with (Z.ones 8). apply Z.land_ones. lia. Qed.

(** [(v & mask) >> k] for a mask of [n] ones from bit [k] on. *)
Lemma field_of v k n :
  0 <= k -> 0 <= n ->
  Z.shiftr (Z.land v (Z.shiftl (Z.ones n) k)) k = (v / 2 ^ k) mod 2 ^ n.
Proof.
  intros Hk Hn. rewrite Z.shiftr_land, Z.shiftr_shiftl_l by lia.
  rewrite Z.sub_diag, Z.shiftl_0_r, Z.land_ones by lia.
  rewrite Z.shiftr_div_pow2 by lia. reflexivity.
Qed.

Lemma field_7C0 v : Z.shiftr (Z.land v 0x7C0) 6 = (v / 64) mod 32.
Proof. apply (field_of v 6 5); lia. Qed.
Lemma field_F000 v : Z.shiftr (Z.land v 0xF000) 12 = (v / 4096) mod 16.
Proof. apply (field_of v 12 4); lia. Qed.
Lemma field_FC0 v : Z.shiftr (Z.land v 0xFC0) 6 = (v / 64) mod 64.
Proof. apply (field_of v 6 6); lia. Qed.
Lemma field_1C0000 v : Z.shiftr (Z.land v 0x1C0000) 18 = (v / 262144) mod 8.
Proof. apply (field_of v 18 3); lia. Qed.
Lemma field_3F000 v : Z.shiftr (Z.land v 0x3F000) 12 = (v / 4096) mod 64.
Proof. apply (field_of v 12 6); lia. Qed.
Lemma field_FF00 v : Z.shiftr (Z.land v 0xFF00) 8 = (v / 256) mod 256.
Proof. apply (field_of v 8 8); lia. Qed.

(** Bits that do not overlap: [|] is [+]. *)
Lemma lor_add a k x :
  0 <= k -> 0 <= x < 2 ^ k -> Z.lor (a * 2 ^ k) x = a * 2 ^ k + x.
Proof.
  intros Hk Hx. rewrite <- Z.shiftl_mul_pow2 by lia.
  rewrite <- Z.lxor_lor, <- Z.add_nocarry_lxor; try reflexivity.
  all: apply Z.bits_inj'; intros i Hi; rewrite Z.land_spec, Z.bits_0;
    destruct (Z.lt_ge_cases i k) as [Hlt | Hge].
  all: try (rewrite Z.shiftl_spec_low by lia; reflexivity).
  all: rewrite <- (Z.mod_small x (2 ^ k)) by lia;
    rewrite Z.mod_pow2_bits_high by lia; apply andb_false_r.
Qed.

Lemma lor_80 y : 0 <= y < 256 -> Z.lor 0x80 y = 128 + y mod 128.
Proof.
  intros Hy. rewrite (Z.div_mod y 128) at 1 by lia.
  assert (Hq : y / 128 = 0 \/ y / 128 = 1) by (Z.div_mod_to_equations; lia).
  pose proof (Z.mod_pos_bound y 128 ltac:(lia)) as Hr.
  destruct Hq as [-> | ->].
  - rewrite Z.mul_0_r, Z.add_0_l. apply (lor_add 1 7); lia.
  - replace (128 * 1 + y mod 128) with (Z.lor (1 * 2 ^ 7) (y mod 128))
      by (rewrite lor_add; lia).
    change 0x80 with (1 * 2 ^ 7).
    rewrite Z.lor_assoc, Z.lor_diag.
    rewrite lor_add; [reflexivity | lia | change (1 * 2 ^ 7) with 128; lia].
Qed.

Lemma shl32_small x k :
  0 <= k -> 0 <= x -> x * 2 ^ k < 2 ^ 32 -> shl32 x k = x * 2 ^ k.
Proof.
  intros Hk Hx Hlt. unfold shl32, u32. change 4294967296 with (2 ^ 32).
  assert (x < 2 ^ 32).
  { assert (1 <= 2 ^ k) by (apply Z.pow_le_mono_r with (b := 0) (c := k); lia). nia. }
  rewrite (Z.mod_small x) by lia. rewrite Z.shiftl_mul_pow2 by lia.
  apply Z.mod_small. lia.
Qed.

Lemma u32_small x : 0 <= x < 2 ^ 32 -> u32 x = x.
Proof. intros H. unfold u32. apply Z.mod_small. exact H. Qed.

Lemma byte_of_raw_of_bytes b0 b1 b2 b3 :
  0 <= b0 < 256 -> 0 <= b1 < 256 -> 0 <= b2 < 256 -> 0 <= b3 < 256 ->
  byte_of (raw_of_bytes b0 b1 b2 b3) 0 = b0
  /\ byte_of (raw_of_bytes b0 b1 b2 b3) 1 = b1
  /\ byte_of (raw_of_bytes b0 b1 b2 b3) 2 = b2
  /\ byte_of (raw_of_bytes b0 b1 b2 b3) 3 = b3.
Proof.
  intros H0 H1 H2 H3. unfold byte_of, raw_of_bytes.
  rewrite !u8_small by assumption.
  change (2 ^ (8 * 0)) with 1. change (2 ^ (8 * 1)) with 256.
  change (2 ^ (8 * 2)) with 65536. change (2 ^ (8 * 3)) with 16777216.
  repeat split; Z.div_mod_to_equations; lia.
Qed.

(** [str[i]] promoted to [int] and then shifted and masked down to bits of
    the byte: the sign of [char] does not show. *)
Lemma char_val_field sg b k n :
  0 <= b < 256 -> 0 <= k -> 0 <= n -> k + n <= 8 ->
  (char_val sg b / 2 ^ k) mod 2 ^ n = (b / 2 ^ k) mod 2 ^ n.
Proof.
  intros Hb Hk Hn Hkn. unfold char_val. rewrite u8_small by exact Hb.
  destruct (sg && (128 <=? b)); [|reflexivity].
  replace (b - 256) with (b + (- 2 ^ (8 - k)) * 2 ^ k).
  2:{ rewrite Z.mul_opp_l, <- Z.pow_add_r by lia. replace (8 - k + k) with 8 by lia. lia. }
  rewrite Z.div_add by lia.
  replace (- 2 ^ (8 - k)) with ((- 2 ^ (8 - k - n)) * 2 ^ n).
  2:{ rewrite Z.mul_opp_l, <- Z.pow_add_r by lia. replace (8 - k - n + n) with (8 - k) by lia.
      reflexivity. }
  apply Z.mod_add. lia.
Qed.

Lemma char_val_land sg b n mask :
  mask = Z.ones n -> 0 <= n <= 8 -> 0 <= b < 256 ->
  Z.land (char_val sg b) mask = b mod 2 ^ n.
Proof.
  intros -> Hn Hb. rewrite Z.land_ones by lia.
  pose proof (char_val_field sg b 0 n Hb) as H. rewrite !Z.pow_0_r, !Z.div_1_r in H.
  apply H; lia.
Qed.

Lemma char_val_shiftr_land sg b k n mask :
  mask = Z.ones n -> 0 <= k -> 0 <= n -> k + n <= 8 -> 0 <= b < 256 ->
  Z.land (Z.shiftr (char_val sg b) k) mask = (b / 2 ^ k) mod 2 ^ n.
Proof.
  intros -> Hk Hn Hkn Hb. rewrite Z.land_ones, Z.shiftr_div_pow2 by lia.
  apply char_val_field; assumption.
Qed.

Lemma utf8_tests sg b :
  0 <= b < 256 ->
  (Z.land (Z.shiftr (char_val sg b) 7) 0x01 =? 0x00) = (b <? 128)
  /\ (Z.land (Z.shiftr (char_val sg b) 5) 0x07 =? 0x06) = ((192 <=? b) && (b <? 224))
  /\ (Z.land (Z.shiftr (char_val sg b) 4) 0x0F =? 0x0E) = ((224 <=? b) && (b <? 240))
  /\ (Z.land (Z.shiftr (char_val sg b) 3) 0x1F =? 0x1E) = ((240 <=? b) && (b <? 248)).
Proof.
  intros Hb.
  rewrite (char_val_shiftr_land sg b 7 1), (char_val_shiftr_land sg b 5 3),
    (char_val_shiftr_land sg b 4 4), (char_val_shiftr_land sg b 3 5)
    by (reflexivity || lia).
  change (2 ^ 7) with 128. change (2 ^ 5) with 32. change (2 ^ 4) with 16.
  change (2 ^ 3) with 8. change (2 ^ 1) with 2.
  repeat split; apply eq_true_iff_eq;
    rewrite ?andb_true_iff, ?Z.eqb_eq, ?Z.ltb_lt, ?Z.leb_le;
    Z.div_mod_to_equations; lia.
Qed.

Lemma lor2 x0 x1 :
  0 <= x1 < 64 -> Z.lor (x0 * 2 ^ 6) x1 = x0 * 64 + x1.
Proof. intros H1. rewrite lor_add by lia. reflexivity. Qed.

Lemma lor3 x0 x1 x2 :
  0 <= x1 < 64 -> 0 <= x2 < 64 ->
  Z.lor (Z.lor (x0 * 2 ^ 12) (x1 * 2 ^ 6)) x2 = x0 * 4096 + x1 * 64 + x2.
Proof.
  intros H1 H2. rewrite (lor_add x0 12) by lia.
  replace (x0 * 2 ^ 12 + x1 * 2 ^ 6) with ((x0 * 64 + x1) * 2 ^ 6) by lia.
  rewrite lor_add by lia. lia.
Qed.

Lemma lor4 x0 x1 x2 x3 :
  0 <= x1 < 64 -> 0 <= x2 < 64 -> 0 <= x3 < 64 ->
  Z.lor (Z.lor (Z.lor (x0 * 2 ^ 18) (x1 * 2 ^ 12)) (x2 * 2 ^ 6)) x3
  = x0 * 262144 + x1 * 4096 + x2 * 64 + x3.
Proof.
  intros H1 H2 H3. rewrite (lor_add x0 18) by lia.
  replace (x0 * 2 ^ 18 + x1 * 2 ^ 12) with ((x0 * 64 + x1) * 2 ^ 12) by lia.
  rewrite lor3 by lia. lia.
Qed.

Lemma le32_bytes str :
  le32 str = u8 (str 0) + 256 * u8 (str 1) + 65536 * u8 (str 2) + 16777216 * u8 (str 3).
Proof. reflexivity. Qed.

(** The UTF-8 branch of the decoder in arithmetic: the number of bytes is
    read off the lead byte, the value is made of the low bits of the bytes,
    and neither depends on the sign of [char]. *)
Lemma decode_utf8 sg str n :
  let b i := u8 (str i) in
  let cb := utf8_length (b 0) in
  hojson_decode_character sg str n HOJSON_ENCODING_UTF_8
  = if cb >? n then mk_character 0 UINT32_MAX 0
    else mk_character
           (if cb =? 0 then 0 else le32 str mod 2 ^ (8 * cb))
           (utf8_value cb (b 0) (b 1) (b 2) (b 3)) cb.
Proof.
  intros b cb.
  assert (Hb : forall i, 0 <= b i < 256) by (intros i; unfold b, u8; apply Z.mod_pos_bound; lia).
  assert (Hcv : forall i, char_val sg (str i) = char_val sg (b i)).
  { intros i. unfold char_val, b. rewrite (u8_small (u8 (str i))); [reflexivity|apply Hb]. }
  unfold hojson_decode_character. cbv zeta. rewrite !Hcv.
  destruct (utf8_tests sg (b 0) (Hb 0)) as (T1 & T2 & T3 & T4).
  rewrite T1, T2, T3, T4. fold (utf8_length (b 0)). fold cb.
  destruct (cb >? n); [reflexivity|].
  assert (Hcb : cb = 0 \/ cb = 1 \/ cb = 2 \/ cb = 3 \/ cb = 4).
  { unfold cb, utf8_length. split_ifs; auto. }
  rewrite !(char_val_land sg _ 7 0x7F), !(char_val_land sg _ 6 0x3F),
    !(char_val_land sg _ 5 0x1F), !(char_val_land sg _ 4 0x0F),
    !(char_val_land sg _ 3 0x07) by (reflexivity || lia || apply Hb).
  change (2 ^ 7) with 128. change (2 ^ 6) with 64. change (2 ^ 5) with 32.
  change (2 ^ 4) with 16. change (2 ^ 3) with 8.
  pose proof (Z.mod_pos_bound (b 0) 128 ltac:(lia)).
  pose proof (Z.mod_pos_bound (b 0) 32 ltac:(lia)).
  pose proof (Z.mod_pos_bound (b 0) 16 ltac:(lia)).
  pose proof (Z.mod_pos_bound (b 0) 8 ltac:(lia)).
  pose proof (Z.mod_pos_bound (b 1) 64 ltac:(lia)).
  pose proof (Z.mod_pos_bound (b 2) 64 ltac:(lia)).
  pose proof (Z.mod_pos_bound (b 3) 64 ltac:(lia)).
  destruct Hcb as [-> | [-> | [-> | [-> | ->]]]]; cbn [Z.eqb Pos.eqb]; cbv iota;
    unfold utf8_value; cbn [Z.eqb Pos.eqb]; cbv iota; f_equal.
  - change 0x000000FF with (Z.ones 8). rewrite Z.land_ones by lia. reflexivity.
  - apply u32_small. lia.
  - change 0x0000FFFF with (Z.ones 16). rewrite Z.land_ones by lia. reflexivity.
  - rewrite (shl32_small _ 6), u32_small by lia. apply lor2. lia.
  - change 0x00FFFFFF with (Z.ones 24). rewrite Z.land_ones by lia. reflexivity.
  - rewrite (shl32_small _ 12), (shl32_small _ 6), u32_small by lia. apply lor3; lia.
  - symmetry. apply Z.mod_small. unfold le32. fold (b 0) (b 1) (b 2) (b 3).
    pose proof (Hb 0). pose proof (Hb 1). pose proof (Hb 2). pose proof (Hb 3).
    change (2 ^ (8 * 4)) with 4294967296. lia.
  - rewrite (shl32_small _ 18), (shl32_small _ 12), (shl32_small _ 6), u32_small by lia.
    apply lor4; lia.
Qed.

Ltac arith := Z.div_mod_to_equations; lia.

Lemma decode_encoded sg b0 b1 b2 b3 n v :
  0 <= b0 < 256 -> 0 <= b1 < 256 -> 0 <= b2 < 256 -> 0 <= b3 < 256 ->
  utf8_length b0 = n -> 1 <= n <= 4 ->
  utf8_value n b0 b1 b2 b3 = v ->
  raw_of_bytes b0 b1 b2 b3 < 2 ^ (8 * n) ->
  hojson_decode_character sg (byte_of (raw_of_bytes b0 b1 b2 b3)) n HOJSON_ENCODING_UTF_8
  = mk_character (raw_of_bytes b0 b1 b2 b3) v n.
Proof.
  intros H0 H1 H2 H3 Hlen Hn Hval Hraw.
  destruct (byte_of_raw_of_bytes b0 b1 b2 b3 H0 H1 H2 H3) as (E0 & E1 & E2 & E3).
  pose proof (decode_utf8 sg (byte_of (raw_of_bytes b0 b1 b2 b3)) n) as Hdec.
  cbv zeta in Hdec. rewrite Hdec. clear Hdec. rewrite le32_bytes, E0, E1, E2, E3.
  rewrite !u8_small by assumption. rewrite Hlen, Hval.
  replace (n >? n) with false by (symmetry; rewrite Z.gtb_ltb; apply Z.ltb_ge; lia).
  replace (n =? 0) with false by (symmetry; apply Z.eqb_neq; lia).
  f_equal. fold (raw_of_bytes b0 b1 b2 b3) in *.
  assert (Hr : b0 + 256 * b1 + 65536 * b2 + 16777216 * b3 = raw_of_bytes b0 b1 b2 b3).
  { unfold raw_of_bytes. rewrite !u8_small by assumption. reflexivity. }
  rewrite Hr. apply Z.mod_small. split; [|exact Hraw].
  rewrite <- Hr. lia.
Qed.

(** X15: in UTF-8, decoding the bytes that [hojson_encode_character]
    writes for a Unicode scalar value (a value up to U+10FFFF outside the
    surrogates) gives back the character: the same value, the same bytes and
    the same number of bytes, whether [char] is signed or not. *)
Theorem utf8_round_trip sg v :
  0 <= v <= 0x10FFFF -> ~ (0xD800 <= v <= 0xDFFF) ->
  let ch := hojson_encode_character v HOJSON_ENCODING_UTF_8 in
  hojson_decode_character sg (byte_of (raw ch)) (bytes ch) HOJSON_ENCODING_UTF_8 = ch.
Proof.
  intros Hv Hs. unfold hojson_encode_character, encode_utf8. cbv zeta.
  destruct (v <=? 0x7F) eqn:E1.
  { apply Z.leb_le in E1. cbn [raw bytes].
    assert (Hraw : raw_of_bytes v 0 0 0 = v).
    { unfold raw_of_bytes. rewrite !u8_small by lia. lia. }
    replace (mk_character v v 1) with (mk_character (raw_of_bytes v 0 0 0) v 1)
      by (rewrite Hraw; reflexivity).
    rewrite <- Hraw at 1.
    apply decode_encoded; [lia | lia | lia | lia | | lia | | ].
    - unfold utf8_length. replace (v <? 128) with true by (symmetry; apply Z.ltb_lt; lia).
      reflexivity.
    - unfold utf8_value. cbn [Z.eqb Pos.eqb]. apply Z.mod_small. lia.
    - rewrite Hraw. change (2 ^ (8 * 1)) with 256. lia. }
  apply Z.leb_gt in E1.
  destruct ((0x80 <=? v) && (v <=? 0x7FF)) eqn:E2.
  { apply andb_true_iff in E2. destruct E2 as (E2 & E2'). apply Z.leb_le in E2, E2'.
    cbn [raw bytes]. rewrite field_7C0, land_FF.
    rewrite (u8_small ((v / 64) mod 32)) by arith.
    rewrite (u8_small (v mod 256)) by arith.
    change 0xC0 with (6 * 2 ^ 5). rewrite (lor_add 6 5) by arith.
    rewrite lor_80 by arith.
    apply decode_encoded; [arith | arith | lia | lia | | lia | | ].
    - unfold utf8_length.
      replace (6 * 2 ^ 5 + (v / 64) mod 32 <? 128) with false
        by (symmetry; apply Z.ltb_ge; arith).
      replace ((192 <=? 6 * 2 ^ 5 + (v / 64) mod 32) && (6 * 2 ^ 5 + (v / 64) mod 32 <? 224))
        with true; [reflexivity|].
      symmetry. apply andb_true_iff. rewrite Z.leb_le, Z.ltb_lt. arith.
    - unfold utf8_value. cbn [Z.eqb Pos.eqb]. arith.
    - unfold raw_of_bytes, u8. change (2 ^ (8 * 2)) with 65536. arith. }
  apply andb_false_iff in E2. rewrite Z.leb_gt in E2.
  assert (E2' : 0x7FF < v) by (destruct E2 as [E2 | E2]; [lia | apply Z.leb_gt in E2; lia]).
  clear E2.
  destruct (((0x800 <=? v) && (v <=? 0xD7FF)) || ((0xE000 <=? v) && (v <=? 0xFFFF))) eqn:E3.
  { assert (E3' : v <= 0xFFFF).
    { apply orb_true_iff in E3. rewrite !andb_true_iff, !Z.leb_le in E3. lia. }
    clear E3. cbn [raw bytes]. rewrite field_F000, field_FC0, land_3F.
    rewrite (u8_small ((v / 4096) mod 16)) by arith.
    rewrite (u8_small ((v / 64) mod 64)) by arith.
    rewrite (u8_small (v mod 64)) by arith.
    change 0xE0 with (14 * 2 ^ 4). rewrite (lor_add 14 4) by arith.
    change 0x80 with (2 * 2 ^ 6). rewrite !(lor_add 2 6) by arith.
    apply decode_encoded; [arith | arith | arith | lia | | lia | | ].
    - unfold utf8_length.
      replace (14 * 2 ^ 4 + (v / 4096) mod 16 <? 128) with false
        by (symmetry; apply Z.ltb_ge; arith).
      replace ((192 <=? 14 * 2 ^ 4 + (v / 4096) mod 16)
               && (14 * 2 ^ 4 + (v / 4096) mod 16 <? 224)) with false
        by (symmetry; apply andb_false_iff; rewrite Z.leb_gt, Z.ltb_ge; right; arith).
      replace ((224 <=? 14 * 2 ^ 4 + (v / 4096) mod 16)
               && (14 * 2 ^ 4 + (v / 4096) mod 16 <? 240)) with true; [reflexivity|].
      symmetry. apply andb_true_iff. rewrite Z.leb_le, Z.ltb_lt. arith.
    - unfold utf8_value. cbn [Z.eqb Pos.eqb]. arith.
    - unfold raw_of_bytes, u8. change (2 ^ (8 * 3)) with 16777216. arith. }
  assert (E3' : 0xFFFF < v).
  { apply orb_false_iff in E3. rewrite !andb_false_iff, !Z.leb_gt in E3. lia. }
  clear E3.
  replace ((0x10000 <=? v) && (v <=? 0x10FFFF)) with true
    by (symmetry; apply andb_true_iff; rewrite !Z.leb_le; lia).
  cbn [raw bytes]. rewrite field_1C0000, field_3F000, field_FC0, land_3F.
  rewrite (u8_small ((v / 262144) mod 8)) by arith.
  rewrite (u8_small ((v / 4096) mod 64)) by arith.
  rewrite (u8_small ((v / 64) mod 64)) by arith.
  rewrite (u8_small (v mod 64)) by arith.
  change 0xF0 with (30 * 2 ^ 3). rewrite (lor_add 30 3) by arith.
  change 0x80 with (2 * 2 ^ 6). rewrite !(lor_add 2 6) by arith.
  apply decode_encoded; [arith | arith | arith | arith | | lia | | ].
  - unfold utf8_length.
    replace (30 * 2 ^ 3 + (v / 262144) mod 8 <? 128) with false
      by (symmetry; apply Z.ltb_ge; arith).
    replace ((192 <=? 30 * 2 ^ 3 + (v / 262144) mod 8)
             && (30 * 2 ^ 3 + (v / 262144) mod 8 <? 224)) with false
      by (symmetry; apply andb_false_iff; rewrite Z.leb_gt, Z.ltb_ge; right; arith).
    replace ((224 <=? 30 * 2 ^ 3 + (v / 262144) mod 8)
             && (30 * 2 ^ 3 + (v / 262144) mod 8 <? 240)) with false
      by (symmetry; apply andb_false_iff; rewrite Z.leb_gt, Z.ltb_ge; right; arith).
    replace ((240 <=? 30 * 2 ^ 3 + (v / 262144) mod 8)
             && (30 * 2 ^ 3 + (v / 262144) mod 8 <? 248)) with true; [reflexivity|].
    symmetry. apply andb_true_iff. rewrite Z.leb_le, Z.ltb_lt. arith.
  - unfold utf8_value. cbn [Z.eqb Pos.eqb]. arith.
  - unfold raw_of_bytes, u8. change (2 ^ (8 * 4)) with 4294967296. arith.
Qed.

Lemma utf8_round_trip_witness :
  hojson_decode_character true
    (byte_of (raw (hojson_encode_character 0x20AC HOJSON_ENCODING_UTF_8)))
    (bytes (hojson_encode_character 0x20AC HOJSON_ENCODING_UTF_8)) HOJSON_ENCODING_UTF_8
  = hojson_encode_character 0x20AC HOJSON_ENCODING_UTF_8.
Proof.
  apply (utf8_round_trip true 0x20AC).
  - lia.
  - lia.
Defined.

(** X16: without a byte-order mark and in UTF-8, what
    [hojson_decode_character] decodes does not depend on whether [char] is
    signed. *)
Theorem decoding_utf8_ignores_char_sign str n e :
  e = HOJSON_ENCODING_UNKNOWN \/ e = HOJSON_ENCODING_UTF_8 ->
  hojson_decode_character true str n e = hojson_decode_character false str n e.
Proof.
  intros [-> | ->].
  - unfold hojson_decode_character. cbv zeta.
    replace (Z.land (u32 (char_val true (str 0))) 0x000000FF)
      with (Z.land (u32 (char_val false (str 0))) 0x000000FF); [reflexivity|].
    rewrite !land_FF. unfold u32, char_val. cbn [andb].
    destruct (128 <=? u8 (str 0)); [|reflexivity].
    pose proof (Z.mod_pos_bound (str 0) 256 ltac:(lia)). unfold u8 in *.
    Z.div_mod_to_equations; lia.
  - pose proof (decode_utf8 true str n) as Ht. pose proof (decode_utf8 false str n) as Hf.
    cbv zeta in Ht, Hf. rewrite Ht, Hf. reflexivity.
Qed.

Lemma decoding_utf8_ignores_char_sign_witness :
  hojson_decode_character true (fun _ => 0xE9) 1 HOJSON_ENCODING_UNKNOWN
  = hojson_decode_character false (fun _ => 0xE9) 1 HOJSON_ENCODING_UNKNOWN.
Proof.
  apply (decoding_utf8_ignores_char_sign (fun _ => 0xE9) 1 HOJSON_ENCODING_UNKNOWN).
  left. reflexivity.
Defined.

Lemma lor_high q b :
  0 <= q < 2 ^ 24 -> 0 <= b < 256 ->
  Z.lor (q * 2 ^ 8) (2 ^ 32 - 256 + b) = 2 ^ 32 - 256 + b.
Proof.
  intros Hq Hb.
  replace (2 ^ 32 - 256 + b) with (Z.lor (Z.ones 24 * 2 ^ 8) b)
    by (rewrite lor_add by lia; reflexivity).
  rewrite Z.lor_assoc. f_equal.
  rewrite <- !Z.shiftl_mul_pow2, <- Z.shiftl_lor by lia. f_equal.
  destruct (Z.eq_dec q 0) as [-> | Hq0]; [reflexivity|].
  apply Z.lor_ones_low; [lia|]. apply Z.log2_lt_pow2; lia.
Qed.

Lemma shl32_8 x : exists q, 0 <= q < 2 ^ 24 /\ shl32 x 8 = q * 2 ^ 8.
Proof.
  exists (u32 x mod 2 ^ 24). split; [apply Z.mod_pos_bound; lia|].
  unfold shl32. rewrite Z.shiftl_mul_pow2 by lia. unfold u32 at 1.
  change 4294967296 with (2 ^ 24 * 2 ^ 8). apply Z.mul_mod_distr_r; lia.
Qed.

(** X17: when [char] is unsigned, in UTF-16 of either byte order,
    decoding the two bytes that [hojson_encode_character] writes for a value
    up to U+FFFF outside the surrogates gives back the character. *)
Theorem utf16_unit_round_trip e v :
  e = HOJSON_ENCODING_UTF_16_BE \/ e = HOJSON_ENCODING_UTF_16_LE ->
  0 <= v <= 0xFFFF -> ~ (0xD800 <= v <= 0xDFFF) ->
  let ch := hojson_encode_character v e in
  hojson_decode_character false (byte_of (raw ch)) (bytes ch) e = ch.
Proof.
  intros He Hv Hs. cbv zeta.
  assert (Hcond : ((v <=? 0xD7FF) || ((0xE000 <=? v) && (v <=? 0xFFFF))) = true).
  { apply orb_true_iff. rewrite andb_true_iff, !Z.leb_le. lia. }
  assert (Hhi : 0 <= (v / 256) mod 256 < 256) by arith.
  assert (Hlo : 0 <= v mod 256 < 256) by arith.
  destruct He as [-> | ->]; unfold hojson_encode_character; rewrite Hcond;
    cbn [raw bytes]; rewrite field_FF00, land_FF, !u8_small by assumption.
  - destruct (byte_of_raw_of_bytes ((v / 256) mod 256) (v mod 256) 0 0)
      as (E0 & E1 & E2 & E3); try lia.
    unfold hojson_decode_character, char_val. cbv zeta. cbn [andb].
    rewrite le32_bytes, E0, E1, E2, E3. rewrite !u8_small by lia.
    change (Z.land (Z.shiftr 0 2) 0x3F =? 0x37) with false. rewrite andb_false_r.
    cbn [Z.gtb Z.compare Pos.compare Pos.compare_cont Z.eqb Pos.eqb]. cbv iota.
    f_equal.
    + change 0x0000FFFF with (Z.ones 16). rewrite Z.land_ones by lia.
      unfold raw_of_bytes. rewrite !u8_small by lia. apply Z.mod_small. lia.
    + rewrite (shl32_small _ 8), u32_small by lia. rewrite lor_add by lia. arith.
  - destruct (byte_of_raw_of_bytes (v mod 256) ((v / 256) mod 256) 0 0)
      as (E0 & E1 & E2 & E3); try lia.
    unfold hojson_decode_character, char_val. cbv zeta. cbn [andb].
    rewrite le32_bytes, E0, E1, E2, E3. rewrite !u8_small by lia.
    change (Z.land (Z.shiftr 0 2) 0x3F =? 0x37) with false. rewrite andb_false_r.
    cbn [Z.gtb Z.compare Pos.compare Pos.compare_cont Z.eqb Pos.eqb]. cbv iota.
    f_equal.
    + change 0x0000FFFF with (Z.ones 16). rewrite Z.land_ones by lia.
      unfold raw_of_bytes. rewrite !u8_small by lia. apply Z.mod_small. lia.
    + rewrite (shl32_small _ 8), u32_small by lia. rewrite lor_add by lia. arith.
Qed.

Lemma utf16_unit_round_trip_witness :
  hojson_decode_character false
    (byte_of (raw (hojson_encode_character 0x20AC HOJSON_ENCODING_UTF_16_LE)))
    (bytes (hojson_encode_character 0x20AC HOJSON_ENCODING_UTF_16_LE))
    HOJSON_ENCODING_UTF_16_LE
  = hojson_encode_character 0x20AC HOJSON_ENCODING_UTF_16_LE.
Proof.
  apply (utf16_unit_round_trip HOJSON_ENCODING_UTF_16_LE 0x20AC).
  - right. reflexivity.
  - lia.
  - lia.
Defined.

(** X18: when [char] is signed, in UTF-16 of either byte order, a unit of
    two bytes whose low byte is 0x80 or more is decoded with the sign of that
    byte extended: the value is 0xFFFFFF00 plus the low byte, whatever the
    high byte is. *)
Theorem utf16_signed_char_extends_sign str n e :
  e = HOJSON_ENCODING_UTF_16_BE \/ e = HOJSON_ENCODING_UTF_16_LE ->
  bytes (hojson_decode_character true str n e) = 2 ->
  let low := u8 (str (match e with HOJSON_ENCODING_UTF_16_BE => 1 | _ => 0 end)) in
  128 <= low ->
  value (hojson_decode_character true str n e) = 0xFFFFFF00 + low.
Proof.
  intros He Hbytes low Hlow.
  assert (Hl : 0 <= low < 256) by (unfold low, u8; apply Z.mod_pos_bound; lia).
  assert (Hext : forall x, u8 x = low -> u32 (char_val true x) = 2 ^ 32 - 256 + low).
  { intros x Hx. unfold char_val. rewrite Hx. cbn [andb].
    replace (128 <=? low) with true by (symmetry; apply Z.leb_le; exact Hlow).
    unfold u32. change 4294967296 with (2 ^ 32).
    replace (low - 256) with (2 ^ 32 - 256 + low + (-1) * 2 ^ 32) by lia.
    rewrite Z.mod_add by lia. apply Z.mod_small. lia. }
  revert Hbytes. unfold hojson_decode_character. cbv zeta.
  destruct He as [-> | ->].
  - destruct ((Z.land (Z.shiftr (char_val true (str 0)) 2) 0x3F =? 0x36)
              && (Z.land (Z.shiftr (char_val true (str 2)) 2) 0x3F =? 0x37)).
    + destruct (4 >? n); cbn [bytes]; intros F; discriminate F.
    + destruct (2 >? n); cbn [bytes]; intros F; [discriminate F|].
      cbn [value Z.eqb Pos.eqb]. cbv iota.
      rewrite (Hext (str 1) eq_refl).
      destruct (shl32_8 (char_val true (str 0))) as (q & Hq & ->).
      apply lor_high; assumption.
  - destruct ((Z.land (Z.shiftr (char_val true (str 1)) 2) 0x3F =? 0x36)
              && (Z.land (Z.shiftr (char_val true (str 3)) 2) 0x3F =? 0x37)).
    + destruct (4 >? n); cbn [bytes]; intros F; discriminate F.
    + destruct (2 >? n); cbn [bytes]; intros F; [discriminate F|].
      cbn [value Z.eqb Pos.eqb]. cbv iota.
      rewrite (Hext (str 0) eq_refl).
      destruct (shl32_8 (char_val true (str 1))) as (q & Hq & ->).
      apply lor_high; assumption.
Qed.

Lemma utf16_signed_char_extends_sign_witness :
  value (hojson_decode_character true (fun i => if i =? 1 then 0xE9 else 0) 2
           HOJSON_ENCODING_UTF_16_BE)
  = 0xFFFFFF00 + u8 0xE9.
Proof.
  apply (utf16_signed_char_extends_sign (fun i => if i =? 1 then 0xE9 else 0) 2
           HOJSON_ENCODING_UTF_16_BE).
  - left. reflexivity.
  - vm_compute. reflexivity.
  - vm_compute. discriminate.
Defined.

(** ** The end of a number *)

Lemma stream_byte_range stream stream_length m src n i :
  0 <= stream_byte stream stream_length m src n i < 256.
Proof.
  unfold stream_byte.
  destruct ((stream_length <=? i) && (i <? stream_length + n)).
  - apply load8_range.
  - unfold byte_of. apply Z.mod_pos_bound. reflexivity.
Qed.

(** A stream register that was loaded from an empty one is loaded again
    to the same value, as long as the bytes at the iterator are the same. *)
Lemma load_stream_again c c' m m' src left :
  stream_length c = 0 -> stream_length c' = 0 ->
  stream c' = snd (load_stream c m src left) ->
  (forall i, 0 <= i < 4 -> load8 m' (src + i) = load8 m (src + i)) ->
  snd (load_stream c' m' src left) = snd (load_stream c m src left).
Proof.
  intros Hs Hs' Hst Hm. unfold load_stream in *. cbn [snd] in *.
  rewrite Hs, Hs' in *.
  destruct (u64 ((if left <=? 4 then left else 4) - 0) <? 4) eqn:E.
  - set (n := u64 ((if left <=? 4 then left else 4) - 0)) in *.
    rewrite Hst. unfold stream_copy.
    destruct (byte_of_raw_of_bytes
                (stream_byte (stream c) 0 m src n 0) (stream_byte (stream c) 0 m src n 1)
                (stream_byte (stream c) 0 m src n 2) (stream_byte (stream c) 0 m src n 3))
      as (B0 & B1 & B2 & B3); try apply stream_byte_range.
    assert (Hb : forall i, 0 <= i < 4 ->
              stream_byte (raw_of_bytes (stream_byte (stream c) 0 m src n 0)
                             (stream_byte (stream c) 0 m src n 1)
                             (stream_byte (stream c) 0 m src n 2)
                             (stream_byte (stream c) 0 m src n 3)) 0 m' src n i
              = stream_byte (stream c) 0 m src n i).
    { intros i Hi. unfold stream_byte at 1.
      destruct ((0 <=? i) && (i <? 0 + n)) eqn:Ei.
      - unfold stream_byte. rewrite Ei. rewrite Z.sub_0_r. apply Hm. exact Hi.
      - assert (Hc : i = 0 \/ i = 1 \/ i = 2 \/ i = 3) by lia.
        destruct Hc as [-> | [-> | [-> | ->]]]; assumption. }
    rewrite !Hb by lia. reflexivity.
  - unfold le32. unfold load8 in Hm.
    rewrite <- (Hm 0), <- (Hm 1), <- (Hm 2), <- (Hm 3) by lia. reflexivity.
Qed.

(** The character the next pass decodes is the same for two contexts at
    the same place of the same slice, the first with an empty stream
    register and the second with the register as the first loads it, as
    long as the four bytes at the iterator are the same. *)
Lemma next_character_again sg c c2 m m2 :
  stream_length c = 0 -> stream_length c2 = 0 ->
  iterator c2 = iterator c -> json c2 = json c -> json_length c2 = json_length c ->
  encoding c2 = encoding c -> stream c2 = snd (next_stream c m) ->
  (forall i, 0 <= i < 4 -> load8 m2 (iterator c + i) = load8 m (iterator c + i)) ->
  next_character sg c2 m2 = next_character sg c m.
Proof.
  intros Hs Hs2 Hit Hj Hjl He Hst Hm. unfold next_character, next_stream in *.
  rewrite Hit, Hj, Hjl, He.
  rewrite (load_stream_again c c2 m m2); [reflexivity | assumption..].
Qed.

(** The deferred work of a call that finds the state POST_VALUE and has no
    node to pop: the call enters its loop on the same slice at the same
    place, in the same state; memory changes in the top node only. *)
Lemma loop_entry_post_value sg c m n :
  state c = HOJSON_STATE_POST_VALUE -> stack c <> 0 ->
  has_flag m (stack c) HOJSON_FLAG_MUST_POP_STACK = false ->
  exists c2 m2,
    loop_entry sg c m (json c) n = Some (c2, m2)
    /\ state c2 = HOJSON_STATE_POST_VALUE
    /\ iterator c2 = iterator c /\ json c2 = json c /\ json_length c2 = json_length c
    /\ stream c2 = stream c /\ stream_length c2 = stream_length c
    /\ encoding c2 = encoding c
    /\ forall a, ~ (stack c <= a < Z.max (stack c + 18) (node_end m (stack c) + 1)) ->
                 load8 m2 a = load8 m a.
Proof.
  intros Hst Hstack Hpop. unfold loop_entry, parse_deferred.
  apply Z.eqb_neq in Hstack. rewrite Hstack.
  set (top := stack c) in *.
  set (cm1 := if has_flag m top HOJSON_FLAG_INCREMENT_DEPTH
              then (set_depth (u32 (depth c + 1)) c,
                    clear_flag m top HOJSON_FLAG_INCREMENT_DEPTH)
              else (c, m)).
  assert (H1 : stack (fst cm1) = top /\ state (fst cm1) = state c
               /\ iterator (fst cm1) = iterator c /\ json (fst cm1) = json c
               /\ json_length (fst cm1) = json_length c /\ stream (fst cm1) = stream c
               /\ stream_length (fst cm1) = stream_length c
               /\ encoding (fst cm1) = encoding c
               /\ has_flag (snd cm1) top HOJSON_FLAG_MUST_POP_STACK = false
               /\ node_end (snd cm1) top = node_end m top
               /\ forall a, ~ (top + 16 <= a < top + 18) -> load8 (snd cm1) a = load8 m a).
  { unfold cm1. destruct (has_flag m top HOJSON_FLAG_INCREMENT_DEPTH); cbn [fst snd].
    - ctx_simpl. repeat split; try reflexivity.
      + rewrite has_flag_clear_flag_other by reflexivity. exact Hpop.
      + apply node_end_ext. intros a Ha. apply load8_set_node_flags; lia.
      + intros a Ha. apply load8_set_node_flags; lia.
    - repeat split; try reflexivity. exact Hpop. }
  destruct cm1 as [c1 m1]. cbn [fst snd] in H1.
  destruct H1 as (T1 & S1 & I1 & J1 & L1 & R1 & Z1 & E1 & P1 & N1 & M1).
  set (cm2 := if has_flag m1 (stack c1) HOJSON_FLAG_DECREMENT_DEPTH
              then (set_depth (u32 (depth c1 - 1)) c1,
                    clear_flag m1 (stack c1) HOJSON_FLAG_DECREMENT_DEPTH)
              else (c1, m1)).
  assert (H2 : stack (fst cm2) = top /\ state (fst cm2) = state c
               /\ iterator (fst cm2) = iterator c /\ json (fst cm2) = json c
               /\ json_length (fst cm2) = json_length c /\ stream (fst cm2) = stream c
               /\ stream_length (fst cm2) = stream_length c
               /\ encoding (fst cm2) = encoding c
               /\ has_flag (snd cm2) top HOJSON_FLAG_MUST_POP_STACK = false
               /\ node_end (snd cm2) top = node_end m top
               /\ forall a, ~ (top + 16 <= a < top + 18) -> load8 (snd cm2) a = load8 m a).
  { unfold cm2. rewrite T1.
    destruct (has_flag m1 top HOJSON_FLAG_DECREMENT_DEPTH); cbn [fst snd].
    - ctx_simpl. repeat split; try assumption.
      + rewrite has_flag_clear_flag_other by reflexivity. exact P1.
      + rewrite <- N1. apply node_end_ext. intros a Ha. apply load8_set_node_flags; lia.
      + intros a Ha. rewrite <- (M1 a Ha). apply load8_set_node_flags; lia.
    - repeat split; assumption. }
  destruct cm2 as [c2 m2]. cbn [fst snd] in H2.
  destruct H2 as (T2 & S2 & I2 & J2 & L2 & R2 & Z2 & E2 & P2 & N2 & M2).
  rewrite T2, P2. unfold post_value_clean_up. rewrite T2.
  assert (Hres : forall c4 m4,
            state c4 = state c -> iterator c4 = iterator c -> json c4 = json c ->
            json_length c4 = json_length c -> stream c4 = stream c ->
            stream_length c4 = stream_length c -> encoding c4 = encoding c ->
            (forall a, ~ (top <= a < Z.max (top + 18) (node_end m top + 1)) ->
                       load8 m4 a = load8 m a) ->
            exists c5 m5,
              match parse_resume sg c4 m4 (json c) n with
              | Return _ _ _ => None
              | Continue c5' m5' => Some (parse_input c5' (json c) n, m5')
              end = Some (c5, m5)
              /\ state c5 = HOJSON_STATE_POST_VALUE
              /\ iterator c5 = iterator c /\ json c5 = json c
              /\ json_length c5 = json_length c
              /\ stream c5 = stream c /\ stream_length c5 = stream_length c
              /\ encoding c5 = encoding c
              /\ forall a, ~ (top <= a < Z.max (top + 18) (node_end m top + 1)) ->
                           load8 m5 a = load8 m a).
  { intros c4 m4 S4 I4 J4 L4 R4 Z4 E4 M4. unfold parse_resume. rewrite S4, Hst.
    unfold parse_input. rewrite J4, Z.eqb_refl. cbn [negb].
    exists c4, m4. rewrite S4, Hst. repeat split; assumption. }
  destruct (has_flag m2 top HOJSON_FLAG_POST_VALUE_CLEAN_UP).
  - apply Hres; ctx_simpl; try assumption.
    intros a Ha. unfold clear_flag.
    rewrite load8_set_node_flags by lia.
    destruct (node_end m2 top - node_data top >? 0) eqn:Eg.
    + rewrite load8_set_node_end by lia. rewrite load8_memset.
      unfold node_data in *. rewrite N2.
      replace ((top + 18 <=? a) && (a <? top + 18 + (node_end m top - (top + 18) + 1)))
        with false by bool_false.
      apply M2. lia.
    + apply M2. lia.
  - apply Hres; try assumption. intros a Ha. apply M2. lia.
Qed.



(** In [doc_number_comma] the comma that ends the number 1 is met in the
    state NUMBER_VALUE with an empty stream register; the call after the
    one that returns the number goes on from this comma and returns the
    number 2. *)
Lemma number_comma_put_back :
  value (next_character true (fst at_number_comma) (snd at_number_comma)) = chr_comma
  /\ stream_length (fst at_number_comma) = 0
  /\ map summary (run true doc_number_comma (whole doc_number_comma))
     = [(HOJSON_ARRAY_BEGIN, None, HOJSON_TYPE_NONE, None, 0, 0);
        (HOJSON_VALUE, None, HOJSON_TYPE_INTEGER, None, 1, 0);
        (HOJSON_VALUE, None, HOJSON_TYPE_INTEGER, None, 2, 0);
        (HOJSON_ARRAY_END, None, HOJSON_TYPE_NONE, None, 0, 0);
        (HOJSON_END_OF_DOCUMENT, None, HOJSON_TYPE_NONE, None, 0, 0)].
Proof. vm_compute. repeat split; reflexivity. Qed.

(** ** Recovery: after [hojson_realloc], after a NUL, after a split character *)

(** C8 (as the code behaves): [doc_escape_last] parsed with a buffer of 25
    bytes.  The second call reports INSUFFICIENT_MEMORY at the last digit
    of the escape: the digit has been added to the value of the escape,
    0x41, before the character is appended, and the iterator is moved back
    to the digit.  After [hojson_realloc] the next call reads the digit
    again and adds it again: the string ends with B, not with A as it does
    when the buffer is large enough from the start. *)
Theorem realloc_resume_repeats_hex_digit :
  map summary (run_realloc true doc_escape_last (whole doc_escape_last) 25)
  = [(HOJSON_ARRAY_BEGIN, None, HOJSON_TYPE_NONE, None, 0, 0);
     (HOJSON_ERROR_INSUFFICIENT_MEMORY, None, HOJSON_TYPE_NONE, Some (text "abcdefg"), 0x41, 0);
     (HOJSON_VALUE, None, HOJSON_TYPE_STRING, Some (text "abcdefgB"), 0, 0);
     (HOJSON_ARRAY_END, None, HOJSON_TYPE_NONE, None, 0, 0);
     (HOJSON_END_OF_DOCUMENT, None, HOJSON_TYPE_NONE, None, 0, 0)]
  /\ map summary (run_realloc true doc_escape_last (whole doc_escape_last) 50)
     = [(HOJSON_ARRAY_BEGIN, None, HOJSON_TYPE_NONE, None, 0, 0);
        (HOJSON_VALUE, None, HOJSON_TYPE_STRING, Some (text "abcdefgA"), 0, 0);
        (HOJSON_ARRAY_END, None, HOJSON_TYPE_NONE, None, 0, 0);
        (HOJSON_END_OF_DOCUMENT, None, HOJSON_TYPE_NONE, None, 0, 0)].
Proof. vm_compute. split; reflexivity. Qed.

(** The same recovery when the character that does not fit was split over
    two slices: the iterator is moved back over the bytes of the second
    slice only and the stream register is empty, so the call after
    [hojson_realloc] starts in the middle of the character and reports
    UNEXPECTED_EOF; with a buffer that is large enough from the start the
    same slices give the whole string. *)
Lemma realloc_resume_loses_split_character :
  map (fun e => ev_code e) (run_realloc true doc_euro_last [13; 4] 25)
  = [HOJSON_ARRAY_BEGIN; HOJSON_ERROR_UNEXPECTED_EOF; HOJSON_ERROR_INSUFFICIENT_MEMORY;
     HOJSON_ERROR_UNEXPECTED_EOF]
  /\ map (fun e => ev_code e) (run_realloc true doc_euro_last [13; 4] 50)
     = [HOJSON_ARRAY_BEGIN; HOJSON_ERROR_UNEXPECTED_EOF; HOJSON_VALUE; HOJSON_ARRAY_END;
        HOJSON_END_OF_DOCUMENT].
Proof. vm_compute. split; reflexivity. Qed.

(** C10 (as the code behaves): the array of 1 and 2 handed over as two C
    strings whose terminator is counted in the length of the slice.  The
    NUL that ends the first slice gives UNEXPECTED_EOF, and it stays the
    first byte of the stream register: the recovery decodes it again in
    front of the bytes of the next slice, so the second slice gives
    UNEXPECTED_EOF too and the number 2 is never reached.  Without the
    terminators the same two pieces give the whole document. *)
Theorem nul_character_not_recovered :
  map summary (run true doc_terminated [4; 3])
  = [(HOJSON_ARRAY_BEGIN, None, HOJSON_TYPE_NONE, None, 0, 0);
     (HOJSON_VALUE, None, HOJSON_TYPE_INTEGER, None, 1, 0);
     (HOJSON_ERROR_UNEXPECTED_EOF, None, HOJSON_TYPE_NONE, None, 0, 0);
     (HOJSON_ERROR_UNEXPECTED_EOF, None, HOJSON_TYPE_NONE, None, 0, 0)]
  /\ map summary (run true doc_number_comma [3; 2])
     = [(HOJSON_ARRAY_BEGIN, None, HOJSON_TYPE_NONE, None, 0, 0);
        (HOJSON_VALUE, None, HOJSON_TYPE_INTEGER, None, 1, 0);
        (HOJSON_ERROR_UNEXPECTED_EOF, None, HOJSON_TYPE_NONE, None, 0, 0);
        (HOJSON_VALUE, None, HOJSON_TYPE_INTEGER, None, 2, 0);
        (HOJSON_ARRAY_END, None, HOJSON_TYPE_NONE, None, 0, 0);
        (HOJSON_END_OF_DOCUMENT, None, HOJSON_TYPE_NONE, None, 0, 0)].
Proof. vm_compute. split; reflexivity. Qed.

(** A comma that ends a number and was split over two slices is not put
    back as a whole.  In [doc_utf16le_numbers] cut after 7 bytes the first
    byte of the comma is in the stream register when the comma is decoded:
    the iterator is moved back over the one byte of the second slice, the
    register is empty, and the next call decodes from the middle of the
    comma and reports SYNTAX. *)
Lemma number_split_comma_lost :
  map summary (run true doc_utf16le_numbers [7; 5])
  = [(HOJSON_ARRAY_BEGIN, None, HOJSON_TYPE_NONE, None, 0, 0);
     (HOJSON_ERROR_UNEXPECTED_EOF, None, HOJSON_TYPE_NONE, Some [49], 0, 0);
     (HOJSON_VALUE, None, HOJSON_TYPE_INTEGER, None, 1, 0);
     (HOJSON_ERROR_SYNTAX, None, HOJSON_TYPE_NONE, None, 0, 0)]
  /\ map summary (run true doc_utf16le_numbers (whole doc_utf16le_numbers))
     = [(HOJSON_ARRAY_BEGIN, None, HOJSON_TYPE_NONE, None, 0, 0);
        (HOJSON_VALUE, None, HOJSON_TYPE_INTEGER, None, 1, 0);
        (HOJSON_VALUE, None, HOJSON_TYPE_INTEGER, None, 2, 0);
        (HOJSON_ARRAY_END, None, HOJSON_TYPE_NONE, None, 0, 0);
        (HOJSON_END_OF_DOCUMENT, None, HOJSON_TYPE_NONE, None, 0, 0)].
Proof. vm_compute. split; reflexivity. Qed.
